(** * abootimg: the Android boot image codec of [abootimg.c]

    A shallow embedding of the header model, the page layout, the header
    validator, the configuration patcher and the image reader and writer of
    [abootimg.c], with the properties its specification states about them.

    Conventions of the embedding.
    - [unsigned] and [uint32_t] values are integers in [Z]; every addition,
      subtraction and multiplication the C code performs on them is wrapped
      by [u32] (reduction modulo 2^32).  [uint64_t] values are wrapped by
      [u64].
    - A byte is [Byte.byte]; a C string is the list of its characters, the
      terminating NUL left implicit.
    - The header union of [t_abootimg] is its memory image: a list of
      [sizeof (struct boot_img_hdr_v2)] bytes, read and written through the
      field offsets of [bootimg.h].
    - [exit] (through [abort_printf] and [abort_perror]) is the outcome
      [Abort], which carries the condition reported; behaviour the C
      standard leaves undefined (reading past a buffer, dividing by zero) is
      the outcome [Undefined]. *)

From Stdlib Require Import ZArith List Lia Bool.
From Stdlib.Strings Require Import Byte.
From Stdlib.Strings Require Import String.
Import Corelib.Init.Datatypes.
Import ListNotations.

Local Open Scope Z_scope.

(** ** Machine integers *)

Definition UINT32_MOD : Z := 4294967296.
Definition UINT64_MOD : Z := 18446744073709551616.

Definition u32 (z : Z) : Z := z mod UINT32_MOD.
Definition u64 (z : Z) : Z := z mod UINT64_MOD.

(** ** Bytes and memory *)

Definition NUL : byte := x00.

Definition Z_of_byte (b : byte) : Z := Z.of_N (Byte.to_N b).

Definition byte_of_Z (z : Z) : byte :=
  match Byte.of_N (Z.to_N (z mod 256)) with
  | Some b => b
  | None => NUL
  end.

(** Integers are stored least significant byte first. *)
Fixpoint le_decode (bs : list byte) : Z :=
  match bs with
  | [] => 0
  | b :: rest => Z_of_byte b + 256 * le_decode rest
  end.

Fixpoint le_encode (n : nat) (z : Z) : list byte :=
  match n with
  | O => []
  | S n' => byte_of_Z z :: le_encode n' (z / 256)
  end.

Definition zeros (n : nat) : list byte := repeat NUL n.

(** [load off len m]: the [len] bytes of [m] from offset [off]. *)
Definition load (off len : nat) (m : list byte) : list byte :=
  firstn len (skipn off m).

(** [store off bs m]: [m] with [bs] copied in at offset [off].  The model
    only stores inside the object; a store that does not fit leaves [m] as
    it is. *)
Definition store (off : nat) (bs m : list byte) : list byte :=
  if (off + length bs <=? length m)%nat
  then firstn off m ++ bs ++ skipn (off + length bs) m
  else m.

Definition get_u32 (off : nat) (m : list byte) : Z := le_decode (load off 4 m).
Definition set_u32 (off : nat) (v : Z) (m : list byte) : list byte :=
  store off (le_encode 4 v) m.
Definition get_u64 (off : nat) (m : list byte) : Z := le_decode (load off 8 m).
Definition set_u64 (off : nat) (v : Z) (m : list byte) : list byte :=
  store off (le_encode 8 v) m.

(** ** C strings *)

(** The characters of a buffer up to its first NUL: what a [char*] pointing
    at the buffer denotes. *)
Fixpoint c_str (buf : list byte) : list byte :=
  match buf with
  | [] => []
  | b :: rest => if Byte.eqb b NUL then [] else b :: c_str rest
  end.

(** [strncmp a b n == 0], the buffers read as NUL past their end. *)
Fixpoint strncmp_eq (a b : list byte) (n : nat) : bool :=
  match n with
  | O => true
  | S n' =>
      let ca := hd NUL a in
      let cb := hd NUL b in
      if Byte.eqb ca cb
      then (if Byte.eqb ca NUL then true else strncmp_eq (tl a) (tl b) n')
      else false
  end.

(** [strcmp a b == 0] on C strings. *)
Definition strcmp_eq (a b : list byte) : bool :=
  strncmp_eq a b (S (Nat.max (length a) (length b))).

Definition str (s : string) : list byte := list_byte_of_string s.

(** ** [bootimg.h]

    [abootimg.c] includes [bootimg.h] for the magic, the capacities of the
    name and command line fields and the three packed header structures.
    The embedding takes them as a parameter: the constants, the structure
    sizes, and the offset of every field the codec touches. *)

Record bootimg_h : Type := {
  BOOT_MAGIC : list byte;
  BOOT_MAGIC_SIZE : nat;
  BOOT_NAME_SIZE : nat;
  BOOT_ARGS_SIZE : nat;
  sizeof_boot_img_hdr_v0 : nat;
  sizeof_boot_img_hdr_v1 : nat;
  sizeof_boot_img_hdr_v2 : nat;
  (* struct boot_img_hdr_v0 *)
  off_magic : nat;
  off_kernel_size : nat;
  off_kernel_addr : nat;
  off_ramdisk_size : nat;
  off_ramdisk_addr : nat;
  off_second_size : nat;
  off_second_addr : nat;
  off_tags_addr : nat;
  off_page_size : nat;
  off_header_version : nat;
  off_name : nat;
  off_cmdline : nat;
  (* struct boot_img_hdr_v1 *)
  off_recovery_dtbo_size : nat;
  off_recovery_dtbo_offset : nat;
  off_header_size : nat;
  (* struct boot_img_hdr_v2 *)
  off_dtb_size : nat;
  off_dtb_addr : nat
}.

(** A field of the header: offset and length in bytes. *)
Definition field : Type := (nat * nat)%type.

Definition field_end (f : field) : nat := (fst f + snd f)%nat.

Definition disjointb (f g : field) : bool :=
  (field_end f <=? fst g)%nat || (field_end g <=? fst f)%nat.

Fixpoint pairwise_disjointb (fs : list field) : bool :=
  match fs with
  | [] => true
  | f :: rest => forallb (disjointb f) rest && pairwise_disjointb rest
  end.

Definition v0_fields (H : bootimg_h) : list field :=
  [ (off_magic H, BOOT_MAGIC_SIZE H);
    (off_kernel_size H, 4%nat); (off_kernel_addr H, 4%nat);
    (off_ramdisk_size H, 4%nat); (off_ramdisk_addr H, 4%nat);
    (off_second_size H, 4%nat); (off_second_addr H, 4%nat);
    (off_tags_addr H, 4%nat); (off_page_size H, 4%nat);
    (off_header_version H, 4%nat);
    (off_name H, BOOT_NAME_SIZE H); (off_cmdline H, BOOT_ARGS_SIZE H) ].

Definition v1_fields (H : bootimg_h) : list field :=
  [ (off_recovery_dtbo_size H, 4%nat); (off_recovery_dtbo_offset H, 8%nat);
    (off_header_size H, 4%nat) ].

Definition v2_fields (H : bootimg_h) : list field :=
  [ (off_dtb_size H, 4%nat); (off_dtb_addr H, 8%nat) ].

Definition all_fields (H : bootimg_h) : list field :=
  v0_fields H ++ v1_fields H ++ v2_fields H.

Definition within (lo hi : nat) (f : field) : bool :=
  (lo <=? fst f)%nat && (field_end f <=? hi)%nat.

(** What the codec relies on in [bootimg.h]: each structure extends the
    previous one, the fields of a structure lie in the part it adds, no two
    fields overlap, and the sizes fit [uint32_t]. *)
Definition bootimg_h_ok (H : bootimg_h) : bool :=
  forallb (within 0 (sizeof_boot_img_hdr_v0 H)) (v0_fields H)
  && forallb (within (sizeof_boot_img_hdr_v0 H) (sizeof_boot_img_hdr_v1 H))
       (v1_fields H)
  && forallb (within (sizeof_boot_img_hdr_v1 H) (sizeof_boot_img_hdr_v2 H))
       (v2_fields H)
  && pairwise_disjointb (all_fields H)
  && (1 <=? BOOT_NAME_SIZE H)%nat
  && (Z.of_nat (sizeof_boot_img_hdr_v2 H) <? UINT32_MOD).

(** The header of the Android Open Source Project, as an instance: magic
    [ANDROID!], 16 bytes of name, 512 of command line, a 1632-byte version 0
    structure (it ends with the id words and 1024 bytes of extra command
    line), 1648 bytes for version 1 and 1660 for version 2. *)
Definition aosp_bootimg_h : bootimg_h := {|
  BOOT_MAGIC := str "ANDROID!"%string;
  BOOT_MAGIC_SIZE := 8;
  BOOT_NAME_SIZE := 16;
  BOOT_ARGS_SIZE := 512;
  sizeof_boot_img_hdr_v0 := 1632;
  sizeof_boot_img_hdr_v1 := 1648;
  sizeof_boot_img_hdr_v2 := 1660;
  off_magic := 0;
  off_kernel_size := 8;
  off_kernel_addr := 12;
  off_ramdisk_size := 16;
  off_ramdisk_addr := 20;
  off_second_size := 24;
  off_second_addr := 28;
  off_tags_addr := 32;
  off_page_size := 36;
  off_header_version := 40;
  off_name := 48;
  off_cmdline := 64;
  off_recovery_dtbo_size := 1632;
  off_recovery_dtbo_offset := 1636;
  off_header_size := 1644;
  off_dtb_size := 1648;
  off_dtb_addr := 1652
|}.

(** ** Outcomes *)

(** The conditions the program reports, one per message of the source. *)
Inductive condition : Type :=
| BadMagic             (* "%s: no Android Magic Value" *)
| UnsupportedVersion   (* "%s: unsupported Android Boot Image version." *)
| HeaderSizeMismatch   (* "%s: Invalid header size." *)
| EmptyKernel          (* "%s: kernel size is null" *)
| EmptyRamdisk         (* "%s: ramdisk size is null" *)
| ZeroPageSize         (* "%s: Image page size is null" *)
| ImageTooSmall        (* "%s: sizes mismatches in boot image" *)
| ReadError            (* abort_perror (img->fname) after a read *)
| CannotReadHeader     (* "%s: cannot read image header" *)
| CannotReadPart       (* "%s: cannot read %s" *)
| NotValidImage (why : condition)
                       (* "%s: not a valid Android Boot Image." *)
| SanityChecksFailed (why : condition)
                       (* "%s: Sanity cheks failed" *)
| CmdlineTooLong (len : Z)
                       (* "cmdline length (%d) is too long (max %d)" *)
| ImmutableBlockSize   (* "%s: cannot change Boot Image size for a block device" *)
| BadConfigEntry (token : list byte)
                       (* "%s: bad config entry" *)
| NewPartError (fname : string)
                       (* abort_perror (fname) in read_new_image_part *)
| UpdateTooBig (total size : Z)
                       (* "%s: updated is too big for the Boot Image" *).

Inductive outcome (A : Type) : Type :=
| Ok (a : A)
| Abort (c : condition)
| Undefined.

Arguments Ok {A} a.
Arguments Abort {A} c.
Arguments Undefined {A}.

Definition bind {A B : Type} (m : outcome A) (k : A -> outcome B) : outcome B :=
  match m with
  | Ok a => k a
  | Abort c => Abort c
  | Undefined => Undefined
  end.

Notation "x <- m ;; k" := (bind m (fun x => k))
  (at level 61, m at next level, right associativity).

(** ** Streams

    A [FILE] is the byte contents of the file as the stream sees them (what
    is on the file, and what [fwrite] has put in the buffer of the stream
    and not yet on the file), the position of the next transfer, the
    end-of-file indicator, and whether the file is a block device.  No I/O
    error other than running out of bytes, so [ferror] is never set.  The
    one call that does not go through the stream is [ftruncate], below. *)

Record FILE : Type := {
  contents : list byte;
  fpos : nat;
  feof : bool;
  st_isblk : bool
}.

(** [fopen]: the stream starts at offset 0 with the indicator clear. *)
Definition fopen (data : list byte) (blk : bool) : FILE :=
  {| contents := data; fpos := 0; feof := false; st_isblk := blk |}.

(** [fseek (f, off, SEEK_SET)]: moves the position, clears the indicator. *)
Definition fseek (f : FILE) (off : nat) : FILE :=
  {| contents := contents f; fpos := off; feof := false;
     st_isblk := st_isblk f |}.

(** [fread (ptr, sz, 1, f)]: the number of whole items read (0 or 1), the
    bytes transferred and the stream afterwards.  A request for zero bytes
    returns 0; a request the file cannot satisfy transfers what is left,
    sets the end-of-file indicator and returns 0. *)
Definition fread (sz : nat) (f : FILE) : Z * list byte * FILE :=
  let avail := skipn (fpos f) (contents f) in
  if (sz =? 0)%nat then (0, [], f)
  else if (sz <=? length avail)%nat
  then (1, firstn sz avail,
        {| contents := contents f; fpos := (fpos f + sz)%nat; feof := feof f;
           st_isblk := st_isblk f |})
  else (0, avail,
        {| contents := contents f; fpos := (fpos f + length avail)%nat;
           feof := true; st_isblk := st_isblk f |}).

(** The contents of a file after [bs] is written at offset [pos]: a gap
    between the end of the file and [pos] reads as zero bytes. *)
Definition write_at (pos : nat) (bs data : list byte) : list byte :=
  firstn pos (data ++ zeros (pos - length data)) ++ bs
  ++ skipn (pos + length bs) data.

(** [fwrite (bs, length bs, 1, f)]. *)
Definition fwrite (bs : list byte) (f : FILE) : FILE :=
  {| contents := write_at (fpos f) bs (contents f);
     fpos := (fpos f + length bs)%nat; feof := feof f;
     st_isblk := st_isblk f |}.

(** [ftruncate (fileno (f), len)], and the file the program leaves when it
    ends.  The call acts on the descriptor, not on the stream, and the
    program does not flush the stream before it: the call cuts or
    zero-extends to [len] bytes what is on the file, the last [buffered]
    bytes written are still in the buffer of the stream, and [exit] writes
    them to the file at their place, past [len] if that is where they lie.
    How many bytes the buffer holds is up to the library: none when it
    writes through, at most those written since the last [fseek], which
    flushes.  [buffered] stands for that number; a value larger than a
    library can hold describes a file that no run leaves, so that what holds
    for every [buffered] holds of every run.  On a block device the call
    fails and changes nothing (the program ignores its result). *)
Definition ftruncate (f : FILE) (len buffered : nat) : FILE :=
  if st_isblk f then f
  else
    let cut := firstn len (contents f ++ zeros (len - length (contents f))) in
    let held := Nat.min buffered (fpos f) in
    {| contents :=
         if (held =? 0)%nat then cut
         else write_at (fpos f - held)
                (firstn held (skipn (fpos f - held) (contents f))) cut;
       fpos := fpos f; feof := feof f; st_isblk := st_isblk f |}.

(** ** The image aggregate [t_abootimg]

    [fname] and [config_fname] only feed messages and the configuration
    reader and are left out; a part file name is [None] for a NULL pointer,
    and so is a part buffer. *)

Record t_abootimg : Type := {
  size : Z;
  is_blkdev : bool;
  kernel_fname : option string;
  ramdisk_fname : option string;
  second_fname : option string;
  dtbo_fname : option string;
  dtb_fname : option string;
  stream : FILE;
  header : list byte;
  kernel : option (list byte);
  ramdisk : option (list byte);
  second : option (list byte);
  dtbo : option (list byte);
  dtb : option (list byte)
}.

Definition set_size (v : Z) (b : bool) (img : t_abootimg) : t_abootimg :=
  {| size := v; is_blkdev := b;
     kernel_fname := kernel_fname img; ramdisk_fname := ramdisk_fname img;
     second_fname := second_fname img; dtbo_fname := dtbo_fname img;
     dtb_fname := dtb_fname img; stream := stream img; header := header img;
     kernel := kernel img; ramdisk := ramdisk img; second := second img;
     dtbo := dtbo img; dtb := dtb img |}.

Definition set_stream (f : FILE) (img : t_abootimg) : t_abootimg :=
  {| size := size img; is_blkdev := is_blkdev img;
     kernel_fname := kernel_fname img; ramdisk_fname := ramdisk_fname img;
     second_fname := second_fname img; dtbo_fname := dtbo_fname img;
     dtb_fname := dtb_fname img; stream := f; header := header img;
     kernel := kernel img; ramdisk := ramdisk img; second := second img;
     dtbo := dtbo img; dtb := dtb img |}.

Definition set_header (h : list byte) (img : t_abootimg) : t_abootimg :=
  {| size := size img; is_blkdev := is_blkdev img;
     kernel_fname := kernel_fname img; ramdisk_fname := ramdisk_fname img;
     second_fname := second_fname img; dtbo_fname := dtbo_fname img;
     dtb_fname := dtb_fname img; stream := stream img; header := h;
     kernel := kernel img; ramdisk := ramdisk img; second := second img;
     dtbo := dtbo img; dtb := dtb img |}.

(** The five part buffers, in the order of the layout. *)
Inductive part : Type := Kernel | Ramdisk | Second | Dtbo | Dtb.

Definition part_buffer (p : part) (img : t_abootimg) : option (list byte) :=
  match p with
  | Kernel => kernel img
  | Ramdisk => ramdisk img
  | Second => second img
  | Dtbo => dtbo img
  | Dtb => dtb img
  end.

Definition part_fname (p : part) (img : t_abootimg) : option string :=
  match p with
  | Kernel => kernel_fname img
  | Ramdisk => ramdisk_fname img
  | Second => second_fname img
  | Dtbo => dtbo_fname img
  | Dtb => dtb_fname img
  end.

Definition set_part (p : part) (buf : option (list byte)) (img : t_abootimg)
  : t_abootimg :=
  {| size := size img; is_blkdev := is_blkdev img;
     kernel_fname := kernel_fname img; ramdisk_fname := ramdisk_fname img;
     second_fname := second_fname img; dtbo_fname := dtbo_fname img;
     dtb_fname := dtb_fname img; stream := stream img; header := header img;
     kernel := match p with Kernel => buf | _ => kernel img end;
     ramdisk := match p with Ramdisk => buf | _ => ramdisk img end;
     second := match p with Second => buf | _ => second img end;
     dtbo := match p with Dtbo => buf | _ => dtbo img end;
     dtb := match p with Dtb => buf | _ => dtb img end |}.

Section Codec.

Variable H : bootimg_h.

(** *** Header fields, as the union's three views read them *)

Definition magic (img : t_abootimg) : list byte :=
  skipn (off_magic H) (header img).
Definition kernel_size (img : t_abootimg) : Z :=
  get_u32 (off_kernel_size H) (header img).
Definition ramdisk_size (img : t_abootimg) : Z :=
  get_u32 (off_ramdisk_size H) (header img).
Definition second_size (img : t_abootimg) : Z :=
  get_u32 (off_second_size H) (header img).
Definition page_size (img : t_abootimg) : Z :=
  get_u32 (off_page_size H) (header img).
Definition header_version (img : t_abootimg) : Z :=
  get_u32 (off_header_version H) (header img).
Definition recovery_dtbo_size (img : t_abootimg) : Z :=
  get_u32 (off_recovery_dtbo_size H) (header img).
Definition header_size (img : t_abootimg) : Z :=
  get_u32 (off_header_size H) (header img).
Definition dtb_size (img : t_abootimg) : Z :=
  get_u32 (off_dtb_size H) (header img).

Definition name (img : t_abootimg) : list byte :=
  load (off_name H) (BOOT_NAME_SIZE H) (header img).
Definition cmdline (img : t_abootimg) : list byte :=
  load (off_cmdline H) (BOOT_ARGS_SIZE H) (header img).

Definition off_part_size (p : part) : nat :=
  match p with
  | Kernel => off_kernel_size H
  | Ramdisk => off_ramdisk_size H
  | Second => off_second_size H
  | Dtbo => off_recovery_dtbo_size H
  | Dtb => off_dtb_size H
  end.

Definition part_size (p : part) (img : t_abootimg) : Z :=
  get_u32 (off_part_size p) (header img).

(** *** [boot_img_header_size] *)

Definition sizeof_hdr (version : Z) : nat :=
  if version =? 0 then sizeof_boot_img_hdr_v0 H
  else if version =? 1 then sizeof_boot_img_hdr_v1 H
  else (* 2 is the most we handle *) sizeof_boot_img_hdr_v2 H.

Definition boot_img_header_size (img : t_abootimg) : Z :=
  Z.of_nat (sizeof_hdr (header_version img)).

(** *** The page layout

    The number of pages of a part, [(x + page_size - 1) / page_size] in
    [unsigned] arithmetic (the locals [n], [m], [o], [p], [q] of the
    source), and the byte offsets and the total size that
    [check_boot_img_header], [update_images], [write_bootimg] and the
    [extract_] functions each derive from them: [hoffset] for the header
    ([fseek] to 0), [koffset] for the kernel ([1 * psize]), [roffset],
    [soffset], [dooffset] and [doffset] for the parts that follow. *)

Definition npages (page_size x : Z) : Z := u32 (x + page_size - 1) / page_size.

Definition hoffset : Z := 0.
Definition koffset (page_size : Z) : Z := u32 (1 * page_size).
Definition roffset (page_size k : Z) : Z :=
  u32 ((1 + npages page_size k) * page_size).
Definition soffset (page_size k r : Z) : Z :=
  u32 ((1 + npages page_size k + npages page_size r) * page_size).
Definition dooffset (page_size k r s : Z) : Z :=
  u32 ((1 + npages page_size k + npages page_size r + npages page_size s)
       * page_size).
Definition doffset (page_size k r s o : Z) : Z :=
  u32 ((1 + npages page_size k + npages page_size r + npages page_size s
        + npages page_size o) * page_size).
Definition total_size (page_size k r s o d : Z) : Z :=
  u32 ((1 + npages page_size k + npages page_size r + npages page_size s
        + npages page_size o + npages page_size d) * page_size).

(** The total size of the image a header describes. *)
Definition image_total_size (img : t_abootimg) : Z :=
  total_size (page_size img) (kernel_size img) (ramdisk_size img)
    (second_size img) (recovery_dtbo_size img) (dtb_size img).

(** *** [check_boot_img_header]

    [Ok Valid] is [return 0]; [Ok (Invalid c)] is the message of [c] on
    [stderr] followed by [return 1]; [Abort c] is [abort_printf]. *)

Inductive verdict : Type :=
| Valid
| Invalid (why : condition).

Definition check_boot_img_header (img : t_abootimg) : outcome verdict :=
  if negb (strncmp_eq (magic img) (BOOT_MAGIC H) (BOOT_MAGIC_SIZE H))
  then Ok (Invalid BadMagic)
  else if header_version img >? 2
  then Abort UnsupportedVersion
  else if (header_version img >=? 1)
          && negb (header_size img =? boot_img_header_size img)
  then Abort HeaderSizeMismatch
  else if kernel_size img =? 0
  then Ok (Invalid EmptyKernel)
  else if ramdisk_size img =? 0
  then Ok (Invalid EmptyRamdisk)
  else if page_size img =? 0
  then Ok (Invalid ZeroPageSize)
  else if image_total_size img >? size img
  then Ok (Invalid ImageTooSmall)
  else Ok Valid.

(** *** [read_header]

    [rb] keeps the result of the first [fread]: the source does not assign
    the result of the second one, so a short second read is caught by the
    end-of-file test alone.  [fstat] gives the size of the file (or of the
    block device) and whether it is a block device. *)

Definition read_header (img : t_abootimg) : outcome t_abootimg :=
  (* First read the v0 part of the header to know the version *)
  let header_size_read := sizeof_boot_img_hdr_v0 H in
  let '(rb, bytes, f1) := fread header_size_read (stream img) in
  if negb (rb =? 1) then Abort ReadError
  else if feof f1 then Abort CannotReadHeader
  else
    let img1 := set_stream f1 (set_header (store 0 bytes (header img)) img) in
    (* Then read remaining parts based on the version read above *)
    let header_size := sizeof_hdr (header_version img1) in
    img2 <- (if (header_size_read <? header_size)%nat
             then
               let '(_, bytes2, f2) :=
                 fread (header_size - header_size_read) f1 in
               if negb (rb =? 1) then Abort ReadError
               else if feof f2 then Abort CannotReadHeader
               else Ok (set_stream f2
                          (set_header
                             (store header_size_read bytes2 (header img1))
                             img1))
             else Ok img1) ;;
    (* zero remaining header up to v2 *)
    let img3 :=
      set_header
        (store header_size (zeros (sizeof_boot_img_hdr_v2 H - header_size))
           (header img2)) img2 in
    let img4 :=
      set_size (u32 (Z.of_nat (length (contents (stream img3)))))
        (st_isblk (stream img3)) img3 in
    v <- check_boot_img_header img4 ;;
    match v with
    | Valid => Ok img4
    | Invalid why => Abort (NotValidImage why)
    end.

(** *** [update_header_entry] *)

Definition in_set (c : byte) (set : list byte) : bool :=
  existsb (Byte.eqb c) set.

(** [strspn s accept] and [strcspn s reject]. *)
Fixpoint strspn (s accept : list byte) : nat :=
  match s with
  | [] => O
  | c :: rest => if in_set c accept then S (strspn rest accept) else O
  end.

Fixpoint strcspn (s reject : list byte) : nat :=
  match s with
  | [] => O
  | c :: rest => if in_set c reject then O else S (strcspn rest reject)
  end.

Definition SPACE : byte := x20.
Definition TAB : byte := x09.
Definition NEWLINE : byte := x0a.
Definition EQUALS : byte := x3d.

Definition digit_value (c : byte) : option Z :=
  let z := Z_of_byte c in
  if (48 <=? z) && (z <=? 57) then Some (z - 48)
  else if (97 <=? z) && (z <=? 122) then Some (z - 87)
  else if (65 <=? z) && (z <=? 90) then Some (z - 55)
  else None.

Definition is_digit_of (base : Z) (c : byte) : bool :=
  match digit_value c with
  | Some d => d <? base
  | None => false
  end.

Fixpoint strtoull_digits (base : Z) (s : list byte) (acc : Z) : Z :=
  match s with
  | [] => acc
  | c :: rest =>
      match digit_value c with
      | Some d =>
          if d <? base then strtoull_digits base rest (acc * base + d)
          else acc
      | None => acc
      end
  end.

(** [strtoull (s, NULL, 0)]: blanks, an optional sign, the base taken from
    the prefix, the longest run of digits; [ULLONG_MAX] on overflow, and the
    negation modulo 2^64 after a minus sign. *)
Definition strtoull (s : list byte) : Z :=
  let s := skipn (strspn s [x20; x09; x0a; x0b; x0c; x0d]) s in
  let '(neg, s) :=
    match s with
    | c :: rest =>
        if Byte.eqb c x2d then (true, rest)
        else if Byte.eqb c x2b then (false, rest)
        else (false, s)
    | [] => (false, s)
    end in
  let '(base, s) :=
    match s with
    | c0 :: c1 :: rest =>
        if Byte.eqb c0 x30 && (Byte.eqb c1 x78 || Byte.eqb c1 x58)
           && is_digit_of 16 (hd NUL rest)
        then (16, rest)
        else if Byte.eqb c0 x30 then (8, s) else (10, s)
    | [c0] => if Byte.eqb c0 x30 then (8, s) else (10, s)
    | [] => (10, s)
    end in
  let v := strtoull_digits base s 0 in
  if v >? UINT64_MOD - 1 then UINT64_MOD - 1
  else if neg : bool then u64 (- v) else v.

(** The characters of [s] before the first [c]. *)
Fixpoint until_char (c : byte) (s : list byte) : list byte :=
  match s with
  | [] => []
  | b :: rest => if Byte.eqb b c then [] else b :: until_char c rest
  end.

(** The three strings [update_header_entry] splits a line into: the text
    from the start of the token (what the error message prints when no [=]
    follows the token), the token, and the value when an [=] does follow. *)
Definition split_entry (cmd : list byte)
  : list byte * list byte * option (list byte) :=
  let line := until_char NEWLINE (c_str cmd) in
  let p := skipn (strspn line [SPACE; TAB]) line in
  let token_start := p in
  let endtoken := strcspn p [SPACE; EQUALS; TAB] in
  let token := firstn endtoken p in
  let p := skipn endtoken p in
  let p := skipn (strspn p [SPACE; TAB]) p in
  match p with
  | c :: p =>
      if Byte.eqb c EQUALS
      then (token_start, token, Some (skipn (strspn p [SPACE; TAB]) p))
      else (token_start, token, None)
  | [] => (token_start, token, None)
  end.

Definition set_cmdline (value : list byte) (img : t_abootimg)
  : outcome t_abootimg :=
  let len := u32 (Z.of_nat (length value)) in
  if len >=? Z.of_nat (BOOT_ARGS_SIZE H) then Abort (CmdlineTooLong len)
  else if (length value <? BOOT_ARGS_SIZE H)%nat
  then Ok (set_header
             (store (off_cmdline H)
                (value ++ zeros (BOOT_ARGS_SIZE H - length value))
                (header img)) img)
  else (* strcpy runs past the field *) Undefined.

Definition set_name (value : list byte) (img : t_abootimg) : t_abootimg :=
  let copied :=
    firstn (BOOT_NAME_SIZE H) (value ++ zeros (BOOT_NAME_SIZE H)) in
  set_header
    (store (off_name H) (store (BOOT_NAME_SIZE H - 1) [NUL] copied)
       (header img)) img.

Definition set_field32 (off : nat) (v : Z) (img : t_abootimg) : t_abootimg :=
  set_header (set_u32 off v (header img)) img.

Definition set_field64 (off : nat) (v : Z) (img : t_abootimg) : t_abootimg :=
  set_header (set_u64 off v (header img)) img.

Definition update_header_entry (img : t_abootimg) (cmd : list byte)
  : outcome t_abootimg :=
  match split_entry cmd with
  | (token_start, _, None) => Abort (BadConfigEntry token_start)
  | (_, token, Some value) =>
      let valuenum := strtoull value in
      if strcmp_eq token (str "cmdline") then set_cmdline value img
      else if strncmp_eq token (str "name") 4 then Ok (set_name value img)
      else if strncmp_eq token (str "bootsize") 8 then
        if is_blkdev img && negb (size img =? valuenum)
        then Abort ImmutableBlockSize
        else Ok (set_size (u32 valuenum) (is_blkdev img) img)
      else if strncmp_eq token (str "pagesize") 8 then
        Ok (set_field32 (off_page_size H) valuenum img)
      else if strncmp_eq token (str "kerneladdr") 10 then
        Ok (set_field32 (off_kernel_addr H) valuenum img)
      else if strncmp_eq token (str "ramdiskaddr") 11 then
        Ok (set_field32 (off_ramdisk_addr H) valuenum img)
      else if strncmp_eq token (str "secondaddr") 10 then
        Ok (set_field32 (off_second_addr H) valuenum img)
      else if strncmp_eq token (str "tagsaddr") 8 then
        Ok (set_field32 (off_tags_addr H) valuenum img)
      else if strncmp_eq token (str "recoverydtobooffs") 17 then
        Ok (set_field64 (off_recovery_dtbo_offset H) valuenum img)
      else if strncmp_eq token (str "dtbaddr") 7 then
        Ok (set_field64 (off_dtb_addr H) valuenum img)
      else Abort (BadConfigEntry token)
  end.

(** *** [update_header_version] *)

Definition update_header_version (img : t_abootimg) : t_abootimg :=
  let new_version := 0 in
  let new_version :=
    if recovery_dtbo_size img >? 0 then 1 else new_version in
  let new_version := if dtb_size img >? 0 then 2 else new_version in
  (* Never change to an older version, but bump if needed *)
  if new_version >? header_version img
  then
    let img1 := set_field32 (off_header_version H) new_version img in
    set_field32 (off_header_size H) (boot_img_header_size img1) img1
  else img.

(** *** [update_header]

    The lines [getline] delivers from the configuration file, then those of
    the [-c] arguments; the first entry that aborts ends the program. *)

Fixpoint update_header_lines (img : t_abootimg) (lines : list (list byte))
  : outcome t_abootimg :=
  match lines with
  | [] => Ok img
  | line :: rest =>
      img' <- update_header_entry img line ;;
      update_header_lines img' rest
  end.

Definition update_header (img : t_abootimg)
  (config_file config_args : list (list byte)) : outcome t_abootimg :=
  img' <- update_header_lines img config_file ;;
  update_header_lines img' config_args.

(** *** [read_new_image_part] and [read_original_image_part]

    [fs] is the file system the part files are opened in: the contents of
    the file of a given name, [None] where [fopen] fails. *)

Variable fs : string -> option (list byte).

(** The buffer read and the size stored through the [size] pointer. *)
Definition read_new_image_part (fname : string) : outcome (list byte * Z) :=
  match fs fname with
  | None => Abort (NewPartError fname)
  | Some data =>
      let size := u32 (Z.of_nat (length data)) in
      let '(rb, k, f) := fread (Z.to_nat size) (fopen data false) in
      if negb (rb =? 1) then Abort (NewPartError fname)
      else if feof f then Abort CannotReadPart
      else Ok (k, size)
  end.

Definition read_original_image_part (img : t_abootimg) (size offset : Z)
  : outcome (list byte * t_abootimg) :=
  let f := fseek (stream img) (Z.to_nat offset) in
  let '(rb, r, f') := fread (Z.to_nat size) f in
  if negb (rb =? 1) then Abort ReadError
  else if feof f' then Abort CannotReadPart
  else Ok (r, set_stream f' img).

(** *** [update_images] *)

(** A part given on the command line: its buffer is the file read, and the
    size field of the header is the size read. *)
Definition adopt_new_part (p : part) (fname : string) (img : t_abootimg)
  : outcome t_abootimg :=
  r <- read_new_image_part fname ;;
  Ok (set_field32 (off_part_size p) (snd r) (set_part p (Some (fst r)) img)).

(** A part kept: its buffer is read back from the image itself. *)
Definition keep_original_part (p : part) (size offset : Z) (img : t_abootimg)
  : outcome t_abootimg :=
  r <- read_original_image_part img size offset ;;
  Ok (set_part p (Some (fst r)) (snd r)).

Definition update_images (img : t_abootimg) : outcome t_abootimg :=
  let page_size := page_size img in
  let ksize := kernel_size img in
  let rsize := ramdisk_size img in
  let ssize := second_size img in
  let dosize := recovery_dtbo_size img in
  let dsize := dtb_size img in
  if page_size =? 0 then Abort ZeroPageSize
  else
    let roffset := roffset page_size ksize in
    let soffset := soffset page_size ksize rsize in
    let dooffset := dooffset page_size ksize rsize ssize in
    let doffset := doffset page_size ksize rsize ssize dosize in
    let offsets_changed := false in
    st <- match kernel_fname img with
          | Some fname =>
              img' <- adopt_new_part Kernel fname img ;; Ok (img', true)
          | None => Ok (img, offsets_changed)
          end ;;
    st <- (let '(img, offsets_changed) := st in
           match ramdisk_fname img with
           | Some fname =>
               img' <- adopt_new_part Ramdisk fname img ;; Ok (img', true)
           | None =>
               if offsets_changed : bool
               then img' <- keep_original_part Ramdisk rsize roffset img ;;
                    Ok (img', offsets_changed)
               else Ok (img, offsets_changed)
           end) ;;
    st <- (let '(img, offsets_changed) := st in
           match second_fname img with
           | Some fname =>
               img' <- adopt_new_part Second fname img ;; Ok (img', true)
           | None =>
               if offsets_changed && negb (second_size img =? 0)
               then img' <- keep_original_part Second ssize soffset img ;;
                    Ok (img', offsets_changed)
               else Ok (img, offsets_changed)
           end) ;;
    st <- (let '(img, offsets_changed) := st in
           match dtbo_fname img with
           | Some fname =>
               img' <- adopt_new_part Dtbo fname img ;; Ok (img', true)
           | None =>
               if offsets_changed && negb (recovery_dtbo_size img =? 0)
               then img' <- keep_original_part Dtbo dosize dooffset img ;;
                    Ok (img', offsets_changed)
               else Ok (img, offsets_changed)
           end) ;;
    st <- (let '(img, offsets_changed) := st in
           match dtb_fname img with
           | Some fname =>
               img' <- adopt_new_part Dtb fname img ;; Ok (img', true)
           | None =>
               if offsets_changed && negb (dtb_size img =? 0)
               then img' <- keep_original_part Dtb dsize doffset img ;;
                    Ok (img', offsets_changed)
               else Ok (img, offsets_changed)
           end) ;;
    let img := fst st in
    let total_size := image_total_size img in
    if size img =? 0 then Ok (set_size total_size (is_blkdev img) img)
    else if total_size >? size img
    then Abort (UpdateTooBig total_size (size img))
    else Ok img.

(** *** [write_bootimg_part] and [write_bootimg]

    [fwrite (buf, n, 1, stream)] with [n] larger than the buffer reads past
    it: [Undefined].  [padding] is the [calloc (psize, 1)] buffer. *)

Definition fwrite_from (buf : list byte) (n : Z) (f : FILE) : outcome FILE :=
  if n >? Z.of_nat (length buf) then Undefined
  else Ok (fwrite (firstn (Z.to_nat n) buf) f).

Definition write_bootimg_part (img : t_abootimg) (part : list byte)
  (offset size : Z) (padding : list byte) : outcome t_abootimg :=
  let psize := page_size img in
  let f := fseek (stream img) (Z.to_nat offset) in
  f <- fwrite_from part size f ;;
  if psize =? 0 then Undefined
  else
    f <- fwrite_from padding (u32 (psize - size mod psize)) f ;;
    Ok (set_stream f img).

Definition write_bootimg (buffered : nat) (img : t_abootimg)
  : outcome t_abootimg :=
  let psize := page_size img in
  let padding := zeros (Z.to_nat psize) in
  if psize =? 0 then (* the page counts divide by zero *) Undefined
  else
    let ksize := kernel_size img in
    let rsize := ramdisk_size img in
    let ssize := second_size img in
    let dosize := recovery_dtbo_size img in
    let f := fseek (stream img) (Z.to_nat hoffset) in
    let header_size := boot_img_header_size img in
    f <- fwrite_from (header img) header_size f ;;
    f <- fwrite_from padding (u32 (psize - header_size)) f ;;
    let img := set_stream f img in
    img <- match kernel img with
           | Some k =>
               write_bootimg_part img k (koffset psize) (kernel_size img)
                 padding
           | None => Ok img
           end ;;
    img <- match ramdisk img with
           | Some r =>
               write_bootimg_part img r (roffset psize ksize)
                 (ramdisk_size img) padding
           | None => Ok img
           end ;;
    img <- match second img with
           | Some s =>
               if negb (second_size img =? 0)
               then write_bootimg_part img s (soffset psize ksize rsize)
                      (second_size img) padding
               else Ok img
           | None => Ok img
           end ;;
    img <- match dtbo img with
           | Some b =>
               if negb (recovery_dtbo_size img =? 0)
               then write_bootimg_part img b
                      (dooffset psize ksize rsize ssize)
                      (recovery_dtbo_size img) padding
               else Ok img
           | None => Ok img
           end ;;
    img <- match dtb img with
           | Some b =>
               if negb (dtb_size img =? 0)
               then write_bootimg_part img b
                      (doffset psize ksize rsize ssize dosize) (dtb_size img)
                      padding
               else Ok img
           | None => Ok img
           end ;;
    Ok (set_stream (ftruncate (stream img) (Z.to_nat (size img)) buffered)
          img).

(** *** [new_bootimg] and the two writing commands of [main]

    The stream of a new image is a NULL pointer until [open_bootimg]; the
    model gives it an empty file. *)

Definition new_bootimg : t_abootimg :=
  {| size := 0; is_blkdev := false;
     kernel_fname := Some "zImage"%string;
     ramdisk_fname := Some "initrd.img"%string;
     second_fname := Some "stage2.img"%string;
     dtbo_fname := Some "recovery_dtbo.img"%string;
     dtb_fname := Some "aboot.dtb"%string;
     stream := fopen [] false;
     header :=
       set_u32 (off_page_size H) 2048
         (store (off_magic H)
            (firstn (BOOT_MAGIC_SIZE H)
               (BOOT_MAGIC H ++ zeros (BOOT_MAGIC_SIZE H)))
            (zeros (sizeof_boot_img_hdr_v2 H)));
     kernel := None; ramdisk := None; second := None; dtbo := None;
     dtb := None |}.

(** [main], case [update], on the image opened by [open_bootimg]. *)
Definition main_update (buffered : nat) (img : t_abootimg)
  (config_file config_args : list (list byte)) : outcome t_abootimg :=
  img <- read_header img ;;
  img <- update_header img config_file config_args ;;
  img <- update_images img ;;
  write_bootimg buffered (update_header_version img).

(** [main], case [create], on the image opened by [open_bootimg]: without
    a kernel or a ramdisk file name the usage is printed and nothing else
    is done. *)
Definition main_create (buffered : nat) (img : t_abootimg)
  (config_file config_args : list (list byte)) : outcome t_abootimg :=
  match kernel_fname img, ramdisk_fname img with
  | Some _, Some _ =>
      img <- update_header img config_file config_args ;;
      img <- update_images img ;;
      let img := update_header_version img in
      v <- check_boot_img_header img ;;
      match v with
      | Invalid why => Abort (SanityChecksFailed why)
      | Valid => write_bootimg buffered img
      end
  | _, _ => Ok img
  end.

End Codec.

(** * The command line, the configuration text and the extraction

    The functions of [abootimg.c] around the codec: [parse_args], the lines
    [getline] cuts a configuration into, [write_bootimg_config], the
    [extract_] functions and the [extract] case of [main].

    Conventions added here.
    - An argument of the command line is a [string]; a file is named by the
      string given for it, and the files the program writes are other files
      than the image it reads them from.
    - [size_t] is 64 bits wide, as [unsigned long long] is.
    - Opening a file for writing succeeds. *)

(** ** [parse_args] *)

(** [enum command]. *)
Inductive command : Type := none | help | info | extract | update | create.

(** The members [fname] and [config_fname] of [t_abootimg], which the record
    [t_abootimg] leaves out. *)
Record t_names : Type := {
  fname : option string;
  config_fname : option string
}.

Definition set_part_fname (p : part) (v : option string) (img : t_abootimg)
  : t_abootimg :=
  {| size := size img; is_blkdev := is_blkdev img;
     kernel_fname := match p with Kernel => v | _ => kernel_fname img end;
     ramdisk_fname := match p with Ramdisk => v | _ => ramdisk_fname img end;
     second_fname := match p with Second => v | _ => second_fname img end;
     dtbo_fname := match p with Dtbo => v | _ => dtbo_fname img end;
     dtb_fname := match p with Dtb => v | _ => dtb_fname img end;
     stream := stream img; header := header img;
     kernel := kernel img; ramdisk := ramdisk img; second := second img;
     dtbo := dtbo img; dtb := dtb img |}.

(** The capacity of the global [config_args]. *)
Definition MAX_CONF_LEN : Z := 4096.

Definition strlen (s : list byte) : Z := Z.of_nat (length (c_str s)).

(** How [parse_args] ends: it returns a command, leaving the image, the two
    names and the string in [config_args] as given here; or it aborts on a
    [-c] argument; or a [strcat] runs past the end of [config_args]. *)
Inductive parsed : Type :=
| Parsed (cmd : command) (img : t_abootimg) (names : t_names)
    (config_args : list byte)
| TooManyConfigParameters   (* "too many config parameters.\n" *)
| ConfigArgsOverflow.

(** The loop over [argv[3]] and what follows, for [update] and [create]:
    [++i >= argc] is an option with no argument after it.  [len] is the
    [unsigned] the length of the argument is stored in. *)
Fixpoint parse_options (args : list string) (cmd : command)
  (img : t_abootimg) (names : t_names) (config_args : list byte) : parsed :=
  match args with
  | [] => Parsed cmd img names config_args
  | o :: rest =>
      let opt flag := strcmp_eq (str o) (str flag) in
      if opt "-c"%string then
        match rest with
        | [] => Parsed none img names config_args
        | v :: rest =>
            let len := u32 (strlen (str v)) in
            if strlen config_args + len + 1 >=? MAX_CONF_LEN
            then TooManyConfigParameters
            else if strlen config_args + strlen (str v) + 1 >=? MAX_CONF_LEN
            then ConfigArgsOverflow
            else parse_options rest cmd img names
                   (c_str config_args ++ c_str (str v) ++ [NEWLINE])
        end
      else if opt "-f"%string then
        match rest with
        | [] => Parsed none img names config_args
        | v :: rest =>
            parse_options rest cmd img
              {| fname := fname names; config_fname := Some v |} config_args
        end
      else if opt "-k"%string then
        match rest with
        | [] => Parsed none img names config_args
        | v :: rest =>
            parse_options rest cmd (set_part_fname Kernel (Some v) img) names
              config_args
        end
      else if opt "-r"%string then
        match rest with
        | [] => Parsed none img names config_args
        | v :: rest =>
            parse_options rest cmd (set_part_fname Ramdisk (Some v) img) names
              config_args
        end
      else if opt "-s"%string then
        match rest with
        | [] => Parsed none img names config_args
        | v :: rest =>
            parse_options rest cmd (set_part_fname Second (Some v) img) names
              config_args
        end
      else if opt "-d"%string then
        match rest with
        | [] => Parsed none img names config_args
        | v :: rest =>
            parse_options rest cmd (set_part_fname Dtb (Some v) img) names
              config_args
        end
      else if opt "-o"%string then
        match rest with
        | [] => Parsed none img names config_args
        | v :: rest =>
            parse_options rest cmd (set_part_fname Dtbo (Some v) img) names
              config_args
        end
      else Parsed none img names config_args
  end.

Definition parse_args (argv : list string) (img : t_abootimg)
  (names : t_names) (config_args : list byte) : parsed :=
  let argc := length argv in
  let arg i := nth i argv EmptyString in
  let opt flag := strcmp_eq (str (arg 1%nat)) (str flag) in
  if (argc <? 2)%nat then Parsed none img names config_args
  else
    let cmd :=
      if opt "-h"%string then help
      else if opt "-i"%string then info
      else if opt "-x"%string then extract
      else if opt "-u"%string then update
      else if opt "--create"%string then create
      else none in
    match cmd with
    | none | help => Parsed cmd img names config_args
    | info =>
        if negb (argc =? 3)%nat then Parsed none img names config_args
        else
          Parsed cmd img
            {| fname := Some (arg 2%nat); config_fname := config_fname names |}
            config_args
    | extract =>
        if (argc <? 3)%nat || (9 <? argc)%nat
        then Parsed none img names config_args
        else
          let names :=
            {| fname := Some (arg 2%nat);
               config_fname :=
                 if (4 <=? argc)%nat then Some (arg 3%nat)
                 else config_fname names |} in
          let img :=
            if (5 <=? argc)%nat
            then set_part_fname Kernel (Some (arg 4%nat)) img else img in
          let img :=
            if (6 <=? argc)%nat
            then set_part_fname Ramdisk (Some (arg 5%nat)) img else img in
          let img :=
            if (7 <=? argc)%nat
            then set_part_fname Second (Some (arg 6%nat)) img else img in
          let img :=
            if (8 <=? argc)%nat
            then set_part_fname Dtb (Some (arg 7%nat)) img else img in
          let img :=
            if (9 <=? argc)%nat
            then set_part_fname Dtbo (Some (arg 8%nat)) img else img in
          Parsed cmd img names config_args
    | update | create =>
        if (argc <? 3)%nat then Parsed none img names config_args
        else
          let names := {| fname := Some (arg 2%nat); config_fname := None |} in
          let img :=
            set_part_fname Dtb None
              (set_part_fname Dtbo None
                 (set_part_fname Second None
                    (set_part_fname Ramdisk None
                       (set_part_fname Kernel None img)))) in
          parse_options (skipn 3 argv) cmd img names config_args
    end.

(** The two names [new_bootimg] sets besides those of the parts: [fname] is
    the NULL of [calloc]. *)
Definition new_bootimg_names : t_names :=
  {| fname := None; config_fname := Some "bootimg.cfg"%string |}.

(** ** The lines of a configuration

    The lines the [getline] loops of [update_header] deliver from a text:
    each ends with its line break, except a last line that has none. *)
Fixpoint getlines (text : list byte) : list (list byte) :=
  match text with
  | [] => []
  | c :: rest =>
      if Byte.eqb c NEWLINE then [c] :: getlines rest
      else
        match getlines rest with
        | [] => [[c]]
        | line :: lines => (c :: line) :: lines
        end
  end.

(** ** [printf]: the conversions [write_bootimg_config] uses *)

Definition hex_digit (d : Z) : byte :=
  byte_of_Z (if d <? 10 then 48 + d else 87 + d).

Fixpoint hex_digits (n : nat) (v : Z) (acc : list byte) : list byte :=
  match n with
  | O => acc
  | S n' =>
      let acc' := hex_digit (v mod 16) :: acc in
      if v / 16 =? 0 then acc' else hex_digits n' (v / 16) acc'
  end.

(** [%x] and [%llx]: the digits of a value below 2^64, sixteen at most. *)
Definition printf_x (v : Z) : list byte := hex_digits 16 v [].

(** [%s] on a field of the header: the characters up to the NUL of the
    field; reading on past a field that holds none is undefined. *)
Definition printf_s (field : list byte) : outcome (list byte) :=
  if in_set NUL field then Ok (c_str field) else Undefined.

(** ** Files written *)

Definition file_system : Type := string -> option (list byte).

(** [fopen (fname, "w")], one [fwrite] of [data], [fclose]. *)
Definition fs_write (fname : string) (data : list byte) (fs : file_system)
  : file_system :=
  fun n => if String.eqb n fname then Some data else fs n.

Section Tools.

Variable H : bootimg_h.

(** *** The load addresses of the header *)

Definition kernel_addr (img : t_abootimg) : Z :=
  get_u32 (off_kernel_addr H) (header img).
Definition ramdisk_addr (img : t_abootimg) : Z :=
  get_u32 (off_ramdisk_addr H) (header img).
Definition second_addr (img : t_abootimg) : Z :=
  get_u32 (off_second_addr H) (header img).
Definition tags_addr (img : t_abootimg) : Z :=
  get_u32 (off_tags_addr H) (header img).
Definition recovery_dtbo_offset (img : t_abootimg) : Z :=
  get_u64 (off_recovery_dtbo_offset H) (header img).
Definition dtb_addr (img : t_abootimg) : Z :=
  get_u64 (off_dtb_addr H) (header img).

(** *** [write_bootimg_config] *)

(** The text the ten [fprintf] write. *)
Definition bootimg_config (img : t_abootimg) : outcome (list byte) :=
  name <- printf_s (name H img) ;;
  cmdline <- printf_s (cmdline H img) ;;
  Ok (str "bootsize = 0x" ++ printf_x (size img) ++ [NEWLINE]
      ++ str "pagesize = 0x" ++ printf_x (page_size H img) ++ [NEWLINE]
      ++ str "kerneladdr = 0x" ++ printf_x (kernel_addr img) ++ [NEWLINE]
      ++ str "ramdiskaddr = 0x" ++ printf_x (ramdisk_addr img) ++ [NEWLINE]
      ++ str "secondaddr = 0x" ++ printf_x (second_addr img) ++ [NEWLINE]
      ++ str "tagsaddr = 0x" ++ printf_x (tags_addr img) ++ [NEWLINE]
      ++ str "recoverydtobooffs = 0x" ++ printf_x (recovery_dtbo_offset img)
      ++ [NEWLINE]
      ++ str "dtbaddr = 0x" ++ printf_x (dtb_addr img) ++ [NEWLINE]
      ++ str "name = " ++ name ++ [NEWLINE]
      ++ str "cmdline = " ++ cmdline ++ [NEWLINE]).

Definition write_bootimg_config (img : t_abootimg) (names : t_names)
  (fs : file_system) : outcome file_system :=
  match config_fname names with
  | None => Undefined
  | Some fname =>
      text <- bootimg_config img ;;
      Ok (fs_write fname text fs)
  end.

(** *** [extract_part] and the five functions that call it *)

Definition extract_part (img : t_abootimg) (part_fname : option string)
  (size offset : Z) (fs : file_system) : outcome (t_abootimg * file_system) :=
  let f := fseek (stream img) (Z.to_nat offset) in
  let '(rb, k, f') := fread (Z.to_nat size) f in
  if negb (rb =? 1) then Abort ReadError
  else
    match part_fname with
    | None => Undefined
    | Some fname => Ok (set_stream f' img, fs_write fname k fs)
    end.

Definition extract_kernel (img : t_abootimg) (fs : file_system)
  : outcome (t_abootimg * file_system) :=
  let psize := page_size H img in
  let ksize := kernel_size H img in
  extract_part img (kernel_fname img) ksize psize fs.

Definition extract_ramdisk (img : t_abootimg) (fs : file_system)
  : outcome (t_abootimg * file_system) :=
  let psize := page_size H img in
  let ksize := kernel_size H img in
  let rsize := ramdisk_size H img in
  if psize =? 0 then Undefined
  else extract_part img (ramdisk_fname img) rsize (roffset psize ksize) fs.

Definition extract_second (img : t_abootimg) (fs : file_system)
  : outcome (t_abootimg * file_system) :=
  let psize := page_size H img in
  let ksize := kernel_size H img in
  let rsize := ramdisk_size H img in
  let ssize := second_size H img in
  if ssize =? 0 then (* Second Stage not present *) Ok (img, fs)
  else if psize =? 0 then Undefined
  else
    extract_part img (second_fname img) ssize (soffset psize ksize rsize) fs.

Definition extract_dtbo (img : t_abootimg) (fs : file_system)
  : outcome (t_abootimg * file_system) :=
  let psize := page_size H img in
  let ksize := kernel_size H img in
  let rsize := ramdisk_size H img in
  let ssize := second_size H img in
  let dosize := recovery_dtbo_size H img in
  if dosize =? 0 then (* recovery dtbo not present *) Ok (img, fs)
  else if psize =? 0 then Undefined
  else
    extract_part img (dtbo_fname img) dosize
      (dooffset psize ksize rsize ssize) fs.

Definition extract_dtb (img : t_abootimg) (fs : file_system)
  : outcome (t_abootimg * file_system) :=
  let psize := page_size H img in
  let ksize := kernel_size H img in
  let rsize := ramdisk_size H img in
  let ssize := second_size H img in
  let dosize := recovery_dtbo_size H img in
  let dsize := dtb_size H img in
  if dsize =? 0 then (* dtb not present *) Ok (img, fs)
  else if psize =? 0 then Undefined
  else
    extract_part img (dtb_fname img) dsize
      (doffset psize ksize rsize ssize dosize) fs.

(** [main], case [extract], on the image opened by [open_bootimg]. *)
Definition main_extract (img : t_abootimg) (names : t_names)
  (fs : file_system) : outcome (t_abootimg * file_system) :=
  img <- read_header H img ;;
  fs <- write_bootimg_config img names fs ;;
  r <- extract_kernel img fs ;;
  r <- extract_ramdisk (fst r) (snd r) ;;
  r <- extract_second (fst r) (snd r) ;;
  r <- extract_dtbo (fst r) (snd r) ;;
  extract_dtb (fst r) (snd r).

End Tools.

(** * Definitions on the side of the specification *)

(** [holds_on o P]: the outcome [o] is a result, and [P] holds of it. *)
Definition holds_on {A : Type} (o : outcome A) (P : A -> Prop) : Prop :=
  match o with
  | Ok a => P a
  | _ => False
  end.

(** [pages P x]: the least number of pages of [P] bytes that hold [x]
    bytes, [ceil (x / P)]. *)
Definition pages (P x : Z) : Z :=
  if x mod P =? 0 then x / P else x / P + 1.

(** [headerSizeFor version] of the specification (4.1): the byte size of
    the structure of versions 0, 1 and 2, a version above 2 counting as
    version 2. *)
Definition headerSizeFor (H : bootimg_h) (version : Z) : nat :=
  match version with
  | 0 => sizeof_boot_img_hdr_v0 H
  | 1 => sizeof_boot_img_hdr_v1 H
  | _ => sizeof_boot_img_hdr_v2 H
  end.

(** The total required size of the specification (4.2), in unbounded
    arithmetic: [(1 + pages k + pages r + pages s + pages o + pages d) * P]
    for the page size and the five sizes of the header. *)
Definition required_size (H : bootimg_h) (img : t_abootimg) : Z :=
  let P := page_size H img in
  (1 + pages P (kernel_size H img) + pages P (ramdisk_size H img)
   + pages P (second_size H img) + pages P (recovery_dtbo_size H img)
   + pages P (dtb_size H img)) * P.

(** A check of the validator: whether the header passes it, the condition it
    reports otherwise, and whether that condition stops the program. *)
Record check : Type := {
  passes : bool;
  failure : condition;
  fatal : bool
}.

(** The validator as the specification lists it (4.3): seven checks, in
    order, the third against [headerSizeFor], the seventh against the
    total required size of 4.2. *)
Definition validator_checks (H : bootimg_h) (img : t_abootimg) : list check :=
  [ {| passes := strncmp_eq (magic H img) (BOOT_MAGIC H) (BOOT_MAGIC_SIZE H);
       failure := BadMagic; fatal := false |};
    {| passes := header_version H img <=? 2;
       failure := UnsupportedVersion; fatal := true |};
    {| passes :=
         implb (1 <=? header_version H img)
           (header_size H img
            =? Z.of_nat (headerSizeFor H (header_version H img)));
       failure := HeaderSizeMismatch; fatal := true |};
    {| passes := negb (kernel_size H img =? 0);
       failure := EmptyKernel; fatal := false |};
    {| passes := negb (ramdisk_size H img =? 0);
       failure := EmptyRamdisk; fatal := false |};
    {| passes := negb (page_size H img =? 0);
       failure := ZeroPageSize; fatal := false |};
    {| passes := required_size H img <=? size img;
       failure := ImageTooSmall; fatal := false |} ].

(** The first check that fails decides: a fatal one aborts, any other is
    reported to the caller. *)
Fixpoint first_failure (checks : list check) : outcome verdict :=
  match checks with
  | [] => Ok Valid
  | c :: rest =>
      if passes c then first_failure rest
      else if fatal c then Abort (failure c)
      else Ok (Invalid (failure c))
  end.

(** The version the parts present justify. *)
Definition justified_version (H : bootimg_h) (img : t_abootimg) : Z :=
  if negb (dtb_size H img =? 0) then 2
  else if negb (recovery_dtbo_size H img =? 0) then 1
  else 0.

(** The value [update_header_entry] takes from the line ["cmdline = " ++ s]:
    [s] up to its first NUL or line break, without its leading blanks and
    tabs. *)
Definition cmdline_value (s : list byte) : list byte :=
  let line := until_char NEWLINE (c_str s) in
  skipn (strspn line [SPACE; TAB]) line.

(** A string the parser takes whole: no NUL, no line break, and no blank or
    tab in front. *)
Definition plain_value (s : list byte) : bool :=
  forallb (fun c => negb (Byte.eqb c NUL) && negb (Byte.eqb c NEWLINE)) s
  && negb (in_set (hd NUL s) [SPACE; TAB]).

(** The keys of the configuration, as the specification lists them. *)
Definition recognized_keys : list (list byte) :=
  map str
    [ "cmdline"; "name"; "bootsize"; "pagesize"; "kerneladdr";
      "ramdiskaddr"; "secondaddr"; "tagsaddr"; "recoverydtobooffs";
      "dtbaddr" ]%string.

Fixpoint bytes_eqb (a b : list byte) : bool :=
  match a, b with
  | [], [] => true
  | x :: a', y :: b' => Byte.eqb x y && bytes_eqb a' b'
  | _, _ => false
  end.

Definition starts_with (key token : list byte) : bool :=
  bytes_eqb (firstn (length key) token) key.

(** The tokens the source takes for a key: [cmdline] itself, and every
    token that begins with one of the nine other keys. *)
Definition key_accepted (token : list byte) : bool :=
  bytes_eqb token (str "cmdline")
  || existsb (fun key => starts_with key token) (tl recognized_keys).

(** A string without a NUL character. *)
Definition nul_free (s : list byte) : Prop := Forall (fun b => b <> NUL) s.

(** * Example images, on the header of [aosp_bootimg_h] *)

(** A version 0 header for a kernel of 5000 bytes and a ramdisk of 3000
    bytes on pages of 2048 bytes. *)
Definition example_header : list byte :=
  set_u32 (off_ramdisk_size aosp_bootimg_h) 3000
    (set_u32 (off_kernel_size aosp_bootimg_h) 5000
       (header (new_bootimg aosp_bootimg_h))).

Definition image_of (hdr : list byte) (sz : Z) (f : FILE) : t_abootimg :=
  {| size := sz; is_blkdev := false;
     kernel_fname := None; ramdisk_fname := None; second_fname := None;
     dtbo_fname := None; dtb_fname := None;
     stream := f; header := hdr;
     kernel := None; ramdisk := None; second := None; dtbo := None;
     dtb := None |}.

(** The same header once a recovery dtbo of one byte is attached. *)
Definition example_dtbo_image : t_abootimg :=
  image_of (set_u32 (off_recovery_dtbo_size aosp_bootimg_h) 1 example_header)
    0 (fopen [] false).

(** * Decoding, on the side of the specification *)

(** The two conditions [read_header] reports when the header cannot be read
    whole: [perror] after the first [fread], the message after the second. *)
Definition TruncatedHeader (c : condition) : Prop :=
  c = ReadError \/ c = CannotReadHeader.

(** The image a header read leaves behind when the stream holds enough
    bytes: the header is the bytes of the stream up to the size of the
    version they declare, followed by zeros up to the version 2 size. *)
Definition decoded_image (H : bootimg_h) (img : t_abootimg) : t_abootimg :=
  let f := stream img in
  let data := skipn (fpos f) (contents f) in
  let hsz := sizeof_hdr H (get_u32 (off_header_version H) data) in
  set_size (u32 (Z.of_nat (length (contents f)))) (st_isblk f)
    (set_stream
       {| contents := contents f; fpos := (fpos f + hsz)%nat;
          feof := false; st_isblk := st_isblk f |}
       (set_header
          (firstn hsz data ++ zeros (sizeof_boot_img_hdr_v2 H - hsz)) img)).

(** The header a staged decode gives, in the words of the specification
    (4.1): the prefix of the version 0 size, which declares the version; the
    remainder of the structure of that version, from the bytes that follow;
    zeros from there to the version 2 size. *)
Definition staged_header (H : bootimg_h) (data : list byte) : list byte :=
  let prefix := firstn (sizeof_boot_img_hdr_v0 H) data in
  let version := get_u32 (off_header_version H) prefix in
  let remainder :=
    firstn (headerSizeFor H version - sizeof_boot_img_hdr_v0 H)
      (skipn (sizeof_boot_img_hdr_v0 H) data) in
  prefix ++ remainder
  ++ zeros (sizeof_boot_img_hdr_v2 H - headerSizeFor H version).

(** The image a staged decode leaves: that header, the stream past the
    structure of the declared version, and the size of the file. *)
Definition staged_image (H : bootimg_h) (img : t_abootimg) : t_abootimg :=
  let f := stream img in
  let data := skipn (fpos f) (contents f) in
  let version :=
    get_u32 (off_header_version H) (firstn (sizeof_boot_img_hdr_v0 H) data) in
  set_size (u32 (Z.of_nat (length (contents f)))) (st_isblk f)
    (set_stream
       {| contents := contents f;
          fpos := (fpos f + headerSizeFor H version)%nat;
          feof := false; st_isblk := st_isblk f |}
       (set_header (staged_header H data) img)).

(** The validation that ends [read_header]. *)
Definition validated (H : bootimg_h) (img : t_abootimg) : outcome t_abootimg :=
  v <- check_boot_img_header H img ;;
  match v with
  | Valid => Ok img
  | Invalid why => Abort (NotValidImage why)
  end.

(** * Assembly of the parts, on the side of the specification *)

Definition is_some {A : Type} (o : option A) : bool :=
  match o with
  | Some _ => true
  | None => false
  end.

Definition part_eqb (p q : part) : bool :=
  match p, q with
  | Kernel, Kernel | Ramdisk, Ramdisk | Second, Second | Dtbo, Dtbo
  | Dtb, Dtb => true
  | _, _ => false
  end.

(** The parts that come before [p] in the layout. *)
Definition parts_before (p : part) : list part :=
  match p with
  | Kernel => []
  | Ramdisk => [Kernel]
  | Second => [Kernel; Ramdisk]
  | Dtbo => [Kernel; Ramdisk; Second]
  | Dtb => [Kernel; Ramdisk; Second; Dtbo]
  end.

(** Whether a replacement is given for a part that comes before [p]. *)
Definition replaced_before (p : part) (img : t_abootimg) : bool :=
  existsb (fun q => is_some (part_fname q img)) (parts_before p).

(** The offset of part [p] in the image the header of [img] describes. *)
Definition original_offset (H : bootimg_h) (p : part) (img : t_abootimg) : Z :=
  let psize := page_size H img in
  let k := kernel_size H img in
  let r := ramdisk_size H img in
  let s := second_size H img in
  let o := recovery_dtbo_size H img in
  match p with
  | Kernel => koffset psize
  | Ramdisk => roffset psize k
  | Second => soffset psize k r
  | Dtbo => dooffset psize k r s
  | Dtb => doffset psize k r s o
  end.

(** The kernel and the ramdisk are the mandatory parts. *)
Definition mandatory (p : part) : bool :=
  match p with
  | Kernel | Ramdisk => true
  | _ => false
  end.

(** Whether [update_images] reads part [p] back from the image when no
    replacement is given for it. *)
Definition reread (H : bootimg_h) (p : part) (img : t_abootimg) : bool :=
  replaced_before p img && (mandatory p || negb (part_size H p img =? 0)).

(** The [size] bytes of a stream from [offset] on. *)
Definition stream_bytes (f : FILE) (offset size : Z) : list byte :=
  firstn (Z.to_nat size) (skipn (Z.to_nat offset) (contents f)).

(** What [update_images] has done to part [p] when it turns [img] into
    [img']. *)
Definition part_assembled (H : bootimg_h) (fs : string -> option (list byte))
  (p : part) (img img' : t_abootimg) : Prop :=
  match part_fname p img with
  | Some fname =>
      exists data,
        fs fname = Some data
        /\ part_size H p img' = u32 (Z.of_nat (length data))
        /\ part_buffer p img'
           = Some (firstn (Z.to_nat (u32 (Z.of_nat (length data)))) data)
        /\ (Z.of_nat (length data) < UINT32_MOD ->
            part_size H p img' = Z.of_nat (length data)
            /\ part_buffer p img' = Some data)
  | None =>
      part_size H p img' = part_size H p img
      /\ part_buffer p img'
         = if reread H p img
           then Some (stream_bytes (stream img) (original_offset H p img)
                        (part_size H p img))
           else part_buffer p img
  end.



(** What [update_images] needs to get through part [p]: a replacement
    file that exists and is not empty, or, for a part read back, a size that
    is not zero and bytes in the image up to the end of the part. *)
Definition part_ready (H : bootimg_h) (fs : string -> option (list byte))
  (p : part) (img : t_abootimg) : Prop :=
  match part_fname p img with
  | Some fname =>
      exists data, fs fname = Some data /\ u32 (Z.of_nat (length data)) <> 0
  | None =>
      reread H p img = true ->
      0 < part_size H p img
      /\ (Z.to_nat (original_offset H p img) + Z.to_nat (part_size H p img)
          <= length (contents (stream img)))%nat
  end.

(** The end of [update_images]: the container takes the total size when it
    has none, and must hold the total otherwise. *)
Definition fit_container (H : bootimg_h) (img : t_abootimg)
  : outcome t_abootimg :=
  if size img =? 0
  then Ok (set_size (image_total_size H img) (is_blkdev img) img)
  else if image_total_size H img >? size img
  then Abort (UpdateTooBig (image_total_size H img) (size img))
  else Ok img.

(** One part of [update_images]: the replacement when one is given,
    otherwise the part read back when the offsets have changed and the part
    is mandatory or present. *)
Definition assemble_stage (H : bootimg_h) (fs : string -> option (list byte))
  (p : part) (osize ooffset : Z) (st : t_abootimg * bool)
  : outcome (t_abootimg * bool) :=
  let '(img, offsets_changed) := st in
  match part_fname p img with
  | Some fname => img' <- adopt_new_part H fs p fname img ;; Ok (img', true)
  | None =>
      if offsets_changed && (mandatory p || negb (part_size H p img =? 0))
      then img' <- keep_original_part p osize ooffset img ;;
           Ok (img', offsets_changed)
      else Ok (img, offsets_changed)
  end.

(** What no part of [update_images] changes. *)
Definition globals_same (H : bootimg_h) (img img' : t_abootimg) : Prop :=
  (forall q, part_fname q img' = part_fname q img)
  /\ contents (stream img') = contents (stream img)
  /\ size img' = size img
  /\ is_blkdev img' = is_blkdev img
  /\ length (header img') = length (header img)
  /\ page_size H img' = page_size H img.

(** Part [q] is as it was. *)
Definition part_unchanged (H : bootimg_h) (q : part) (img img' : t_abootimg)
  : Prop :=
  part_buffer q img' = part_buffer q img
  /\ part_size H q img' = part_size H q img.

(** The place of the size field of a part in [all_fields]. *)
Definition part_index (p : part) : nat :=
  match p with
  | Kernel => 1
  | Ramdisk => 3
  | Second => 5
  | Dtbo => 12
  | Dtb => 15
  end.

(** An image on pages of 4 bytes: a header page, a kernel of 5 bytes on two
    pages, a ramdisk of 3 bytes and a second stage of 2 bytes on one page
    each; and a file system with a new kernel of 9 bytes and a new ramdisk of
    10 bytes. *)
Definition small_header (k r s : Z) : list byte :=
  set_u32 (off_second_size aosp_bootimg_h) s
    (set_u32 (off_ramdisk_size aosp_bootimg_h) r
       (set_u32 (off_kernel_size aosp_bootimg_h) k
          (set_u32 (off_page_size aosp_bootimg_h) 4
             (header (new_bootimg aosp_bootimg_h))))).

Definition example_fs (fname : string) : option (list byte) :=
  if String.eqb fname "zImage" then Some (str "NEWKERNEL")
  else if String.eqb fname "initrd.img" then Some (str "NEWRAMDISK")
  else None.

Definition example_update (r : Z) : t_abootimg :=
  {| size := 0; is_blkdev := false;
     kernel_fname := Some "zImage"%string; ramdisk_fname := None;
     second_fname := None; dtbo_fname := None; dtb_fname := None;
     stream := fopen (str "HEADKERNL___RAM_S2__") false;
     header := small_header 5 r 2;
     kernel := None; ramdisk := None; second := None; dtbo := None;
     dtb := None |}.

(** An image whose kernel and ramdisk each fill one page of 2048 bytes, in a
    container of four pages that holds [0xff] bytes. *)
Definition example_full_page : t_abootimg :=
  {| size := 8192; is_blkdev := false;
     kernel_fname := None; ramdisk_fname := None; second_fname := None;
     dtbo_fname := None; dtb_fname := None;
     stream := fopen (repeat xff (Z.to_nat 8192)) false;
     header :=
       set_u32 (off_ramdisk_size aosp_bootimg_h) 2048
         (set_u32 (off_kernel_size aosp_bootimg_h) 2048
            (header (new_bootimg aosp_bootimg_h)));
     kernel := Some (repeat x4b 2048);
     ramdisk := Some (repeat x52 2048);
     second := None; dtbo := None; dtb := None |}.

(** The same image for a container of exactly its three pages, 6144
    bytes, on a new regular file. *)
Definition example_exact_fit : t_abootimg :=
  set_size 6144 false (set_stream (fopen [] false) example_full_page).

(** A header whose kernel size makes the page count of the source wrap:
    pages of 2 bytes, a kernel of 2^32 - 1 bytes and a ramdisk of one byte,
    at the head of a file of 4096 bytes. *)
Definition example_wrapping_file : list byte :=
  let hdr :=
    set_u32 (off_ramdisk_size aosp_bootimg_h) 1
      (set_u32 (off_kernel_size aosp_bootimg_h) 4294967295
         (set_u32 (off_page_size aosp_bootimg_h) 2
            (header (new_bootimg aosp_bootimg_h)))) in
  hdr ++ zeros (4096 - length hdr).

(** * Encoding, on the side of the specification *)

(** One part of [write_bootimg]: written when its buffer is there and,
    for the parts that may be absent, when its size is not zero. *)
Definition write_optional_part (H : bootimg_h) (buf : option (list byte))
  (present : bool) (img : t_abootimg) (offset size : Z)
  (padding : list byte) : outcome t_abootimg :=
  match buf with
  | Some part =>
      if present then write_bootimg_part H img part offset size padding
      else Ok img
  | None => Ok img
  end.

(** The stream still starts with the header of [img]. *)
Definition header_on_stream (H : bootimg_h) (img : t_abootimg) (f : FILE)
  : Prop :=
  let hs := sizeof_hdr H (header_version H img) in
  st_isblk f = st_isblk (stream img)
  /\ (hs <= length (contents f))%nat
  /\ firstn hs (contents f) = firstn hs (header img).

(** The page counts of the layout do not wrap. *)
Definition layout_fits (H : bootimg_h) (img : t_abootimg) : Prop :=
  let psize := page_size H img in
  (1 + npages psize (kernel_size H img) + npages psize (ramdisk_size H img)
   + npages psize (second_size H img)
   + npages psize (recovery_dtbo_size H img)
   + npages psize (dtb_size H img)) * psize < UINT32_MOD.

(** The union holds zeros past the structure of the header's version. *)
Definition tail_zero (H : bootimg_h) (img : t_abootimg) : Prop :=
  let hs := sizeof_hdr H (header_version H img) in
  skipn hs (header img) = zeros (sizeof_boot_img_hdr_v2 H - hs).

(** Every buffer of the payload set holds the bytes its size field counts. *)
Definition payloads_fit (H : bootimg_h) (img : t_abootimg) : Prop :=
  forall p buf,
    part_buffer p img = Some buf -> part_size H p img <= Z.of_nat (length buf).

(** The image [main] creates from a kernel and a ramdisk file. *)
Definition example_create : t_abootimg :=
  {| size := 0; is_blkdev := false;
     kernel_fname := Some "zImage"%string;
     ramdisk_fname := Some "initrd.img"%string;
     second_fname := None; dtbo_fname := None; dtb_fname := None;
     stream := fopen [] false;
     header := header (new_bootimg aosp_bootimg_h);
     kernel := None; ramdisk := None; second := None; dtbo := None;
     dtb := None |}.

(** A version 0 image on pages of [psize] bytes with a kernel of 5000 bytes
    and a ramdisk of 3000 bytes, both loaded, for a container of 12288
    bytes. *)
Definition example_image (psize : Z) : t_abootimg :=
  {| size := 12288; is_blkdev := false;
     kernel_fname := None; ramdisk_fname := None; second_fname := None;
     dtbo_fname := None; dtb_fname := None;
     stream := fopen [] false;
     header := set_u32 (off_page_size aosp_bootimg_h) psize example_header;
     kernel := Some (repeat x4b (Z.to_nat 5000));
     ramdisk := Some (repeat x52 (Z.to_nat 3000));
     second := None; dtbo := None; dtb := None |}.

(** * Definitions for the further properties *)

(** The bytes of the image [write_bootimg] makes of [example_image 2048],
    and that file opened by a new image. *)
Definition example_image_file : list byte :=
  match write_bootimg aosp_bootimg_h 0 (example_image 2048) with
  | Ok img => contents (stream img)
  | _ => []
  end.

Definition example_opened : t_abootimg :=
  set_stream (fopen example_image_file false) (new_bootimg aosp_bootimg_h).

(** What no entry of the configuration reaches: the sizes of the parts, the
    version and the size of the header, the magic, the length of the union,
    and the stream, the file names and the buffers of the image. *)
Definition config_frame (H : bootimg_h) (img img' : t_abootimg) : Prop :=
  (forall p, part_size H p img' = part_size H p img)
  /\ header_version H img' = header_version H img
  /\ header_size H img' = header_size H img
  /\ load (off_magic H) (BOOT_MAGIC_SIZE H) (header img')
     = load (off_magic H) (BOOT_MAGIC_SIZE H) (header img)
  /\ length (header img') = length (header img)
  /\ stream img' = stream img
  /\ is_blkdev img' = is_blkdev img
  /\ (forall p, part_fname p img' = part_fname p img)
  /\ (forall p, part_buffer p img' = part_buffer p img).

(** The three conditions an entry of the configuration is refused with. *)
Definition config_refusal (c : condition) : Prop :=
  (exists len, c = CmdlineTooLong len)
  \/ c = ImmutableBlockSize
  \/ (exists token, c = BadConfigEntry token).

(** The image [update_header] makes of [example_image 2048] with a page
    size, a name and a command line. *)
Definition example_configured : t_abootimg :=
  match
    update_header aosp_bootimg_h (example_image 2048)
      [str "pagesize = 4096"; str "name = demo"] [str "cmdline = quiet"]
  with
  | Ok img => img
  | _ => example_image 2048
  end.

(** * The command line, on the side of the specification *)

(** The argument [o] is the flag [flag]. *)
Definition flag_is (flag o : string) : bool :=
  bytes_eqb (c_str (str o)) (str flag).

(** The flags of the [update] and [create] commands. *)
Definition option_flags : list string :=
  [ "-c"; "-f"; "-k"; "-r"; "-s"; "-d"; "-o" ]%string.

Definition known_flag (o : string) : bool :=
  existsb (fun flag => flag_is flag o) option_flags.

(** The arguments that a list of options, each a flag and its argument,
    stands for. *)
Fixpoint option_args (pairs : list (string * string)) : list string :=
  match pairs with
  | [] => []
  | (o, v) :: rest => o :: v :: option_args rest
  end.

(** The argument of the last option with the flag [flag]. *)
Fixpoint last_option (flag : string) (pairs : list (string * string))
  : option string :=
  match pairs with
  | [] => None
  | (o, v) :: rest =>
      match last_option flag rest with
      | Some w => Some w
      | None => if flag_is flag o then Some v else None
      end
  end.

(** The arguments of the [-c] options, a line each. *)
Fixpoint config_text (pairs : list (string * string)) : list byte :=
  match pairs with
  | [] => []
  | (o, v) :: rest =>
      (if flag_is "-c" o then c_str (str v) ++ [NEWLINE] else [])
      ++ config_text rest
  end.

(** The flag that names the file of a part. *)
Definition part_flag (p : part) : string :=
  match p with
  | Kernel => "-k"
  | Ramdisk => "-r"
  | Second => "-s"
  | Dtbo => "-o"
  | Dtb => "-d"
  end.

(** The flag of a command that takes options. *)
Definition command_flag (cmd : command) : string :=
  match cmd with
  | create => "--create"
  | _ => "-u"
  end.

(** The image [img] with the file names [f] for its parts. *)
Definition with_part_fnames (f : part -> option string) (img : t_abootimg)
  : t_abootimg :=
  {| size := size img; is_blkdev := is_blkdev img;
     kernel_fname := f Kernel; ramdisk_fname := f Ramdisk;
     second_fname := f Second; dtbo_fname := f Dtbo; dtb_fname := f Dtb;
     stream := stream img; header := header img;
     kernel := kernel img; ramdisk := ramdisk img; second := second img;
     dtbo := dtbo img; dtb := dtb img |}.

(** A value when there is one, a default otherwise. *)
Definition or_else {A : Type} (o d : option A) : option A :=
  match o with
  | Some a => Some a
  | None => d
  end.

(** * The configuration text, on the side of the specification *)

(** A character [printf] writes for a hexadecimal digit. *)
Definition hex_char (c : byte) : Prop :=
  exists d, 0 <= d < 16 /\ c = hex_digit d.

(** A character that ends neither a string nor a line and is no blank. *)
Definition word_char (c : byte) : Prop :=
  c <> NUL /\ c <> NEWLINE /\ c <> SPACE /\ c <> TAB.

(** What the configuration sets in an image: the container size, the page
    size, the load addresses, the name and the command line. *)
Definition configuration (H : bootimg_h) (img : t_abootimg)
  : Z * Z * (Z * Z * Z * Z) * (Z * Z) * (list byte * list byte) :=
  (size img, page_size H img,
   (kernel_addr H img, ramdisk_addr H img, second_addr H img,
    tags_addr H img),
   (recovery_dtbo_offset H img, dtb_addr H img),
   (c_str (name H img), c_str (cmdline H img))).

(** * Extraction, on the side of the specification *)

(** The page count of no part wraps. *)
Definition sizes_fit (H : bootimg_h) (img : t_abootimg) : Prop :=
  forall p, part_size H p img + page_size H img - 1 < UINT32_MOD.

(** A part the image holds: the kernel and the ramdisk always, the three
    others when their size is not zero. *)
Definition part_present (H : bootimg_h) (p : part) (img : t_abootimg) : bool :=
  mandatory p || negb (part_size H p img =? 0).

(** The bytes of part [p] in the file of the image. *)
Definition part_region (H : bootimg_h) (p : part) (img : t_abootimg)
  : list byte :=
  stream_bytes (stream img) (original_offset H p img) (part_size H p img).

(** The function of the source that extracts part [p]. *)
Definition extract_fn (H : bootimg_h) (p : part)
  : t_abootimg -> file_system -> outcome (t_abootimg * file_system) :=
  match p with
  | Kernel => extract_kernel H
  | Ramdisk => extract_ramdisk H
  | Second => extract_second H
  | Dtbo => extract_dtbo H
  | Dtb => extract_dtb H
  end.

(** Files written one after the other. *)
Definition write_files (files : list (string * list byte)) (fs : file_system)
  : file_system :=
  fold_left (fun fs nd => fs_write (fst nd) (snd nd) fs) files fs.

(** The file extracted for part [p], if the image holds the part. *)
Definition part_file (H : bootimg_h) (img : t_abootimg) (p : part)
  : list (string * list byte) :=
  if part_present H p img
  then
    match part_fname p img with
    | Some fname => [(fname, part_region H p img)]
    | None => []
    end
  else [].

(** The files of an extraction, in the order [main] writes them: the
    configuration, then the parts the image holds. *)
Definition extracted_files (H : bootimg_h) (img : t_abootimg)
  (config_fname : string) (config : list byte) : list (string * list byte) :=
  (config_fname, config)
  :: part_file H img Kernel ++ part_file H img Ramdisk
  ++ part_file H img Second ++ part_file H img Dtbo ++ part_file H img Dtb.

(** The configuration [write_bootimg_config] writes for the image of
    [example_opened]. *)
Definition example_config_text : list byte :=
  match
    bootimg_config aosp_bootimg_h (decoded_image aosp_bootimg_h example_opened)
  with
  | Ok text => text
  | _ => []
  end.

(** * The image written, on the side of the specification *)

(** The stream holds, for each part of [ps] that has a buffer and is
    present, the bytes of the buffer that the size field counts, at the
    offset of the part. *)
Definition parts_on_stream (H : bootimg_h) (img : t_abootimg)
  (ps : list part) (f : FILE) : Prop :=
  forall p buf,
    In p ps -> part_buffer p img = Some buf ->
    part_present H p img = true ->
    stream_bytes f (original_offset H p img) (part_size H p img)
    = firstn (Z.to_nat (part_size H p img)) buf
    /\ (Z.to_nat (original_offset H p img) + Z.to_nat (part_size H p img)
        <= length (contents f))%nat.

(** The stream stands inside what it has written, and its last write ended
    within a page of the total size. *)
Definition written_extent (H : bootimg_h) (img : t_abootimg) (f : FILE)
  : Prop :=
  (fpos f <= length (contents f))%nat
  /\ Z.of_nat (fpos f) <= image_total_size H img + page_size H img.

(** The length of the file [write_bootimg] leaves for a container of [size]
    bytes: [size], unless the stream, whose last write ended at [fpos f],
    held bytes back that end past [size]; the file then ends where they
    end. *)
Definition left_length (size : Z) (buffered : nat) (f : FILE) : nat :=
  if (Nat.min buffered (fpos f) =? 0)%nat || (fpos f <=? Z.to_nat size)%nat
  then Z.to_nat size
  else fpos f.

(** The file extracted for part [p] from the image written for [img], under
    the name [img0] has for the part: the bytes of the buffer that the size
    field counts. *)
Definition payload_file (H : bootimg_h) (img img0 : t_abootimg) (p : part)
  : list (string * list byte) :=
  if part_present H p img
  then
    match part_fname p img0, part_buffer p img with
    | Some fname, Some buf =>
        [(fname, firstn (Z.to_nat (part_size H p img)) buf)]
    | _, _ => []
    end
  else [].

(** Every part the header counts has its buffer. *)
Definition payloads_loaded (H : bootimg_h) (img : t_abootimg) : Prop :=
  forall p, part_present H p img = true -> part_buffer p img <> None.

(** The image [abootimg -u boot.img] works on, [boot.img] being
    [example_image_file]: the image opened, as [parse_args] leaves it. *)
Definition example_update_opened : t_abootimg :=
  match
    parse_args [ "abootimg"; "-u"; "boot.img" ]%string example_opened
      new_bootimg_names []
  with
  | Parsed _ img _ _ => img
  | _ => example_opened
  end.

(** * Creation, on the side of the specification *)

(** The header [h'] differs from [h] at most in the words at the offsets
    [W]. *)
Definition written_only (W : nat -> Prop) (h h' : list byte) : Prop :=
  length h' = length h
  /\ forall off len,
       (forall w, W w -> (off + len <= w)%nat \/ (w + 4 <= off)%nat) ->
       load off len h' = load off len h.

(** The file the command line gives for part [p], and its length. *)
Definition source_file (fs : string -> option (list byte)) (img : t_abootimg)
  (p : part) : option (list byte) :=
  match part_fname p img with
  | Some fname => fs fname
  | None => None
  end.

Definition source_size (fs : string -> option (list byte)) (img : t_abootimg)
  (p : part) : Z :=
  match source_file fs img p with
  | Some data => Z.of_nat (length data)
  | None => 0
  end.

(** The pages of the image made of these files: one for the header, then
    those of each part. *)
Definition created_pages (fs : string -> option (list byte))
  (img : t_abootimg) (psize : Z) : Z :=
  1 + npages psize (source_size fs img Kernel)
  + npages psize (source_size fs img Ramdisk)
  + npages psize (source_size fs img Second)
  + npages psize (source_size fs img Dtbo)
  + npages psize (source_size fs img Dtb).

(** The file extracted for part [p] from the image created of these files,
    under the name [imgx] has for the part. *)
Definition created_file (fs : string -> option (list byte))
  (img imgx : t_abootimg) (p : part) : list (string * list byte) :=
  match source_file fs img p, part_fname p imgx with
  | Some data, Some fname => [(fname, data)]
  | _, _ => []
  end.

(** The offsets of the size fields of the parts that have a replacement. *)
Definition replaced_size_field (H : bootimg_h) (img : t_abootimg) (w : nat)
  : Prop :=
  exists p, part_fname p img <> None /\ w = off_part_size H p.

(** The version the files given justify. *)
Definition created_version (fs : string -> option (list byte))
  (img : t_abootimg) : Z :=
  if negb (source_size fs img Dtb =? 0) then 2
  else if negb (source_size fs img Dtbo =? 0) then 1
  else 0.

(** A kernel, a ramdisk and a dtb to create an image of, and the image
    [create] starts from when the command line names the three. *)
Definition example_create_fs (fname : string) : option (list byte) :=
  if String.eqb fname "zImage" then Some (repeat x4b 5000)
  else if String.eqb fname "initrd.img" then Some (repeat x52 3000)
  else if String.eqb fname "board.dtb" then Some (repeat x44 100)
  else None.

Definition example_create_dtb : t_abootimg :=
  set_part_fname Dtb (Some "board.dtb"%string) example_create.

(** A kernel and a ramdisk that each fill one page of 2048 bytes. *)
Definition example_page_fs (fname : string) : option (list byte) :=
  if String.eqb fname "zImage" then Some (repeat x4b 2048)
  else if String.eqb fname "initrd.img" then Some (repeat x52 2048)
  else None.

(** The bytes of the image [create] makes of them: a version 2 image, of
    which the structure of the header takes 1660 bytes. *)
Definition example_v2_file : list byte :=
  match
    main_create aosp_bootimg_h example_create_fs 0 example_create_dtb [] []
  with
  | Ok img => contents (stream img)
  | _ => []
  end.

(** * An update, on the side of the specification *)

(** [write_bootimg] writes part [p]: the part has a buffer and is present. *)
Definition part_written (H : bootimg_h) (p : part) (img : t_abootimg) : bool :=
  is_some (part_buffer p img) && part_present H p img.

(** The bytes the image written is to hold for part [p]: those of its
    buffer that the size field counts or, for a part without a buffer, those
    the file [f0] holds in the region of the part. *)
Definition region_expected (H : bootimg_h) (img : t_abootimg) (f0 : FILE)
  (p : part) : list byte :=
  match part_buffer p img with
  | Some buf => firstn (Z.to_nat (part_size H p img)) buf
  | None => stream_bytes f0 (original_offset H p img) (part_size H p img)
  end.

(** The stream holds them, for each part of [ps] that is present. *)
Definition regions_on_stream (H : bootimg_h) (img : t_abootimg) (f0 : FILE)
  (ps : list part) (f : FILE) : Prop :=
  forall p,
    In p ps -> part_present H p img = true ->
    stream_bytes f (original_offset H p img) (part_size H p img)
    = region_expected H img f0 p
    /\ (Z.to_nat (original_offset H p img) + Z.to_nat (part_size H p img)
        <= length (contents f))%nat.

(** A part that is present without a buffer lies in the file [f0], and no
    part before it is written. *)
Definition kept_parts_first (H : bootimg_h) (img : t_abootimg) (f0 : FILE)
  : Prop :=
  forall q,
    part_present H q img = true -> part_buffer q img = None ->
    (forall p, (part_index p < part_index q)%nat ->
               part_written H p img = false)
    /\ (Z.to_nat (original_offset H q img) + Z.to_nat (part_size H q img)
        <= length (contents f0))%nat.

(** The stream holds past the first page what [f0] holds there. *)
Definition payload_untouched (H : bootimg_h) (img : t_abootimg) (f0 f : FILE)
  : Prop :=
  skipn (Z.to_nat (page_size H img)) (contents f)
  = skipn (Z.to_nat (page_size H img)) (contents f0)
  /\ (Z.to_nat (page_size H img) <= length (contents f))%nat.

(** The size of part [p] after an update of the image decoded as [img1]:
    the length of the replacement file, or the size the part had. *)
Definition updated_size (H : bootimg_h) (fs : string -> option (list byte))
  (img img1 : t_abootimg) (p : part) : Z :=
  match part_fname p img with
  | Some _ => source_size fs img p
  | None => part_size H p img1
  end.

Definition updated_pages (H : bootimg_h) (fs : string -> option (list byte))
  (img img1 : t_abootimg) : Z :=
  let psize := page_size H img1 in
  1 + npages psize (updated_size H fs img img1 Kernel)
  + npages psize (updated_size H fs img img1 Ramdisk)
  + npages psize (updated_size H fs img img1 Second)
  + npages psize (updated_size H fs img img1 Dtbo)
  + npages psize (updated_size H fs img img1 Dtb).

(** The buffer [update_images] leaves for part [p]: the replacement file,
    the part read back from the image when a part before it is replaced, or
    none. *)
Definition updated_buffer (H : bootimg_h) (fs : string -> option (list byte))
  (img img1 : t_abootimg) (p : part) : option (list byte) :=
  match part_fname p img with
  | Some _ => source_file fs img p
  | None => if reread H p img1 then Some (part_region H p img1) else None
  end.

(** The file extracted for part [p] from the image updated, under the name
    [imgx] has for the part: the replacement file, or the part as the image
    held it. *)
Definition updated_file (H : bootimg_h) (fs : string -> option (list byte))
  (img img1 imgx : t_abootimg) (p : part) : list (string * list byte) :=
  match part_fname p imgx with
  | Some fname =>
      match part_fname p img with
      | Some _ =>
          match source_file fs img p with
          | Some data => [(fname, data)]
          | None => []
          end
      | None =>
          if part_present H p img1 then [(fname, part_region H p img1)]
          else []
      end
  | None => []
  end.

(** The image [abootimg -u boot.img -k zImage] works on. *)
Definition example_update_kernel : t_abootimg :=
  set_part_fname Kernel (Some "zImage"%string) example_update_opened.


(** The image [abootimg -u boot.img -r initrd.img] works on, [boot.img]
    being the 6144 bytes [write_bootimg] leaves for [example_exact_fit] when
    the stream holds nothing back: a kernel and a ramdisk of one page
    each. *)
Definition example_update_exact : t_abootimg :=
  match
    write_bootimg aosp_bootimg_h 0 example_exact_fit,
    parse_args [ "abootimg"; "-u"; "boot.img"; "-r"; "initrd.img" ]%string
      (new_bootimg aosp_bootimg_h) new_bootimg_names []
  with
  | Ok written, Parsed _ img _ _ =>
      set_stream (fopen (contents (stream written)) false) img
  | _, _ => new_bootimg aosp_bootimg_h
  end.

(** * The conditions [update_images] succeeds under *)

(** The size field [update_images] leaves for part [p]: the length of the
    replacement file as [st_size] is stored in 32 bits, or the size the part
    had. *)
Definition assembled_size (H : bootimg_h) (fs : string -> option (list byte))
  (img : t_abootimg) (p : part) : Z :=
  match part_fname p img with
  | Some fname =>
      match fs fname with
      | Some data => u32 (Z.of_nat (length data))
      | None => 0
      end
  | None => part_size H p img
  end.

Definition assembled_total (H : bootimg_h) (fs : string -> option (list byte))
  (img : t_abootimg) : Z :=
  total_size (page_size H img)
    (assembled_size H fs img Kernel) (assembled_size H fs img Ramdisk)
    (assembled_size H fs img Second) (assembled_size H fs img Dtbo)
    (assembled_size H fs img Dtb).

(** * Properties *)

(** ** Outcomes *)

Lemma holds_on_exists {A : Type} (o : outcome A) (P : A -> Prop) :
  holds_on o P -> exists a, o = Ok a /\ P a.
Proof.
  destruct o as [a| |]; cbn [holds_on]; intros HP; try contradiction.
  exists a. split; [reflexivity|exact HP].
Qed.

(** ** Bytes and memory *)

Lemma Z_of_byte_range (b : byte) : 0 <= Z_of_byte b < 256.
Proof.
  unfold Z_of_byte. pose proof (Byte.to_N_bounded b). lia.
Qed.

Lemma Z_of_byte_of_Z (z : Z) : Z_of_byte (byte_of_Z z) = z mod 256.
Proof.
  unfold Z_of_byte, byte_of_Z.
  assert (Hr : 0 <= z mod 256 < 256) by (apply Z.mod_pos_bound; lia).
  destruct (Byte.of_N (Z.to_N (z mod 256))) as [b|] eqn:E.
  - apply Byte.to_of_N in E. rewrite E. lia.
  - apply Byte.of_N_None_iff in E. lia.
Qed.

Lemma byte_of_Z_of_byte (b : byte) : byte_of_Z (Z_of_byte b) = b.
Proof.
  unfold byte_of_Z, Z_of_byte.
  pose proof (Byte.to_N_bounded b).
  rewrite Z.mod_small by lia. rewrite N2Z.id, Byte.of_to_N. reflexivity.
Qed.

Lemma length_le_encode (n : nat) (z : Z) : length (le_encode n z) = n.
Proof. revert z; induction n; intros; simpl; auto. Qed.

Lemma le_decode_range (bs : list byte) :
  0 <= le_decode bs < 256 ^ Z.of_nat (length bs).
Proof.
  induction bs as [|b bs IH].
  - simpl. lia.
  - cbn [le_decode length]. rewrite Nat2Z.inj_succ, Z.pow_succ_r by lia.
    pose proof (Z_of_byte_range b). lia.
Qed.

Lemma le_decode_encode (n : nat) (z : Z) :
  le_decode (le_encode n z) = z mod 256 ^ Z.of_nat n.
Proof.
  revert z; induction n as [|n IH]; intros z.
  - simpl. rewrite Z.mod_1_r. reflexivity.
  - cbn [le_encode le_decode]. rewrite IH, Z_of_byte_of_Z.
    rewrite Nat2Z.inj_succ, Z.pow_succ_r by lia.
    rewrite Z.rem_mul_r by lia. lia.
Qed.

Lemma length_store off bs m : length (store off bs m) = length m.
Proof.
  unfold store. destruct (Nat.leb_spec (off + length bs) (length m)); auto.
  rewrite !length_app, length_firstn, length_skipn. lia.
Qed.

Lemma load_store_same off bs m :
  (off + length bs <= length m)%nat ->
  load off (length bs) (store off bs m) = bs.
Proof.
  intros Hfit. unfold load, store.
  destruct (Nat.leb_spec (off + length bs) (length m)); [|lia].
  rewrite skipn_app, length_firstn, Nat.min_l by lia.
  rewrite skipn_all2 by (rewrite length_firstn; lia).
  rewrite Nat.sub_diag. simpl.
  rewrite firstn_app, Nat.sub_diag, firstn_all, firstn_O, app_nil_r.
  reflexivity.
Qed.

Lemma load_store_other off len off' bs m :
  (off + len <= off')%nat \/ (off' + length bs <= off)%nat ->
  load off len (store off' bs m) = load off len m.
Proof.
  intros Hd. unfold load, store.
  destruct (Nat.leb_spec (off' + length bs) (length m)) as [Hfit|]; auto.
  apply nth_error_ext. intros i.
  destruct (Nat.ltb_spec i len) as [Hi|Hi].
  - rewrite !nth_error_firstn.
    destruct (Nat.ltb_spec i len); [|lia].
    rewrite !nth_error_skipn.
    destruct Hd as [Hd|Hd].
    + rewrite nth_error_app1 by (rewrite length_firstn; lia).
      rewrite nth_error_firstn.
      destruct (Nat.ltb_spec (off + i) off'); [reflexivity|lia].
    + rewrite nth_error_app2 by (rewrite length_firstn; lia).
      rewrite length_firstn, Nat.min_l by lia.
      rewrite nth_error_app2 by lia.
      rewrite nth_error_skipn. f_equal. lia.
  - rewrite !(proj2 (nth_error_None _ _)); auto; rewrite length_firstn; lia.
Qed.

Lemma get_u32_range off m : 0 <= get_u32 off m < UINT32_MOD.
Proof.
  unfold get_u32, load.
  pose proof (le_decode_range (firstn 4 (skipn off m))) as Hr.
  assert (Hl : (length (firstn 4 (skipn off m)) <= 4)%nat)
    by apply firstn_le_length.
  assert (256 ^ Z.of_nat (length (firstn 4 (skipn off m))) <= 256 ^ 4)
    by (apply Z.pow_le_mono_r; lia).
  unfold UINT32_MOD. change (256 ^ 4) with 4294967296 in *. lia.
Qed.

Lemma get_set_u32_same off v m :
  (off + 4 <= length m)%nat -> get_u32 off (set_u32 off v m) = u32 v.
Proof.
  intros Hfit. unfold get_u32, set_u32.
  pose proof (load_store_same off (le_encode 4 v) m) as E.
  rewrite length_le_encode in E. rewrite E by lia.
  apply le_decode_encode.
Qed.

Lemma get_set_u32_other off off' v m :
  (off + 4 <= off')%nat \/ (off' + 4 <= off)%nat ->
  get_u32 off (set_u32 off' v m) = get_u32 off m.
Proof.
  intros Hd. unfold get_u32, set_u32.
  rewrite load_store_other by (rewrite length_le_encode; exact Hd).
  reflexivity.
Qed.

Lemma length_set_u32 off v m : length (set_u32 off v m) = length m.
Proof. apply length_store. Qed.

Lemma u32_small z : 0 <= z < UINT32_MOD -> u32 z = z.
Proof. intros. unfold u32. apply Z.mod_small. assumption. Qed.

(** ** The layout of [bootimg.h] *)

Lemma pairwise_disjointb_nth fs d i j :
  pairwise_disjointb fs = true -> (i < j < length fs)%nat ->
  disjointb (nth i fs d) (nth j fs d) = true.
Proof.
  revert i j. induction fs as [|f fs IH]; intros i j Hp Hij.
  - simpl in Hij. lia.
  - cbn [pairwise_disjointb] in Hp. apply andb_true_iff in Hp.
    destruct Hp as [Hf Hrest].
    destruct j as [|j]; [lia|]. destruct i as [|i].
    + cbn [nth]. rewrite forallb_forall in Hf. apply Hf.
      apply nth_In. simpl in Hij. lia.
    + cbn [nth]. apply IH; auto. simpl in Hij. lia.
Qed.

Lemma disjointb_true f g :
  disjointb f g = true ->
  (fst f + snd f <= fst g)%nat \/ (fst g + snd g <= fst f)%nat.
Proof.
  unfold disjointb, field_end. rewrite orb_true_iff, !Nat.leb_le. auto.
Qed.

(** Fields that do not overlap and lie in a range take no more room than
    the range has: the fields that end before the first one fit before it,
    the others after it. *)
Lemma pairwise_disjointb_filter (p : field -> bool) fs :
  pairwise_disjointb fs = true -> pairwise_disjointb (filter p fs) = true.
Proof.
  induction fs as [|f fs IH]; [reflexivity|].
  cbn [pairwise_disjointb filter]. rewrite andb_true_iff. intros [Hf Hr].
  destruct (p f); [|auto].
  cbn [pairwise_disjointb]. rewrite andb_true_iff. split; [|auto].
  rewrite forallb_forall in *. intros g Hg. apply Hf.
  apply filter_In in Hg. tauto.
Qed.

Lemma pairwise_disjointb_app_l fs gs :
  pairwise_disjointb (fs ++ gs) = true -> pairwise_disjointb fs = true.
Proof.
  induction fs as [|f fs IH]; [reflexivity|].
  cbn [app pairwise_disjointb]. rewrite !andb_true_iff. intros [Hf Hr].
  split; [|auto]. rewrite forallb_app in Hf. apply andb_true_iff in Hf. tauto.
Qed.

Lemma list_sum_partition (p : field -> bool) fs :
  list_sum (map snd fs)
  = (list_sum (map snd (filter p fs))
     + list_sum (map snd (filter (fun g => negb (p g)) fs)))%nat.
Proof.
  induction fs as [|f fs IH]; [reflexivity|].
  cbn [filter]. destruct (p f); cbn [negb map];
    unfold list_sum in *; cbn [fold_right]; lia.
Qed.

Lemma disjoint_fields_sum n : forall fs lo hi,
  (length fs <= n)%nat ->
  pairwise_disjointb fs = true -> forallb (within lo hi) fs = true ->
  (list_sum (map snd fs) <= hi - lo)%nat.
Proof.
  induction n as [|n IH]; intros fs lo hi Hn Hd Hw.
  - destruct fs; [cbn; lia|cbn in Hn; lia].
  - destruct fs as [|f rest]; [cbn; lia|].
    cbn [pairwise_disjointb forallb] in Hd, Hw.
    apply andb_true_iff in Hd. destruct Hd as [Hf Hd].
    apply andb_true_iff in Hw. destruct Hw as [Hwf Hw].
    rewrite forallb_forall in Hf, Hw.
    unfold within, field_end in Hwf. apply andb_true_iff in Hwf.
    rewrite !Nat.leb_le in Hwf.
    set (before := fun g : field => (field_end g <=? fst f)%nat).
    assert (HL : (list_sum (map snd (filter before rest)) <= fst f - lo)%nat).
    { apply IH.
      - pose proof (filter_length_le before rest). cbn in Hn. lia.
      - apply pairwise_disjointb_filter. exact Hd.
      - apply forallb_forall. intros g Hg. apply filter_In in Hg.
        destruct Hg as [Hg Hl]. specialize (Hw g Hg).
        unfold within in *. apply andb_true_iff in Hw.
        rewrite andb_true_iff. split; [tauto|exact Hl]. }
    assert (HR : (list_sum (map snd (filter (fun g => negb (before g)) rest))
                  <= hi - (fst f + snd f))%nat).
    { apply IH.
      - pose proof (filter_length_le (fun g => negb (before g)) rest).
        cbn in Hn. lia.
      - apply pairwise_disjointb_filter. exact Hd.
      - apply forallb_forall. intros g Hg. apply filter_In in Hg.
        destruct Hg as [Hg Hl]. specialize (Hw g Hg). specialize (Hf g Hg).
        unfold within in *. apply andb_true_iff in Hw.
        rewrite andb_true_iff. split; [|tauto].
        unfold disjointb in Hf. apply orb_true_iff in Hf.
        unfold before in Hl. apply negb_true_iff in Hl.
        destruct Hf as [Hf|Hf]; [exact Hf|congruence]. }
    cbn [map].
    change (list_sum (snd f :: map snd rest))
      with (snd f + list_sum (map snd rest))%nat.
    rewrite (list_sum_partition before rest). lia.
Qed.

Section Layout.

Variable H : bootimg_h.
Hypothesis Hok : bootimg_h_ok H = true.

Lemma fields_disjoint i j :
  (i < j < 17)%nat ->
  let f := nth i (all_fields H) (O, O) in
  let g := nth j (all_fields H) (O, O) in
  (fst f + snd f <= fst g)%nat \/ (fst g + snd g <= fst f)%nat.
Proof.
  intros Hij. apply disjointb_true, pairwise_disjointb_nth; auto.
  unfold bootimg_h_ok in Hok. rewrite !andb_true_iff in Hok. tauto.
Qed.

(** The bounds of the structures and of the fields the properties use. *)
Lemma layout_bounds :
  (sizeof_boot_img_hdr_v0 H <= sizeof_boot_img_hdr_v1 H
   <= sizeof_boot_img_hdr_v2 H)%nat
  /\ Z.of_nat (sizeof_boot_img_hdr_v2 H) < UINT32_MOD
  /\ (off_kernel_size H + 4 <= sizeof_boot_img_hdr_v0 H)%nat
  /\ (off_ramdisk_size H + 4 <= sizeof_boot_img_hdr_v0 H)%nat
  /\ (off_second_size H + 4 <= sizeof_boot_img_hdr_v0 H)%nat
  /\ (off_page_size H + 4 <= sizeof_boot_img_hdr_v0 H)%nat
  /\ (off_header_version H + 4 <= sizeof_boot_img_hdr_v0 H)%nat
  /\ (off_cmdline H + BOOT_ARGS_SIZE H <= sizeof_boot_img_hdr_v0 H)%nat
  /\ (sizeof_boot_img_hdr_v0 H <= off_recovery_dtbo_size H)%nat
  /\ (off_recovery_dtbo_size H + 4 <= sizeof_boot_img_hdr_v1 H)%nat
  /\ (sizeof_boot_img_hdr_v0 H <= off_header_size H)%nat
  /\ (off_header_size H + 4 <= sizeof_boot_img_hdr_v1 H)%nat
  /\ (sizeof_boot_img_hdr_v1 H <= off_dtb_size H)%nat
  /\ (off_dtb_size H + 4 <= sizeof_boot_img_hdr_v2 H)%nat
  /\ (1 <= BOOT_NAME_SIZE H)%nat.
Proof.
  pose proof Hok as F. unfold bootimg_h_ok in F.
  rewrite !andb_true_iff in F.
  destruct F as [[[[[F0 F1] F2] _] Fn] Fs].
  unfold v0_fields, v1_fields, v2_fields, within, field_end in F0, F1, F2.
  cbn [forallb fst snd] in F0, F1, F2.
  repeat rewrite andb_true_iff in F0.
  repeat rewrite andb_true_iff in F1.
  repeat rewrite andb_true_iff in F2.
  repeat rewrite Nat.leb_le in F0.
  repeat rewrite Nat.leb_le in F1.
  repeat rewrite Nat.leb_le in F2.
  apply Nat.leb_le in Fn. apply Z.ltb_lt in Fs.
  lia.
Qed.

Lemma sizeof_hdr_bounds v :
  (sizeof_boot_img_hdr_v0 H <= sizeof_hdr H v
   <= sizeof_boot_img_hdr_v2 H)%nat.
Proof.
  pose proof layout_bounds as B. unfold sizeof_hdr.
  destruct (v =? 0); [lia|]. destruct (v =? 1); lia.
Qed.

(** The version 0 structure holds at least its fields: the magic, nine
    words, the name and the command line. *)
Lemma v0_fields_total :
  (BOOT_MAGIC_SIZE H + 36 + BOOT_NAME_SIZE H + BOOT_ARGS_SIZE H
   <= sizeof_boot_img_hdr_v0 H)%nat.
Proof.
  pose proof Hok as F. unfold bootimg_h_ok in F.
  do 5 (apply andb_true_iff in F; destruct F as [F ?]).
  assert (Hd : pairwise_disjointb (v0_fields H) = true).
  { apply (pairwise_disjointb_app_l _ (v1_fields H ++ v2_fields H)).
    assumption. }
  pose proof (disjoint_fields_sum _ (v0_fields H) 0 _ (le_n _) Hd F) as S.
  cbn in S. lia.
Qed.

End Layout.

(** ** The page layout (C2) *)

Lemma pages_ceil P x :
  0 < P -> 0 <= x -> (pages P x - 1) * P < x <= pages P x * P.
Proof.
  intros HP Hx. unfold pages.
  pose proof (Z.div_mod x P ltac:(lia)) as E.
  pose proof (Z.mod_pos_bound x P HP) as B.
  destruct (Z.eqb_spec (x mod P) 0) as [E0|E0]; nia.
Qed.

Lemma npages_pages P x :
  0 < P -> 0 <= x -> x + P - 1 < UINT32_MOD -> npages P x = pages P x.
Proof.
  intros HP Hx Hfit. unfold npages, pages.
  rewrite u32_small by lia.
  pose proof (Z.div_mod x P ltac:(lia)) as E.
  pose proof (Z.mod_pos_bound x P HP) as B.
  destruct (Z.eqb_spec (x mod P) 0) as [E0|E0]; symmetry.
  - apply Z.div_unique with (r := P - 1); lia.
  - apply Z.div_unique with (r := x mod P - 1); lia.
Qed.

Lemma pages_nonneg P x : 0 < P -> 0 <= x -> 0 <= pages P x.
Proof.
  intros HP Hx. pose proof (pages_ceil P x HP Hx). nia.
Qed.

(** C2, as amended: for a page size [P > 0] and part sizes that the
    [unsigned] arithmetic of the layout does not wrap on (each [x + P - 1]
    and the total stay below 2^32), the header is at page 0, the kernel at
    page 1, each later part at the page after the pages of the parts before
    it, and the total size is the sum of all pages times [P], where
    [pages x] is [ceil (x / P)]; for [P = 2048], a kernel of 5000 bytes and a
    ramdisk of 3000 the total is 12288. *)
Theorem layout_offsets (P k r s o d : Z) :
  0 < P -> 0 <= k -> 0 <= r -> 0 <= s -> 0 <= o -> 0 <= d ->
  k + P - 1 < UINT32_MOD -> r + P - 1 < UINT32_MOD ->
  s + P - 1 < UINT32_MOD -> o + P - 1 < UINT32_MOD ->
  d + P - 1 < UINT32_MOD ->
  (1 + pages P k + pages P r + pages P s + pages P o + pages P d) * P
  < UINT32_MOD ->
  hoffset = 0 * P
  /\ koffset P = 1 * P
  /\ roffset P k = (1 + pages P k) * P
  /\ soffset P k r = (1 + pages P k + pages P r) * P
  /\ dooffset P k r s = (1 + pages P k + pages P r + pages P s) * P
  /\ doffset P k r s o
     = (1 + pages P k + pages P r + pages P s + pages P o) * P
  /\ total_size P k r s o d
     = (1 + pages P k + pages P r + pages P s + pages P o + pages P d) * P
  /\ (forall x, 0 <= x -> (pages P x - 1) * P < x <= pages P x * P)
  /\ total_size 2048 5000 3000 0 0 0 = 12288.
Proof.
  intros HP Hk Hr Hs Ho Hd Fk Fr Fs Fo Fd Ftotal.
  pose proof (pages_nonneg P k HP Hk).
  pose proof (pages_nonneg P r HP Hr).
  pose proof (pages_nonneg P s HP Hs).
  pose proof (pages_nonneg P o HP Ho).
  pose proof (pages_nonneg P d HP Hd).
  unfold koffset, roffset, soffset, dooffset, doffset, total_size.
  rewrite !npages_pages by assumption.
  repeat split; try (apply u32_small; nia).
  - apply pages_ceil; assumption.
  - apply pages_ceil; assumption.
Qed.

Lemma layout_offsets_witness :
  (0 < 2048
   /\ 5000 + 2048 - 1 < UINT32_MOD
   /\ (1 + pages 2048 5000 + pages 2048 3000 + pages 2048 0 + pages 2048 0
       + pages 2048 0) * 2048 < UINT32_MOD)
  /\ pages 2048 5000 = 3
  /\ koffset 2048 = 1 * 2048
  /\ roffset 2048 5000 = (1 + pages 2048 5000) * 2048
  /\ soffset 2048 5000 3000 = (1 + pages 2048 5000 + pages 2048 3000) * 2048
  /\ total_size 2048 5000 3000 0 0 0
     = (1 + pages 2048 5000 + pages 2048 3000 + pages 2048 0 + pages 2048 0
        + pages 2048 0) * 2048.
Proof.
  assert (Hp : (1 + pages 2048 5000 + pages 2048 3000 + pages 2048 0
                + pages 2048 0 + pages 2048 0) * 2048 < UINT32_MOD)
    by (vm_compute; reflexivity).
  pose proof (layout_offsets 2048 5000 3000 0 0 0) as L.
  unfold UINT32_MOD in L, Hp |- *.
  specialize (L ltac:(lia) ltac:(lia) ltac:(lia) ltac:(lia) ltac:(lia)
                ltac:(lia) ltac:(lia) ltac:(lia) ltac:(lia) ltac:(lia)
                ltac:(lia) Hp).
  destruct L as (_ & Lk & Lr & Ls & _ & _ & Lt & _).
  split; [split; [lia|split; [lia|exact Hp]]|].
  split; [reflexivity|]. split; [exact Lk|]. split; [exact Lr|].
  split; [exact Ls|exact Lt].
Defined.

(** C2 as stated fails where the arithmetic wraps: with a page size of 2 and
    a kernel size of 2^32 - 1 the source counts 0 pages for the kernel and
    puts the ramdisk at byte 2, not at page [1 + pages k]. *)
Lemma layout_offsets_counterexample :
  npages 2 4294967295 = 0
  /\ pages 2 4294967295 = 2147483648
  /\ roffset 2 4294967295 = 2
  /\ roffset 2 4294967295 <> (1 + pages 2 4294967295) * 2
  /\ total_size 2 4294967295 1 0 0 0
     <> (1 + pages 2 4294967295 + pages 2 1 + pages 2 0 + pages 2 0
         + pages 2 0) * 2.
Proof.
  repeat split; try (vm_compute; reflexivity); vm_compute; discriminate.
Qed.

(** ** The validator (C3) *)

Lemma sizeof_hdr_headerSizeFor (H : bootimg_h) (version : Z) :
  sizeof_hdr H version = headerSizeFor H version.
Proof. destruct version as [|[p|p|]|p]; reflexivity. Qed.

(** Where the layout does not wrap, the total the source computes is the
    total required size of the specification. *)
Lemma image_total_size_exact (H : bootimg_h) (img : t_abootimg) :
  page_size H img <> 0 ->
  sizes_fit H img ->
  required_size H img < UINT32_MOD ->
  image_total_size H img = required_size H img.
Proof.
  intros Hp0 Hsz Hreq.
  pose proof (get_u32_range (off_page_size H) (header img)) as Rp.
  fold (page_size H img) in Rp.
  assert (HP : 0 < page_size H img) by lia.
  assert (Sz : forall p, 0 <= part_size H p img)
    by (intros p; apply get_u32_range).
  pose proof (Sz Kernel) as Zk. pose proof (Sz Ramdisk) as Zr.
  pose proof (Sz Second) as Zs. pose proof (Sz Dtbo) as Zo.
  pose proof (Sz Dtb) as Zd.
  pose proof (Hsz Kernel) as Fk. pose proof (Hsz Ramdisk) as Fr.
  pose proof (Hsz Second) as Fs. pose proof (Hsz Dtbo) as Fo.
  pose proof (Hsz Dtb) as Fd.
  unfold part_size in Zk, Zr, Zs, Zo, Zd, Fk, Fr, Fs, Fo, Fd.
  cbn [off_part_size] in Zk, Zr, Zs, Zo, Zd, Fk, Fr, Fs, Fo, Fd.
  unfold required_size in *. cbv zeta in *.
  unfold image_total_size, total_size.
  unfold kernel_size, ramdisk_size, second_size, recovery_dtbo_size,
    dtb_size in *.
  rewrite !npages_pages by assumption.
  apply u32_small. split; [|exact Hreq].
  pose proof (pages_nonneg _ _ HP Zk). pose proof (pages_nonneg _ _ HP Zr).
  pose proof (pages_nonneg _ _ HP Zs). pose proof (pages_nonneg _ _ HP Zo).
  pose proof (pages_nonneg _ _ HP Zd).
  apply Z.mul_nonneg_nonneg; lia.
Qed.

(** C3, as amended: where the layout does not wrap (each size [x] of the
    header with [x + P - 1] below 2^32, and the total required size below
    2^32, for a page size [P] that is not zero), [check_boot_img_header] is
    the first failure of the seven checks of the specification taken in
    order (magic, version bound, header size against [headerSizeFor] for
    version 1 and above, kernel size, ramdisk size, page size, total
    required size against the container).  Whatever the header, the seven
    conditions are distinct, only the version bound and the header size
    abort, and the five others are returned to the caller. *)
Theorem check_boot_img_header_first_failure (H : bootimg_h)
  (img : t_abootimg) :
  ((page_size H img <> 0 ->
    sizes_fit H img /\ required_size H img < UINT32_MOD) ->
   check_boot_img_header H img = first_failure (validator_checks H img))
  /\ map failure (validator_checks H img)
     = [BadMagic; UnsupportedVersion; HeaderSizeMismatch; EmptyKernel;
        EmptyRamdisk; ZeroPageSize; ImageTooSmall]
  /\ NoDup (map failure (validator_checks H img))
  /\ map fatal (validator_checks H img)
     = [false; true; true; false; false; false; false]
  /\ (forall c, check_boot_img_header H img = Abort c ->
                c = UnsupportedVersion \/ c = HeaderSizeMismatch)
  /\ (forall c, check_boot_img_header H img = Ok (Invalid c) ->
                In c [BadMagic; EmptyKernel; EmptyRamdisk; ZeroPageSize;
                      ImageTooSmall])
  /\ check_boot_img_header H img <> Undefined.
Proof.
  split.
  { intros Hfit.
    unfold check_boot_img_header, validator_checks, boot_img_header_size.
    cbn [first_failure passes failure fatal].
    rewrite sizeof_hdr_headerSizeFor.
    destruct (strncmp_eq (magic H img) (BOOT_MAGIC H) (BOOT_MAGIC_SIZE H));
      cbn [negb]; [|reflexivity].
    rewrite Z.gtb_ltb, Z.ltb_antisym, Z.geb_leb.
    destruct (header_version H img <=? 2); cbn [negb]; [|reflexivity].
    assert (Tail :
              (if kernel_size H img =? 0 then Ok (Invalid EmptyKernel)
               else if ramdisk_size H img =? 0 then Ok (Invalid EmptyRamdisk)
               else if page_size H img =? 0 then Ok (Invalid ZeroPageSize)
               else if image_total_size H img >? size img
               then Ok (Invalid ImageTooSmall)
               else Ok Valid)
              = (if negb (kernel_size H img =? 0)
                 then if negb (ramdisk_size H img =? 0)
                      then if negb (page_size H img =? 0)
                           then if required_size H img <=? size img
                                then Ok Valid
                                else Ok (Invalid ImageTooSmall)
                           else Ok (Invalid ZeroPageSize)
                      else Ok (Invalid EmptyRamdisk)
                 else Ok (Invalid EmptyKernel))).
    { destruct (kernel_size H img =? 0); cbn [negb]; [reflexivity|].
      destruct (ramdisk_size H img =? 0); cbn [negb]; [reflexivity|].
      destruct (Z.eqb_spec (page_size H img) 0) as [|Hp0]; cbn [negb];
        [reflexivity|].
      destruct (Hfit Hp0) as [Hsz Hreq].
      rewrite (image_total_size_exact H img Hp0 Hsz Hreq).
      rewrite Z.gtb_ltb, Z.ltb_antisym.
      destruct (required_size H img <=? size img); reflexivity. }
    destruct (1 <=? header_version H img); cbn [andb implb].
    - destruct (header_size H img
                =? Z.of_nat (headerSizeFor H (header_version H img)));
        cbn [negb]; [exact Tail|reflexivity].
    - exact Tail. }
  split; [reflexivity|]. split.
  { cbn [validator_checks map failure].
    repeat (constructor;
            [cbn [In]; intros F;
             repeat (destruct F as [F|F]; [discriminate F|]); exact F|]).
    constructor. }
  split; [reflexivity|].
  unfold check_boot_img_header.
  repeat split.
  - intros c.
    repeat match goal with
           | |- context [if ?b then _ else _] => destruct b
           end; intros F; inversion F; auto.
  - intros c.
    repeat match goal with
           | |- context [if ?b then _ else _] => destruct b
           end; intros F; inversion F; cbn [In]; auto 10.
  - repeat match goal with
           | |- context [if ?b then _ else _] => destruct b
           end; discriminate.
Qed.

Lemma check_boot_img_header_first_failure_witness :
  (page_size aosp_bootimg_h (example_image 2048) <> 0 ->
   sizes_fit aosp_bootimg_h (example_image 2048)
   /\ required_size aosp_bootimg_h (example_image 2048) < UINT32_MOD)
  /\ required_size aosp_bootimg_h (example_image 2048) = 12288
  /\ check_boot_img_header aosp_bootimg_h (example_image 2048)
     = first_failure (validator_checks aosp_bootimg_h (example_image 2048))
  /\ first_failure (validator_checks aosp_bootimg_h (example_image 2048))
     = Ok Valid
  /\ first_failure
       (validator_checks aosp_bootimg_h
          (set_size 12287 false (example_image 2048)))
     = Ok (Invalid ImageTooSmall)
  /\ check_boot_img_header aosp_bootimg_h
       (set_size 12287 false (example_image 2048))
     = Ok (Invalid ImageTooSmall).
Proof.
  assert (Hfit : forall sz,
             page_size aosp_bootimg_h (set_size sz false (example_image 2048))
             <> 0 ->
             sizes_fit aosp_bootimg_h (set_size sz false (example_image 2048))
             /\ required_size aosp_bootimg_h
                  (set_size sz false (example_image 2048)) < UINT32_MOD).
  { intros sz _. split; [|vm_compute; reflexivity].
    intros p. destruct p; vm_compute; reflexivity. }
  pose proof (check_boot_img_header_first_failure aosp_bootimg_h
                (example_image 2048)) as [W _].
  pose proof (check_boot_img_header_first_failure aosp_bootimg_h
                (set_size 12287 false (example_image 2048))) as [W' _].
  split; [exact (Hfit 12288)|]. split; [vm_compute; reflexivity|].
  split; [exact (W (Hfit 12288))|].
  split; [vm_compute; reflexivity|].
  split; [vm_compute; reflexivity|].
  rewrite (W' (Hfit 12287)). vm_compute. reflexivity.
Defined.

(** C3 as stated fails where the layout wraps: the header of
    [example_wrapping_file], with pages of 2 bytes and a kernel of 2^32 - 1
    bytes, needs more than 2^32 bytes; the source counts no page for the
    kernel and a total of 4 bytes, and [read_header] accepts the header for
    a file of 4096 bytes, where the seventh check of the specification
    reports [ImageTooSmall]. *)
Lemma check_boot_img_header_counterexample :
  exists img,
    read_header aosp_bootimg_h
      (set_stream (fopen example_wrapping_file false)
         (new_bootimg aosp_bootimg_h)) = Ok img
    /\ size img = 4096
    /\ page_size aosp_bootimg_h img = 2
    /\ kernel_size aosp_bootimg_h img = 4294967295
    /\ ramdisk_size aosp_bootimg_h img = 1
    /\ image_total_size aosp_bootimg_h img = 4
    /\ required_size aosp_bootimg_h img = 4294967300
    /\ check_boot_img_header aosp_bootimg_h img = Ok Valid
    /\ first_failure (validator_checks aosp_bootimg_h img)
       = Ok (Invalid ImageTooSmall).
Proof.
  apply holds_on_exists. vm_compute. repeat split.
Qed.

(** ** Version promotion (C6) *)

Ltac field_disjoint H Hok i j :=
  let D := fresh "D" in
  pose proof (fields_disjoint H Hok i j ltac:(lia)) as D;
  unfold all_fields, v0_fields, v1_fields, v2_fields in D;
  cbn [app nth fst snd] in D.

Section Promotion.

Variable H : bootimg_h.
Hypothesis Hok : bootimg_h_ok H = true.

Lemma header_set_field32 off v img :
  header (set_field32 off v img) = set_u32 off v (header img).
Proof. reflexivity. Qed.

Lemma justified_version_new img :
  (if dtb_size H img >? 0 then 2
   else if recovery_dtbo_size H img >? 0 then 1 else 0)
  = justified_version H img.
Proof.
  unfold justified_version.
  pose proof (get_u32_range (off_dtb_size H) (header img)) as Rd.
  pose proof (get_u32_range (off_recovery_dtbo_size H) (header img)) as Ro.
  fold (dtb_size H img) in Rd. fold (recovery_dtbo_size H img) in Ro.
  destruct (Z.gtb_spec (dtb_size H img) 0);
    destruct (Z.eqb_spec (dtb_size H img) 0); cbn [negb]; try lia;
    destruct (Z.gtb_spec (recovery_dtbo_size H img) 0);
    destruct (Z.eqb_spec (recovery_dtbo_size H img) 0); cbn [negb]; lia.
Qed.

Lemma update_header_version_unfold img :
  update_header_version H img
  = if justified_version H img >? header_version H img
    then
      let img1 :=
        set_field32 (off_header_version H) (justified_version H img) img in
      set_field32 (off_header_size H) (boot_img_header_size H img1) img1
    else img.
Proof.
  unfold update_header_version. rewrite <- justified_version_new.
  destruct (dtb_size H img >? 0); reflexivity.
Qed.

Lemma justified_version_range img : 0 <= justified_version H img <= 2.
Proof.
  unfold justified_version.
  destruct (dtb_size H img =? 0), (recovery_dtbo_size H img =? 0);
    cbn [negb]; lia.
Qed.

(** What a promotion that raises the version leaves behind. *)
Lemma promoted_fields img :
  length (header img) = sizeof_boot_img_hdr_v2 H ->
  let v := justified_version H img in
  let img1 := set_field32 (off_header_version H) v img in
  let img' := set_field32 (off_header_size H) (boot_img_header_size H img1) img1 in
  header_version H img' = v
  /\ header_size H img' = Z.of_nat (sizeof_hdr H v)
  /\ recovery_dtbo_size H img' = recovery_dtbo_size H img
  /\ dtb_size H img' = dtb_size H img.
Proof.
  intros Hlen v img1 img'.
  pose proof (layout_bounds H Hok) as B.
  pose proof (justified_version_range img) as Rv. fold v in Rv.
  field_disjoint H Hok 9%nat 14%nat.
  field_disjoint H Hok 9%nat 12%nat.
  field_disjoint H Hok 9%nat 15%nat.
  field_disjoint H Hok 12%nat 14%nat.
  field_disjoint H Hok 14%nat 15%nat.
  assert (Ev1 : header_version H img1 = v).
  { unfold header_version, img1. rewrite header_set_field32.
    rewrite get_set_u32_same by lia. apply u32_small.
    unfold UINT32_MOD. lia. }
  unfold header_version, header_size, recovery_dtbo_size, dtb_size, img'.
  rewrite !header_set_field32.
  repeat split.
  - rewrite get_set_u32_other by lia. exact Ev1.
  - rewrite get_set_u32_same by (unfold img1; rewrite header_set_field32,
                                   length_set_u32; lia).
    unfold boot_img_header_size. rewrite Ev1. apply u32_small.
    pose proof (sizeof_hdr_bounds H Hok v). lia.
  - unfold img1. rewrite header_set_field32.
    rewrite !get_set_u32_other by lia. reflexivity.
  - unfold img1. rewrite header_set_field32.
    rewrite !get_set_u32_other by lia. reflexivity.
Qed.


End Promotion.


(** ** C strings *)

Lemma byte_eqb_spec (a b : byte) : reflect (a = b) (Byte.eqb a b).
Proof.
  destruct (Byte.eqb a b) eqn:E; constructor.
  - apply Byte.byte_dec_bl; assumption.
  - apply Byte.eqb_false; assumption.
Qed.

Lemma bytes_eqb_eq (a b : list byte) : bytes_eqb a b = true <-> a = b.
Proof.
  revert b. induction a as [|x a IH]; intros [|y b]; cbn [bytes_eqb].
  - tauto.
  - split; discriminate.
  - split; discriminate.
  - rewrite andb_true_iff, IH.
    destruct (byte_eqb_spec x y) as [E|N].
    + subst. split; [intros [_ E]; subst; reflexivity|].
      intros E. inversion E. auto.
    + split; [intros [F _]; discriminate F|].
      intros E. inversion E. contradiction.
Qed.

Lemma nul_free_c_str s : nul_free (c_str s).
Proof.
  induction s as [|b s IH]; cbn [c_str]; [constructor|].
  destruct (byte_eqb_spec b NUL); constructor; assumption.
Qed.

Lemma Forall_until_char (P : byte -> Prop) c s :
  Forall P s -> Forall P (until_char c s).
Proof.
  induction 1 as [|b s Hb Hs IH]; cbn [until_char]; [constructor|].
  destruct (Byte.eqb b c); constructor; assumption.
Qed.

Lemma Forall_skipn_bytes (P : byte -> Prop) n s :
  Forall P s -> Forall P (skipn n s).
Proof.
  revert s. induction n as [|n IH]; intros s Hs; [exact Hs|].
  destruct Hs; cbn [skipn]; [constructor|apply IH; assumption].
Qed.

Lemma Forall_firstn_bytes (P : byte -> Prop) n s :
  Forall P s -> Forall P (firstn n s).
Proof.
  revert s. induction n as [|n IH]; intros s Hs; [constructor|].
  destruct Hs; cbn [firstn]; constructor; auto.
Qed.

Lemma c_str_nul_free s : nul_free s -> c_str s = s.
Proof.
  induction 1 as [|b s Hb Hs IH]; cbn [c_str]; [reflexivity|].
  destruct (byte_eqb_spec b NUL); [contradiction|]. rewrite IH. reflexivity.
Qed.

Lemma c_str_app_zeros s n :
  nul_free s -> c_str (s ++ zeros n) = s.
Proof.
  induction 1 as [|b s Hb Hs IH]; cbn [c_str app].
  - destruct n; reflexivity.
  - destruct (byte_eqb_spec b NUL); [contradiction|]. rewrite IH.
    reflexivity.
Qed.

Lemma length_c_str s : (length (c_str s) <= length s)%nat.
Proof.
  induction s as [|b s IH]; cbn [c_str length]; [lia|].
  destruct (Byte.eqb b NUL); cbn [length]; lia.
Qed.

Lemma length_until_char c s : (length (until_char c s) <= length s)%nat.
Proof.
  induction s as [|b s IH]; cbn [until_char length]; [lia|].
  destruct (Byte.eqb b c); cbn [length]; lia.
Qed.

Lemma until_char_absent c s :
  Forall (fun b => b <> c) s -> until_char c s = s.
Proof.
  induction 1 as [|b s Hb Hs IH]; cbn [until_char]; [reflexivity|].
  destruct (byte_eqb_spec b c); [contradiction|]. rewrite IH. reflexivity.
Qed.

(** [strncmp] against a key of [n] characters compares the first [n]
    characters of the token with the key. *)
Lemma strncmp_eq_starts_with key token :
  nul_free key ->
  strncmp_eq token key (length key) = starts_with key token.
Proof.
  unfold starts_with. intros Hk. revert token.
  induction Hk as [|k key Hk0 Hk IH]; intros token; [reflexivity|].
  cbn [length strncmp_eq hd tl].
  destruct token as [|t token]; cbn [hd tl firstn bytes_eqb].
  - destruct (byte_eqb_spec NUL k); [congruence|reflexivity].
  - destruct (byte_eqb_spec t k); cbn [andb]; [|reflexivity].
    subst. destruct (byte_eqb_spec k NUL); [contradiction|]. apply IH.
Qed.

Lemma strncmp_eq_same s n :
  nul_free s -> (length s < n)%nat -> strncmp_eq s s n = true.
Proof.
  intros Hs. revert n. induction Hs as [|b s Hb Hs IH]; intros n Hn.
  - destruct n; reflexivity.
  - destruct n as [|n]; [reflexivity|]. cbn [strncmp_eq hd tl].
    destruct (byte_eqb_spec b b); [|congruence].
    destruct (byte_eqb_spec b NUL); [reflexivity|].
    apply IH. simpl in Hn. lia.
Qed.

(** [strcmp] on strings without NUL is equality. *)
Lemma strcmp_eq_bytes_eqb a b :
  nul_free a -> nul_free b -> strcmp_eq a b = bytes_eqb a b.
Proof.
  unfold strcmp_eq. intros Ha. revert b.
  induction Ha as [|x a Hx Ha IH]; intros b Hb.
  - destruct Hb as [|y b Hy Hb]; [reflexivity|].
    cbn [length Nat.max strncmp_eq hd tl bytes_eqb].
    destruct (byte_eqb_spec NUL y); [congruence|reflexivity].
  - destruct Hb as [|y b Hy Hb].
    + cbn [length Nat.max strncmp_eq hd tl bytes_eqb].
      destruct (byte_eqb_spec x NUL); [contradiction|reflexivity].
    + cbn [length Nat.max strncmp_eq hd tl bytes_eqb].
      destruct (byte_eqb_spec x y); cbn [andb]; [|reflexivity].
      destruct (byte_eqb_spec x NUL); [contradiction|].
      apply IH. assumption.
Qed.

(** ** The command line entry (C7) *)

Lemma split_entry_cmdline s :
  split_entry (str "cmdline = " ++ s)
  = (str "cmdline = " ++ until_char NEWLINE (c_str s), str "cmdline",
     Some (cmdline_value s)).
Proof.
  unfold split_entry, cmdline_value.
  let v := eval vm_compute in (str "cmdline = ") in
  change (str "cmdline = ") with v.
  let v := eval vm_compute in (str "cmdline") in
  change (str "cmdline") with v.
  cbn. reflexivity.
Qed.

Lemma length_cmdline_value s : (length (cmdline_value s) <= length s)%nat.
Proof.
  unfold cmdline_value. rewrite length_skipn.
  pose proof (length_until_char NEWLINE (c_str s)).
  pose proof (length_c_str s). lia.
Qed.

Lemma nul_free_cmdline_value s : nul_free (cmdline_value s).
Proof.
  unfold cmdline_value. apply Forall_skipn_bytes, Forall_until_char.
  apply nul_free_c_str.
Qed.

Lemma plain_value_whole s : plain_value s = true -> cmdline_value s = s.
Proof.
  unfold plain_value, cmdline_value. rewrite andb_true_iff.
  intros [Hall Hhd]. rewrite forallb_forall in Hall.
  assert (Hn : nul_free s).
  { apply Forall_forall. intros b Hb. specialize (Hall b Hb).
    apply andb_true_iff in Hall. destruct Hall as [Hall _].
    destruct (byte_eqb_spec b NUL); [discriminate|assumption]. }
  assert (Hl : Forall (fun b => b <> NEWLINE) s).
  { apply Forall_forall. intros b Hb. specialize (Hall b Hb).
    apply andb_true_iff in Hall. destruct Hall as [_ Hall].
    destruct (byte_eqb_spec b NEWLINE); [discriminate|assumption]. }
  rewrite (c_str_nul_free s Hn), (until_char_absent NEWLINE s Hl).
  destruct s as [|b s]; [reflexivity|]. cbn [hd] in Hhd. cbn [strspn].
  destruct (in_set b [SPACE; TAB]); [discriminate|reflexivity].
Qed.

Section CommandLine.

Variable H : bootimg_h.
Hypothesis Hok : bootimg_h_ok H = true.

Lemma update_header_entry_cmdline img s :
  update_header_entry H img (str "cmdline = " ++ s)
  = set_cmdline H (cmdline_value s) img.
Proof.
  unfold update_header_entry. rewrite split_entry_cmdline.
  change (strcmp_eq (str "cmdline") (str "cmdline")) with true.
  reflexivity.
Qed.

(** C7, as amended: for a string [s] of fewer than 2^32 characters, let
    [v] be the value the parser takes from ["cmdline = " ++ s] ([s] up to its
    first NUL or line break, leading blanks and tabs dropped).  The entry
    fails with [CmdlineTooLong] exactly when [length v + 1] exceeds
    [BOOT_ARGS_SIZE]; otherwise the command line field holds [v], a NUL and
    zeros up to its capacity, so the string stored is [v]; and [v] is [s]
    itself when [s] has no NUL, no line break and no leading blank or tab. *)
Theorem cmdline_entry (img : t_abootimg) (s : list byte) :
  length (header img) = sizeof_boot_img_hdr_v2 H ->
  Z.of_nat (length s) < UINT32_MOD ->
  let v := cmdline_value s in
  let r := update_header_entry H img (str "cmdline = " ++ s) in
  ((exists len, r = Abort (CmdlineTooLong len))
   <-> (BOOT_ARGS_SIZE H < length v + 1)%nat)
  /\ ((length v + 1 <= BOOT_ARGS_SIZE H)%nat ->
      exists img',
        r = Ok img'
        /\ cmdline H img' = v ++ zeros (BOOT_ARGS_SIZE H - length v)
        /\ c_str (cmdline H img') = v)
  /\ (plain_value s = true -> v = s).
Proof.
  intros Hlen Hs v r.
  pose proof (layout_bounds H Hok) as B.
  pose proof (length_cmdline_value s) as Lv. fold v in Lv.
  assert (Er : r = set_cmdline H v img)
    by apply update_header_entry_cmdline.
  assert (Eu : u32 (Z.of_nat (length v)) = Z.of_nat (length v))
    by (apply u32_small; lia).
  unfold set_cmdline in Er. rewrite Eu in Er.
  split; [|split].
  - rewrite Er.
    destruct (Z.geb_spec (Z.of_nat (length v)) (Z.of_nat (BOOT_ARGS_SIZE H)))
      as [Hge|Hlt].
    + split; [intros _; lia|]. intros _. eexists. reflexivity.
    + destruct (Nat.ltb_spec (length v) (BOOT_ARGS_SIZE H)); [|lia].
      split; [intros [len F]; discriminate F|lia].
  - intros Hfit. rewrite Er.
    destruct (Z.geb_spec (Z.of_nat (length v)) (Z.of_nat (BOOT_ARGS_SIZE H)));
      [lia|].
    destruct (Nat.ltb_spec (length v) (BOOT_ARGS_SIZE H)); [|lia].
    eexists. split; [reflexivity|].
    assert (Ec : cmdline H
                   (set_header
                      (store (off_cmdline H)
                         (v ++ zeros (BOOT_ARGS_SIZE H - length v))
                         (header img)) img)
                 = v ++ zeros (BOOT_ARGS_SIZE H - length v)).
    { unfold cmdline. cbn [header set_header].
      assert (El : length (v ++ zeros (BOOT_ARGS_SIZE H - length v))
                   = BOOT_ARGS_SIZE H).
      { rewrite length_app. unfold zeros. rewrite repeat_length. lia. }
      rewrite <- El at 1. apply load_store_same. rewrite El. lia. }
    split; [exact Ec|]. rewrite Ec.
    apply c_str_app_zeros, nul_free_cmdline_value.
  - apply plain_value_whole.
Qed.

End CommandLine.

(** ** Rejected entries (C8) *)

Lemma nul_free_token cmd :
  nul_free (snd (fst (split_entry cmd))).
Proof.
  assert (T : forall p, snd (fst (split_entry cmd)) = p -> nul_free p).
  { unfold split_entry. intros p.
    set (line := until_char NEWLINE (c_str cmd)).
    set (p0 := skipn (strspn line [SPACE; TAB]) line).
    set (tok := firstn (strcspn p0 [SPACE; EQUALS; TAB]) p0).
    assert (Ht : nul_free tok).
    { apply Forall_firstn_bytes, Forall_skipn_bytes, Forall_until_char.
      apply nul_free_c_str. }
    destruct (skipn _ (skipn _ p0)) as [|c q];
      [|destruct (Byte.eqb c EQUALS)]; cbn [fst snd]; intros <-; exact Ht. }
  apply (T _ eq_refl).
Qed.

Lemma nul_free_keys : Forall nul_free recognized_keys.
Proof.
  unfold recognized_keys. cbn [map].
  repeat (constructor;
          [vm_compute; repeat (constructor; [discriminate|]); constructor|]).
  constructor.
Qed.

Lemma strncmp_key key token :
  In key recognized_keys ->
  strncmp_eq token key (length key) = starts_with key token.
Proof.
  intros Hin. apply strncmp_eq_starts_with.
  pose proof nul_free_keys as K. rewrite Forall_forall in K. auto.
Qed.

Lemma key_tests token :
  nul_free token ->
  strcmp_eq token (str "cmdline")
  || (strncmp_eq token (str "name") 4
      || (strncmp_eq token (str "bootsize") 8
          || (strncmp_eq token (str "pagesize") 8
              || (strncmp_eq token (str "kerneladdr") 10
                  || (strncmp_eq token (str "ramdiskaddr") 11
                      || (strncmp_eq token (str "secondaddr") 10
                          || (strncmp_eq token (str "tagsaddr") 8
                              || (strncmp_eq token (str "recoverydtobooffs") 17
                                  || (strncmp_eq token (str "dtbaddr") 7
                                      || false)))))))))
  = key_accepted token.
Proof.
  intros Ht.
  rewrite strcmp_eq_bytes_eqb;
    [|assumption|vm_compute; repeat (constructor; [discriminate|]); constructor].
  assert (K : forall key, In key recognized_keys ->
                         strncmp_eq token key (length key)
                         = starts_with key token)
    by (intros; apply strncmp_key; assumption).
  unfold recognized_keys in K. cbn [map In] in K.
  repeat match goal with
         | |- context [strncmp_eq token (str ?k) ?n] =>
             change (strncmp_eq token (str k) n)
               with (strncmp_eq token (str k) (length (str k)));
             rewrite (K (str k)) by auto 12
         end.
  reflexivity.
Qed.

(** The chain of key tests of [update_header_entry] rejects exactly the
    tokens [key_accepted] rejects. *)
Lemma update_header_entry_split (H : bootimg_h) img cmd :
  update_header_entry H img cmd
  = match split_entry cmd with
    | (token_start, _, None) => Abort (BadConfigEntry token_start)
    | (_, token, Some value) =>
        if key_accepted token
        then update_header_entry H img cmd
        else Abort (BadConfigEntry token)
    end.
Proof.
  pose proof (nul_free_token cmd) as Ht.
  unfold update_header_entry.
  destruct (split_entry cmd) as [[token_start token] [value|]];
    [|reflexivity].
  cbn [fst snd] in Ht.
  destruct (key_accepted token) eqn:Ek; [reflexivity|].
  rewrite <- (key_tests token Ht) in Ek.
  repeat (apply orb_false_iff in Ek; destruct Ek as [?E Ek]).
  rewrite E, E0, E1, E2, E3, E4, E5, E6, E7, E8. reflexivity.
Qed.

Lemma split_entry_without_equals cmd :
  ~ In EQUALS cmd -> snd (split_entry cmd) = None.
Proof.
  intros Hno.
  assert (Hall : Forall (fun b => b <> EQUALS) cmd).
  { apply Forall_forall. intros b Hb E. subst. contradiction. }
  assert (Hc : Forall (fun b => b <> EQUALS) (c_str cmd)).
  { clear Hno. induction Hall as [|b s Hb Hs IH]; cbn [c_str];
      [constructor|].
    destruct (Byte.eqb b NUL); constructor; assumption. }
  unfold split_entry.
  set (line := until_char NEWLINE (c_str cmd)).
  set (p0 := skipn (strspn line [SPACE; TAB]) line).
  set (p1 := skipn (strcspn p0 [SPACE; EQUALS; TAB]) p0).
  assert (Hp : Forall (fun b => b <> EQUALS)
                 (skipn (strspn p1 [SPACE; TAB]) p1)).
  { repeat apply Forall_skipn_bytes. apply Forall_until_char. exact Hc. }
  destruct (skipn (strspn p1 [SPACE; TAB]) p1) as [|c q]; [reflexivity|].
  inversion Hp as [|? ? Hc0 _]; subst.
  destruct (byte_eqb_spec c EQUALS); [contradiction|reflexivity].
Qed.

Lemma update_header_lines_stop (H : bootimg_h) img0 before img cmd rest c :
  update_header_lines H img0 before = Ok img ->
  update_header_entry H img cmd = Abort c ->
  update_header_lines H img0 (before ++ cmd :: rest) = Abort c.
Proof.
  revert img0. induction before as [|l before IH]; intros img0 Hb Hc.
  - cbn [update_header_lines] in Hb. inversion Hb; subst.
    cbn [app update_header_lines]. rewrite Hc. reflexivity.
  - cbn [app update_header_lines] in *.
    destruct (update_header_entry H img0 l) as [img1| |]; cbn [bind] in *;
      try discriminate.
    apply IH; assumption.
Qed.

(** C8, as amended: a line whose token is not followed (blanks apart) by
    [=] fails with [BadConfigEntry], which then carries the line from the
    token on, and so does every line without any [=]; a line whose token is
    neither [cmdline] nor begins with one of the nine other keys fails with
    [BadConfigEntry] carrying the token; a token that is a key, or begins
    with one of the nine, is never reported as a bad entry.  The failure
    ends the run at that line: no header comes out of it, whatever lines
    follow. *)
Theorem bad_config_entry (H : bootimg_h) (img : t_abootimg)
  (cmd : list byte) :
  let token_start := fst (fst (split_entry cmd)) in
  let token := snd (fst (split_entry cmd)) in
  let value := snd (split_entry cmd) in
  (value = None ->
   update_header_entry H img cmd = Abort (BadConfigEntry token_start))
  /\ (~ In EQUALS cmd -> value = None)
  /\ (value <> None -> key_accepted token = false ->
      update_header_entry H img cmd = Abort (BadConfigEntry token))
  /\ (value <> None -> key_accepted token = true ->
      forall t, update_header_entry H img cmd <> Abort (BadConfigEntry t))
  /\ (In token recognized_keys -> key_accepted token = true)
  /\ (forall c img0 before rest,
        update_header_lines H img0 before = Ok img ->
        update_header_entry H img cmd = Abort c ->
        update_header_lines H img0 (before ++ cmd :: rest) = Abort c).
Proof.
  cbv zeta. repeat split.
  - intros Hv. rewrite update_header_entry_split.
    destruct (split_entry cmd) as [[ts tok] [v|]]; cbn [fst snd] in *;
      [discriminate|reflexivity].
  - apply split_entry_without_equals.
  - intros Hv Hk. rewrite update_header_entry_split.
    destruct (split_entry cmd) as [[ts tok] [v|]]; cbn [fst snd] in *;
      [|congruence].
    rewrite Hk. reflexivity.
  - intros Hv Hk t. unfold update_header_entry.
    destruct (split_entry cmd) as [[ts tok] [v|]] eqn:Es; cbn [fst snd] in *;
      [|congruence].
    pose proof (nul_free_token cmd) as Ht. rewrite Es in Ht.
    cbn [fst snd] in Ht.
    pose proof (key_tests tok Ht) as K. rewrite Hk in K.
    unfold set_cmdline. revert K.
    repeat match goal with
           | |- context [if ?b then _ else _] => destruct b
           end; cbn [orb]; intros K; discriminate.
  - unfold recognized_keys. cbn [map In]. intros Hin.
    repeat (destruct Hin as [Hin|Hin]; [rewrite <- Hin; vm_compute; reflexivity|]).
    contradiction.
  - intros c img0 before rest. apply update_header_lines_stop.
Qed.

Lemma cmdline_entry_witness :
  bootimg_h_ok aosp_bootimg_h = true
  /\ Z.of_nat (length (str "console=ttyS0")) < UINT32_MOD
  /\ exists img',
       update_header_entry aosp_bootimg_h (new_bootimg aosp_bootimg_h)
         (str "cmdline = " ++ str "console=ttyS0") = Ok img'
       /\ c_str (cmdline aosp_bootimg_h img') = str "console=ttyS0".
Proof.
  pose proof (cmdline_entry aosp_bootimg_h eq_refl
                (new_bootimg aosp_bootimg_h) (str "console=ttyS0")
                eq_refl eq_refl) as W.
  cbv zeta in W. destruct W as (_ & W & P).
  rewrite (P eq_refl) in W.
  split; [reflexivity|]. split; [reflexivity|].
  destruct W as (img' & E & _ & C).
  - apply Nat.leb_le. reflexivity.
  - exists img'. split; assumption.
Defined.

(** C7 as stated fails on a value with a blank in front: from
    ["cmdline =  a"] the string stored is ["a"], not [" a"]; and a value of
    512 blanks, longer than the field, is stored as the empty string
    without any failure. *)
Lemma cmdline_entry_counterexample :
  (exists img',
     update_header_entry aosp_bootimg_h (new_bootimg aosp_bootimg_h)
       (str "cmdline = " ++ str " a") = Ok img'
     /\ c_str (cmdline aosp_bootimg_h img') = str "a"
     /\ str "a" <> str " a")
  /\ (exists img',
        update_header_entry aosp_bootimg_h (new_bootimg aosp_bootimg_h)
          (str "cmdline = " ++ repeat SPACE 512) = Ok img'
        /\ c_str (cmdline aosp_bootimg_h img') = []
        /\ (BOOT_ARGS_SIZE aosp_bootimg_h < length (repeat SPACE 512) + 1)%nat).
Proof.
  split.
  - apply holds_on_exists. vm_compute.
    split; [reflexivity|discriminate].
  - apply holds_on_exists.
    assert (L : (BOOT_ARGS_SIZE aosp_bootimg_h
                 < length (repeat SPACE 512) + 1)%nat)
      by (apply Nat.ltb_lt; reflexivity).
    revert L. generalize (BOOT_ARGS_SIZE aosp_bootimg_h
                          < length (repeat SPACE 512) + 1)%nat.
    intros Q L. vm_compute. split; [reflexivity|exact L].
Qed.

Lemma bad_config_entry_witness :
  update_header_entry aosp_bootimg_h (new_bootimg aosp_bootimg_h)
    (str "foo bar") = Abort (BadConfigEntry (str "foo bar"))
  /\ update_header_entry aosp_bootimg_h (new_bootimg aosp_bootimg_h)
       (str "bogus = 1") = Abort (BadConfigEntry (str "bogus"))
  /\ update_header_lines aosp_bootimg_h (new_bootimg aosp_bootimg_h)
       ([] ++ str "bogus = 1" :: [str "pagesize = 4096"])
     = Abort (BadConfigEntry (str "bogus")).
Proof.
  pose proof (bad_config_entry aosp_bootimg_h (new_bootimg aosp_bootimg_h)
                (str "foo bar")) as W1.
  pose proof (bad_config_entry aosp_bootimg_h (new_bootimg aosp_bootimg_h)
                (str "bogus = 1")) as W2.
  cbv zeta in W1, W2.
  destruct W1 as (W1 & _). destruct W2 as (_ & _ & W2 & _ & _ & W3).
  split; [apply W1; reflexivity|].
  assert (E : update_header_entry aosp_bootimg_h (new_bootimg aosp_bootimg_h)
                (str "bogus = 1") = Abort (BadConfigEntry (str "bogus"))).
  { apply W2; [vm_compute; discriminate|reflexivity]. }
  split; [exact E|].
  apply W3; [reflexivity|exact E].
Defined.

(** C8 as stated fails on a token that only begins with a key: [names] is
    none of the ten keys, yet ["names = x"] is taken for [name] and sets
    the boot name. *)
Lemma bad_config_entry_counterexample :
  ~ In (str "names") recognized_keys
  /\ snd (fst (split_entry (str "names = x"))) = str "names"
  /\ c_str (name aosp_bootimg_h (new_bootimg aosp_bootimg_h)) = []
  /\ exists img',
       update_header_entry aosp_bootimg_h (new_bootimg aosp_bootimg_h)
         (str "names = x") = Ok img'
       /\ c_str (name aosp_bootimg_h img') = str "x".
Proof.
  split.
  { unfold recognized_keys. cbn [map In]. intros F.
    repeat (destruct F as [F|F]; [vm_compute in F; discriminate F|]).
    exact F. }
  split; [vm_compute; reflexivity|]. split; [vm_compute; reflexivity|].
  apply holds_on_exists. vm_compute. reflexivity.
Qed.

(** ** Streams *)

Lemma fread_enough sz f :
  sz <> O -> (sz <= length (skipn (fpos f) (contents f)))%nat ->
  fread sz f
  = (1, firstn sz (skipn (fpos f) (contents f)),
     {| contents := contents f; fpos := (fpos f + sz)%nat; feof := feof f;
        st_isblk := st_isblk f |}).
Proof.
  intros Hnz Hle. unfold fread.
  destruct (Nat.eqb_spec sz 0); [contradiction|].
  destruct (Nat.leb_spec sz (length (skipn (fpos f) (contents f))));
    [reflexivity|lia].
Qed.

Lemma fread_short sz f :
  (length (skipn (fpos f) (contents f)) < sz)%nat ->
  fread sz f
  = (0, skipn (fpos f) (contents f),
     {| contents := contents f;
        fpos := (fpos f + length (skipn (fpos f) (contents f)))%nat;
        feof := true; st_isblk := st_isblk f |}).
Proof.
  intros Hlt. unfold fread.
  destruct (Nat.eqb_spec sz 0); [lia|].
  destruct (Nat.leb_spec sz (length (skipn (fpos f) (contents f))));
    [lia|reflexivity].
Qed.

Lemma store_app_r (n : nat) (a b bs : list byte) :
  length a = n -> (length bs <= length b)%nat ->
  store n bs (a ++ b) = a ++ bs ++ skipn (length bs) b.
Proof.
  intros <- Hfit. unfold store. rewrite length_app.
  destruct (Nat.leb_spec (length a + length bs) (length a + length b));
    [|lia].
  rewrite firstn_app, firstn_all, Nat.sub_diag, firstn_O, app_nil_r.
  rewrite skipn_app, skipn_all2 by lia.
  replace (length a + length bs - length a)%nat with (length bs) by lia.
  reflexivity.
Qed.

Lemma store_0 (bs m : list byte) :
  (length bs <= length m)%nat -> store 0 bs m = bs ++ skipn (length bs) m.
Proof. intros Hfit. apply (store_app_r 0 [] m bs eq_refl Hfit). Qed.

Lemma firstn_split (a b : nat) (l : list byte) :
  (a <= b)%nat -> firstn a l ++ firstn (b - a) (skipn a l) = firstn b l.
Proof.
  intros Hab. rewrite <- (firstn_skipn a l) at 3.
  rewrite firstn_app, length_firstn.
  destruct (Nat.le_ge_cases a (length l)) as [Hl|Hl].
  - rewrite Nat.min_l by lia. rewrite firstn_firstn, Nat.min_r by lia.
    reflexivity.
  - rewrite (skipn_all2 l) by lia. rewrite !firstn_nil, !app_nil_r.
    rewrite firstn_firstn, Nat.min_r by lia. reflexivity.
Qed.

Lemma skipn_plus (a b : nat) (l : list byte) :
  skipn (a + b) l = skipn b (skipn a l).
Proof. rewrite skipn_skipn. f_equal. lia. Qed.

Lemma load_app_l off len (a b : list byte) :
  (off + len <= length a)%nat -> load off len (a ++ b) = load off len a.
Proof.
  intros Hfit. unfold load. rewrite skipn_app, firstn_app, length_skipn.
  replace (len - (length a - off))%nat with O by lia.
  rewrite firstn_O, app_nil_r. reflexivity.
Qed.

Lemma load_firstn off len n (l : list byte) :
  (off + len <= n)%nat -> load off len (firstn n l) = load off len l.
Proof.
  intros Hfit. unfold load. rewrite skipn_firstn_comm, firstn_firstn.
  rewrite Nat.min_l by lia. reflexivity.
Qed.

(** ** Reading the header (C9) *)

Section Decode.

Variable H : bootimg_h.
Hypothesis Hok : bootimg_h_ok H = true.

(** The version the first read leaves in the union. *)
Lemma read_prefix_version (img : t_abootimg) (data : list byte) (f1 : FILE) :
  (sizeof_boot_img_hdr_v0 H <= length data)%nat ->
  length (header img) = sizeof_boot_img_hdr_v2 H ->
  header_version H
    (set_stream f1
       (set_header
          (store 0 (firstn (sizeof_boot_img_hdr_v0 H) data) (header img))
          img))
  = get_u32 (off_header_version H) data.
Proof.
  intros Hl Hlen. pose proof (layout_bounds H Hok) as B.
  unfold header_version, get_u32. cbn [header set_stream set_header].
  assert (L0 : length (firstn (sizeof_boot_img_hdr_v0 H) data)
               = sizeof_boot_img_hdr_v0 H)
    by (rewrite length_firstn; lia).
  rewrite store_0 by lia.
  rewrite load_app_l by lia. rewrite load_firstn by lia. reflexivity.
Qed.

(** A stream that holds the whole header of the version it declares. *)
Lemma read_header_enough (img : t_abootimg) :
  length (header img) = sizeof_boot_img_hdr_v2 H ->
  feof (stream img) = false ->
  let data := skipn (fpos (stream img)) (contents (stream img)) in
  let hsz := sizeof_hdr H (get_u32 (off_header_version H) data) in
  (hsz <= length data)%nat ->
  read_header H img = validated H (decoded_image H img).
Proof.
  intros Hlen Hfeof data hsz Hl.
  set (version := get_u32 (off_header_version H) data) in *.
  pose proof (layout_bounds H Hok) as B.
  pose proof (sizeof_hdr_bounds H Hok version) as Bh. fold hsz in Bh.
  unfold read_header.
  rewrite fread_enough by (fold data; lia). fold data.
  cbn [Z.eqb Pos.eqb negb]. rewrite Hfeof.
  rewrite (read_prefix_version img data _ ltac:(lia) Hlen).
  fold version. fold hsz.
  assert (L0 : length (firstn (sizeof_boot_img_hdr_v0 H) data)
               = sizeof_boot_img_hdr_v0 H)
    by (rewrite length_firstn; lia).
  assert (Ez : forall tail : list byte,
             length tail = (sizeof_boot_img_hdr_v2 H - hsz)%nat ->
             store hsz (zeros (sizeof_boot_img_hdr_v2 H - hsz))
               (firstn hsz data ++ tail)
             = firstn hsz data ++ zeros (sizeof_boot_img_hdr_v2 H - hsz)).
  { intros tail Ht.
    assert (Lh : length (firstn hsz data) = hsz)
      by (rewrite length_firstn; lia).
    rewrite store_app_r
      by (unfold zeros; try rewrite repeat_length; lia).
    unfold zeros. rewrite repeat_length.
    rewrite skipn_all2 by lia. rewrite app_nil_r. reflexivity. }
  destruct (Nat.ltb_spec (sizeof_boot_img_hdr_v0 H) hsz) as [Hlt|Hge].
  - rewrite fread_enough.
    2: lia.
    2: { cbn [contents fpos]. rewrite skipn_plus. fold data.
         rewrite length_skipn. lia. }
    cbn [contents fpos feof st_isblk]. cbn [bind].
    cbn [header set_stream set_header stream].
    rewrite skipn_plus. fold data.
    rewrite store_0 by lia. rewrite L0.
    rewrite store_app_r
      by (try rewrite length_firstn; rewrite ?length_skipn; lia).
    rewrite app_assoc, firstn_split by lia.
    rewrite Ez by (rewrite length_firstn, !length_skipn; lia).
    unfold validated, decoded_image. fold data. fold version. fold hsz.
    cbn [contents st_isblk set_size set_stream set_header stream size
         is_blkdev header kernel_fname ramdisk_fname second_fname
         dtbo_fname dtb_fname kernel ramdisk second dtbo dtb].
    replace (fpos (stream img) + sizeof_boot_img_hdr_v0 H
             + (hsz - sizeof_boot_img_hdr_v0 H))%nat
      with (fpos (stream img) + hsz)%nat by lia.
    reflexivity.
  - assert (Eh : hsz = sizeof_boot_img_hdr_v0 H) by lia.
    cbn [bind]. cbn [header set_stream set_header stream].
    rewrite store_0 by lia. rewrite L0. rewrite <- Eh.
    rewrite Ez by (rewrite length_skipn; lia).
    unfold validated, decoded_image. fold data. fold version. fold hsz.
    cbn [contents st_isblk set_size set_stream set_header stream size
         is_blkdev header kernel_fname ramdisk_fname second_fname
         dtbo_fname dtb_fname kernel ramdisk second dtbo dtb].
    reflexivity.
Qed.

(** The staged decode of the specification, on a stream that holds the
    prefix: the image [decoded_image] describes. *)
Lemma staged_image_decoded (img : t_abootimg) :
  let data := skipn (fpos (stream img)) (contents (stream img)) in
  (sizeof_boot_img_hdr_v0 H <= length data)%nat ->
  get_u32 (off_header_version H) (firstn (sizeof_boot_img_hdr_v0 H) data)
  = get_u32 (off_header_version H) data
  /\ staged_header H data
     = firstn (sizeof_hdr H (get_u32 (off_header_version H) data)) data
       ++ zeros (sizeof_boot_img_hdr_v2 H
                 - sizeof_hdr H (get_u32 (off_header_version H) data))
  /\ staged_image H img = decoded_image H img.
Proof.
  intros data Hl.
  pose proof (layout_bounds H Hok) as B.
  assert (Ev : get_u32 (off_header_version H)
                 (firstn (sizeof_boot_img_hdr_v0 H) data)
               = get_u32 (off_header_version H) data).
  { unfold get_u32. rewrite load_firstn by lia. reflexivity. }
  set (version := get_u32 (off_header_version H) data) in *.
  pose proof (sizeof_hdr_bounds H Hok version) as Bh.
  assert (Eh : staged_header H data
               = firstn (sizeof_hdr H version) data
                 ++ zeros (sizeof_boot_img_hdr_v2 H - sizeof_hdr H version)).
  { unfold staged_header. cbv zeta. rewrite Ev. fold version.
    rewrite <- sizeof_hdr_headerSizeFor.
    rewrite app_assoc, firstn_split by lia. reflexivity. }
  split; [exact Ev|]. split; [exact Eh|].
  unfold staged_image, decoded_image. cbv zeta. fold data.
  rewrite Ev, Eh. fold version. rewrite <- sizeof_hdr_headerSizeFor.
  reflexivity.
Qed.

(** C9: [read_header] takes the version from the first
    [sizeof (struct boot_img_hdr_v0)] bytes at the position of the stream,
    then the rest of the structure of that version, [headerSizeFor] bytes in
    all, from the bytes that follow, and fills the union with zeros from
    there to the version 2 size: the header it validates is that of
    [staged_image].  It aborts, with one of the two conditions of a
    truncated header, when the stream holds fewer bytes than the prefix or
    than the structure of the declared version; a stream of 20 bytes is
    shorter than the prefix, which holds nine words besides the magic, the
    name and the command line. *)
Theorem read_header_staged (img : t_abootimg) :
  length (header img) = sizeof_boot_img_hdr_v2 H ->
  feof (stream img) = false ->
  let data := skipn (fpos (stream img)) (contents (stream img)) in
  let version :=
    get_u32 (off_header_version H) (firstn (sizeof_boot_img_hdr_v0 H) data) in
  let hsz := headerSizeFor H version in
  ((length data < sizeof_boot_img_hdr_v0 H)%nat ->
   read_header H img = Abort ReadError)
  /\ ((sizeof_boot_img_hdr_v0 H <= length data < hsz)%nat ->
      read_header H img = Abort CannotReadHeader)
  /\ ((hsz <= length data)%nat ->
      read_header H img = validated H (staged_image H img)
      /\ header (staged_image H img)
         = firstn hsz data ++ zeros (sizeof_boot_img_hdr_v2 H - hsz)
      /\ length (header (staged_image H img)) = sizeof_boot_img_hdr_v2 H
      /\ fpos (stream (staged_image H img)) = (fpos (stream img) + hsz)%nat)
  /\ ((length data < sizeof_boot_img_hdr_v0 H \/ length data < hsz)%nat ->
      exists c, read_header H img = Abort c /\ TruncatedHeader c)
  /\ (length data = 20%nat ->
      exists c, read_header H img = Abort c /\ TruncatedHeader c).
Proof.
  intros Hlen Hfeof data version hsz.
  pose proof (layout_bounds H Hok) as B.
  assert (Bh : (sizeof_boot_img_hdr_v0 H <= hsz
                <= sizeof_boot_img_hdr_v2 H)%nat).
  { unfold hsz. rewrite <- sizeof_hdr_headerSizeFor.
    apply (sizeof_hdr_bounds H Hok). }
  assert (C1 : (length data < sizeof_boot_img_hdr_v0 H)%nat ->
               read_header H img = Abort ReadError).
  { intros Hshort. unfold read_header.
    rewrite fread_short by exact Hshort. reflexivity. }
  assert (C2 : (sizeof_boot_img_hdr_v0 H <= length data < hsz)%nat ->
               read_header H img = Abort CannotReadHeader).
  { intros [Hl Hs].
    destruct (staged_image_decoded img Hl) as (Ev & _). fold data in Ev.
    unfold read_header.
    rewrite fread_enough by (fold data; lia). fold data.
    cbn [Z.eqb Pos.eqb negb]. rewrite Hfeof.
    rewrite (read_prefix_version img data _ Hl Hlen).
    rewrite <- Ev. fold version.
    rewrite sizeof_hdr_headerSizeFor. fold hsz.
    destruct (Nat.ltb_spec (sizeof_boot_img_hdr_v0 H) hsz); [|lia].
    rewrite fread_short; [reflexivity|].
    cbn [contents fpos]. rewrite skipn_plus. fold data.
    rewrite length_skipn. lia. }
  split; [exact C1|]. split; [exact C2|]. split; [|split].
  - intros Hl.
    destruct (staged_image_decoded img ltac:(fold data; lia))
      as (Ev & Eh & Ed).
    fold data in Ev, Eh. rewrite <- Ev in Eh. fold version in Eh.
    rewrite sizeof_hdr_headerSizeFor in Eh. fold hsz in Eh.
    split; [|split; [|split]].
    + rewrite Ed. apply read_header_enough; try assumption.
      cbv zeta. fold data. rewrite <- Ev. fold version.
      rewrite sizeof_hdr_headerSizeFor. exact Hl.
    + unfold staged_image. cbn [header set_size set_stream set_header].
      fold data. exact Eh.
    + unfold staged_image. cbn [header set_size set_stream set_header].
      fold data. rewrite Eh, length_app, length_firstn. unfold zeros.
      rewrite repeat_length. lia.
    + reflexivity.
  - intros Hshort.
    destruct (Nat.lt_ge_cases (length data) (sizeof_boot_img_hdr_v0 H)).
    + exists ReadError. split; [auto|left; reflexivity].
    + exists CannotReadHeader. split; [apply C2; lia|right; reflexivity].
  - intros H20. pose proof (v0_fields_total H Hok) as Hbig.
    exists ReadError. split; [apply C1; lia|left; reflexivity].
Qed.

End Decode.

Lemma read_header_staged_witness :
  (length (repeat x41 20) = 20%nat
   /\ exists c,
        read_header aosp_bootimg_h
          (image_of (header (new_bootimg aosp_bootimg_h)) 0
             (fopen (repeat x41 20) false)) = Abort c
        /\ TruncatedHeader c)
  /\ (get_u32 (off_header_version aosp_bootimg_h) example_v2_file = 2
      /\ headerSizeFor aosp_bootimg_h 2 = 1660%nat
      /\ read_header aosp_bootimg_h
           (image_of (header (new_bootimg aosp_bootimg_h)) 0
              (fopen (firstn 1640 example_v2_file) false))
         = Abort CannotReadHeader)
  /\ exists img,
       read_header aosp_bootimg_h
         (image_of (header (new_bootimg aosp_bootimg_h)) 0
            (fopen example_v2_file false)) = Ok img
       /\ header img = firstn 1660 example_v2_file
       /\ header_version aosp_bootimg_h img = 2
       /\ dtb_size aosp_bootimg_h img = 100
       /\ fpos (stream img) = 1660%nat.
Proof.
  split; [|split].
  - pose proof (read_header_staged aosp_bootimg_h eq_refl
                  (image_of (header (new_bootimg aosp_bootimg_h)) 0
                     (fopen (repeat x41 20) false)) eq_refl eq_refl) as W.
    cbv zeta in W. destruct W as (_ & _ & _ & _ & W20).
    split; [reflexivity|]. apply W20. reflexivity.
  - pose proof (read_header_staged aosp_bootimg_h eq_refl
                  (image_of (header (new_bootimg aosp_bootimg_h)) 0
                     (fopen (firstn 1640 example_v2_file) false))
                  eq_refl eq_refl) as W.
    cbv zeta in W. destruct W as (_ & W2 & _).
    split; [vm_compute; reflexivity|]. split; [reflexivity|].
    apply W2. vm_compute. split; apply Nat.leb_le; reflexivity.
  - pose proof (read_header_staged aosp_bootimg_h eq_refl
                  (image_of (header (new_bootimg aosp_bootimg_h)) 0
                     (fopen example_v2_file false)) eq_refl eq_refl) as W.
    cbv zeta in W. destruct W as (_ & _ & W3 & _).
    destruct W3 as (Er & Eh & _ & Ep).
    { apply Nat.leb_le. vm_compute. reflexivity. }
    exists (staged_image aosp_bootimg_h
              (image_of (header (new_bootimg aosp_bootimg_h)) 0
                 (fopen example_v2_file false))).
    split; [rewrite Er; vm_compute; reflexivity|].
    split; [rewrite Eh; vm_compute; reflexivity|].
    split; [vm_compute; reflexivity|].
    split; [vm_compute; reflexivity|].
    rewrite Ep. vm_compute. reflexivity.
Defined.

(** ** Assembling the parts *)

Lemma bind_ext {A B : Type} (m : outcome A) (k k' : A -> outcome B) :
  (forall a, k a = k' a) -> bind m k = bind m k'.
Proof. intros E. destruct m; cbn [bind]; auto. Qed.

Lemma part_eqb_eq p q : part_eqb p q = true <-> p = q.
Proof. destruct p, q; cbn [part_eqb]; split; congruence. Qed.

Lemma part_buffer_set_part p q buf img :
  part_buffer q (set_part p buf img)
  = if part_eqb q p then buf else part_buffer q img.
Proof. destruct p, q; reflexivity. Qed.

Section Assembly.

Variable H : bootimg_h.
Hypothesis Hok : bootimg_h_ok H = true.
Variable fs : string -> option (list byte).

Lemma update_images_stages img :
  update_images H fs img
  = if page_size H img =? 0 then Abort ZeroPageSize
    else
      st <- assemble_stage H fs Kernel (part_size H Kernel img)
              (original_offset H Kernel img) (img, false) ;;
      st <- assemble_stage H fs Ramdisk (part_size H Ramdisk img)
              (original_offset H Ramdisk img) st ;;
      st <- assemble_stage H fs Second (part_size H Second img)
              (original_offset H Second img) st ;;
      st <- assemble_stage H fs Dtbo (part_size H Dtbo img)
              (original_offset H Dtbo img) st ;;
      st <- assemble_stage H fs Dtb (part_size H Dtb img)
              (original_offset H Dtb img) st ;;
      fit_container H (fst st).
Proof.
  unfold update_images. destruct (page_size H img =? 0); [reflexivity|].
  apply bind_ext. intros [img1 oc1].
  unfold assemble_stage at 1. cbn [part_fname mandatory orb].
  rewrite andb_true_r.
  apply bind_ext. intros [img2 oc2].
  apply bind_ext. intros [img3 oc3].
  apply bind_ext. intros [img4 oc4].
  apply bind_ext. intros [img5 oc5].
  reflexivity.
Qed.

(** The size fields of the parts and the page size do not overlap. *)

Lemma part_size_fields_disjoint p q :
  p <> q ->
  (off_part_size H p + 4 <= off_part_size H q)%nat
  \/ (off_part_size H q + 4 <= off_part_size H p)%nat.
Proof.
  intros Hpq.
  assert (L : forall i j, (i < j < 17)%nat ->
              let f := nth i (all_fields H) (O, O) in
              let g := nth j (all_fields H) (O, O) in
              (fst f + snd f <= fst g)%nat \/ (fst g + snd g <= fst f)%nat)
    by (intros; apply fields_disjoint; assumption).
  destruct (Nat.lt_trichotomy (part_index p) (part_index q)) as [Hlt|[He|Hgt]].
  - specialize (L (part_index p) (part_index q)).
    destruct p, q; cbn [part_index] in *; try lia;
      specialize (L ltac:(lia)); exact L.
  - destruct p, q; cbn [part_index] in He; congruence || lia.
  - specialize (L (part_index q) (part_index p)).
    destruct p, q; cbn [part_index] in *; try lia;
      specialize (L ltac:(lia)); cbn in L; cbn [off_part_size]; lia.
Qed.

Lemma page_size_field_disjoint p :
  (off_page_size H + 4 <= off_part_size H p)%nat
  \/ (off_part_size H p + 4 <= off_page_size H)%nat.
Proof.
  assert (L : forall i j, (i < j < 17)%nat ->
              let f := nth i (all_fields H) (O, O) in
              let g := nth j (all_fields H) (O, O) in
              (fst f + snd f <= fst g)%nat \/ (fst g + snd g <= fst f)%nat)
    by (intros; apply fields_disjoint; assumption).
  destruct p; cbn [off_part_size].
  - specialize (L 1%nat 8%nat ltac:(lia)). cbn in L. lia.
  - specialize (L 3%nat 8%nat ltac:(lia)). cbn in L. lia.
  - specialize (L 5%nat 8%nat ltac:(lia)). cbn in L. lia.
  - specialize (L 8%nat 12%nat ltac:(lia)). cbn in L. lia.
  - specialize (L 8%nat 15%nat ltac:(lia)). cbn in L. lia.
Qed.

Lemma part_size_bound p :
  (off_part_size H p + 4 <= sizeof_boot_img_hdr_v2 H)%nat.
Proof.
  pose proof (layout_bounds H Hok) as B.
  destruct p; cbn [off_part_size]; lia.
Qed.

Lemma u32_range z : 0 <= u32 z < UINT32_MOD.
Proof. unfold u32. apply Z.mod_pos_bound. unfold UINT32_MOD. lia. Qed.

Lemma u32_u32 z : u32 (u32 z) = u32 z.
Proof. apply u32_small, u32_range. Qed.

Lemma adopt_new_part_spec p fname img :
  adopt_new_part H fs p fname img
  = match fs fname with
    | None => Abort (NewPartError fname)
    | Some data =>
        let len := u32 (Z.of_nat (length data)) in
        if len =? 0 then Abort (NewPartError fname)
        else Ok (set_field32 (off_part_size H p) len
                   (set_part p (Some (firstn (Z.to_nat len) data)) img))
    end.
Proof.
  unfold adopt_new_part, read_new_image_part.
  destruct (fs fname) as [data|]; [|reflexivity].
  cbv zeta. pose proof (u32_range (Z.of_nat (length data))) as R.
  assert (Hle : u32 (Z.of_nat (length data)) <= Z.of_nat (length data)).
  { unfold u32. apply Z.mod_le; unfold UINT32_MOD; lia. }
  destruct (Z.eqb_spec (u32 (Z.of_nat (length data))) 0) as [E0|N0].
  - rewrite E0. reflexivity.
  - rewrite fread_enough.
    + reflexivity.
    + lia.
    + cbn [fopen fpos contents skipn]. lia.
Qed.

Lemma keep_original_part_spec p osize ooffset img :
  keep_original_part p osize ooffset img
  = if (0 <? Z.to_nat osize)%nat
       && (Z.to_nat ooffset + Z.to_nat osize
           <=? length (contents (stream img)))%nat
    then Ok (set_part p (Some (stream_bytes (stream img) ooffset osize))
               (set_stream
                  {| contents := contents (stream img);
                     fpos := (Z.to_nat ooffset + Z.to_nat osize)%nat;
                     feof := false; st_isblk := st_isblk (stream img) |}
                  img))
    else Abort ReadError.
Proof.
  unfold keep_original_part, read_original_image_part, fread, stream_bytes.
  cbn [fseek fpos contents feof st_isblk]. rewrite length_skipn.
  destruct (Nat.eqb_spec (Z.to_nat osize) 0) as [E0|N0].
  - rewrite E0. reflexivity.
  - destruct (Nat.ltb_spec 0 (Z.to_nat osize)); [|lia]. cbn [andb].
    destruct (Nat.leb_spec (Z.to_nat osize)
                (length (contents (stream img)) - Z.to_nat ooffset));
      destruct (Nat.leb_spec (Z.to_nat ooffset + Z.to_nat osize)
                  (length (contents (stream img)))); try lia; reflexivity.
Qed.

Lemma globals_same_refl img : globals_same H img img.
Proof. unfold globals_same. tauto. Qed.

Lemma adopted_part_frame p len buf img :
  length (header img) = sizeof_boot_img_hdr_v2 H ->
  let img' := set_field32 (off_part_size H p) len (set_part p buf img) in
  globals_same H img img'
  /\ (forall q, q <> p -> part_unchanged H q img img')
  /\ part_size H p img' = u32 len
  /\ part_buffer p img' = buf.
Proof.
  intros Hlen img'. unfold img'.
  pose proof (part_size_bound p) as Bp.
  split; [|split; [|split]].
  - unfold globals_same.
    split; [|split; [|split; [|split; [|split]]]];
      try (destruct p; reflexivity).
    + cbn [header set_field32 set_header].
      rewrite length_set_u32. destruct p; reflexivity.
    + unfold page_size. cbn [header set_field32 set_header].
      rewrite get_set_u32_other by apply page_size_field_disjoint.
      destruct p; reflexivity.
  - intros q Hq. split.
    + change (part_buffer q (set_part p buf img) = part_buffer q img).
      rewrite part_buffer_set_part.
      destruct (part_eqb q p) eqn:E; [|reflexivity].
      apply part_eqb_eq in E. contradiction.
    + unfold part_size. cbn [header set_field32 set_header].
      rewrite get_set_u32_other
        by (apply part_size_fields_disjoint; assumption).
      destruct p; reflexivity.
  - unfold part_size. cbn [header set_field32 set_header].
    rewrite get_set_u32_same; [reflexivity|].
    replace (header (set_part p buf img)) with (header img)
      by (destruct p; reflexivity).
    lia.
  - change (part_buffer p (set_part p buf img) = buf).
    rewrite part_buffer_set_part.
    destruct (part_eqb p p) eqn:E; [reflexivity|].
    assert (part_eqb p p = true) by (apply part_eqb_eq; reflexivity).
    congruence.
Qed.

Lemma kept_part_frame p buf f img :
  contents f = contents (stream img) ->
  let img' := set_part p buf (set_stream f img) in
  globals_same H img img'
  /\ (forall q, q <> p -> part_unchanged H q img img')
  /\ part_size H p img' = part_size H p img
  /\ part_buffer p img' = buf.
Proof.
  intros Hc img'. unfold img'. split; [|split; [|split]].
  - unfold globals_same.
    split; [|split; [|split; [|split; [|split]]]];
      try (destruct p; reflexivity).
    destruct p; exact Hc.
  - intros q Hq. split.
    + rewrite part_buffer_set_part.
      destruct (part_eqb q p) eqn:E; [|destruct q; reflexivity].
      apply part_eqb_eq in E. contradiction.
    + destruct p; reflexivity.
  - destruct p; reflexivity.
  - rewrite part_buffer_set_part.
    destruct (part_eqb p p) eqn:E; [reflexivity|].
    assert (part_eqb p p = true) by (apply part_eqb_eq; reflexivity).
    congruence.
Qed.

(** What one stage leaves behind when it succeeds. *)
Lemma assemble_stage_ok p osize ooffset img oc st' :
  length (header img) = sizeof_boot_img_hdr_v2 H ->
  assemble_stage H fs p osize ooffset (img, oc) = Ok st' ->
  globals_same H img (fst st')
  /\ (forall q, q <> p -> part_unchanged H q img (fst st'))
  /\ snd st' = oc || is_some (part_fname p img)
  /\ match part_fname p img with
     | Some fname =>
         exists data,
           fs fname = Some data
           /\ part_size H p (fst st') = u32 (Z.of_nat (length data))
           /\ part_buffer p (fst st')
              = Some (firstn (Z.to_nat (u32 (Z.of_nat (length data)))) data)
     | None =>
         part_size H p (fst st') = part_size H p img
         /\ part_buffer p (fst st')
            = if oc && (mandatory p || negb (part_size H p img =? 0))
              then Some (stream_bytes (stream img) ooffset osize)
              else part_buffer p img
     end.
Proof.
  intros Hlen. unfold assemble_stage.
  destruct (part_fname p img) as [fname|] eqn:Ef.
  - rewrite adopt_new_part_spec.
    destruct (fs fname) as [data|]; cbn [bind]; [|discriminate].
    cbv zeta.
    destruct (u32 (Z.of_nat (length data)) =? 0); cbn [bind];
      [discriminate|].
    intros E. inversion E; subst st'; clear E. cbn [fst snd].
    pose proof (adopted_part_frame p (u32 (Z.of_nat (length data)))
                  (Some (firstn (Z.to_nat (u32 (Z.of_nat (length data))))
                           data)) img Hlen) as F.
    cbv zeta in F. destruct F as (G & U & Sz & Bf).
    rewrite u32_u32 in Sz.
    split; [exact G|]. split; [exact U|].
    split; [rewrite orb_true_r; reflexivity|].
    exists data. auto.
  - destruct (oc && (mandatory p || negb (part_size H p img =? 0))) eqn:Ec.
    + rewrite keep_original_part_spec.
      destruct ((0 <? Z.to_nat osize)%nat
                && (Z.to_nat ooffset + Z.to_nat osize
                    <=? length (contents (stream img)))%nat);
        cbn [bind]; [|discriminate].
      intros E. inversion E; subst st'; clear E. cbn [fst snd].
      pose proof (kept_part_frame p
                    (Some (stream_bytes (stream img) ooffset osize))
                    {| contents := contents (stream img);
                       fpos := (Z.to_nat ooffset + Z.to_nat osize)%nat;
                       feof := false; st_isblk := st_isblk (stream img) |}
                    img eq_refl) as F.
      cbv zeta in F. destruct F as (G & U & Sz & Bf).
      split; [exact G|]. split; [exact U|].
      split; [rewrite orb_false_r; reflexivity|]. auto.
    + intros E. inversion E; subst st'; clear E. cbn [fst snd].
      split; [apply globals_same_refl|].
      split; [intros q _; split; reflexivity|].
      split; [rewrite orb_false_r; reflexivity|]. auto.
Qed.

(** A stage succeeds on a part that is ready. *)
Lemma assemble_stage_ready p osize ooffset img oc :
  match part_fname p img with
  | Some fname =>
      exists data, fs fname = Some data /\ u32 (Z.of_nat (length data)) <> 0
  | None =>
      oc && (mandatory p || negb (part_size H p img =? 0)) = true ->
      0 < osize
      /\ (Z.to_nat ooffset + Z.to_nat osize
          <= length (contents (stream img)))%nat
  end ->
  exists st', assemble_stage H fs p osize ooffset (img, oc) = Ok st'.
Proof.
  unfold assemble_stage.
  destruct (part_fname p img) as [fname|].
  - intros (data & Ed & Nz). rewrite adopt_new_part_spec, Ed. cbv zeta.
    destruct (Z.eqb_spec (u32 (Z.of_nat (length data))) 0); [contradiction|].
    cbn [bind]. eexists. reflexivity.
  - destruct (oc && (mandatory p || negb (part_size H p img =? 0)));
      [|intros _; eexists; reflexivity].
    intros R. destruct (R eq_refl) as [Hpos Hfit].
    rewrite keep_original_part_spec.
    destruct (Nat.ltb_spec 0 (Z.to_nat osize)); [|lia].
    destruct (Nat.leb_spec (Z.to_nat ooffset + Z.to_nat osize)
                (length (contents (stream img)))); [|lia].
    cbn [andb bind]. eexists. reflexivity.
Qed.

Lemma stream_bytes_contents f g offset size :
  contents f = contents g ->
  stream_bytes f offset size = stream_bytes g offset size.
Proof. unfold stream_bytes. intros ->. reflexivity. Qed.

(** The five stages in a row assemble every part. *)
Lemma stages_assemble img img1 oc1 img2 oc2 img3 oc3 img4 oc4 img5 oc5 :
  length (header img) = sizeof_boot_img_hdr_v2 H ->
  assemble_stage H fs Kernel (part_size H Kernel img)
    (original_offset H Kernel img) (img, false) = Ok (img1, oc1) ->
  assemble_stage H fs Ramdisk (part_size H Ramdisk img)
    (original_offset H Ramdisk img) (img1, oc1) = Ok (img2, oc2) ->
  assemble_stage H fs Second (part_size H Second img)
    (original_offset H Second img) (img2, oc2) = Ok (img3, oc3) ->
  assemble_stage H fs Dtbo (part_size H Dtbo img)
    (original_offset H Dtbo img) (img3, oc3) = Ok (img4, oc4) ->
  assemble_stage H fs Dtb (part_size H Dtb img)
    (original_offset H Dtb img) (img4, oc4) = Ok (img5, oc5) ->
  globals_same H img img5
  /\ forall p, part_assembled H fs p img img5.
Proof.
  intros L0 S1 S2 S3 S4 S5.
  apply assemble_stage_ok in S1; [|exact L0]. cbn [fst snd] in S1.
  destruct S1 as ((F1 & C1 & Z1 & B1 & L1 & G1) & U1 & O1 & P1).
  apply assemble_stage_ok in S2; [|congruence]. cbn [fst snd] in S2.
  destruct S2 as ((F2 & C2 & Z2 & B2 & L2 & G2) & U2 & O2 & P2).
  apply assemble_stage_ok in S3; [|congruence]. cbn [fst snd] in S3.
  destruct S3 as ((F3 & C3 & Z3 & B3 & L3 & G3) & U3 & O3 & P3).
  apply assemble_stage_ok in S4; [|congruence]. cbn [fst snd] in S4.
  destruct S4 as ((F4 & C4 & Z4 & B4 & L4 & G4) & U4 & O4 & P4).
  apply assemble_stage_ok in S5; [|congruence]. cbn [fst snd] in S5.
  destruct S5 as ((F5 & C5 & Z5 & B5 & L5 & G5) & U5 & O5 & P5).
  split.
  { unfold globals_same.
    split; [intros q; rewrite F5, F4, F3, F2, F1; reflexivity|].
    repeat split; congruence. }
  rewrite F4 in P5, O5. rewrite F3 in P4, O4, P5, O5.
  rewrite F2 in P3, O3, P4, O4, P5, O5.
  rewrite F1 in P2, O2, P3, O3, P4, O4, P5, O5.
  assert (Es : forall i o z,
             contents (stream i) = contents (stream img) ->
             stream_bytes (stream i) o z = stream_bytes (stream img) o z)
    by (intros; apply stream_bytes_contents; assumption).
  intros p. unfold part_assembled, reread, replaced_before.
  destruct p; cbn [parts_before existsb].
  - (* kernel *)
    destruct (U2 Kernel ltac:(discriminate)) as [b2 s2].
    destruct (U3 Kernel ltac:(discriminate)) as [b3 s3].
    destruct (U4 Kernel ltac:(discriminate)) as [b4 s4].
    destruct (U5 Kernel ltac:(discriminate)) as [b5 s5].
    rewrite b5, b4, b3, b2, s5, s4, s3, s2.
    destruct (part_fname Kernel img) as [fname|].
    + destruct P1 as (data & Ed & Sz & Bf). exists data.
      repeat split; auto.
      * rewrite Sz. apply u32_small. lia.
      * rewrite Bf, u32_small by lia. rewrite Nat2Z.id, firstn_all.
        reflexivity.
    + cbn [andb] in *. exact P1.
  - (* ramdisk *)
    destruct (U1 Ramdisk ltac:(discriminate)) as [b1 s1].
    destruct (U3 Ramdisk ltac:(discriminate)) as [b3 s3].
    destruct (U4 Ramdisk ltac:(discriminate)) as [b4 s4].
    destruct (U5 Ramdisk ltac:(discriminate)) as [b5 s5].
    rewrite b5, b4, b3, s5, s4, s3.
    rewrite s1, b1, (Es img1) in P2 by congruence. subst oc1.
    destruct (part_fname Ramdisk img) as [fname|].
    + destruct P2 as (data & Ed & Sz & Bf). exists data.
      repeat split; auto.
      * rewrite Sz. apply u32_small. lia.
      * rewrite Bf, u32_small by lia. rewrite Nat2Z.id, firstn_all.
        reflexivity.
    + rewrite orb_false_r. cbn [orb] in P2. exact P2.
  - (* second stage *)
    destruct (U1 Second ltac:(discriminate)) as [b1 s1].
    destruct (U2 Second ltac:(discriminate)) as [b2 s2].
    destruct (U4 Second ltac:(discriminate)) as [b4 s4].
    destruct (U5 Second ltac:(discriminate)) as [b5 s5].
    rewrite b5, b4, s5, s4.
    rewrite s2, s1, b2, b1, (Es img2) in P3 by congruence. subst oc2 oc1.
    destruct (part_fname Second img) as [fname|].
    + destruct P3 as (data & Ed & Sz & Bf). exists data.
      repeat split; auto.
      * rewrite Sz. apply u32_small. lia.
      * rewrite Bf, u32_small by lia. rewrite Nat2Z.id, firstn_all.
        reflexivity.
    + rewrite orb_false_r. cbn [orb] in P3. exact P3.
  - (* recovery dtbo *)
    destruct (U1 Dtbo ltac:(discriminate)) as [b1 s1].
    destruct (U2 Dtbo ltac:(discriminate)) as [b2 s2].
    destruct (U3 Dtbo ltac:(discriminate)) as [b3 s3].
    destruct (U5 Dtbo ltac:(discriminate)) as [b5 s5].
    rewrite b5, s5.
    rewrite s3, s2, s1, b3, b2, b1, (Es img3) in P4 by congruence.
    subst oc3 oc2 oc1.
    destruct (part_fname Dtbo img) as [fname|].
    + destruct P4 as (data & Ed & Sz & Bf). exists data.
      repeat split; auto.
      * rewrite Sz. apply u32_small. lia.
      * rewrite Bf, u32_small by lia. rewrite Nat2Z.id, firstn_all.
        reflexivity.
    + rewrite orb_false_r, orb_assoc. cbn [orb] in P4. exact P4.
  - (* dtb *)
    destruct (U1 Dtb ltac:(discriminate)) as [b1 s1].
    destruct (U2 Dtb ltac:(discriminate)) as [b2 s2].
    destruct (U3 Dtb ltac:(discriminate)) as [b3 s3].
    destruct (U4 Dtb ltac:(discriminate)) as [b4 s4].
    rewrite s4, s3, s2, s1, b4, b3, b2, b1, (Es img4) in P5 by congruence.
    subst oc4 oc3 oc2 oc1.
    destruct (part_fname Dtb img) as [fname|].
    + destruct P5 as (data & Ed & Sz & Bf). exists data.
      repeat split; auto.
      * rewrite Sz. apply u32_small. lia.
      * rewrite Bf, u32_small by lia. rewrite Nat2Z.id, firstn_all.
        reflexivity.
    + rewrite orb_false_r, !orb_assoc. cbn [orb] in P5. exact P5.
Qed.

Lemma globals_same_trans a b c :
  globals_same H a b -> globals_same H b c -> globals_same H a c.
Proof.
  unfold globals_same.
  intros (F1 & C1 & Z1 & B1 & L1 & G1) (F2 & C2 & Z2 & B2 & L2 & G2).
  split; [intros q; rewrite F2, F1; reflexivity|].
  repeat split; congruence.
Qed.

Lemma part_unchanged_trans q a b c :
  part_unchanged H q a b -> part_unchanged H q b c ->
  part_unchanged H q a c.
Proof. unfold part_unchanged. intros [B1 S1] [B2 S2]. split; congruence. Qed.

(** One stage from a state in which the parts before [p] are done. *)
Lemma stage_step p img img_i oc_i :
  length (header img) = sizeof_boot_img_hdr_v2 H ->
  globals_same H img img_i ->
  oc_i = replaced_before p img ->
  part_unchanged H p img img_i ->
  part_ready H fs p img ->
  exists img' oc',
    assemble_stage H fs p (part_size H p img) (original_offset H p img)
      (img_i, oc_i) = Ok (img', oc')
    /\ globals_same H img img'
    /\ oc' = oc_i || is_some (part_fname p img)
    /\ (forall q, q <> p -> part_unchanged H q img img_i ->
                  part_unchanged H q img img').
Proof.
  intros L0 G Eoc [Ub Us] R.
  pose proof G as (F & C & Z & B & L & Gp).
  assert (Rs : exists st',
             assemble_stage H fs p (part_size H p img)
               (original_offset H p img) (img_i, oc_i) = Ok st').
  { apply assemble_stage_ready. rewrite F. unfold part_ready in R.
    destruct (part_fname p img) as [fname|]; [exact R|].
    rewrite Us, Eoc, C. intros Hr. apply R. exact Hr. }
  destruct Rs as [[img' oc'] S]. exists img', oc'.
  split; [exact S|].
  apply assemble_stage_ok in S; [|congruence]. cbn [fst snd] in S.
  destruct S as (G' & U' & O' & _).
  split; [eapply globals_same_trans; eassumption|].
  split; [rewrite O', F; reflexivity|].
  intros q Hq Uq. eapply part_unchanged_trans; [exact Uq|].
  apply U'. exact Hq.
Qed.

Lemma part_unchanged_refl q img : part_unchanged H q img img.
Proof. split; reflexivity. Qed.


End Assembly.

(** ** Writing to a stream *)

Lemma firstn_zeros k n : firstn k (zeros n) = zeros (Nat.min k n).
Proof.
  unfold zeros. revert n. induction k as [|k IH]; intros [|n];
    cbn [firstn repeat Nat.min]; try reflexivity.
  rewrite IH. reflexivity.
Qed.

Lemma length_zeros n : length (zeros n) = n.
Proof. apply repeat_length. Qed.

Lemma length_write_at pos bs data :
  length (write_at pos bs data)
  = (pos + length bs + (length data - (pos + length bs)))%nat.
Proof.
  unfold write_at.
  rewrite !length_app, length_firstn, length_app, length_zeros, length_skipn.
  lia.
Qed.

Lemma write_at_prefix k pos bs data :
  (k <= pos)%nat -> (k <= length data)%nat ->
  firstn k (write_at pos bs data) = firstn k data.
Proof.
  intros Hk Hl. unfold write_at.
  rewrite firstn_app, firstn_firstn, Nat.min_l by lia.
  rewrite length_firstn, length_app, length_zeros.
  replace (k - Nat.min pos (length data + (pos - length data)))%nat
    with O by lia.
  rewrite firstn_O, app_nil_r.
  rewrite firstn_app. replace (k - length data)%nat with O by lia.
  rewrite firstn_O, app_nil_r. reflexivity.
Qed.

Lemma write_at_app pos a b data :
  write_at (pos + length a) b (write_at pos a data)
  = write_at pos (a ++ b) data.
Proof.
  unfold write_at at 1.
  set (W := write_at pos a data).
  assert (LW : length W
               = (pos + length a + (length data - (pos + length a)))%nat)
    by apply length_write_at.
  replace (pos + length a - length W)%nat with O by lia.
  cbn [zeros repeat]. rewrite app_nil_r.
  set (X := firstn pos (data ++ zeros (pos - length data))).
  assert (LX : length X = pos).
  { unfold X. rewrite length_firstn, length_app, length_zeros. lia. }
  assert (EW : W = (X ++ a) ++ skipn (pos + length a) data).
  { unfold W, write_at. fold X. rewrite app_assoc. reflexivity. }
  rewrite EW at 1.
  rewrite firstn_app, length_app, LX.
  rewrite firstn_all2 by (rewrite length_app; lia).
  replace (pos + length a - (pos + length a))%nat with O by lia.
  rewrite firstn_O, app_nil_r.
  rewrite EW, skipn_app, length_app, LX.
  rewrite skipn_all2 by (rewrite length_app; lia). cbn [app].
  replace (pos + length a + length b - (pos + length a))%nat
    with (length b) by lia.
  rewrite skipn_skipn.
  unfold write_at. fold X. rewrite length_app, <- !app_assoc.
  do 3 f_equal. f_equal. lia.
Qed.

Lemma write_at_0 bs data :
  write_at 0 bs data = bs ++ skipn (length bs) data.
Proof. unfold write_at. cbn [firstn Nat.add app]. reflexivity. Qed.

Lemma nth_error_write_at pos bs data i :
  nth_error (write_at pos bs data) i
  = if (i <? pos)%nat
    then if (i <? length data)%nat then nth_error data i else Some NUL
    else if (i <? pos + length bs)%nat then nth_error bs (i - pos)
         else nth_error data i.
Proof.
  unfold write_at.
  assert (L : length (firstn pos (data ++ zeros (pos - length data))) = pos).
  { rewrite length_firstn, length_app, length_zeros. lia. }
  destruct (Nat.ltb_spec i pos) as [Hi|Hi].
  - rewrite nth_error_app1 by lia. rewrite nth_error_firstn.
    destruct (Nat.ltb_spec i pos); [|lia].
    destruct (Nat.ltb_spec i (length data)) as [Hd|Hd].
    + apply nth_error_app1. exact Hd.
    + rewrite nth_error_app2 by lia. unfold zeros.
      apply nth_error_repeat. lia.
  - rewrite nth_error_app2 by lia. rewrite L.
    destruct (Nat.ltb_spec i (pos + length bs)) as [Hb|Hb].
    + apply nth_error_app1. lia.
    + rewrite nth_error_app2 by lia. rewrite nth_error_skipn.
      f_equal. lia.
Qed.

(** ** The file left behind *)

(** [ftruncate] on a regular file, the stream standing inside what it has
    written: the bytes below [len] are those of the stream, with zeros where
    the stream is shorter; the file has [len] bytes, unless bytes held back
    end past [len], and then ends where the last write ended. *)
Lemma ftruncate_regular f len buffered :
  st_isblk f = false -> (fpos f <= length (contents f))%nat ->
  firstn len (contents (ftruncate f len buffered))
  = firstn len (contents f ++ zeros (len - length (contents f)))
  /\ length (contents (ftruncate f len buffered))
     = (if (Nat.min buffered (fpos f) =? 0)%nat || (fpos f <=? len)%nat
        then len else fpos f)
  /\ st_isblk (ftruncate f len buffered) = false
  /\ fpos (ftruncate f len buffered) = fpos f.
Proof.
  intros Hreg Hpos. unfold ftruncate. rewrite Hreg.
  cbn [contents st_isblk fpos].
  set (c := contents f) in *.
  set (cut := firstn len (c ++ zeros (len - length c))).
  assert (Lc : length cut = len).
  { unfold cut. rewrite length_firstn, length_app, length_zeros. lia. }
  set (held := Nat.min buffered (fpos f)).
  assert (Hh : (held <= fpos f)%nat) by (unfold held; lia).
  split; [|split; [|split; reflexivity]].
  - destruct (Nat.eqb_spec held 0) as [E0|N0].
    + unfold cut. rewrite firstn_firstn, Nat.min_id. reflexivity.
    + set (bs := firstn held (skipn (fpos f - held) c)).
      assert (Lb : length bs = held).
      { unfold bs. rewrite length_firstn, length_skipn. lia. }
      apply nth_error_ext. intros i.
      rewrite nth_error_firstn, nth_error_write_at, Lb, Lc.
      destruct (Nat.ltb_spec i len) as [Hi|Hi].
      2: { symmetry. apply nth_error_None. lia. }
      destruct (Nat.ltb_spec i (fpos f - held)); [reflexivity|].
      destruct (Nat.ltb_spec i (fpos f - held + held)); [|reflexivity].
      unfold bs, cut. rewrite !nth_error_firstn.
      destruct (Nat.ltb_spec (i - (fpos f - held)) held); [|lia].
      destruct (Nat.ltb_spec i len); [|lia].
      rewrite nth_error_skipn, nth_error_app1 by lia.
      f_equal. lia.
  - destruct (Nat.eqb_spec held 0) as [E0|N0]; cbn [orb]; [exact Lc|].
    rewrite length_write_at, length_firstn, length_skipn, Lc.
    destruct (Nat.leb_spec (fpos f) len); lia.
Qed.

(** The bytes of the file below its length and the stream's. *)
Lemma ftruncate_prefix f len buffered k :
  st_isblk f = false -> (fpos f <= length (contents f))%nat ->
  (k <= len)%nat -> (k <= length (contents f))%nat ->
  firstn k (contents (ftruncate f len buffered)) = firstn k (contents f).
Proof.
  intros Hreg Hpos Hk Hl.
  destruct (ftruncate_regular f len buffered Hreg Hpos) as (E & _).
  rewrite <- (Nat.min_l k len) by exact Hk.
  rewrite <- !firstn_firstn, E. rewrite !firstn_firstn, Nat.min_l by lia.
  rewrite firstn_app. replace (k - length (contents f))%nat with O by lia.
  rewrite firstn_O, app_nil_r. reflexivity.
Qed.

(** Bytes held back that end within [len] change nothing. *)
Lemma ftruncate_within f len buffered :
  (fpos f <= len)%nat -> ftruncate f len buffered = ftruncate f len 0.
Proof.
  intros Hpos. unfold ftruncate.
  destruct (st_isblk f); [reflexivity|].
  cbn [Nat.min Nat.eqb].
  set (c := contents f).
  set (cut := firstn len (c ++ zeros (len - length c))).
  assert (Lc : length cut = len).
  { unfold cut. rewrite length_firstn, length_app, length_zeros. lia. }
  set (held := Nat.min buffered (fpos f)).
  destruct (Nat.eqb_spec held 0) as [E0|N0]; [reflexivity|].
  f_equal.
  set (bs := firstn held (skipn (fpos f - held) c)).
  assert (Lb : (length bs <= held)%nat)
    by (unfold bs; rewrite length_firstn; lia).
  assert (Lb' : (fpos f - held + length bs <= length c)%nat
                \/ length bs = O).
  { unfold bs. rewrite length_firstn, length_skipn. lia. }
  apply nth_error_ext. intros i.
  rewrite nth_error_write_at, Lc.
  assert (Hh : (held <= fpos f)%nat) by (unfold held; lia).
  destruct (Nat.ltb_spec i (fpos f - held)).
  - destruct (Nat.ltb_spec i len); [reflexivity|lia].
  - destruct (Nat.ltb_spec i (fpos f - held + length bs)); [|reflexivity].
    unfold bs, cut. rewrite !nth_error_firstn.
    destruct (Nat.ltb_spec (i - (fpos f - held)) held); [|lia].
    destruct (Nat.ltb_spec i len); [|lia].
    rewrite nth_error_skipn, nth_error_app1 by lia.
    f_equal. lia.
Qed.

(** ** Writing a part (C4) *)

Section Encode.

Variable H : bootimg_h.

Lemma fwrite_from_ok buf n f :
  0 <= n <= Z.of_nat (length buf) ->
  fwrite_from buf n f = Ok (fwrite (firstn (Z.to_nat n) buf) f).
Proof.
  intros Hn. unfold fwrite_from.
  destruct (Z.gtb_spec n (Z.of_nat (length buf))); [lia|reflexivity].
Qed.

Lemma padding_length psize size :
  0 < psize < UINT32_MOD -> 0 <= size ->
  u32 (psize - size mod psize) = psize - size mod psize
  /\ 0 < psize - size mod psize <= psize.
Proof.
  intros Hp Hs. pose proof (Z.mod_pos_bound size psize ltac:(lia)) as B.
  split; [apply u32_small|]; lia.
Qed.

Lemma write_bootimg_part_spec (img : t_abootimg) (part : list byte)
  (offset size : Z) :
  0 < page_size H img ->
  0 <= offset -> 0 <= size <= Z.of_nat (length part) ->
  let psize := page_size H img in
  let pad := psize - size mod psize in
  exists f',
    write_bootimg_part H img part offset size (zeros (Z.to_nat psize))
    = Ok (set_stream f' img)
    /\ contents f'
       = write_at (Z.to_nat offset)
           (firstn (Z.to_nat size) part ++ zeros (Z.to_nat pad))
           (contents (stream img))
    /\ fpos f' = Z.to_nat (offset + size + pad)
    /\ st_isblk f' = st_isblk (stream img).
Proof.
  intros Hp Ho Hs psize pad.
  pose proof (get_u32_range (off_page_size H) (header img)) as Rp.
  fold (page_size H img) in Rp. fold psize in Rp, Hp.
  destruct (padding_length psize size ltac:(lia) ltac:(lia)) as [Eu Bp].
  fold pad in Eu, Bp.
  unfold write_bootimg_part. fold psize.
  rewrite fwrite_from_ok by lia. cbn [bind].
  destruct (Z.eqb_spec psize 0); [lia|]. fold pad.
  rewrite Eu, fwrite_from_ok by (rewrite length_zeros; lia). cbn [bind].
  eexists. split; [reflexivity|].
  assert (Lp : length (firstn (Z.to_nat size) part) = Z.to_nat size)
    by (rewrite length_firstn; lia).
  assert (Ez : firstn (Z.to_nat pad) (zeros (Z.to_nat psize))
               = zeros (Z.to_nat pad))
    by (rewrite firstn_zeros; f_equal; lia).
  split; [|split].
  - cbn [fwrite fseek contents fpos]. rewrite Ez. apply write_at_app.
  - cbn [fwrite fseek contents fpos]. rewrite Ez, Lp, length_zeros. lia.
  - reflexivity.
Qed.

Lemma write_bootimg_steps (buffered : nat) (img : t_abootimg) :
  write_bootimg H buffered img
  = let psize := page_size H img in
    let padding := zeros (Z.to_nat psize) in
    let ksize := kernel_size H img in
    let rsize := ramdisk_size H img in
    let ssize := second_size H img in
    let dosize := recovery_dtbo_size H img in
    if psize =? 0 then Undefined
    else
      f <- fwrite_from (header img) (boot_img_header_size H img)
             (fseek (stream img) (Z.to_nat hoffset)) ;;
      f <- fwrite_from padding (u32 (psize - boot_img_header_size H img)) f ;;
      x <- write_optional_part H (kernel (set_stream f img)) true
             (set_stream f img) (koffset psize)
             (kernel_size H (set_stream f img)) padding ;;
      x <- write_optional_part H (ramdisk x) true x (roffset psize ksize)
             (ramdisk_size H x) padding ;;
      x <- write_optional_part H (second x) (negb (second_size H x =? 0)) x
             (soffset psize ksize rsize) (second_size H x) padding ;;
      x <- write_optional_part H (dtbo x)
             (negb (recovery_dtbo_size H x =? 0)) x
             (dooffset psize ksize rsize ssize) (recovery_dtbo_size H x)
             padding ;;
      x <- write_optional_part H (dtb x) (negb (dtb_size H x =? 0)) x
             (doffset psize ksize rsize ssize dosize) (dtb_size H x)
             padding ;;
      Ok (set_stream (ftruncate (stream x) (Z.to_nat (size x)) buffered) x).
Proof. reflexivity. Qed.

(** When the last write ends within the container size, the file left is
    the same whatever the stream held back. *)
Lemma write_bootimg_within (buffered : nat) (img img1 : t_abootimg) :
  write_bootimg H 0 img = Ok img1 ->
  (fpos (stream img1) <= Z.to_nat (size img1))%nat ->
  write_bootimg H buffered img = Ok img1.
Proof.
  rewrite !write_bootimg_steps. cbv zeta.
  destruct (page_size H img =? 0); [discriminate|].
  destruct (fwrite_from (header img) _ _) as [f1| |]; cbn [bind];
    try discriminate.
  destruct (fwrite_from _ _ f1) as [f2| |]; cbn [bind]; try discriminate.
  destruct (write_optional_part H _ _ _ _ _ _) as [x1| |]; cbn [bind];
    try discriminate.
  destruct (write_optional_part H _ _ _ _ _ _) as [x2| |]; cbn [bind];
    try discriminate.
  destruct (write_optional_part H _ _ _ _ _ _) as [x3| |]; cbn [bind];
    try discriminate.
  destruct (write_optional_part H _ _ _ _ _ _) as [x4| |]; cbn [bind];
    try discriminate.
  destruct (write_optional_part H _ _ _ _ _ _) as [x5| |]; cbn [bind];
    try discriminate.
  intros E Hpos. injection E as <-. cbn [stream set_stream size] in Hpos.
  assert (Hp : (fpos (stream x5) <= Z.to_nat (size x5))%nat).
  { revert Hpos. unfold ftruncate.
    destruct (st_isblk (stream x5)); cbn [fpos]; auto. }
  rewrite (ftruncate_within _ _ buffered Hp). reflexivity.
Qed.

(** C4, as far as it holds, and where it fails: [write_bootimg_part] writes
    the part at its offset and then [psize - size % psize] zero bytes.  For
    a size that is not a multiple of the page size the bytes written end at
    the next page boundary; for a size that is a multiple of the page size
    they end a whole page past the end of the part, which is the boundary of
    its region. *)
Theorem write_bootimg_part_extent (img : t_abootimg) (part : list byte)
  (offset size : Z) :
  0 < page_size H img ->
  0 <= offset -> 0 <= size <= Z.of_nat (length part) ->
  let psize := page_size H img in
  let pad := psize - size mod psize in
  exists f',
    write_bootimg_part H img part offset size (zeros (Z.to_nat psize))
    = Ok (set_stream f' img)
    /\ contents f'
       = write_at (Z.to_nat offset)
           (firstn (Z.to_nat size) part ++ zeros (Z.to_nat pad))
           (contents (stream img))
    /\ fpos f' = Z.to_nat (offset + size + pad)
    /\ (size mod psize <> 0 ->
        offset + size + pad = offset + pages psize size * psize)
    /\ (size mod psize = 0 ->
        pages psize size * psize = size
        /\ offset + size + pad = offset + pages psize size * psize + psize).
Proof.
  intros Hp Ho Hs psize pad.
  destruct (write_bootimg_part_spec img part offset size Hp Ho Hs)
    as (f' & E & Ec & Ep & _).
  exists f'. fold psize in E, Ec, Ep. fold pad in Ec, Ep.
  split; [exact E|]. split; [exact Ec|]. split; [exact Ep|].
  fold psize in Hp.
  pose proof (Z.div_mod size psize ltac:(lia)) as Ed.
  unfold pages, pad.
  destruct (Z.eqb_spec (size mod psize) 0) as [E0|N0].
  - split; [contradiction|]. intros _. lia.
  - split; [|contradiction]. intros _. lia.
Qed.

End Encode.

Lemma write_bootimg_part_extent_witness :
  0 < page_size aosp_bootimg_h example_full_page
  /\ 2048 mod page_size aosp_bootimg_h example_full_page = 0
  /\ exists f',
       write_bootimg_part aosp_bootimg_h example_full_page
         (repeat x52 2048) 4096 2048 (zeros 2048)
       = Ok (set_stream f' example_full_page)
       /\ fpos f' = Z.to_nat 8192.
Proof.
  split; [reflexivity|]. split; [reflexivity|].
  destruct (write_bootimg_part_extent aosp_bootimg_h example_full_page
              (repeat x52 2048) 4096 2048)
    as (f' & E & _ & Ep & _); [reflexivity|lia|split; [lia|]|].
  - apply Z.leb_le. reflexivity.
  - exists f'. split; [exact E|exact Ep].
Defined.

(** The image of [example_full_page] takes three pages, 6144 bytes; the
    header passes the validator; [write_bootimg] writes the ramdisk at 4096
    and zeros from 6144 to 8192, over what the container held there,
    whatever the stream holds back when the file is truncated to its 8192
    bytes. *)
Lemma write_bootimg_full_page_example :
  check_boot_img_header aosp_bootimg_h example_full_page = Ok Valid
  /\ image_total_size aosp_bootimg_h example_full_page = 6144
  /\ stream_bytes (stream example_full_page) 6144 2048 = repeat xff 2048
  /\ exists img',
       (forall buffered,
           write_bootimg aosp_bootimg_h buffered example_full_page = Ok img')
       /\ stream_bytes (stream img') 4096 2048 = repeat x52 2048
       /\ stream_bytes (stream img') 6144 2048 = zeros 2048.
Proof.
  split; [vm_compute; reflexivity|]. split; [vm_compute; reflexivity|].
  split; [vm_compute; reflexivity|].
  destruct (write_bootimg aosp_bootimg_h 0 example_full_page)
    as [img'| |] eqn:E; [|vm_compute in E; discriminate E ..].
  exists img'. split.
  - intros buffered. apply write_bootimg_within; [exact E|].
    vm_compute in E. injection E as <-. apply Nat.leb_le.
    vm_compute. reflexivity.
  - vm_compute in E. injection E as <-. split; vm_compute; reflexivity.
Qed.

(** ** What the validator accepts *)

Lemma check_valid_inv (H : bootimg_h) (img : t_abootimg) :
  check_boot_img_header H img = Ok Valid ->
  header_version H img <= 2
  /\ kernel_size H img <> 0
  /\ ramdisk_size H img <> 0
  /\ page_size H img <> 0
  /\ image_total_size H img <= size img.
Proof.
  unfold check_boot_img_header.
  destruct (negb _); [discriminate|].
  destruct (Z.gtb_spec (header_version H img) 2); [discriminate|].
  destruct (_ && _); [discriminate|].
  destruct (Z.eqb_spec (kernel_size H img) 0); [discriminate|].
  destruct (Z.eqb_spec (ramdisk_size H img) 0); [discriminate|].
  destruct (Z.eqb_spec (page_size H img) 0); [discriminate|].
  destruct (Z.gtb_spec (image_total_size H img) (size img)); [discriminate|].
  intros _. repeat split; assumption || lia.
Qed.

Lemma check_boot_img_header_ext (H : bootimg_h) (x y : t_abootimg) :
  header x = header y -> size x = size y ->
  check_boot_img_header H x = check_boot_img_header H y.
Proof.
  intros Eh Es.
  unfold check_boot_img_header, magic, header_version, header_size,
    boot_img_header_size, header_version, kernel_size, ramdisk_size,
    page_size, image_total_size, page_size, kernel_size, ramdisk_size,
    second_size, recovery_dtbo_size, dtb_size.
  rewrite Eh, Es. reflexivity.
Qed.

(** A header accepted for a container is accepted for a larger one. *)
Lemma check_valid_larger (H : bootimg_h) (x y : t_abootimg) :
  header x = header y -> size y <= size x ->
  check_boot_img_header H y = Ok Valid ->
  check_boot_img_header H x = Ok Valid.
Proof.
  intros Eh Es.
  unfold check_boot_img_header, magic, header_version, header_size,
    boot_img_header_size, header_version, kernel_size, ramdisk_size,
    page_size, image_total_size, page_size, kernel_size, ramdisk_size,
    second_size, recovery_dtbo_size, dtb_size.
  rewrite Eh.
  destruct (negb _); [discriminate|].
  destruct (_ >? 2); [discriminate|].
  destruct (_ && _); [discriminate|].
  destruct (get_u32 (off_kernel_size H) (header y) =? 0); [discriminate|].
  destruct (get_u32 (off_ramdisk_size H) (header y) =? 0); [discriminate|].
  destruct (get_u32 (off_page_size H) (header y) =? 0); [discriminate|].
  match goal with
  | |- context [?t >? size y] =>
      destruct (Z.gtb_spec t (size y)); [discriminate|];
      destruct (Z.gtb_spec t (size x)); [lia|reflexivity]
  end.
Qed.

Lemma npages_nonneg psize x : 0 < psize -> 0 <= npages psize x.
Proof.
  intros Hp. unfold npages. apply Z.div_pos; [|exact Hp].
  apply u32_range.
Qed.

(** ** The offsets of the parts *)

Section RoundTrip.

Variable H : bootimg_h.
Hypothesis Hok : bootimg_h_ok H = true.

(** The offsets of a layout that fits lie past the header page. *)
Lemma offsets_past_header (img : t_abootimg) :
  0 < page_size H img -> layout_fits H img ->
  let psize := page_size H img in
  let k := kernel_size H img in
  let r := ramdisk_size H img in
  let s := second_size H img in
  let o := recovery_dtbo_size H img in
  psize <= koffset psize
  /\ psize <= roffset psize k
  /\ psize <= soffset psize k r
  /\ psize <= dooffset psize k r s
  /\ psize <= doffset psize k r s o
  /\ psize <= image_total_size H img.
Proof.
  intros Hp Hfit. unfold layout_fits in Hfit. cbv zeta in *.
  pose proof (npages_nonneg (page_size H img) (kernel_size H img) Hp).
  pose proof (npages_nonneg (page_size H img) (ramdisk_size H img) Hp).
  pose proof (npages_nonneg (page_size H img) (second_size H img) Hp).
  pose proof (npages_nonneg (page_size H img) (recovery_dtbo_size H img) Hp).
  pose proof (npages_nonneg (page_size H img) (dtb_size H img) Hp).
  unfold koffset, roffset, soffset, dooffset, doffset, image_total_size,
    total_size.
  repeat split; (rewrite u32_small; [nia|split; nia]).
Qed.

End RoundTrip.

(** ** A page smaller than the header (C10) *)

Lemma u32_negative z : - UINT32_MOD < z < 0 -> u32 z = UINT32_MOD + z.
Proof.
  intros Hz. unfold u32. symmetry.
  apply Z.mod_unique with (q := -1); unfold UINT32_MOD in *; lia.
Qed.

(** C10: a header with a page of 1024 bytes passes every check of the
    validator although the version 0 structure takes 1632 bytes.  For every
    header the validator accepts whose page is smaller than its structure,
    the length of the header padding, [psize - header_size] in [uint32_t],
    is 2^32 minus the difference, within the size of the largest structure
    of 2^32 and far more than the padding buffer holds, so the write is
    undefined.  Nothing on the way to the write rejects the case: [main]
    creating an image with ["pagesize = 1024"] gets through the header
    update, the assembly, the promotion and the validator to
    [write_bootimg]. *)
Theorem header_padding_wraps :
  (check_boot_img_header aosp_bootimg_h (example_image 1024) = Ok Valid
   /\ page_size aosp_bootimg_h (example_image 1024) <> 0
   /\ page_size aosp_bootimg_h (example_image 1024)
      < boot_img_header_size aosp_bootimg_h (example_image 1024))
  /\ (forall (H : bootimg_h) (img : t_abootimg) (buffered : nat),
         bootimg_h_ok H = true ->
         length (header img) = sizeof_boot_img_hdr_v2 H ->
         check_boot_img_header H img = Ok Valid ->
         page_size H img < boot_img_header_size H img ->
         let padlen := u32 (page_size H img - boot_img_header_size H img) in
         padlen
         = UINT32_MOD - (boot_img_header_size H img - page_size H img)
         /\ UINT32_MOD - Z.of_nat (sizeof_boot_img_hdr_v2 H) < padlen
            < UINT32_MOD
         /\ page_size H img < padlen
         /\ write_bootimg H buffered img = Undefined)
  /\ (exists img',
         (img <- update_header aosp_bootimg_h example_create
                   [str "pagesize = 1024"] [] ;;
          update_images aosp_bootimg_h example_fs img) = Ok img'
         /\ page_size aosp_bootimg_h
              (update_header_version aosp_bootimg_h img') = 1024
         /\ boot_img_header_size aosp_bootimg_h
              (update_header_version aosp_bootimg_h img') = 1632
         /\ check_boot_img_header aosp_bootimg_h
              (update_header_version aosp_bootimg_h img') = Ok Valid
         /\ (forall buffered,
                main_create aosp_bootimg_h example_fs buffered example_create
                  [str "pagesize = 1024"] []
                = write_bootimg aosp_bootimg_h buffered
                    (update_header_version aosp_bootimg_h img'))
         /\ (forall buffered,
                main_create aosp_bootimg_h example_fs buffered example_create
                  [str "pagesize = 1024"] [] = Undefined)).
Proof.
  split; [|split].
  - split; [vm_compute; reflexivity|].
    split; [vm_compute; discriminate|vm_compute; reflexivity].
  - intros H img buffered Hok Hlen Hvalid Hsmall padlen.
    destruct (check_valid_inv H img Hvalid) as (_ & _ & _ & Hp0 & _).
    pose proof (get_u32_range (off_page_size H) (header img)) as Rp.
    fold (page_size H img) in Rp.
    pose proof (layout_bounds H Hok) as B.
    pose proof (sizeof_hdr_bounds H Hok (header_version H img)) as Bh.
    unfold boot_img_header_size in *.
    set (hs := sizeof_hdr H (header_version H img)) in *.
    assert (Ep : padlen = UINT32_MOD + (page_size H img - Z.of_nat hs)).
    { unfold padlen. apply u32_negative. lia. }
    split; [lia|]. split; [lia|]. split; [lia|].
    rewrite write_bootimg_steps. cbv zeta.
    destruct (Z.eqb_spec (page_size H img) 0); [lia|].
    unfold boot_img_header_size. fold hs.
    rewrite fwrite_from_ok by lia. cbn [bind].
    fold padlen. unfold fwrite_from at 1. rewrite length_zeros.
    destruct (Z.gtb_spec padlen (Z.of_nat (Z.to_nat (page_size H img))));
      [reflexivity|lia].
  - apply holds_on_exists. vm_compute. repeat split.
Qed.

(** ** Scenarios of the specification *)

(** A header under construction, with no kernel yet, is reported as such. *)
Example empty_kernel_is_reported :
  check_boot_img_header aosp_bootimg_h (new_bootimg aosp_bootimg_h)
  = Ok (Invalid EmptyKernel).
Proof. vm_compute. reflexivity. Qed.

(** The size of a block device of 100000 bytes cannot be set to 200000. *)
Example block_device_size_is_fixed :
  update_header_entry aosp_bootimg_h
    (set_size 100000 true (new_bootimg aosp_bootimg_h))
    (str "bootsize = 200000")
  = Abort ImmutableBlockSize.
Proof. vm_compute. reflexivity. Qed.

(** A kernel of 5000 bytes and a ramdisk of 3000 bytes on pages of 2048:
    the image takes 12288 bytes and stays at version 0; with a recovery
    dtbo of one byte it takes a page more. *)
Example default_layout_scenario :
  image_total_size aosp_bootimg_h (example_image 2048) = 12288
  /\ header_version aosp_bootimg_h
       (update_header_version aosp_bootimg_h (example_image 2048)) = 0
  /\ image_total_size aosp_bootimg_h
       (update_header_version aosp_bootimg_h example_dtbo_image) = 14336.
Proof. repeat split; vm_compute; reflexivity. Qed.

(** * Further properties of the codec *)

(** ** The regions of the layout *)

Lemma npages_holds P x :
  0 < P -> 0 <= x -> x + P - 1 < UINT32_MOD ->
  x <= npages P x * P < x + P.
Proof.
  intros HP Hx Hfit. rewrite npages_pages by assumption.
  pose proof (pages_ceil P x HP Hx). lia.
Qed.

(** X1: where the arithmetic of the layout does not wrap, every offset is a
    multiple of the page size, the kernel starts at the second page, and
    each part ends before the next one starts: no two parts overlap, the
    header page is free of them, and the last part ends within the total
    size. *)
Theorem layout_regions_disjoint (P k r s o d : Z) :
  0 < P -> 0 <= k -> 0 <= r -> 0 <= s -> 0 <= o -> 0 <= d ->
  k + P - 1 < UINT32_MOD -> r + P - 1 < UINT32_MOD ->
  s + P - 1 < UINT32_MOD -> o + P - 1 < UINT32_MOD ->
  d + P - 1 < UINT32_MOD ->
  (1 + npages P k + npages P r + npages P s + npages P o + npages P d) * P
  < UINT32_MOD ->
  (koffset P mod P = 0 /\ roffset P k mod P = 0 /\ soffset P k r mod P = 0
   /\ dooffset P k r s mod P = 0 /\ doffset P k r s o mod P = 0
   /\ total_size P k r s o d mod P = 0)
  /\ hoffset + P = koffset P
  /\ koffset P + k <= roffset P k
  /\ roffset P k + r <= soffset P k r
  /\ soffset P k r + s <= dooffset P k r s
  /\ dooffset P k r s + o <= doffset P k r s o
  /\ doffset P k r s o + d <= total_size P k r s o d.
Proof.
  intros HP Hk Hr Hs Ho Hd Fk Fr Fs Fo Fd Ftotal.
  pose proof (npages_holds P k HP Hk Fk).
  pose proof (npages_holds P r HP Hr Fr).
  pose proof (npages_holds P s HP Hs Fs).
  pose proof (npages_holds P o HP Ho Fo).
  pose proof (npages_holds P d HP Hd Fd).
  pose proof (npages_nonneg P k HP).
  pose proof (npages_nonneg P r HP).
  pose proof (npages_nonneg P s HP).
  pose proof (npages_nonneg P o HP).
  pose proof (npages_nonneg P d HP).
  unfold hoffset, koffset, roffset, soffset, dooffset, doffset, total_size.
  rewrite !u32_small by nia.
  split; [repeat split; apply Z.mod_mul; lia|].
  repeat split; nia.
Qed.

Lemma layout_regions_disjoint_witness :
  roffset 2048 5000 = 8192
  /\ koffset 2048 + 5000 <= roffset 2048 5000
  /\ roffset 2048 5000 + 3000 <= soffset 2048 5000 3000
  /\ total_size 2048 5000 3000 0 0 0 mod 2048 = 0.
Proof.
  pose proof (layout_regions_disjoint 2048 5000 3000 0 0 0) as L.
  unfold UINT32_MOD in L.
  specialize (L ltac:(lia) ltac:(lia) ltac:(lia) ltac:(lia) ltac:(lia)
                ltac:(lia) ltac:(lia) ltac:(lia) ltac:(lia) ltac:(lia)
                ltac:(lia) ltac:(vm_compute; reflexivity)).
  destruct L as ((_ & _ & _ & _ & _ & Lt) & _ & Lk & Lr & _).
  split; [reflexivity|]. split; [exact Lk|]. split; [exact Lr|exact Lt].
Defined.

(** ** The header a read leaves behind *)

Lemma skipn_zeros k n : skipn k (zeros n) = zeros (n - k).
Proof.
  unfold zeros. revert n. induction k as [|k IH]; intros [|n];
    cbn [skipn repeat Nat.sub]; try reflexivity.
  apply IH.
Qed.

Lemma le_decode_zeros n : le_decode (zeros n) = 0.
Proof.
  unfold zeros. induction n as [|n IH]; cbn [repeat le_decode];
    [reflexivity|].
  rewrite IH. reflexivity.
Qed.

(** A field past the bytes read holds zero. *)
Lemma load_zero_tail off len (a : list byte) n :
  (length a <= off)%nat ->
  le_decode (load off len (a ++ zeros n)) = 0.
Proof.
  intros Ha. unfold load. rewrite skipn_app, skipn_all2 by lia.
  cbn [app]. rewrite skipn_zeros, firstn_zeros. apply le_decode_zeros.
Qed.

Section DecodedHeader.

Variable H : bootimg_h.
Hypothesis Hok : bootimg_h_ok H = true.

Lemma read_header_short (img : t_abootimg) :
  length (header img) = sizeof_boot_img_hdr_v2 H ->
  feof (stream img) = false ->
  let data := skipn (fpos (stream img)) (contents (stream img)) in
  let hsz := sizeof_hdr H (get_u32 (off_header_version H) data) in
  (length data < hsz)%nat ->
  exists c, read_header H img = Abort c.
Proof.
  intros Hlen Hfeof data hsz Hshort.
  pose proof (layout_bounds H Hok) as B.
  destruct (Nat.lt_ge_cases (length data) (sizeof_boot_img_hdr_v0 H))
    as [Hl|Hl].
  - exists ReadError. unfold read_header.
    rewrite fread_short by exact Hl. reflexivity.
  - exists CannotReadHeader. unfold read_header.
    rewrite fread_enough by (fold data; lia). fold data.
    cbn [Z.eqb Pos.eqb negb]. rewrite Hfeof.
    rewrite (read_prefix_version H Hok img data _ Hl Hlen). fold hsz.
    destruct (Nat.ltb_spec (sizeof_boot_img_hdr_v0 H) hsz); [|lia].
    rewrite fread_short; [reflexivity|].
    cbn [contents fpos]. rewrite skipn_plus. fold data.
    rewrite length_skipn. lia.
Qed.

(** What a read that succeeds has done. *)
Lemma read_header_inv (img img' : t_abootimg) :
  length (header img) = sizeof_boot_img_hdr_v2 H ->
  feof (stream img) = false ->
  read_header H img = Ok img' ->
  let data := skipn (fpos (stream img)) (contents (stream img)) in
  let hsz := sizeof_hdr H (get_u32 (off_header_version H) data) in
  (hsz <= length data)%nat
  /\ img' = decoded_image H img
  /\ check_boot_img_header H img' = Ok Valid.
Proof.
  intros Hlen Hfeof Hr data hsz.
  destruct (Nat.lt_ge_cases (length data) hsz) as [Hs|Hl].
  - destruct (read_header_short img Hlen Hfeof Hs) as [c F].
    rewrite F in Hr. discriminate Hr.
  - split; [exact Hl|].
    rewrite (read_header_enough H Hok img Hlen Hfeof Hl) in Hr.
    unfold validated in Hr.
    destruct (check_boot_img_header H (decoded_image H img))
      as [[|why]| |] eqn:Ec; cbn [bind] in Hr; try discriminate Hr.
    injection Hr as <-. split; [reflexivity|exact Ec].
Qed.

(** The header of a decoded image: its length and its version. *)
Lemma decoded_header (img : t_abootimg) :
  let data := skipn (fpos (stream img)) (contents (stream img)) in
  let version := get_u32 (off_header_version H) data in
  let hsz := sizeof_hdr H version in
  (hsz <= length data)%nat ->
  length (header (decoded_image H img)) = sizeof_boot_img_hdr_v2 H
  /\ header_version H (decoded_image H img) = version
  /\ tail_zero H (decoded_image H img)
  /\ forall off len,
       (hsz <= off)%nat ->
       le_decode (load off len (header (decoded_image H img))) = 0.
Proof.
  intros data version hsz Hl.
  pose proof (layout_bounds H Hok) as B.
  pose proof (sizeof_hdr_bounds H Hok version) as Bh. fold hsz in Bh.
  assert (Eh : header (decoded_image H img)
               = firstn hsz data ++ zeros (sizeof_boot_img_hdr_v2 H - hsz))
    by reflexivity.
  assert (Lf : length (firstn hsz data) = hsz)
    by (rewrite length_firstn; lia).
  assert (Ev : header_version H (decoded_image H img) = version).
  { unfold header_version, get_u32. rewrite Eh.
    rewrite load_app_l by lia. rewrite load_firstn by lia. reflexivity. }
  split; [rewrite Eh, length_app, Lf, length_zeros; lia|].
  split; [exact Ev|]. split.
  - unfold tail_zero. rewrite Ev. fold hsz. rewrite Eh.
    rewrite skipn_app, skipn_all2 by lia. rewrite Lf, Nat.sub_diag.
    reflexivity.
  - intros off len Ho. rewrite Eh. apply load_zero_tail. lia.
Qed.

(** X2: a header that [read_header] has decoded holds zeros past the
    structure of its version, so a version 0 header has neither a recovery
    dtbo nor a dtb and a version 1 header has no dtb; the version its parts
    justify is never above its own, and [update_header_version] leaves it as
    it is. *)
Theorem decoded_header_is_current (img img' : t_abootimg) :
  length (header img) = sizeof_boot_img_hdr_v2 H ->
  feof (stream img) = false ->
  read_header H img = Ok img' ->
  length (header img') = sizeof_boot_img_hdr_v2 H
  /\ tail_zero H img'
  /\ (header_version H img' = 0 ->
      recovery_dtbo_size H img' = 0 /\ dtb_size H img' = 0)
  /\ (header_version H img' = 1 -> dtb_size H img' = 0)
  /\ justified_version H img' <= header_version H img'
  /\ update_header_version H img' = img'.
Proof.
  intros Hlen Hfeof Hr.
  destruct (read_header_inv img img' Hlen Hfeof Hr) as (Hl & -> & Hv).
  destruct (decoded_header img Hl) as (Ll & Ev & Tz & Zf).
  destruct (check_valid_inv H _ Hv) as (V2 & _).
  pose proof (layout_bounds H Hok) as B.
  pose proof (get_u32_range (off_header_version H)
                (header (decoded_image H img))) as Rv.
  fold (header_version H (decoded_image H img)) in Rv.
  set (i := decoded_image H img) in *.
  assert (Z0 : header_version H i = 0 ->
               recovery_dtbo_size H i = 0 /\ dtb_size H i = 0).
  { intros E0. rewrite Ev in E0. unfold sizeof_hdr in Zf.
    rewrite E0 in Zf. cbn [Z.eqb] in Zf.
    split; apply Zf; lia. }
  assert (Z1 : header_version H i = 1 -> dtb_size H i = 0).
  { intros E1. rewrite Ev in E1. unfold sizeof_hdr in Zf.
    rewrite E1 in Zf. cbn [Z.eqb Pos.eqb] in Zf. apply Zf. lia. }
  assert (Hj : justified_version H i <= header_version H i).
  { pose proof (justified_version_range H i) as Rj.
    assert (Cv : header_version H i = 0 \/ header_version H i = 1
                 \/ header_version H i = 2) by lia.
    destruct Cv as [E|[E|E]].
    - destruct (Z0 E) as [Eo Ed]. unfold justified_version.
      rewrite Eo, Ed. cbn [Z.eqb negb]. lia.
    - unfold justified_version. rewrite (Z1 E). cbn [Z.eqb negb].
      destruct (negb _); lia.
    - lia. }
  split; [exact Ll|]. split; [exact Tz|]. split; [exact Z0|].
  split; [exact Z1|]. split; [exact Hj|].
  rewrite update_header_version_unfold.
  destruct (Z.gtb_spec (justified_version H i) (header_version H i));
    [lia|reflexivity].
Qed.

End DecodedHeader.

Lemma decoded_header_is_current_witness :
  read_header aosp_bootimg_h example_opened
  = Ok (decoded_image aosp_bootimg_h example_opened)
  /\ header_version aosp_bootimg_h
       (decoded_image aosp_bootimg_h example_opened) = 0
  /\ recovery_dtbo_size aosp_bootimg_h
       (decoded_image aosp_bootimg_h example_opened) = 0
  /\ update_header_version aosp_bootimg_h
       (decoded_image aosp_bootimg_h example_opened)
     = decoded_image aosp_bootimg_h example_opened.
Proof.
  assert (E : read_header aosp_bootimg_h example_opened
              = Ok (decoded_image aosp_bootimg_h example_opened))
    by (vm_compute; reflexivity).
  pose proof (decoded_header_is_current aosp_bootimg_h eq_refl
                example_opened _ eq_refl eq_refl E) as W.
  destruct W as (_ & _ & W0 & _ & _ & Wu).
  assert (E0 : header_version aosp_bootimg_h
                 (decoded_image aosp_bootimg_h example_opened) = 0)
    by (vm_compute; reflexivity).
  split; [exact E|]. split; [exact E0|].
  split; [apply (W0 E0)|exact Wu].
Defined.

(** ** What the configuration cannot change *)

(** The index in [all_fields] of the field at an offset of [bootimg.h]. *)
Ltac field_index H t :=
  lazymatch t with
  | off_magic H => constr:(0%nat)
  | off_kernel_size H => constr:(1%nat)
  | off_kernel_addr H => constr:(2%nat)
  | off_ramdisk_size H => constr:(3%nat)
  | off_ramdisk_addr H => constr:(4%nat)
  | off_second_size H => constr:(5%nat)
  | off_second_addr H => constr:(6%nat)
  | off_tags_addr H => constr:(7%nat)
  | off_page_size H => constr:(8%nat)
  | off_header_version H => constr:(9%nat)
  | off_name H => constr:(10%nat)
  | off_cmdline H => constr:(11%nat)
  | off_recovery_dtbo_size H => constr:(12%nat)
  | off_recovery_dtbo_offset H => constr:(13%nat)
  | off_header_size H => constr:(14%nat)
  | off_dtb_size H => constr:(15%nat)
  | off_dtb_addr H => constr:(16%nat)
  end.

(** Two fields of [bootimg.h] do not overlap. *)
Ltac fields_apart H Hok :=
  lazymatch goal with
  | |- (?a + _ <= ?b)%nat \/ (?b + _ <= ?a)%nat =>
      let i := field_index H a in
      let j := field_index H b in
      let D := fresh "D" in
      first
        [ pose proof (fields_disjoint H Hok i j ltac:(lia)) as D
        | pose proof (fields_disjoint H Hok j i ltac:(lia)) as D ];
      unfold all_fields, v0_fields, v1_fields, v2_fields in D;
      cbn [app nth fst snd] in D; clear - D; lia
  end.

Lemma length_name_copy (n : nat) (value : list byte) :
  length (store (n - 1) [NUL] (firstn n (value ++ zeros n))) = n.
Proof.
  rewrite length_store, length_firstn, length_app, length_zeros. lia.
Qed.

Lemma length_cmdline_copy (n : nat) (value : list byte) :
  (length value < n)%nat -> length (value ++ zeros (n - length value)) = n.
Proof. intros Hv. rewrite length_app, length_zeros. lia. Qed.

Lemma config_frame_refl (H : bootimg_h) img : config_frame H img img.
Proof. unfold config_frame. repeat split; reflexivity. Qed.

Lemma config_frame_trans (H : bootimg_h) a b c :
  config_frame H a b -> config_frame H b c -> config_frame H a c.
Proof.
  unfold config_frame.
  intros (S1 & V1 & Z1 & M1 & L1 & T1 & B1 & F1 & P1)
         (S2 & V2 & Z2 & M2 & L2 & T2 & B2 & F2 & P2).
  split; [intros p; rewrite S2, S1; reflexivity|].
  split; [congruence|]. split; [congruence|]. split; [congruence|].
  split; [congruence|]. split; [congruence|]. split; [congruence|].
  split; intros p; [rewrite F2, F1|rewrite P2, P1]; reflexivity.
Qed.

Section ConfigFrame.

Variable H : bootimg_h.
Hypothesis Hok : bootimg_h_ok H = true.

(** A store into one of the nine fields the configuration sets. *)
Lemma config_store_frame (img : t_abootimg) (off : nat) (bs : list byte) :
  (forall o n,
      In (o, n)
        [ (off_kernel_size H, 4%nat); (off_ramdisk_size H, 4%nat);
          (off_second_size H, 4%nat); (off_recovery_dtbo_size H, 4%nat);
          (off_dtb_size H, 4%nat); (off_header_version H, 4%nat);
          (off_header_size H, 4%nat); (off_magic H, BOOT_MAGIC_SIZE H) ] ->
      (o + n <= off)%nat \/ (off + length bs <= o)%nat) ->
  config_frame H img (set_header (store off bs (header img)) img).
Proof.
  intros D. unfold config_frame, part_size, header_version, header_size,
    get_u32.
  cbn [header set_header stream is_blkdev].
  split.
  { intros p. rewrite load_store_other; [reflexivity|].
    apply D. destruct p; cbn [off_part_size In]; auto 6. }
  split; [rewrite load_store_other; [reflexivity|apply D; cbn [In]; auto 8]|].
  split; [rewrite load_store_other; [reflexivity|apply D; cbn [In]; auto 8]|].
  split; [rewrite load_store_other; [reflexivity|apply D; cbn [In]; auto 9]|].
  split; [apply length_store|].
  split; [reflexivity|]. split; [reflexivity|].
  split; intros p; destruct p; reflexivity.
Qed.

Ltac config_field :=
  intros o n Hin; cbn [In] in Hin;
  repeat (destruct Hin as [Hin|Hin];
          [injection Hin as <- <-; rewrite ?length_le_encode;
           fields_apart H Hok|]);
  contradiction.

Lemma set_field32_frame img off v :
  In off [ off_page_size H; off_kernel_addr H; off_ramdisk_addr H;
           off_second_addr H; off_tags_addr H ] ->
  config_frame H img (set_field32 off v img).
Proof.
  intros Hoff. unfold set_field32, set_u32. apply config_store_frame.
  cbn [In] in Hoff.
  repeat (destruct Hoff as [<-|Hoff]; [config_field|]). contradiction.
Qed.

Lemma set_field64_frame img off v :
  In off [ off_recovery_dtbo_offset H; off_dtb_addr H ] ->
  config_frame H img (set_field64 off v img).
Proof.
  intros Hoff. unfold set_field64, set_u64. apply config_store_frame.
  cbn [In] in Hoff.
  repeat (destruct Hoff as [<-|Hoff]; [config_field|]). contradiction.
Qed.

Lemma set_name_frame img value : config_frame H img (set_name H value img).
Proof.
  unfold set_name. apply config_store_frame.
  intros o n Hin. rewrite length_name_copy. revert o n Hin. config_field.
Qed.

Lemma set_size_frame img v b :
  b = is_blkdev img -> config_frame H img (set_size v b img).
Proof.
  intros ->. unfold config_frame. repeat split; intros p; destruct p;
    reflexivity.
Qed.

Lemma set_cmdline_frame img img' value :
  set_cmdline H value img = Ok img' -> config_frame H img img'.
Proof.
  unfold set_cmdline. destruct (_ >=? _); [discriminate|].
  destruct (Nat.ltb_spec (length value) (BOOT_ARGS_SIZE H)) as [Hv|];
    [|discriminate].
  intros E. injection E as <-. apply config_store_frame.
  intros o n Hin. rewrite length_cmdline_copy by exact Hv.
  revert o n Hin. config_field.
Qed.

Lemma update_header_entry_frame img img' cmd :
  update_header_entry H img cmd = Ok img' -> config_frame H img img'.
Proof.
  unfold update_header_entry.
  destruct (split_entry cmd) as [[token_start token] [value|]];
    [|discriminate].
  destruct (strcmp_eq token (str "cmdline")); [apply set_cmdline_frame|].
  destruct (strncmp_eq token (str "name") 4).
  { intros E. injection E as <-. apply set_name_frame. }
  destruct (strncmp_eq token (str "bootsize") 8).
  { destruct (_ && _); [discriminate|].
    intros E. injection E as <-. apply set_size_frame. reflexivity. }
  repeat match goal with
         | |- (if ?b then _ else _) = _ -> _ =>
             destruct b;
             [intros E; injection E as <-;
              first [ apply set_field32_frame; cbn [In]; auto 6
                    | apply set_field64_frame; cbn [In]; auto ]|]
         end.
  discriminate.
Qed.

Lemma update_header_lines_frame lines : forall img img',
  update_header_lines H img lines = Ok img' -> config_frame H img img'.
Proof.
  induction lines as [|line lines IH]; intros img img'; cbn [update_header_lines].
  - intros E. injection E as <-. apply config_frame_refl.
  - destruct (update_header_entry H img line) as [img1| |] eqn:E1;
      cbn [bind]; try discriminate.
    intros E. apply (config_frame_trans H img img1 img').
    + apply update_header_entry_frame with (cmd := line). exact E1.
    + apply IH. exact E.
Qed.

(** An entry shorter than 2^32 characters is applied or refused. *)
Lemma update_header_entry_defined img cmd :
  Z.of_nat (length cmd) < UINT32_MOD ->
  match update_header_entry H img cmd with
  | Ok _ => True
  | Abort c => config_refusal c
  | Undefined => False
  end.
Proof.
  intros Hc. pose proof (layout_bounds H Hok) as B.
  unfold update_header_entry.
  assert (Hv : forall v, snd (split_entry cmd) = Some v ->
                         (length v <= length cmd)%nat).
  { unfold split_entry. intros v.
    set (line := until_char NEWLINE (c_str cmd)).
    assert (Ll : (length line <= length cmd)%nat).
    { unfold line. pose proof (length_until_char NEWLINE (c_str cmd)).
      pose proof (length_c_str cmd). lia. }
    set (p0 := skipn (strspn line [SPACE; TAB]) line).
    set (p1 := skipn (strcspn p0 [SPACE; EQUALS; TAB]) p0).
    set (p2 := skipn (strspn p1 [SPACE; TAB]) p1).
    assert (L2 : (length p2 <= length line)%nat).
    { unfold p2, p1, p0. rewrite !length_skipn. lia. }
    destruct p2 as [|c q]; cbn [snd]; [discriminate|].
    destruct (Byte.eqb c EQUALS); cbn [snd]; [|discriminate].
    intros E. injection E as <-. rewrite length_skipn.
    cbn [length] in L2. lia. }
  destruct (split_entry cmd) as [[token_start token] [value|]].
  2: { right. right. eexists. reflexivity. }
  specialize (Hv value eq_refl).
  destruct (strcmp_eq token (str "cmdline")).
  { unfold set_cmdline. rewrite u32_small by lia.
    destruct (Z.geb_spec (Z.of_nat (length value))
                (Z.of_nat (BOOT_ARGS_SIZE H))).
    - left. eexists. reflexivity.
    - destruct (Nat.ltb_spec (length value) (BOOT_ARGS_SIZE H));
        [exact I|lia]. }
  destruct (strncmp_eq token (str "name") 4); [exact I|].
  destruct (strncmp_eq token (str "bootsize") 8).
  { destruct (_ && _); [right; left; reflexivity|exact I]. }
  repeat match goal with
         | |- match (if ?b then _ else _) with _ => _ end =>
             destruct b; [exact I|]
         end.
  right. right. eexists. reflexivity.
Qed.

Lemma update_header_lines_defined lines : forall img,
  Forall (fun line => Z.of_nat (length line) < UINT32_MOD) lines ->
  match update_header_lines H img lines with
  | Ok _ => True
  | Abort c => config_refusal c
  | Undefined => False
  end.
Proof.
  induction lines as [|line lines IH]; intros img Hl;
    cbn [update_header_lines]; [exact I|].
  inversion Hl as [|? ? Hline Hrest]; subst.
  pose proof (update_header_entry_defined img line Hline) as D.
  destruct (update_header_entry H img line) as [img1| |]; cbn [bind];
    [apply IH; exact Hrest|exact D|exact D].
Qed.

(** X3: whatever the configuration file and the [-c] arguments hold,
    [update_header] changes neither the size of a part, nor the version and
    the size of the header, nor the magic, nor anything of the image outside
    the header but the container size; and on lines shorter than 2^32
    characters it either applies every entry or stops with one of three
    conditions: a command line too long, a size given for a block device, a
    bad entry.  No entry writes past a field. *)
Theorem update_header_frame (img : t_abootimg)
  (config_file config_args : list (list byte)) :
  (forall img',
      update_header H img config_file config_args = Ok img' ->
      config_frame H img img')
  /\ (Forall (fun line => Z.of_nat (length line) < UINT32_MOD)
        (config_file ++ config_args) ->
      match update_header H img config_file config_args with
      | Ok _ => True
      | Abort c => config_refusal c
      | Undefined => False
      end).
Proof.
  unfold update_header. split.
  - intros img'.
    destruct (update_header_lines H img config_file) as [img1| |] eqn:E1;
      cbn [bind]; try discriminate.
    intros E2. apply (config_frame_trans H img img1 img').
    + apply (update_header_lines_frame config_file). exact E1.
    + apply (update_header_lines_frame config_args). exact E2.
  - intros Hl. apply Forall_app in Hl. destruct Hl as [Hf Ha].
    pose proof (update_header_lines_defined config_file img Hf) as D1.
    destruct (update_header_lines H img config_file) as [img1| |];
      cbn [bind]; [|exact D1|exact D1].
    apply (update_header_lines_defined config_args img1 Ha).
Qed.

End ConfigFrame.

Lemma update_header_frame_witness :
  update_header aosp_bootimg_h (example_image 2048)
    [str "pagesize = 4096"; str "name = demo"] [str "cmdline = quiet"]
  = Ok example_configured
  /\ page_size aosp_bootimg_h example_configured = 4096
  /\ config_frame aosp_bootimg_h (example_image 2048) example_configured.
Proof.
  assert (E : update_header aosp_bootimg_h (example_image 2048)
                [str "pagesize = 4096"; str "name = demo"]
                [str "cmdline = quiet"]
              = Ok example_configured) by (vm_compute; reflexivity).
  split; [exact E|]. split; [vm_compute; reflexivity|].
  pose proof (update_header_frame aosp_bootimg_h eq_refl (example_image 2048)
                [str "pagesize = 4096"; str "name = demo"]
                [str "cmdline = quiet"]) as [W _].
  exact (W _ E).
Defined.

(** ** The command line *)

Lemma strncmp_eq_c_str n : forall a b,
  (length a < n)%nat -> (length b < n)%nat ->
  strncmp_eq a b n = bytes_eqb (c_str a) (c_str b).
Proof.
  induction n as [|n IH]; intros a b Ha Hb; [lia|].
  cbn [strncmp_eq].
  destruct a as [|x a], b as [|y b]; cbn [hd tl c_str length] in *.
  - reflexivity.
  - destruct (byte_eqb_spec NUL y) as [<-|N].
    + reflexivity.
    + destruct (byte_eqb_spec y NUL); [congruence|reflexivity].
  - destruct (byte_eqb_spec x NUL) as [->|N]; reflexivity.
  - destruct (byte_eqb_spec x y) as [<-|N].
    + destruct (byte_eqb_spec x NUL) as [->|Nx]; [reflexivity|].
      cbn [bytes_eqb]. destruct (byte_eqb_spec x x); [|congruence].
      cbn [andb]. apply IH; lia.
    + destruct (byte_eqb_spec x NUL) as [->|Nx];
        destruct (byte_eqb_spec y NUL) as [->|Ny]; cbn [bytes_eqb];
        try reflexivity; try congruence.
      destruct (byte_eqb_spec x y); [congruence|reflexivity].
Qed.

(** [strcmp] compares the strings two buffers hold. *)
Lemma strcmp_eq_c_str a b : strcmp_eq a b = bytes_eqb (c_str a) (c_str b).
Proof. unfold strcmp_eq. apply strncmp_eq_c_str; lia. Qed.

Lemma strcmp_eq_flag (flag o : string) :
  nul_free (str flag) -> strcmp_eq (str o) (str flag) = flag_is flag o.
Proof.
  intros Hf. rewrite strcmp_eq_c_str, (c_str_nul_free _ Hf). reflexivity.
Qed.

Lemma parse_options_cons o rest cmd img names cfg :
  parse_options (o :: rest) cmd img names cfg
  = if flag_is "-c" o then
      match rest with
      | [] => Parsed none img names cfg
      | v :: rest =>
          let len := u32 (strlen (str v)) in
          if strlen cfg + len + 1 >=? MAX_CONF_LEN
          then TooManyConfigParameters
          else if strlen cfg + strlen (str v) + 1 >=? MAX_CONF_LEN
          then ConfigArgsOverflow
          else parse_options rest cmd img names
                 (c_str cfg ++ c_str (str v) ++ [NEWLINE])
      end
    else if flag_is "-f" o then
      match rest with
      | [] => Parsed none img names cfg
      | v :: rest =>
          parse_options rest cmd img
            {| fname := fname names; config_fname := Some v |} cfg
      end
    else if flag_is "-k" o then
      match rest with
      | [] => Parsed none img names cfg
      | v :: rest =>
          parse_options rest cmd (set_part_fname Kernel (Some v) img) names cfg
      end
    else if flag_is "-r" o then
      match rest with
      | [] => Parsed none img names cfg
      | v :: rest =>
          parse_options rest cmd (set_part_fname Ramdisk (Some v) img) names
            cfg
      end
    else if flag_is "-s" o then
      match rest with
      | [] => Parsed none img names cfg
      | v :: rest =>
          parse_options rest cmd (set_part_fname Second (Some v) img) names cfg
      end
    else if flag_is "-d" o then
      match rest with
      | [] => Parsed none img names cfg
      | v :: rest =>
          parse_options rest cmd (set_part_fname Dtb (Some v) img) names cfg
      end
    else if flag_is "-o" o then
      match rest with
      | [] => Parsed none img names cfg
      | v :: rest =>
          parse_options rest cmd (set_part_fname Dtbo (Some v) img) names cfg
      end
    else Parsed none img names cfg.
Proof.
  assert (F : forall flag, In flag option_flags ->
                           strcmp_eq (str o) (str flag) = flag_is flag o).
  { intros flag Hin. apply strcmp_eq_flag. unfold option_flags in Hin.
    cbn [In] in Hin.
    repeat (destruct Hin as [<-|Hin];
            [vm_compute; repeat (constructor; [discriminate|]); constructor|]).
    contradiction. }
  cbn [parse_options].
  rewrite !F by (unfold option_flags; cbn [In]; auto 10).
  reflexivity.
Qed.

(** An argument that is one flag is no other flag. *)
Lemma flag_is_exclusive (flag flag' o : string) :
  flag_is flag o = true -> flag_is flag' o = bytes_eqb (str flag) (str flag').
Proof.
  unfold flag_is. intros E. apply bytes_eqb_eq in E. rewrite E. reflexivity.
Qed.

Lemma or_else_Some {A : Type} (o : option A) (a : A) (d : option A) :
  or_else (or_else o (Some a)) d = or_else o (Some a).
Proof. destruct o; reflexivity. Qed.

Lemma or_else_if {A : Type} (o : option A) (b : bool) (a : A)
  (d : option A) :
  or_else (or_else o (if b then Some a else None)) d
  = or_else o (if b then Some a else d).
Proof. destruct o, b; reflexivity. Qed.

Lemma nul_free_app (a b : list byte) :
  nul_free a -> nul_free b -> nul_free (a ++ b).
Proof. unfold nul_free. intros Ha Hb. apply Forall_app. split; assumption. Qed.

Lemma nul_free_line (s : list byte) : nul_free (c_str s ++ [NEWLINE]).
Proof.
  apply nul_free_app; [apply nul_free_c_str|].
  constructor; [discriminate|constructor].
Qed.

Lemma strlen_nul_free (s : list byte) :
  nul_free s -> strlen s = Z.of_nat (length s).
Proof. intros Hs. unfold strlen. rewrite c_str_nul_free by exact Hs. reflexivity. Qed.

Lemma strlen_le (s : list byte) : 0 <= strlen s <= Z.of_nat (length s).
Proof. unfold strlen. pose proof (length_c_str s). lia. Qed.

(** An option in front of a list of options: the value its flag leaves. *)
Lemma last_option_cons flag o v pairs :
  last_option flag ((o, v) :: pairs)
  = or_else (last_option flag pairs) (if flag_is flag o then Some v else None).
Proof. reflexivity. Qed.

Lemma parse_options_pairs (pairs : list (string * string)) :
  forall rest cmd img names cfg,
    Forall (fun ov => known_flag (fst ov) = true) pairs ->
    nul_free cfg ->
    Z.of_nat (length (cfg ++ config_text pairs)) < MAX_CONF_LEN ->
    parse_options (option_args pairs ++ rest) cmd img names cfg
    = parse_options rest cmd
        (with_part_fnames
           (fun p => or_else (last_option (part_flag p) pairs)
                       (part_fname p img)) img)
        {| fname := fname names;
           config_fname :=
             or_else (last_option "-f" pairs) (config_fname names) |}
        (cfg ++ config_text pairs).
Proof.
  induction pairs as [|[o v] pairs IH];
    intros rest cmd img names cfg Hk Hn Hl.
  - cbn [option_args app config_text last_option or_else].
    rewrite app_nil_r. destruct img, names; reflexivity.
  - inversion Hk as [|? ? Ho Hrest]; subst. cbn [fst] in Ho.
    cbn [option_args app]. rewrite parse_options_cons.
    cbn [config_text] in Hl |- *.
    unfold known_flag, option_flags in Ho. cbn [existsb] in Ho.
    assert (Step : forall flag img1 names1 cfg1,
               flag_is flag o = true ->
               nul_free cfg1 ->
               Z.of_nat (length (cfg1 ++ config_text pairs)) < MAX_CONF_LEN ->
               cfg1 = cfg ++ (if bytes_eqb (str flag) (str "-c")
                              then c_str (str v) ++ [NEWLINE] else []) ->
               fname names1 = fname names ->
               config_fname names1
               = (if bytes_eqb (str flag) (str "-f") then Some v
                  else config_fname names) ->
               (forall p, part_fname p img1
                          = if bytes_eqb (str flag) (str (part_flag p))
                            then Some v else part_fname p img) ->
               with_part_fnames (fun _ => None) img1
               = with_part_fnames (fun _ => None) img ->
               parse_options (option_args pairs ++ rest) cmd img1 names1 cfg1
               = parse_options rest cmd
                   (with_part_fnames
                      (fun p => or_else (last_option (part_flag p)
                                           ((o, v) :: pairs))
                                  (part_fname p img)) img)
                   {| fname := fname names;
                      config_fname :=
                        or_else (last_option "-f" ((o, v) :: pairs))
                          (config_fname names) |}
                   (cfg ++ (if flag_is "-c" o
                            then c_str (str v) ++ [NEWLINE] else [])
                        ++ config_text pairs)).
    { intros flag img1 names1 cfg1 Ef Hn1 Hl1 Ecfg En Ec Ep Ei.
      rewrite IH by assumption.
      unfold with_part_fnames in *. cbn [part_flag].
      rewrite !last_option_cons, !(flag_is_exclusive flag _ o Ef).
      rewrite !Ep, En, Ec, Ecfg. cbn [part_flag].
      injection Ei as -> -> -> -> -> -> -> -> ->.
      rewrite <- app_assoc, !or_else_if. reflexivity. }
    destruct (flag_is "-c" o) eqn:Ec.
    { rewrite !length_app in Hl. cbn [length] in Hl.
      pose proof (strlen_le (str v)) as Bv.
      assert (Ev : strlen (str v) = Z.of_nat (length (c_str (str v))))
        by reflexivity.
      cbv zeta. rewrite (strlen_nul_free cfg Hn).
      rewrite u32_small by (unfold UINT32_MOD, MAX_CONF_LEN in *; lia).
      destruct (Z.geb_spec (Z.of_nat (length cfg) + strlen (str v) + 1)
                  MAX_CONF_LEN); [lia|].
      rewrite (c_str_nul_free cfg Hn).
      apply (Step "-c"%string);
        [ exact Ec
        | apply nul_free_app; [exact Hn|apply nul_free_line]
        | rewrite !length_app; cbn [length]; lia
        | reflexivity | reflexivity | reflexivity
        | intros p; destruct p; reflexivity | reflexivity ]. }
    cbn [app] in Hl.
    destruct (flag_is "-f" o) eqn:Ef.
    { apply (Step "-f"%string);
        [ exact Ef | exact Hn | exact Hl
        | cbn; rewrite app_nil_r; reflexivity | reflexivity | reflexivity
        | intros p; destruct p; reflexivity | reflexivity ]. }
    destruct (flag_is "-k" o) eqn:Ek.
    { apply (Step "-k"%string);
        [ exact Ek | exact Hn | exact Hl
        | cbn; rewrite app_nil_r; reflexivity | reflexivity | reflexivity
        | intros p; destruct p; reflexivity | reflexivity ]. }
    destruct (flag_is "-r" o) eqn:Er.
    { apply (Step "-r"%string);
        [ exact Er | exact Hn | exact Hl
        | cbn; rewrite app_nil_r; reflexivity | reflexivity | reflexivity
        | intros p; destruct p; reflexivity | reflexivity ]. }
    destruct (flag_is "-s" o) eqn:Es.
    { apply (Step "-s"%string);
        [ exact Es | exact Hn | exact Hl
        | cbn; rewrite app_nil_r; reflexivity | reflexivity | reflexivity
        | intros p; destruct p; reflexivity | reflexivity ]. }
    destruct (flag_is "-d" o) eqn:Ed.
    { apply (Step "-d"%string);
        [ exact Ed | exact Hn | exact Hl
        | cbn; rewrite app_nil_r; reflexivity | reflexivity | reflexivity
        | intros p; destruct p; reflexivity | reflexivity ]. }
    destruct (flag_is "-o" o) eqn:Eo.
    { apply (Step "-o"%string);
        [ exact Eo | exact Hn | exact Hl
        | cbn; rewrite app_nil_r; reflexivity | reflexivity | reflexivity
        | intros p; destruct p; reflexivity | reflexivity ]. }
    discriminate Ho.
Qed.

Lemma parse_options_missing_argument o cmd img names cfg :
  parse_options [o] cmd img names cfg = Parsed none img names cfg.
Proof.
  rewrite parse_options_cons.
  repeat match goal with
         | |- (if ?b then _ else _) = _ => destruct b; [reflexivity|]
         end.
  reflexivity.
Qed.

Lemma parse_options_unknown o rest cmd img names cfg :
  known_flag o = false ->
  parse_options (o :: rest) cmd img names cfg = Parsed none img names cfg.
Proof.
  unfold known_flag, option_flags. cbn [existsb]. intros Hk.
  repeat (apply orb_false_iff in Hk; destruct Hk as [?E Hk]).
  rewrite parse_options_cons, E, E0, E1, E2, E3, E4, E5. reflexivity.
Qed.

(** The dispatch of [parse_args] on a command that takes options. *)
Lemma parse_args_command prog f args cmd img names cfg :
  cmd = update \/ cmd = create ->
  parse_args (prog :: command_flag cmd :: f :: args) img names cfg
  = parse_options args cmd (with_part_fnames (fun _ => None) img)
      {| fname := Some f; config_fname := None |} cfg.
Proof.
  intros [->| ->]; unfold parse_args; cbn [command_flag length nth skipn];
    repeat match goal with
           | |- context [strcmp_eq (str ?a) (str ?b)] =>
               let r := eval vm_compute in (strcmp_eq (str a) (str b)) in
               change (strcmp_eq (str a) (str b)) with r
           end;
    reflexivity.
Qed.

Lemma or_else_None {A : Type} (o : option A) : or_else o None = o.
Proof. destruct o; reflexivity. Qed.

(** X4: the options of [abootimg -u] and [abootimg --create].  When every
    option is one of the seven flags followed by an argument and the [-c]
    arguments, a line each, take fewer than 4096 characters, [parse_args]
    returns the command; the file of each part, and the configuration file,
    is the argument of the last option with its flag, and is absent when no
    option has it, whatever [new_bootimg] had put there; [config_args] holds
    the [-c] arguments in their order.  A flag with no argument after it,
    and an argument that is none of the flags where a flag is expected, make
    [parse_args] return [none]. *)
Theorem parse_args_options (prog f : string) (pairs : list (string * string))
  (cmd : command) (img : t_abootimg) (names : t_names) :
  cmd = update \/ cmd = create ->
  Forall (fun ov => known_flag (fst ov) = true) pairs ->
  Z.of_nat (length (config_text pairs)) < MAX_CONF_LEN ->
  parse_args (prog :: command_flag cmd :: f :: option_args pairs) img names []
  = Parsed cmd
      (with_part_fnames (fun p => last_option (part_flag p) pairs) img)
      {| fname := Some f; config_fname := last_option "-f" pairs |}
      (config_text pairs)
  /\ (forall o,
        exists img' names' cfg',
          parse_args
            (prog :: command_flag cmd :: f :: option_args pairs ++ [o])
            img names [] = Parsed none img' names' cfg')
  /\ (forall o rest,
        known_flag o = false ->
        exists img' names' cfg',
          parse_args
            (prog :: command_flag cmd :: f :: option_args pairs ++ o :: rest)
            img names [] = Parsed none img' names' cfg').
Proof.
  intros Hcmd Hk Hl.
  assert (Hn : nul_free []) by constructor.
  split; [|split].
  - rewrite (parse_args_command prog f _ cmd img names [] Hcmd).
    rewrite <- (app_nil_r (option_args pairs)).
    rewrite parse_options_pairs by assumption.
    cbn [parse_options app config_fname fname].
    unfold with_part_fnames.
    cbn [part_fname kernel_fname ramdisk_fname second_fname dtbo_fname
         dtb_fname].
    rewrite !or_else_None. reflexivity.
  - intros o. rewrite (parse_args_command prog f _ cmd img names [] Hcmd).
    rewrite parse_options_pairs by assumption.
    rewrite parse_options_missing_argument. eexists _, _, _. reflexivity.
  - intros o rest Ho.
    rewrite (parse_args_command prog f _ cmd img names [] Hcmd).
    rewrite parse_options_pairs by assumption.
    rewrite parse_options_unknown by exact Ho. eexists _, _, _. reflexivity.
Qed.

Lemma parse_args_options_witness :
  exists img names,
    parse_args
      [ "abootimg"; "-u"; "boot.img"; "-k"; "zImage"; "-c"; "pagesize=4096";
        "-k"; "Image.gz"; "-d"; "board.dtb" ]%string
      (new_bootimg aosp_bootimg_h) new_bootimg_names []
    = Parsed update img names (str "pagesize=4096" ++ [NEWLINE])
    /\ kernel_fname img = Some "Image.gz"%string
    /\ ramdisk_fname img = None
    /\ dtb_fname img = Some "board.dtb"%string
    /\ config_fname names = None.
Proof.
  destruct (parse_args_options "abootimg" "boot.img"
              [ ("-k", "zImage"); ("-c", "pagesize=4096");
                ("-k", "Image.gz"); ("-d", "board.dtb") ]%string
              update (new_bootimg aosp_bootimg_h) new_bootimg_names)
    as [W _].
  - left. reflexivity.
  - repeat constructor.
  - vm_compute. reflexivity.
  - eexists _, _. split; [exact W|]. repeat split.
Defined.

(** ** The room of [config_args] *)

Lemma Forall_skipn_args {A : Type} (P : A -> Prop) n (l : list A) :
  Forall P l -> Forall P (skipn n l).
Proof.
  revert l. induction n as [|n IH]; intros l Hl; [exact Hl|].
  destruct Hl; cbn [skipn]; [constructor|apply IH; assumption].
Qed.

Lemma parse_options_bounded n : forall args cmd img names cfg,
  (length args <= n)%nat ->
  nul_free cfg -> Z.of_nat (length cfg) < MAX_CONF_LEN ->
  Forall (fun a => Z.of_nat (length (str a)) < UINT32_MOD) args ->
  match parse_options args cmd img names cfg with
  | Parsed _ _ _ cfg' => nul_free cfg' /\ Z.of_nat (length cfg') < MAX_CONF_LEN
  | TooManyConfigParameters => True
  | ConfigArgsOverflow => False
  end.
Proof.
  induction n as [|n IH]; intros args cmd img names cfg Hlen Hn Hc Ha.
  - destruct args; [|cbn [length] in Hlen; lia].
    cbn [parse_options]. split; assumption.
  - destruct args as [|o rest]; [cbn [parse_options]; split; assumption|].
    rewrite parse_options_cons.
    inversion Ha as [|? ? Ho Hrest]; subst.
    assert (Next : forall v rest' img' names',
               rest = v :: rest' ->
               match parse_options rest' cmd img' names' cfg with
               | Parsed _ _ _ cfg' =>
                   nul_free cfg' /\ Z.of_nat (length cfg') < MAX_CONF_LEN
               | TooManyConfigParameters => True
               | ConfigArgsOverflow => False
               end).
    { intros v rest' img' names' ->. inversion Hrest; subst.
      apply IH; try assumption. cbn [length] in Hlen. lia. }
    destruct (flag_is "-c" o).
    { destruct rest as [|v rest']; [split; assumption|].
      inversion Hrest as [|? ? Hv Hrest']; subst.
      pose proof (strlen_le (str v)) as Bv. cbv zeta.
      rewrite (strlen_nul_free cfg Hn).
      rewrite u32_small by lia.
      destruct (Z.geb_spec (Z.of_nat (length cfg) + strlen (str v) + 1)
                  MAX_CONF_LEN); [exact I|].
      rewrite (c_str_nul_free cfg Hn).
      apply IH.
      - cbn [length] in Hlen. lia.
      - apply nul_free_app; [exact Hn|apply nul_free_line].
      - rewrite !length_app. cbn [length]. unfold strlen in *. lia.
      - exact Hrest'. }
    repeat match goal with
           | |- match (if ?b then _ else _) with _ => _ end =>
               destruct b;
               [destruct rest as [|v rest'];
                [split; assumption|apply (Next v rest'); reflexivity]|]
           end.
    split; assumption.
Qed.

(** X5: on arguments shorter than 2^32 characters [parse_args] never
    writes past the end of [config_args]: whatever the arguments are, it
    aborts with its message, or it returns with a string in [config_args]
    that fits the 4096 bytes of the array with its terminating NUL. *)
Theorem parse_args_config_bounded (argv : list string) (img : t_abootimg)
  (names : t_names) :
  Forall (fun a => Z.of_nat (length (str a)) < UINT32_MOD) argv ->
  match parse_args argv img names [] with
  | Parsed _ _ _ cfg => nul_free cfg /\ Z.of_nat (length cfg) + 1 <= MAX_CONF_LEN
  | TooManyConfigParameters => True
  | ConfigArgsOverflow => False
  end.
Proof.
  intros Ha.
  assert (Hn : nul_free []) by constructor.
  assert (H0 : nul_free [] /\ Z.of_nat (@length byte []) + 1 <= MAX_CONF_LEN)
    by (split; [exact Hn|unfold MAX_CONF_LEN; cbn; lia]).
  assert (Opt : forall cmd img' names',
             match parse_options (skipn 3 argv) cmd img' names' [] with
             | Parsed _ _ _ cfg =>
                 nul_free cfg /\ Z.of_nat (length cfg) + 1 <= MAX_CONF_LEN
             | TooManyConfigParameters => True
             | ConfigArgsOverflow => False
             end).
  { intros cmd img' names'.
    pose proof (parse_options_bounded (length (skipn 3 argv)) (skipn 3 argv)
                  cmd img' names' [] (le_n _) Hn
                  ltac:(unfold MAX_CONF_LEN; cbn; lia)
                  (Forall_skipn_args _ 3 argv Ha)) as B.
    destruct (parse_options (skipn 3 argv) cmd img' names' []);
      [|exact B|exact B].
    split; [apply B|]. destruct B as [_ B]. lia. }
  unfold parse_args.
  destruct (length argv <? 2)%nat; [exact H0|].
  repeat match goal with
         | |- context [if strcmp_eq ?a ?b then _ else _] =>
             destruct (strcmp_eq a b)
         end;
    repeat match goal with
           | |- context [if ?b then _ else _] => destruct b
           end;
    try exact H0; apply Opt.
Qed.

Lemma parse_args_config_bounded_witness :
  exists cmd img names cfg,
    parse_args
      [ "abootimg"; "--create"; "boot.img"; "-c"; "pagesize=4096"; "-c";
        "name=demo"; "-k" ]%string
      (new_bootimg aosp_bootimg_h) new_bootimg_names []
    = Parsed cmd img names cfg
    /\ cfg = str "pagesize=4096" ++ [NEWLINE] ++ str "name=demo" ++ [NEWLINE]
    /\ Z.of_nat (length cfg) + 1 <= MAX_CONF_LEN.
Proof.
  pose proof (parse_args_config_bounded
                [ "abootimg"; "--create"; "boot.img"; "-c"; "pagesize=4096";
                  "-c"; "name=demo"; "-k" ]%string
                (new_bootimg aosp_bootimg_h) new_bootimg_names) as W.
  destruct (parse_args _ _ _ _) as [cmd img names cfg| |] eqn:E;
    [|vm_compute in E; discriminate E ..].
  exists cmd, img, names, cfg. split; [reflexivity|].
  split; [vm_compute in E; injection E as _ _ _ <-; reflexivity|].
  apply W. repeat constructor.
Defined.

(** ** The configuration written and read back *)

Lemma hex_digit_value d :
  0 <= d < 16 -> digit_value (hex_digit d) = Some d.
Proof.
  intros Hd. unfold digit_value, hex_digit. rewrite Z_of_byte_of_Z.
  destruct (Z.ltb_spec d 10).
  - rewrite Z.mod_small by lia.
    destruct (Z.leb_spec 48 (48 + d)); [|lia].
    destruct (Z.leb_spec (48 + d) 57); [|lia].
    cbn [andb]. f_equal. lia.
  - rewrite Z.mod_small by lia.
    destruct (Z.leb_spec 48 (87 + d)); [|lia].
    destruct (Z.leb_spec (87 + d) 57); [lia|].
    destruct (Z.leb_spec 97 (87 + d)); [|lia].
    destruct (Z.leb_spec (87 + d) 122); [|lia].
    cbn [andb]. f_equal. lia.
Qed.

Lemma hex_char_code c :
  hex_char c -> 48 <= Z_of_byte c <= 57 \/ 97 <= Z_of_byte c <= 102.
Proof.
  intros (d & Hd & ->). unfold hex_digit. rewrite Z_of_byte_of_Z.
  destruct (Z.ltb_spec d 10); rewrite Z.mod_small by lia; lia.
Qed.

Lemma hex_char_word c : hex_char c -> word_char c /\ c <> EQUALS.
Proof.
  intros Hc. apply hex_char_code in Hc. unfold word_char.
  assert (E0 : Z_of_byte NUL = 0) by reflexivity.
  assert (E1 : Z_of_byte NEWLINE = 10) by reflexivity.
  assert (E2 : Z_of_byte SPACE = 32) by reflexivity.
  assert (E3 : Z_of_byte TAB = 9) by reflexivity.
  assert (E4 : Z_of_byte EQUALS = 61) by reflexivity.
  repeat split; intros E; rewrite E in Hc; lia.
Qed.

Lemma hex_char_digit c : hex_char c -> is_digit_of 16 c = true.
Proof.
  intros (d & Hd & ->). unfold is_digit_of. rewrite hex_digit_value by exact Hd.
  apply Z.ltb_lt. lia.
Qed.

(** The digits [hex_digits] puts in front of [acc]. *)
Lemma hex_digits_spec n : forall v acc,
  0 <= v < 16 ^ Z.of_nat n ->
  exists ds,
    hex_digits n v acc = ds ++ acc
    /\ Forall hex_char ds
    /\ (n <> O -> ds <> [])
    /\ forall rest a,
         strtoull_digits 16 (ds ++ rest) a
         = strtoull_digits 16 rest (a * 16 ^ Z.of_nat (length ds) + v).
Proof.
  induction n as [|n IH]; intros v acc Hv.
  - exists []. cbn [hex_digits app length]. split; [reflexivity|].
    split; [constructor|]. split; [congruence|].
    intros rest a. f_equal. cbn in Hv. cbn. lia.
  - rewrite Nat2Z.inj_succ, Z.pow_succ_r in Hv by lia.
    cbn [hex_digits].
    pose proof (Z.mod_pos_bound v 16 ltac:(lia)) as Bm.
    pose proof (Z.div_mod v 16 ltac:(lia)) as Ed.
    assert (Hc : hex_char (hex_digit (v mod 16)))
      by (exists (v mod 16); split; [exact Bm|reflexivity]).
    destruct (Z.eqb_spec (v / 16) 0) as [E0|N0].
    + exists [hex_digit (v mod 16)]. split; [reflexivity|].
      split; [constructor; [exact Hc|constructor]|].
      split; [discriminate|].
      intros rest a. cbn [app strtoull_digits length].
      rewrite hex_digit_value by exact Bm.
      destruct (Z.ltb_spec (v mod 16) 16); [|lia].
      f_equal. change (16 ^ Z.of_nat 1) with 16. lia.
    + destruct (IH (v / 16) (hex_digit (v mod 16) :: acc))
        as (ds & E & Fd & _ & Sd).
      { split; [apply Z.div_pos; lia|].
        apply Z.div_lt_upper_bound; lia. }
      exists (ds ++ [hex_digit (v mod 16)]).
      split; [rewrite E, <- app_assoc; reflexivity|].
      split; [apply Forall_app; split;
              [exact Fd|constructor; [exact Hc|constructor]]|].
      split; [intros _ F; apply app_eq_nil in F; destruct F; discriminate|].
      intros rest a. rewrite <- app_assoc, Sd.
      cbn [app strtoull_digits]. rewrite hex_digit_value by exact Bm.
      destruct (Z.ltb_spec (v mod 16) 16); [|lia].
      f_equal. rewrite length_app. cbn [length].
      rewrite Nat2Z.inj_add. change (Z.of_nat 1) with 1.
      rewrite Z.pow_add_r by lia. change (16 ^ 1) with 16. lia.
Qed.

(** [%x] writes digits that [strtoull] reads back. *)
Lemma printf_x_spec v :
  0 <= v < UINT64_MOD ->
  printf_x v <> []
  /\ Forall hex_char (printf_x v)
  /\ strtoull_digits 16 (printf_x v) 0 = v.
Proof.
  intros Hv. unfold printf_x.
  destruct (hex_digits_spec 16 v []) as (ds & E & Fd & Nd & Sd).
  { unfold UINT64_MOD in Hv. change (16 ^ Z.of_nat 16) with
      18446744073709551616. exact Hv. }
  rewrite E, app_nil_r. split; [apply Nd; discriminate|].
  split; [exact Fd|].
  rewrite <- (app_nil_r ds), Sd. cbn [strtoull_digits]. lia.
Qed.

Lemma strtoull_hex (ds : list byte) :
  ds <> [] -> Forall hex_char ds ->
  0 <= strtoull_digits 16 ds 0 < UINT64_MOD ->
  strtoull (x30 :: x78 :: ds) = strtoull_digits 16 ds 0.
Proof.
  intros Hne Hds Hv. unfold strtoull.
  destruct ds as [|c ds]; [congruence|].
  inversion Hds as [|? ? Hc _]; subst.
  pose proof (hex_char_digit c Hc) as Ed.
  cbn -[strtoull_digits is_digit_of Z.gtb Z.sub u64 UINT64_MOD].
  rewrite Ed.
  cbn -[strtoull_digits is_digit_of Z.gtb Z.sub u64 UINT64_MOD].
  destruct (Z.gtb_spec (strtoull_digits 16 (c :: ds) 0) (UINT64_MOD - 1));
    [lia|reflexivity].
Qed.

Lemma strtoull_printf_x v :
  0 <= v < UINT64_MOD -> strtoull (str "0x" ++ printf_x v) = v.
Proof.
  intros Hv. destruct (printf_x_spec v Hv) as (Hne & Hds & Ev).
  change (str "0x" ++ printf_x v) with (x30 :: x78 :: printf_x v).
  rewrite strtoull_hex by (assumption || lia). exact Ev.
Qed.

(** The lines of a text that ends each line with a line break. *)
Lemma getlines_line (l rest : list byte) :
  Forall (fun c => c <> NEWLINE) l ->
  getlines (l ++ NEWLINE :: rest) = (l ++ [NEWLINE]) :: getlines rest.
Proof.
  induction 1 as [|c l Hc Hl IH]; cbn [app getlines].
  - reflexivity.
  - destruct (byte_eqb_spec c NEWLINE); [contradiction|].
    rewrite IH. reflexivity.
Qed.

Lemma c_str_app (a b : list byte) :
  nul_free a -> c_str (a ++ b) = a ++ c_str b.
Proof.
  induction 1 as [|c a Hc Ha IH]; cbn [app c_str]; [reflexivity|].
  destruct (byte_eqb_spec c NUL); [contradiction|]. rewrite IH. reflexivity.
Qed.

Lemma until_char_app c (a b : list byte) :
  Forall (fun x => x <> c) a -> until_char c (a ++ c :: b) = a.
Proof.
  induction 1 as [|x a Hx Ha IH]; cbn [app until_char].
  - destruct (byte_eqb_spec c c); [reflexivity|congruence].
  - destruct (byte_eqb_spec x c); [contradiction|]. rewrite IH. reflexivity.
Qed.

Lemma plain_value_chars s :
  plain_value s = true ->
  nul_free s /\ Forall (fun b => b <> NEWLINE) s
  /\ in_set (hd NUL s) [SPACE; TAB] = false.
Proof.
  unfold plain_value. rewrite andb_true_iff.
  intros [Hall Hhd]. rewrite forallb_forall in Hall.
  split; [|split].
  - apply Forall_forall. intros b Hb. specialize (Hall b Hb).
    apply andb_true_iff in Hall. destruct Hall as [Hall _].
    destruct (byte_eqb_spec b NUL); [discriminate|assumption].
  - apply Forall_forall. intros b Hb. specialize (Hall b Hb).
    apply andb_true_iff in Hall. destruct Hall as [_ Hall].
    destruct (byte_eqb_spec b NEWLINE); [discriminate|assumption].
  - destruct (in_set _ _); [discriminate|reflexivity].
Qed.

(** The value of a line that holds a plain string and its line break. *)
Lemma cmdline_value_line (v rest : list byte) :
  plain_value v = true -> cmdline_value (v ++ NEWLINE :: rest) = v.
Proof.
  intros Hp. destruct (plain_value_chars v Hp) as (Hn & Hl & Hb).
  unfold cmdline_value. rewrite (c_str_app v _ Hn).
  cbn [c_str]. change (Byte.eqb NEWLINE NUL) with false. cbv iota.
  rewrite (until_char_app NEWLINE v _ Hl).
  destruct v as [|b v]; [reflexivity|]. cbn [hd] in Hb. cbn [strspn].
  rewrite Hb. reflexivity.
Qed.

Lemma plain_hex_value v :
  0 <= v < UINT64_MOD -> plain_value (str "0x" ++ printf_x v) = true.
Proof.
  intros Hv. destruct (printf_x_spec v Hv) as (_ & Hds & _).
  unfold plain_value.
  change (str "0x" ++ printf_x v) with (x30 :: x78 :: printf_x v).
  cbn [forallb hd]. apply andb_true_iff. split; [|reflexivity].
  change (negb (Byte.eqb x30 NUL) && negb (Byte.eqb x30 NEWLINE)) with true.
  change (negb (Byte.eqb x78 NUL) && negb (Byte.eqb x78 NEWLINE)) with true.
  cbn [andb]. apply forallb_forall. intros c Hc.
  rewrite Forall_forall in Hds.
  destruct (hex_char_word c (Hds c Hc)) as ((N0 & N1 & _) & _).
  destruct (byte_eqb_spec c NUL); [contradiction|].
  destruct (byte_eqb_spec c NEWLINE); [contradiction|reflexivity].
Qed.

(** A number written by [0x%x] on a line of its own is read back. *)
Lemma numeric_value v :
  0 <= v < UINT64_MOD ->
  strtoull (cmdline_value (str "0x" ++ printf_x v ++ [NEWLINE])) = v.
Proof.
  intros Hv.
  change (str "0x" ++ printf_x v ++ [NEWLINE])
    with ((str "0x" ++ printf_x v) ++ [NEWLINE]).
  rewrite cmdline_value_line by (apply plain_hex_value; exact Hv).
  apply strtoull_printf_x. exact Hv.
Qed.

(** *** The entry of each key *)

Ltac split_entry_literal :=
  unfold split_entry, cmdline_value;
  repeat match goal with
         | |- context [str ?k] =>
             let v := eval vm_compute in (str k) in change (str k) with v
         end;
  cbn; reflexivity.

Lemma split_entry_name s :
  split_entry (str "name = " ++ s)
  = (str "name = " ++ until_char NEWLINE (c_str s), str "name",
     Some (cmdline_value s)).
Proof. split_entry_literal. Qed.

Lemma split_entry_bootsize s :
  split_entry (str "bootsize = " ++ s)
  = (str "bootsize = " ++ until_char NEWLINE (c_str s), str "bootsize",
     Some (cmdline_value s)).
Proof. split_entry_literal. Qed.

Lemma split_entry_pagesize s :
  split_entry (str "pagesize = " ++ s)
  = (str "pagesize = " ++ until_char NEWLINE (c_str s), str "pagesize",
     Some (cmdline_value s)).
Proof. split_entry_literal. Qed.

Lemma split_entry_kerneladdr s :
  split_entry (str "kerneladdr = " ++ s)
  = (str "kerneladdr = " ++ until_char NEWLINE (c_str s), str "kerneladdr",
     Some (cmdline_value s)).
Proof. split_entry_literal. Qed.

Lemma split_entry_ramdiskaddr s :
  split_entry (str "ramdiskaddr = " ++ s)
  = (str "ramdiskaddr = " ++ until_char NEWLINE (c_str s), str "ramdiskaddr",
     Some (cmdline_value s)).
Proof. split_entry_literal. Qed.

Lemma split_entry_secondaddr s :
  split_entry (str "secondaddr = " ++ s)
  = (str "secondaddr = " ++ until_char NEWLINE (c_str s), str "secondaddr",
     Some (cmdline_value s)).
Proof. split_entry_literal. Qed.

Lemma split_entry_tagsaddr s :
  split_entry (str "tagsaddr = " ++ s)
  = (str "tagsaddr = " ++ until_char NEWLINE (c_str s), str "tagsaddr",
     Some (cmdline_value s)).
Proof. split_entry_literal. Qed.

Lemma split_entry_recoverydtobooffs s :
  split_entry (str "recoverydtobooffs = " ++ s)
  = (str "recoverydtobooffs = " ++ until_char NEWLINE (c_str s),
     str "recoverydtobooffs", Some (cmdline_value s)).
Proof. split_entry_literal. Qed.

Lemma split_entry_dtbaddr s :
  split_entry (str "dtbaddr = " ++ s)
  = (str "dtbaddr = " ++ until_char NEWLINE (c_str s), str "dtbaddr",
     Some (cmdline_value s)).
Proof. split_entry_literal. Qed.

(** The tests of [update_header_entry] on a token that is a key. *)
Ltac key_tests_literal :=
  repeat match goal with
         | |- context [strcmp_eq (str ?a) (str ?b)] =>
             let r := eval vm_compute in (strcmp_eq (str a) (str b)) in
             change (strcmp_eq (str a) (str b)) with r
         | |- context [strncmp_eq (str ?a) (str ?b) ?n] =>
             let r := eval vm_compute in (strncmp_eq (str a) (str b) n) in
             change (strncmp_eq (str a) (str b) n) with r
         end;
  reflexivity.

Section ConfigEntries.

Variable H : bootimg_h.

Lemma entry_name img s :
  update_header_entry H img (str "name = " ++ s)
  = Ok (set_name H (cmdline_value s) img).
Proof.
  unfold update_header_entry. rewrite split_entry_name. key_tests_literal.
Qed.

Lemma entry_bootsize img s :
  update_header_entry H img (str "bootsize = " ++ s)
  = if is_blkdev img && negb (size img =? strtoull (cmdline_value s))
    then Abort ImmutableBlockSize
    else Ok (set_size (u32 (strtoull (cmdline_value s))) (is_blkdev img) img).
Proof.
  unfold update_header_entry. rewrite split_entry_bootsize. key_tests_literal.
Qed.

Lemma entry_pagesize img s :
  update_header_entry H img (str "pagesize = " ++ s)
  = Ok (set_field32 (off_page_size H) (strtoull (cmdline_value s)) img).
Proof.
  unfold update_header_entry. rewrite split_entry_pagesize. key_tests_literal.
Qed.

Lemma entry_kerneladdr img s :
  update_header_entry H img (str "kerneladdr = " ++ s)
  = Ok (set_field32 (off_kernel_addr H) (strtoull (cmdline_value s)) img).
Proof.
  unfold update_header_entry. rewrite split_entry_kerneladdr.
  key_tests_literal.
Qed.

Lemma entry_ramdiskaddr img s :
  update_header_entry H img (str "ramdiskaddr = " ++ s)
  = Ok (set_field32 (off_ramdisk_addr H) (strtoull (cmdline_value s)) img).
Proof.
  unfold update_header_entry. rewrite split_entry_ramdiskaddr.
  key_tests_literal.
Qed.

Lemma entry_secondaddr img s :
  update_header_entry H img (str "secondaddr = " ++ s)
  = Ok (set_field32 (off_second_addr H) (strtoull (cmdline_value s)) img).
Proof.
  unfold update_header_entry. rewrite split_entry_secondaddr.
  key_tests_literal.
Qed.

Lemma entry_tagsaddr img s :
  update_header_entry H img (str "tagsaddr = " ++ s)
  = Ok (set_field32 (off_tags_addr H) (strtoull (cmdline_value s)) img).
Proof.
  unfold update_header_entry. rewrite split_entry_tagsaddr. key_tests_literal.
Qed.

Lemma entry_recoverydtobooffs img s :
  update_header_entry H img (str "recoverydtobooffs = " ++ s)
  = Ok (set_field64 (off_recovery_dtbo_offset H)
          (strtoull (cmdline_value s)) img).
Proof.
  unfold update_header_entry. rewrite split_entry_recoverydtobooffs.
  key_tests_literal.
Qed.

Lemma entry_dtbaddr img s :
  update_header_entry H img (str "dtbaddr = " ++ s)
  = Ok (set_field64 (off_dtb_addr H) (strtoull (cmdline_value s)) img).
Proof.
  unfold update_header_entry. rewrite split_entry_dtbaddr. key_tests_literal.
Qed.

End ConfigEntries.

Lemma load_store_at off len bs m :
  length bs = len -> (off + len <= length m)%nat ->
  load off len (store off bs m) = bs.
Proof. intros <- Hfit. apply load_store_same. exact Hfit. Qed.

Lemma get_u64_range off m : 0 <= get_u64 off m < UINT64_MOD.
Proof.
  unfold get_u64, load.
  pose proof (le_decode_range (firstn 8 (skipn off m))) as Hr.
  assert (Hl : (length (firstn 8 (skipn off m)) <= 8)%nat)
    by apply firstn_le_length.
  assert (256 ^ Z.of_nat (length (firstn 8 (skipn off m))) <= 256 ^ 8)
    by (apply Z.pow_le_mono_r; lia).
  unfold UINT64_MOD. change (256 ^ 8) with 18446744073709551616 in *. lia.
Qed.

Lemma in_set_c_str (buf : list byte) :
  in_set NUL buf = true -> (length (c_str buf) < length buf)%nat.
Proof.
  unfold in_set. induction buf as [|b buf IH]; cbn [existsb c_str length];
    [discriminate|].
  destruct (byte_eqb_spec b NUL) as [->|N].
  - intros _. cbn [length]. lia.
  - destruct (byte_eqb_spec NUL b); [congruence|]. cbn [orb length].
    intros E. specialize (IH E). lia.
Qed.

Lemma zeros_snoc n : zeros n ++ [NUL] = zeros (S n).
Proof.
  unfold zeros. induction n as [|n IH]; cbn [repeat app]; [reflexivity|].
  rewrite IH. reflexivity.
Qed.

(** What [strncpy] and the NUL forced at the end of the name leave of a
    string shorter than the field. *)
Lemma name_copy (n : nat) (value : list byte) :
  (length value < n)%nat ->
  store (n - 1) [NUL] (firstn n (value ++ zeros n))
  = value ++ zeros (n - length value).
Proof.
  intros Hv.
  assert (E : firstn n (value ++ zeros n) = value ++ zeros (n - length value)).
  { rewrite firstn_app, firstn_all2 by lia. rewrite firstn_zeros.
    f_equal. f_equal. lia. }
  rewrite E. unfold store. rewrite length_app, length_zeros. cbn [length].
  destruct (Nat.leb_spec (n - 1 + 1) (length value + (n - length value)));
    [|lia].
  rewrite firstn_app, firstn_all2 by lia. rewrite firstn_zeros.
  rewrite skipn_all2 by (rewrite length_app, length_zeros; lia).
  rewrite app_nil_r, <- app_assoc, zeros_snoc. f_equal. f_equal. lia.
Qed.

Section ConfigRoundTrip.

Variable H : bootimg_h.
Hypothesis Hok : bootimg_h_ok H = true.

Lemma config_field_bounds :
  (off_page_size H + 4 <= sizeof_boot_img_hdr_v2 H)%nat
  /\ (off_kernel_addr H + 4 <= sizeof_boot_img_hdr_v2 H)%nat
  /\ (off_ramdisk_addr H + 4 <= sizeof_boot_img_hdr_v2 H)%nat
  /\ (off_second_addr H + 4 <= sizeof_boot_img_hdr_v2 H)%nat
  /\ (off_tags_addr H + 4 <= sizeof_boot_img_hdr_v2 H)%nat
  /\ (off_recovery_dtbo_offset H + 8 <= sizeof_boot_img_hdr_v2 H)%nat
  /\ (off_dtb_addr H + 8 <= sizeof_boot_img_hdr_v2 H)%nat
  /\ (off_name H + BOOT_NAME_SIZE H <= sizeof_boot_img_hdr_v2 H)%nat
  /\ (off_cmdline H + BOOT_ARGS_SIZE H <= sizeof_boot_img_hdr_v2 H)%nat
  /\ Z.of_nat (sizeof_boot_img_hdr_v2 H) < UINT32_MOD.
Proof.
  pose proof Hok as F. unfold bootimg_h_ok in F.
  rewrite !andb_true_iff in F.
  destruct F as [[[[[F0 F1] F2] _] Fn] Fs].
  unfold v0_fields, v1_fields, v2_fields, within, field_end in F0, F1, F2.
  cbn [forallb fst snd] in F0, F1, F2.
  repeat rewrite andb_true_iff in F0.
  repeat rewrite andb_true_iff in F1.
  repeat rewrite andb_true_iff in F2.
  repeat rewrite Nat.leb_le in F0.
  repeat rewrite Nat.leb_le in F1.
  repeat rewrite Nat.leb_le in F2.
  apply Z.ltb_lt in Fs.
  lia.
Qed.

Ltac apart :=
  rewrite ?length_le_encode, ?length_name_copy, ?length_cmdline_copy
    by assumption;
  fields_apart H Hok.

(** The header after the nine fields of the configuration are stored, and
    what each of them then reads. *)
Lemma configured_header (h : list byte) (pg ka ra sa ta ro da : Z)
  (nm cl : list byte) :
  length h = sizeof_boot_img_hdr_v2 H ->
  0 <= pg < UINT32_MOD -> 0 <= ka < UINT32_MOD -> 0 <= ra < UINT32_MOD ->
  0 <= sa < UINT32_MOD -> 0 <= ta < UINT32_MOD ->
  0 <= ro < UINT64_MOD -> 0 <= da < UINT64_MOD ->
  nul_free nm -> (length nm < BOOT_NAME_SIZE H)%nat ->
  nul_free cl -> (length cl < BOOT_ARGS_SIZE H)%nat ->
  let h' :=
    store (off_cmdline H) (cl ++ zeros (BOOT_ARGS_SIZE H - length cl))
      (store (off_name H)
         (store (BOOT_NAME_SIZE H - 1) [NUL]
            (firstn (BOOT_NAME_SIZE H) (nm ++ zeros (BOOT_NAME_SIZE H))))
         (set_u64 (off_dtb_addr H) da
            (set_u64 (off_recovery_dtbo_offset H) ro
               (set_u32 (off_tags_addr H) ta
                  (set_u32 (off_second_addr H) sa
                     (set_u32 (off_ramdisk_addr H) ra
                        (set_u32 (off_kernel_addr H) ka
                           (set_u32 (off_page_size H) pg h)))))))) in
  get_u32 (off_page_size H) h' = pg
  /\ get_u32 (off_kernel_addr H) h' = ka
  /\ get_u32 (off_ramdisk_addr H) h' = ra
  /\ get_u32 (off_second_addr H) h' = sa
  /\ get_u32 (off_tags_addr H) h' = ta
  /\ get_u64 (off_recovery_dtbo_offset H) h' = ro
  /\ get_u64 (off_dtb_addr H) h' = da
  /\ c_str (load (off_name H) (BOOT_NAME_SIZE H) h') = nm
  /\ c_str (load (off_cmdline H) (BOOT_ARGS_SIZE H) h') = cl.
Proof.
  intros Hlen Rpg Rka Rra Rsa Rta Rro Rda Nnm Lnm Ncl Lcl h'.
  pose proof config_field_bounds as B.
  assert (E32 : forall v, 0 <= v < UINT32_MOD ->
                          le_decode (le_encode 4 v) = v).
  { intros v Hv. rewrite le_decode_encode. apply Z.mod_small.
    change (256 ^ Z.of_nat 4) with UINT32_MOD. exact Hv. }
  assert (E64 : forall v, 0 <= v < UINT64_MOD ->
                          le_decode (le_encode 8 v) = v).
  { intros v Hv. rewrite le_decode_encode. apply Z.mod_small.
    change (256 ^ Z.of_nat 8) with UINT64_MOD. exact Hv. }
  unfold h', get_u32, get_u64, set_u32, set_u64.
  repeat split.
  - repeat (rewrite load_store_other by apart).
    rewrite load_store_at
      by (rewrite ?length_le_encode, ?length_store; lia || reflexivity).
    apply E32. exact Rpg.
  - repeat (rewrite load_store_other by apart).
    rewrite load_store_at
      by (rewrite ?length_le_encode, ?length_store; lia || reflexivity).
    apply E32. exact Rka.
  - repeat (rewrite load_store_other by apart).
    rewrite load_store_at
      by (rewrite ?length_le_encode, ?length_store; lia || reflexivity).
    apply E32. exact Rra.
  - repeat (rewrite load_store_other by apart).
    rewrite load_store_at
      by (rewrite ?length_le_encode, ?length_store; lia || reflexivity).
    apply E32. exact Rsa.
  - repeat (rewrite load_store_other by apart).
    rewrite load_store_at
      by (rewrite ?length_le_encode, ?length_store; lia || reflexivity).
    apply E32. exact Rta.
  - repeat (rewrite load_store_other by apart).
    rewrite load_store_at
      by (rewrite ?length_le_encode, ?length_store; lia || reflexivity).
    apply E64. exact Rro.
  - repeat (rewrite load_store_other by apart).
    rewrite load_store_at
      by (rewrite ?length_le_encode, ?length_store; lia || reflexivity).
    apply E64. exact Rda.
  - repeat (rewrite load_store_other by apart).
    rewrite load_store_at
      by (rewrite ?length_name_copy, ?length_store; lia || reflexivity).
    rewrite name_copy by exact Lnm. apply c_str_app_zeros. exact Nnm.
  - rewrite load_store_at
      by (rewrite ?length_cmdline_copy, ?length_store by assumption;
          lia || reflexivity).
    apply c_str_app_zeros. exact Ncl.
Qed.

End ConfigRoundTrip.

Section ConfigHexEntries.

Variable H : bootimg_h.

Lemma entry_bootsize_hex img v :
  0 <= v < UINT32_MOD ->
  (is_blkdev img = true -> size img = v) ->
  update_header_entry H img (str "bootsize = 0x" ++ printf_x v ++ [NEWLINE])
  = Ok (set_size v (is_blkdev img) img).
Proof.
  intros Hv Hb.
  change (str "bootsize = 0x" ++ printf_x v ++ [NEWLINE])
    with (str "bootsize = " ++ (str "0x" ++ printf_x v ++ [NEWLINE])).
  rewrite entry_bootsize, numeric_value
    by (unfold UINT32_MOD, UINT64_MOD in *; lia).
  rewrite u32_small by exact Hv.
  destruct (is_blkdev img); [|reflexivity].
  rewrite (Hb eq_refl), Z.eqb_refl. reflexivity.
Qed.

Lemma entry_pagesize_hex img v :
  0 <= v < UINT64_MOD ->
  update_header_entry H img (str "pagesize = 0x" ++ printf_x v ++ [NEWLINE])
  = Ok (set_field32 (off_page_size H) v img).
Proof.
  intros Hv.
  change (str "pagesize = 0x" ++ printf_x v ++ [NEWLINE])
    with (str "pagesize = " ++ (str "0x" ++ printf_x v ++ [NEWLINE])).
  rewrite entry_pagesize, numeric_value by exact Hv. reflexivity.
Qed.

Lemma entry_kerneladdr_hex img v :
  0 <= v < UINT64_MOD ->
  update_header_entry H img (str "kerneladdr = 0x" ++ printf_x v ++ [NEWLINE])
  = Ok (set_field32 (off_kernel_addr H) v img).
Proof.
  intros Hv.
  change (str "kerneladdr = 0x" ++ printf_x v ++ [NEWLINE])
    with (str "kerneladdr = " ++ (str "0x" ++ printf_x v ++ [NEWLINE])).
  rewrite entry_kerneladdr, numeric_value by exact Hv. reflexivity.
Qed.

Lemma entry_ramdiskaddr_hex img v :
  0 <= v < UINT64_MOD ->
  update_header_entry H img
    (str "ramdiskaddr = 0x" ++ printf_x v ++ [NEWLINE])
  = Ok (set_field32 (off_ramdisk_addr H) v img).
Proof.
  intros Hv.
  change (str "ramdiskaddr = 0x" ++ printf_x v ++ [NEWLINE])
    with (str "ramdiskaddr = " ++ (str "0x" ++ printf_x v ++ [NEWLINE])).
  rewrite entry_ramdiskaddr, numeric_value by exact Hv. reflexivity.
Qed.

Lemma entry_secondaddr_hex img v :
  0 <= v < UINT64_MOD ->
  update_header_entry H img (str "secondaddr = 0x" ++ printf_x v ++ [NEWLINE])
  = Ok (set_field32 (off_second_addr H) v img).
Proof.
  intros Hv.
  change (str "secondaddr = 0x" ++ printf_x v ++ [NEWLINE])
    with (str "secondaddr = " ++ (str "0x" ++ printf_x v ++ [NEWLINE])).
  rewrite entry_secondaddr, numeric_value by exact Hv. reflexivity.
Qed.

Lemma entry_tagsaddr_hex img v :
  0 <= v < UINT64_MOD ->
  update_header_entry H img (str "tagsaddr = 0x" ++ printf_x v ++ [NEWLINE])
  = Ok (set_field32 (off_tags_addr H) v img).
Proof.
  intros Hv.
  change (str "tagsaddr = 0x" ++ printf_x v ++ [NEWLINE])
    with (str "tagsaddr = " ++ (str "0x" ++ printf_x v ++ [NEWLINE])).
  rewrite entry_tagsaddr, numeric_value by exact Hv. reflexivity.
Qed.

Lemma entry_recoverydtobooffs_hex img v :
  0 <= v < UINT64_MOD ->
  update_header_entry H img
    (str "recoverydtobooffs = 0x" ++ printf_x v ++ [NEWLINE])
  = Ok (set_field64 (off_recovery_dtbo_offset H) v img).
Proof.
  intros Hv.
  change (str "recoverydtobooffs = 0x" ++ printf_x v ++ [NEWLINE])
    with (str "recoverydtobooffs = "
          ++ (str "0x" ++ printf_x v ++ [NEWLINE])).
  rewrite entry_recoverydtobooffs, numeric_value by exact Hv. reflexivity.
Qed.

Lemma entry_dtbaddr_hex img v :
  0 <= v < UINT64_MOD ->
  update_header_entry H img (str "dtbaddr = 0x" ++ printf_x v ++ [NEWLINE])
  = Ok (set_field64 (off_dtb_addr H) v img).
Proof.
  intros Hv.
  change (str "dtbaddr = 0x" ++ printf_x v ++ [NEWLINE])
    with (str "dtbaddr = " ++ (str "0x" ++ printf_x v ++ [NEWLINE])).
  rewrite entry_dtbaddr, numeric_value by exact Hv. reflexivity.
Qed.

Lemma entry_name_line img nm :
  plain_value nm = true ->
  update_header_entry H img (str "name = " ++ nm ++ [NEWLINE])
  = Ok (set_name H nm img).
Proof.
  intros Hp. rewrite entry_name, cmdline_value_line by exact Hp.
  reflexivity.
Qed.

Lemma entry_cmdline_line img cl :
  plain_value cl = true ->
  update_header_entry H img (str "cmdline = " ++ cl ++ [NEWLINE])
  = set_cmdline H cl img.
Proof.
  intros Hp.
  rewrite update_header_entry_cmdline, cmdline_value_line by exact Hp.
  reflexivity.
Qed.

End ConfigHexEntries.

Lemma getlines_field (a b rest : list byte) :
  Forall (fun c => c <> NEWLINE) a -> Forall (fun c => c <> NEWLINE) b ->
  getlines (a ++ b ++ [NEWLINE] ++ rest)
  = (a ++ b ++ [NEWLINE]) :: getlines rest.
Proof.
  intros Ha Hb. rewrite app_assoc.
  change ([NEWLINE] ++ rest) with (NEWLINE :: rest).
  rewrite getlines_line by (apply Forall_app; split; assumption).
  rewrite <- app_assoc. reflexivity.
Qed.

Lemma getlines_last_field (a b : list byte) :
  Forall (fun c => c <> NEWLINE) a -> Forall (fun c => c <> NEWLINE) b ->
  getlines (a ++ b ++ [NEWLINE]) = [a ++ b ++ [NEWLINE]].
Proof.
  intros Ha Hb. rewrite app_assoc, getlines_line
    by (apply Forall_app; split; assumption).
  rewrite <- app_assoc. reflexivity.
Qed.

Lemma printf_x_line v :
  0 <= v < UINT64_MOD -> Forall (fun c => c <> NEWLINE) (printf_x v).
Proof.
  intros Hv. destruct (printf_x_spec v Hv) as (_ & Hds & _).
  eapply Forall_impl; [|exact Hds].
  intros c Hc. apply hex_char_word in Hc. unfold word_char in Hc. tauto.
Qed.

Ltac literal_line :=
  vm_compute; repeat (constructor; [discriminate|]); constructor.

Section ConfigWrittenAndRead.

Variable H : bootimg_h.
Hypothesis Hok : bootimg_h_ok H = true.

(** X6: the configuration [write_bootimg_config] writes for an image sets,
    when [update_header] reads it back into any image, the container size,
    the page size, the six addresses, the name and the command line of the
    image it was written for.  The name and the command line must end within
    their fields and hold no line break and no blank or tab in front; a
    block device must already have the size. *)
Theorem config_written_then_read (img0 img1 : t_abootimg) (names : t_names)
  (cfgname : string) (fs : file_system) :
  length (header img0) = sizeof_boot_img_hdr_v2 H ->
  length (header img1) = sizeof_boot_img_hdr_v2 H ->
  0 <= size img0 < UINT32_MOD ->
  config_fname names = Some cfgname ->
  in_set NUL (name H img0) = true ->
  in_set NUL (cmdline H img0) = true ->
  plain_value (c_str (name H img0)) = true ->
  plain_value (c_str (cmdline H img0)) = true ->
  (is_blkdev img1 = true -> size img1 = size img0) ->
  exists fs' text img2,
    write_bootimg_config H img0 names fs = Ok fs'
    /\ fs' cfgname = Some text
    /\ update_header H img1 (getlines text) [] = Ok img2
    /\ configuration H img2 = configuration H img0.
Proof.
  intros Hlen0 Hlen1 Rsz Hcfg Znm Zcl Pnm Pcl Hblk.
  pose proof (config_field_bounds H Hok) as B.
  pose proof (get_u32_range (off_page_size H) (header img0)) as Rpg.
  pose proof (get_u32_range (off_kernel_addr H) (header img0)) as Rka.
  pose proof (get_u32_range (off_ramdisk_addr H) (header img0)) as Rra.
  pose proof (get_u32_range (off_second_addr H) (header img0)) as Rsa.
  pose proof (get_u32_range (off_tags_addr H) (header img0)) as Rta.
  pose proof (get_u64_range (off_recovery_dtbo_offset H) (header img0)) as Rro.
  pose proof (get_u64_range (off_dtb_addr H) (header img0)) as Rda.
  fold (page_size H img0) in Rpg. fold (kernel_addr H img0) in Rka.
  fold (ramdisk_addr H img0) in Rra. fold (second_addr H img0) in Rsa.
  fold (tags_addr H img0) in Rta. fold (recovery_dtbo_offset H img0) in Rro.
  fold (dtb_addr H img0) in Rda.
  assert (W : forall v, 0 <= v < UINT32_MOD -> 0 <= v < UINT64_MOD)
    by (unfold UINT32_MOD, UINT64_MOD; lia).
  set (nm := c_str (name H img0)) in *.
  set (cl := c_str (cmdline H img0)) in *.
  destruct (plain_value_chars nm Pnm) as (Nnm & Lnm & _).
  destruct (plain_value_chars cl Pcl) as (Ncl & Lcl & _).
  assert (Snm : (length nm < BOOT_NAME_SIZE H)%nat).
  { pose proof (in_set_c_str _ Znm) as L. fold nm in L.
    unfold name, load in L. rewrite length_firstn in L. lia. }
  assert (Scl : (length cl < BOOT_ARGS_SIZE H)%nat).
  { pose proof (in_set_c_str _ Zcl) as L. fold cl in L.
    unfold cmdline, load in L. rewrite length_firstn in L. lia. }
  unfold write_bootimg_config. rewrite Hcfg.
  unfold bootimg_config, printf_s. rewrite Znm, Zcl. cbn [bind].
  fold nm. fold cl.
  eexists _, _, _. split; [reflexivity|].
  split; [unfold fs_write; rewrite String.eqb_refl; reflexivity|].
  rewrite !getlines_field
    by (first [ assumption | apply printf_x_line; auto | literal_line ]).
  rewrite getlines_last_field by (assumption || literal_line).
  unfold update_header. cbn [update_header_lines].
  rewrite entry_bootsize_hex by assumption. cbn [bind].
  rewrite entry_pagesize_hex by auto. cbn [bind].
  rewrite entry_kerneladdr_hex by auto. cbn [bind].
  rewrite entry_ramdiskaddr_hex by auto. cbn [bind].
  rewrite entry_secondaddr_hex by auto. cbn [bind].
  rewrite entry_tagsaddr_hex by auto. cbn [bind].
  rewrite entry_recoverydtobooffs_hex by auto. cbn [bind].
  rewrite entry_dtbaddr_hex by auto. cbn [bind].
  rewrite entry_name_line by exact Pnm. cbn [bind].
  rewrite entry_cmdline_line by exact Pcl.
  unfold set_cmdline.
  rewrite u32_small by lia.
  destruct (Z.geb_spec (Z.of_nat (length cl)) (Z.of_nat (BOOT_ARGS_SIZE H)));
    [lia|].
  destruct (Nat.ltb_spec (length cl) (BOOT_ARGS_SIZE H)); [|lia].
  cbn [bind]. split; [reflexivity|].
  unfold configuration. fold nm. fold cl.
  set (pg := page_size H img0) in *. set (ka := kernel_addr H img0) in *.
  set (ra := ramdisk_addr H img0) in *. set (sa := second_addr H img0) in *.
  set (ta := tags_addr H img0) in *.
  set (ro := recovery_dtbo_offset H img0) in *.
  set (da := dtb_addr H img0) in *.
  pose proof (configured_header H Hok (header img1) pg ka ra sa ta ro da nm cl
                Hlen1 Rpg Rka Rra Rsa Rta Rro Rda Nnm Snm Ncl Scl) as C.
  cbv zeta in C.
  destruct C as (Cpg & Cka & Cra & Csa & Cta & Cro & Cda & Cnm & Ccl).
  unfold page_size, kernel_addr, ramdisk_addr, second_addr,
    tags_addr, recovery_dtbo_offset, dtb_addr, name, cmdline.
  cbn [header size set_header set_size set_field32 set_field64 set_name].
  rewrite Cpg, Cka, Cra, Csa, Cta, Cro, Cda, Cnm, Ccl. reflexivity.
Qed.

End ConfigWrittenAndRead.

Lemma config_written_then_read_witness :
  exists fs' text img2,
    write_bootimg_config aosp_bootimg_h example_configured new_bootimg_names
      (fun _ => None) = Ok fs'
    /\ fs' "bootimg.cfg"%string = Some text
    /\ update_header aosp_bootimg_h (new_bootimg aosp_bootimg_h)
         (getlines text) [] = Ok img2
    /\ page_size aosp_bootimg_h img2 = 4096
    /\ c_str (name aosp_bootimg_h img2) = str "demo"
    /\ c_str (cmdline aosp_bootimg_h img2) = str "quiet".
Proof.
  destruct (config_written_then_read aosp_bootimg_h eq_refl
              example_configured (new_bootimg aosp_bootimg_h)
              new_bootimg_names "bootimg.cfg" (fun _ => None))
    as (fs' & text & img2 & E1 & E2 & E3 & E4).
  - vm_compute. reflexivity.
  - vm_compute. reflexivity.
  - split; [vm_compute; discriminate|vm_compute; reflexivity].
  - reflexivity.
  - vm_compute. reflexivity.
  - vm_compute. reflexivity.
  - vm_compute. reflexivity.
  - vm_compute. reflexivity.
  - intros F. discriminate F.
  - exists fs', text, img2. split; [exact E1|]. split; [exact E2|].
    split; [exact E3|].
    pose proof (f_equal (fun c => snd (fst (fst (fst c)))) E4) as Ep.
    pose proof (f_equal (fun c => fst (snd c)) E4) as En.
    pose proof (f_equal (fun c => snd (snd c)) E4) as Ec.
    cbn [configuration fst snd] in Ep, En, Ec.
    rewrite Ep, En, Ec. repeat split; vm_compute; reflexivity.
Defined.

(** ** Extraction *)

Lemma write_files_app files files' fs :
  write_files (files ++ files') fs = write_files files' (write_files files fs).
Proof. unfold write_files. apply fold_left_app. Qed.

Section Extraction.

Variable H : bootimg_h.
Hypothesis Hok : bootimg_h_ok H = true.

(** The parts of a layout that does not wrap lie one after the other, below
    the total size. *)
Lemma part_regions (img : t_abootimg) :
  0 < page_size H img -> sizes_fit H img -> layout_fits H img ->
  forall p,
    0 <= original_offset H p img
    /\ original_offset H p img + part_size H p img <= image_total_size H img
    /\ forall q, (part_index p < part_index q)%nat ->
                 original_offset H p img + part_size H p img
                 <= original_offset H q img.
Proof.
  intros Hp Hs Hfit.
  pose proof (Hs Kernel) as Fk. pose proof (Hs Ramdisk) as Fr.
  pose proof (Hs Second) as Fs. pose proof (Hs Dtbo) as Fo.
  pose proof (Hs Dtb) as Fd.
  pose proof (get_u32_range (off_part_size H Kernel) (header img)) as Rk.
  pose proof (get_u32_range (off_part_size H Ramdisk) (header img)) as Rr.
  pose proof (get_u32_range (off_part_size H Second) (header img)) as Rs.
  pose proof (get_u32_range (off_part_size H Dtbo) (header img)) as Ro.
  pose proof (get_u32_range (off_part_size H Dtb) (header img)) as Rd.
  fold (part_size H Kernel img) in Rk. fold (part_size H Ramdisk img) in Rr.
  fold (part_size H Second img) in Rs. fold (part_size H Dtbo img) in Ro.
  fold (part_size H Dtb img) in Rd.
  unfold layout_fits in Hfit. cbv zeta in Hfit.
  change (kernel_size H img) with (part_size H Kernel img) in *.
  change (ramdisk_size H img) with (part_size H Ramdisk img) in *.
  change (second_size H img) with (part_size H Second img) in *.
  change (recovery_dtbo_size H img) with (part_size H Dtbo img) in *.
  change (dtb_size H img) with (part_size H Dtb img) in *.
  set (P := page_size H img) in *.
  set (k := part_size H Kernel img) in *.
  set (r := part_size H Ramdisk img) in *.
  set (s := part_size H Second img) in *.
  set (o := part_size H Dtbo img) in *.
  set (d := part_size H Dtb img) in *.
  pose proof (npages_holds P k Hp ltac:(lia) Fk).
  pose proof (npages_holds P r Hp ltac:(lia) Fr).
  pose proof (npages_holds P s Hp ltac:(lia) Fs).
  pose proof (npages_holds P o Hp ltac:(lia) Fo).
  pose proof (npages_holds P d Hp ltac:(lia) Fd).
  pose proof (npages_nonneg P k Hp). pose proof (npages_nonneg P r Hp).
  pose proof (npages_nonneg P s Hp). pose proof (npages_nonneg P o Hp).
  pose proof (npages_nonneg P d Hp).
  assert (Ek : koffset P = P)
    by (unfold koffset; rewrite u32_small by nia; lia).
  assert (Er : roffset P k = (1 + npages P k) * P)
    by (unfold roffset; apply u32_small; nia).
  assert (Es : soffset P k r = (1 + npages P k + npages P r) * P)
    by (unfold soffset; apply u32_small; nia).
  assert (Eo : dooffset P k r s
               = (1 + npages P k + npages P r + npages P s) * P)
    by (unfold dooffset; apply u32_small; nia).
  assert (Ed : doffset P k r s o
               = (1 + npages P k + npages P r + npages P s + npages P o) * P)
    by (unfold doffset; apply u32_small; nia).
  assert (Et : image_total_size H img
               = (1 + npages P k + npages P r + npages P s + npages P o
                  + npages P d) * P).
  { unfold image_total_size, total_size.
    change (kernel_size H img) with k. change (ramdisk_size H img) with r.
    change (second_size H img) with s.
    change (recovery_dtbo_size H img) with o. change (dtb_size H img) with d.
    fold P. apply u32_small. nia. }
  intros p. unfold original_offset. fold P.
  change (kernel_size H img) with k. change (ramdisk_size H img) with r.
  change (second_size H img) with s.
  change (recovery_dtbo_size H img) with o.
  rewrite Et.
  destruct p; fold k r s o d; rewrite ?Ek, ?Er, ?Es, ?Eo, ?Ed;
    (split; [nia|]); (split; [nia|]);
    intros q Hq; destruct q; cbn [part_index] in Hq; try lia;
    rewrite ?Ek, ?Er, ?Es, ?Eo, ?Ed; nia.
Qed.

(** [extract_part] on a region the file holds. *)
Lemma extract_part_ok (img : t_abootimg) (n : string) (size offset : Z)
  (fs : file_system) :
  0 < size -> 0 <= offset ->
  (Z.to_nat offset + Z.to_nat size <= length (contents (stream img)))%nat ->
  extract_part img (Some n) size offset fs
  = Ok (set_stream
          {| contents := contents (stream img);
             fpos := (Z.to_nat offset + Z.to_nat size)%nat;
             feof := false; st_isblk := st_isblk (stream img) |} img,
        fs_write n (stream_bytes (stream img) offset size) fs).
Proof.
  intros Hs Ho Hfit. unfold extract_part.
  rewrite fread_enough.
  - reflexivity.
  - lia.
  - cbn [fseek fpos contents]. rewrite length_skipn. lia.
Qed.

(** One of the five [extract_] functions, on an image whose stream holds
    the file of [img]. *)
Lemma extract_fn_ok (p : part) (img : t_abootimg) (f : FILE)
  (fs : file_system) :
  contents f = contents (stream img) ->
  0 < page_size H img < UINT32_MOD ->
  part_fname p img <> None ->
  (part_present H p img = true ->
   0 < part_size H p img
   /\ 0 <= original_offset H p img
   /\ (Z.to_nat (original_offset H p img) + Z.to_nat (part_size H p img)
       <= length (contents (stream img)))%nat) ->
  exists f',
    extract_fn H p (set_stream f img) fs
    = Ok (set_stream f' img, write_files (part_file H img p) fs)
    /\ contents f' = contents (stream img).
Proof.
  intros Hc Hp Hn Hr.
  destruct (part_fname p img) as [n|] eqn:En; [clear Hn|congruence].
  assert (Ek : koffset (page_size H img) = page_size H img).
  { unfold koffset. rewrite u32_small by lia. lia. }
  assert (Sb : forall o z,
             stream_bytes (stream (set_stream f img)) o z
             = stream_bytes (stream img) o z).
  { intros o z. apply stream_bytes_contents. exact Hc. }
  assert (Go : forall size offset,
             0 < size -> 0 <= offset ->
             (Z.to_nat offset + Z.to_nat size
              <= length (contents (stream img)))%nat ->
             exists f',
               extract_part (set_stream f img) (Some n) size offset fs
               = Ok (set_stream f' img,
                     fs_write n (stream_bytes (stream img) offset size) fs)
               /\ contents f' = contents (stream img)).
  { intros size offset Hs Ho Hfit.
    rewrite extract_part_ok
      by (try assumption; cbn [stream set_stream]; rewrite Hc; exact Hfit).
    rewrite Sb. eexists. split; [reflexivity|]. exact Hc. }
  unfold part_file, part_region. rewrite En.
  unfold part_present in *.
  destruct (Z.eqb_spec (page_size H img) 0) as [E0|_]; [lia|].
  destruct p; cbn [extract_fn mandatory orb original_offset] in *.
  - destruct (Hr eq_refl) as (Hs & Ho & Hfit).
    unfold extract_kernel.
    change (kernel_fname (set_stream f img)) with (part_fname Kernel img).
    rewrite En. rewrite Ek in *.
    apply (Go _ _ Hs Ho Hfit).
  - destruct (Hr eq_refl) as (Hs & Ho & Hfit).
    unfold extract_ramdisk.
    change (page_size H (set_stream f img)) with (page_size H img).
    destruct (Z.eqb_spec (page_size H img) 0); [lia|].
    change (ramdisk_fname (set_stream f img)) with (part_fname Ramdisk img).
    rewrite En. apply (Go _ _ Hs Ho Hfit).
  - unfold extract_second.
    change (second_size H (set_stream f img)) with (part_size H Second img).
    destruct (Z.eqb_spec (part_size H Second img) 0); cbn [negb] in *.
    + exists f. split; [reflexivity|exact Hc].
    + destruct (Hr eq_refl) as (Hs & Ho & Hfit).
      change (page_size H (set_stream f img)) with (page_size H img).
      destruct (Z.eqb_spec (page_size H img) 0); [lia|].
      change (second_fname (set_stream f img)) with (part_fname Second img).
      rewrite En. apply (Go _ _ Hs Ho Hfit).
  - unfold extract_dtbo.
    change (recovery_dtbo_size H (set_stream f img))
      with (part_size H Dtbo img).
    destruct (Z.eqb_spec (part_size H Dtbo img) 0); cbn [negb] in *.
    + exists f. split; [reflexivity|exact Hc].
    + destruct (Hr eq_refl) as (Hs & Ho & Hfit).
      change (page_size H (set_stream f img)) with (page_size H img).
      destruct (Z.eqb_spec (page_size H img) 0); [lia|].
      change (dtbo_fname (set_stream f img)) with (part_fname Dtbo img).
      rewrite En. apply (Go _ _ Hs Ho Hfit).
  - unfold extract_dtb.
    change (dtb_size H (set_stream f img)) with (part_size H Dtb img).
    destruct (Z.eqb_spec (part_size H Dtb img) 0); cbn [negb] in *.
    + exists f. split; [reflexivity|exact Hc].
    + destruct (Hr eq_refl) as (Hs & Ho & Hfit).
      change (page_size H (set_stream f img)) with (page_size H img).
      destruct (Z.eqb_spec (page_size H img) 0); [lia|].
      change (dtb_fname (set_stream f img)) with (part_fname Dtb img).
      rewrite En. apply (Go _ _ Hs Ho Hfit).
Qed.

(** The five extractions in a row. *)
Lemma extract_parts_ok (img : t_abootimg) (f : FILE) (fs : file_system) :
  contents f = contents (stream img) ->
  0 < page_size H img < UINT32_MOD ->
  (forall p, part_fname p img <> None) ->
  (forall p,
      part_present H p img = true ->
      0 < part_size H p img
      /\ 0 <= original_offset H p img
      /\ (Z.to_nat (original_offset H p img) + Z.to_nat (part_size H p img)
          <= length (contents (stream img)))%nat) ->
  exists f',
    (r <- extract_kernel H (set_stream f img) fs ;;
     r <- extract_ramdisk H (fst r) (snd r) ;;
     r <- extract_second H (fst r) (snd r) ;;
     r <- extract_dtbo H (fst r) (snd r) ;;
     extract_dtb H (fst r) (snd r))
    = Ok (set_stream f' img,
          write_files
            (part_file H img Kernel ++ part_file H img Ramdisk
             ++ part_file H img Second ++ part_file H img Dtbo
             ++ part_file H img Dtb) fs)
    /\ contents f' = contents (stream img).
Proof.
  intros Hc Hp Hn Hr.
  assert (Step : forall p f0 fs0 (k : t_abootimg * file_system
                                      -> outcome (t_abootimg * file_system)),
             contents f0 = contents (stream img) ->
             exists f1,
               (r <- extract_fn H p (set_stream f0 img) fs0 ;; k r)
               = k (set_stream f1 img, write_files (part_file H img p) fs0)
               /\ contents f1 = contents (stream img)).
  { intros p f0 fs0 k C0.
    destruct (extract_fn_ok p img f0 fs0 C0 Hp (Hn p) (Hr p))
      as (f1 & E1 & C1).
    exists f1. rewrite E1. split; [reflexivity|exact C1]. }
  destruct (Step Kernel f fs
              (fun r => r <- extract_ramdisk H (fst r) (snd r) ;;
                        r <- extract_second H (fst r) (snd r) ;;
                        r <- extract_dtbo H (fst r) (snd r) ;;
                        extract_dtb H (fst r) (snd r)) Hc) as (f1 & E1 & C1).
  cbn [extract_fn] in E1. rewrite E1. cbn [fst snd]. clear E1.
  destruct (Step Ramdisk f1 (write_files (part_file H img Kernel) fs)
              (fun r => r <- extract_second H (fst r) (snd r) ;;
                        r <- extract_dtbo H (fst r) (snd r) ;;
                        extract_dtb H (fst r) (snd r)) C1) as (f2 & E2 & C2).
  cbn [extract_fn] in E2. rewrite E2. cbn [fst snd]. clear E2.
  destruct (Step Second f2
              (write_files (part_file H img Ramdisk)
                 (write_files (part_file H img Kernel) fs))
              (fun r => r <- extract_dtbo H (fst r) (snd r) ;;
                        extract_dtb H (fst r) (snd r)) C2) as (f3 & E3 & C3).
  cbn [extract_fn] in E3. rewrite E3. cbn [fst snd]. clear E3.
  destruct (Step Dtbo f3
              (write_files (part_file H img Second)
                 (write_files (part_file H img Ramdisk)
                    (write_files (part_file H img Kernel) fs)))
              (fun r => extract_dtb H (fst r) (snd r)) C3) as (f4 & E4 & C4).
  cbn [extract_fn] in E4. rewrite E4. cbn [fst snd]. clear E4.
  destruct (extract_fn_ok Dtb img f4
              (write_files (part_file H img Dtbo)
                 (write_files (part_file H img Second)
                    (write_files (part_file H img Ramdisk)
                       (write_files (part_file H img Kernel) fs))))
              C4 Hp (Hn Dtb) (Hr Dtb)) as (f5 & E5 & C5).
  cbn [extract_fn] in E5. rewrite E5. clear E5.
  exists f5. split; [|exact C5].
  rewrite !write_files_app. reflexivity.
Qed.

(** The parts of an image the validator accepts lie within its file. *)
Lemma valid_regions_in_file (img : t_abootimg) :
  check_boot_img_header H img = Ok Valid ->
  sizes_fit H img -> layout_fits H img ->
  size img <= Z.of_nat (length (contents (stream img))) ->
  0 < page_size H img < UINT32_MOD
  /\ forall p,
       part_present H p img = true ->
       0 < part_size H p img
       /\ 0 <= original_offset H p img
       /\ (Z.to_nat (original_offset H p img) + Z.to_nat (part_size H p img)
           <= length (contents (stream img)))%nat.
Proof.
  intros Hv Hs Hfit Hsz.
  destruct (check_valid_inv H img Hv) as (_ & Hk & Hrd & Hp0 & Htot).
  pose proof (get_u32_range (off_page_size H) (header img)) as Rp.
  fold (page_size H img) in Rp.
  assert (Hp : 0 < page_size H img) by lia.
  split; [lia|]. intros p Hpres.
  pose proof (get_u32_range (off_part_size H p) (header img)) as Rs.
  fold (part_size H p img) in Rs.
  destruct (part_regions img Hp Hs Hfit p) as (Ho & Hin & _).
  split.
  - unfold part_present in Hpres.
    destruct p; cbn [mandatory orb] in Hpres;
      try (change (part_size H Kernel img) with (kernel_size H img) in *; lia);
      try (change (part_size H Ramdisk img) with (ramdisk_size H img) in *;
           lia);
      destruct (Z.eqb_spec (part_size H _ img) 0); cbn [negb] in Hpres;
      try discriminate; lia.
  - split; [exact Ho|]. lia.
Qed.

(** The [extract] case of [main] on an image that decodes. *)
Lemma main_extract_ok (img img1 : t_abootimg) (names : t_names)
  (fs : file_system) (c : string) (text : list byte) :
  length (header img) = sizeof_boot_img_hdr_v2 H ->
  feof (stream img) = false ->
  read_header H img = Ok img1 ->
  sizes_fit H img1 -> layout_fits H img1 ->
  (forall p, part_fname p img <> None) ->
  config_fname names = Some c ->
  bootimg_config H img1 = Ok text ->
  exists img2,
    main_extract H img names fs
    = Ok (img2, write_files (extracted_files H img1 c text) fs)
    /\ header img2 = header img1
    /\ contents (stream img2) = contents (stream img).
Proof.
  intros Hlen Hfeof Hr Hs Hfit Hn Hc Ht.
  destruct (read_header_inv H Hok img img1 Hlen Hfeof Hr) as (_ & Ed & Hv).
  assert (Ec : contents (stream img1) = contents (stream img))
    by (rewrite Ed; reflexivity).
  assert (Hn1 : forall p, part_fname p img1 <> None)
    by (intros p; rewrite Ed;
        replace (part_fname p (decoded_image H img)) with (part_fname p img)
          by (destruct p; reflexivity);
        apply Hn).
  assert (Hsz : size img1 <= Z.of_nat (length (contents (stream img1)))).
  { rewrite Ed at 1. cbn [decoded_image size set_size]. rewrite <- Ec.
    unfold u32. apply Z.mod_le; unfold UINT32_MOD; lia. }
  destruct (valid_regions_in_file img1 Hv Hs Hfit Hsz) as (Hp & Hreg).
  assert (Eta : img1 = set_stream (stream img1) img1)
    by (destruct img1; reflexivity).
  unfold main_extract. rewrite Hr. cbn [bind].
  unfold write_bootimg_config. rewrite Hc, Ht. cbn [bind].
  destruct (extract_parts_ok img1 (stream img1) (fs_write c text fs)
              eq_refl Hp Hn1 Hreg) as (f' & E & C).
  rewrite <- Eta in E. rewrite E.
  exists (set_stream f' img1). split; [reflexivity|].
  split; [reflexivity|]. cbn [stream set_stream]. congruence.
Qed.

(** X7: the [extract] command on an image whose header [read_header]
    accepts and whose layout does not wrap never fails to read a part: it
    writes the configuration, then for the kernel, the ramdisk and each
    other part whose size is not zero the bytes of the region the layout
    gives the part, to the file named for it, and nothing for a part that
    is absent. *)
Theorem main_extract_files (img img1 : t_abootimg) (names : t_names)
  (fs : file_system) (c : string) (text : list byte) :
  length (header img) = sizeof_boot_img_hdr_v2 H ->
  feof (stream img) = false ->
  read_header H img = Ok img1 ->
  sizes_fit H img1 -> layout_fits H img1 ->
  (forall p, part_fname p img <> None) ->
  config_fname names = Some c ->
  bootimg_config H img1 = Ok text ->
  exists img2,
    main_extract H img names fs
    = Ok (img2, write_files (extracted_files H img1 c text) fs)
    /\ header img2 = header img1
    /\ contents (stream img2) = contents (stream img).
Proof. apply main_extract_ok. Qed.

End Extraction.

Lemma main_extract_files_witness :
  exists img2 fs',
    main_extract aosp_bootimg_h example_opened new_bootimg_names
      (fun _ => None) = Ok (img2, fs')
    /\ fs' "bootimg.cfg"%string = Some example_config_text
    /\ fs' "zImage"%string = Some (repeat x4b (Z.to_nat 5000))
    /\ fs' "initrd.img"%string = Some (repeat x52 (Z.to_nat 3000))
    /\ fs' "stage2.img"%string = None.
Proof.
  destruct (main_extract_files aosp_bootimg_h eq_refl example_opened
              (decoded_image aosp_bootimg_h example_opened)
              new_bootimg_names (fun _ => None) "bootimg.cfg"
              example_config_text)
    as (img2 & E & _).
  - reflexivity.
  - reflexivity.
  - vm_compute. reflexivity.
  - intros p. destruct p; vm_compute; reflexivity.
  - unfold layout_fits. vm_compute. reflexivity.
  - intros p. destruct p; discriminate.
  - reflexivity.
  - vm_compute. reflexivity.
  - exists img2. eexists. split; [exact E|].
    repeat split; vm_compute; reflexivity.
Defined.

(** ** The parts in the image written *)

Lemma stream_bytes_prefix (f g : FILE) (off size : Z) (k : nat) :
  firstn k (contents f) = firstn k (contents g) ->
  (Z.to_nat off + Z.to_nat size <= k)%nat ->
  stream_bytes f off size = stream_bytes g off size.
Proof.
  intros E Hk. unfold stream_bytes.
  assert (P : forall c : list byte,
             firstn (Z.to_nat size) (skipn (Z.to_nat off) c)
             = firstn (Z.to_nat size) (skipn (Z.to_nat off) (firstn k c))).
  { intros c. rewrite skipn_firstn_comm, firstn_firstn.
    rewrite Nat.min_l by lia. reflexivity. }
  rewrite (P (contents f)), (P (contents g)), E. reflexivity.
Qed.

Lemma stream_bytes_written (pos : nat) (a b data : list byte) :
  firstn (length a) (skipn pos (write_at pos (a ++ b) data)) = a.
Proof.
  unfold write_at.
  assert (L : length (firstn pos (data ++ zeros (pos - length data))) = pos).
  { rewrite length_firstn, length_app, length_zeros. lia. }
  rewrite skipn_app, L, Nat.sub_diag. cbn [skipn].
  rewrite skipn_all2 by lia. cbn [app].
  rewrite <- app_assoc, firstn_app, Nat.sub_diag, firstn_all. cbn [firstn].
  apply app_nil_r.
Qed.

Section WrittenParts.

Variable H : bootimg_h.
Hypothesis Hok : bootimg_h_ok H = true.

(** One part of [write_bootimg]: what it writes, and what it leaves. *)
Lemma write_optional_part_region (img : t_abootimg)
  (buf : option (list byte)) (present : bool) (f : FILE) (offset size : Z) :
  0 < page_size H img -> 0 <= offset -> 0 <= size ->
  (forall part, buf = Some part -> size <= Z.of_nat (length part)) ->
  exists f',
    write_optional_part H buf present (set_stream f img) offset size
      (zeros (Z.to_nat (page_size H img)))
    = Ok (set_stream f' img)
    /\ st_isblk f' = st_isblk f
    /\ (length (contents f) <= length (contents f'))%nat
    /\ (forall k, (k <= Z.to_nat offset)%nat ->
                  (k <= length (contents f))%nat ->
                  firstn k (contents f') = firstn k (contents f))
    /\ (forall part,
           buf = Some part -> present = true ->
           stream_bytes f' offset size = firstn (Z.to_nat size) part
           /\ (Z.to_nat offset + Z.to_nat size <= length (contents f'))%nat).
Proof.
  intros Hp Ho Hs Hb. unfold write_optional_part.
  assert (Same : exists f',
             Ok (set_stream f img) = Ok (set_stream f' img)
             /\ st_isblk f' = st_isblk f
             /\ (length (contents f) <= length (contents f'))%nat
             /\ (forall k, (k <= Z.to_nat offset)%nat ->
                           (k <= length (contents f))%nat ->
                           firstn k (contents f') = firstn k (contents f))).
  { exists f. repeat split; auto. }
  destruct buf as [part|].
  2: { destruct Same as (f' & E & B & L & K). exists f'.
       repeat split; try assumption; discriminate. }
  destruct present.
  2: { destruct Same as (f' & E & B & L & K). exists f'.
       repeat split; try assumption; discriminate. }
  clear Same.
  destruct (write_bootimg_part_spec H (set_stream f img) part offset size)
    as (f' & E & Ec & _ & Eb); try assumption.
  { split; [lia|]. apply Hb. reflexivity. }
  cbn [stream set_stream] in Ec, Eb.
  change (page_size H (set_stream f img)) with (page_size H img) in *.
  exists f'. split; [exact E|]. split; [exact Eb|].
  assert (Lp : length (firstn (Z.to_nat size) part) = Z.to_nat size).
  { rewrite length_firstn. specialize (Hb part eq_refl). lia. }
  split; [|split].
  - rewrite Ec, length_write_at. lia.
  - intros k Hk Hl. rewrite Ec. apply write_at_prefix; assumption.
  - intros part' Ep _. injection Ep as <-. split.
    + unfold stream_bytes. rewrite Ec. rewrite <- Lp at 1.
      apply stream_bytes_written.
    + rewrite Ec, length_write_at, length_app, Lp. lia.
Qed.

(** One part of [write_bootimg] leaves the stream inside what it has
    written, its last write ending within a page of the total size. *)
Lemma write_optional_part_extent (img : t_abootimg) (q : part) (f f' : FILE) :
  0 < page_size H img -> sizes_fit H img -> layout_fits H img ->
  payloads_fit H img ->
  write_optional_part H (part_buffer q (set_stream f img))
    (part_present H q (set_stream f img)) (set_stream f img)
    (original_offset H q img) (part_size H q (set_stream f img))
    (zeros (Z.to_nat (page_size H img)))
  = Ok (set_stream f' img) ->
  written_extent H img f -> written_extent H img f'.
Proof.
  intros Hp Hsz Hfit Hpay E X.
  assert (Inj : forall g, Ok (set_stream g img) = Ok (set_stream f' img) ->
                          g = f').
  { intros g Eg. injection Eg as Eg. exact Eg. }
  replace (part_buffer q (set_stream f img)) with (part_buffer q img) in E
    by (destruct q; reflexivity).
  change (part_present H q (set_stream f img)) with (part_present H q img)
    in E.
  change (part_size H q (set_stream f img)) with (part_size H q img) in E.
  unfold write_optional_part in E.
  destruct (part_buffer q img) as [part|] eqn:Eb;
    [|rewrite <- (Inj f E); exact X].
  destruct (part_present H q img); [|rewrite <- (Inj f E); exact X].
  destruct (part_regions H img Hp Hsz Hfit q) as (Oq & Ot & _).
  pose proof (get_u32_range (off_part_size H q) (header img)) as Rq.
  fold (part_size H q img) in Rq.
  pose proof (Hpay q part Eb) as Hl.
  destruct (write_bootimg_part_spec H (set_stream f img) part
              (original_offset H q img) (part_size H q img) Hp Oq
              ltac:(lia))
    as (f'' & E' & Ec & Efp & _).
  change (page_size H (set_stream f img)) with (page_size H img) in *.
  rewrite E' in E. apply Inj in E. subst f''.
  cbn [stream set_stream] in Ec.
  pose proof (Z.mod_pos_bound (part_size H q img) (page_size H img) Hp) as Bm.
  unfold written_extent. split.
  - rewrite Ec, Efp, length_write_at, length_app, length_firstn,
      length_zeros. lia.
  - rewrite Efp. lia.
Qed.

(** A part written after the parts of [ps], past their ends. *)
Lemma write_part_step (img : t_abootimg) (q : part) (ps : list part)
  (f : FILE) :
  0 < page_size H img ->
  payloads_fit H img ->
  0 <= original_offset H q img ->
  Z.of_nat (sizeof_hdr H (header_version H img)) <= original_offset H q img ->
  (forall p, In p ps ->
             0 <= original_offset H p img
             /\ original_offset H p img + part_size H p img
                <= original_offset H q img) ->
  header_on_stream H img f ->
  parts_on_stream H img ps f ->
  exists f',
    write_optional_part H (part_buffer q (set_stream f img))
      (part_present H q (set_stream f img)) (set_stream f img)
      (original_offset H q img) (part_size H q (set_stream f img))
      (zeros (Z.to_nat (page_size H img)))
    = Ok (set_stream f' img)
    /\ header_on_stream H img f'
    /\ parts_on_stream H img (q :: ps) f'.
Proof.
  intros Hp Hpay Ho Hh Hbefore Hf Hdone.
  pose proof (get_u32_range (off_part_size H q) (header img)) as Rq.
  fold (part_size H q img) in Rq.
  destruct (write_optional_part_region img (part_buffer q img)
              (part_present H q img) f (original_offset H q img)
              (part_size H q img) Hp Ho ltac:(lia))
    as (f' & E & B & L & K & W).
  { intros part Eb. apply (Hpay q part Eb). }
  exists f'.
  split; [destruct q; exact E|].
  destruct Hf as (Fb & Fl & Fp).
  split.
  - unfold header_on_stream. cbv zeta.
    split; [congruence|]. split; [lia|].
    rewrite K by lia. exact Fp.
  - intros p buf Hin Eb Hpres. destruct Hin as [<-|Hin].
    + apply (W buf Eb Hpres).
    + destruct (Hdone p buf Hin Eb Hpres) as [Sb Sl].
      destruct (Hbefore p Hin) as [Op Oe].
      pose proof (get_u32_range (off_part_size H p) (header img)) as Rp.
      fold (part_size H p img) in Rp.
      split; [|lia].
      rewrite <- Sb.
      apply (stream_bytes_prefix f' f _ _
               (Z.to_nat (original_offset H p img)
                + Z.to_nat (part_size H p img))); [|lia].
      apply K; lia.
Qed.

Lemma write_bootimg_stages (buffered : nat) (img : t_abootimg) :
  write_bootimg H buffered img
  = let psize := page_size H img in
    let padding := zeros (Z.to_nat psize) in
    let stage q x :=
      write_optional_part H (part_buffer q x) (part_present H q x) x
        (original_offset H q img) (part_size H q x) padding in
    if psize =? 0 then Undefined
    else
      f <- fwrite_from (header img) (boot_img_header_size H img)
             (fseek (stream img) (Z.to_nat hoffset)) ;;
      f <- fwrite_from padding (u32 (psize - boot_img_header_size H img)) f ;;
      x <- stage Kernel (set_stream f img) ;;
      x <- stage Ramdisk x ;;
      x <- stage Second x ;;
      x <- stage Dtbo x ;;
      x <- stage Dtb x ;;
      Ok (set_stream (ftruncate (stream x) (Z.to_nat (size x)) buffered) x).
Proof. reflexivity. Qed.

(** The length of the file left, between the container size and a page past
    the total size. *)
Lemma left_length_bounds (img : t_abootimg) (buffered : nat) (f : FILE) :
  0 <= size img ->
  Z.of_nat (fpos f) <= image_total_size H img + page_size H img ->
  (Z.to_nat (size img) <= left_length (size img) buffered f)%nat
  /\ Z.of_nat (left_length (size img) buffered f)
     <= Z.max (size img) (image_total_size H img + page_size H img)
  /\ (buffered = O \/ image_total_size H img + page_size H img <= size img ->
      left_length (size img) buffered f = Z.to_nat (size img)).
Proof.
  intros Hs Hf. unfold left_length.
  destruct (Nat.eqb_spec (Nat.min buffered (fpos f)) 0) as [E0|N0];
    cbn [orb]; [lia|].
  destruct (Nat.leb_spec (fpos f) (Z.to_nat (size img))); lia.
Qed.

(** [write_bootimg] on a header the validator accepts, with a page that
    holds the header and a layout that does not wrap: the file left starts
    with the header and holds every part that has a buffer at the offset of
    the part; it has the container size, unless bytes the stream held back
    end past it. *)
Lemma write_bootimg_image (buffered : nat) (img : t_abootimg) :
  length (header img) = sizeof_boot_img_hdr_v2 H ->
  check_boot_img_header H img = Ok Valid ->
  boot_img_header_size H img <= page_size H img ->
  sizes_fit H img -> layout_fits H img ->
  payloads_fit H img ->
  st_isblk (stream img) = false ->
  let hs := sizeof_hdr H (header_version H img) in
  exists f',
    write_bootimg H buffered img = Ok (set_stream f' img)
    /\ st_isblk f' = false
    /\ length (contents f') = left_length (size img) buffered f'
    /\ Z.of_nat (fpos f') <= image_total_size H img + page_size H img
    /\ firstn hs (contents f') = firstn hs (header img)
    /\ parts_on_stream H img [Dtb; Dtbo; Second; Ramdisk; Kernel] f'.
Proof.
  intros Hlen Hvalid Hpage Hsz Hfit Hpay Hreg hs.
  destruct (check_valid_inv H img Hvalid) as (Hv & Hk & Hr & Hp0 & Htot).
  pose proof (get_u32_range (off_page_size H) (header img)) as Rp.
  fold (page_size H img) in Rp.
  assert (Hp : 0 < page_size H img) by lia.
  pose proof (sizeof_hdr_bounds H Hok (header_version H img)) as Bh.
  fold hs in Bh.
  unfold boot_img_header_size in Hpage. fold hs in Hpage.
  pose proof (part_regions H img Hp Hsz Hfit) as Reg.
  destruct (offsets_past_header H img Hp Hfit)
    as (Ok1 & Ok2 & Ok3 & Ok4 & Ok5 & Ok6).
  cbv zeta in Ok1, Ok2, Ok3, Ok4, Ok5, Ok6.
  rewrite write_bootimg_stages. cbv zeta.
  destruct (Z.eqb_spec (page_size H img) 0); [lia|].
  unfold boot_img_header_size. fold hs.
  rewrite fwrite_from_ok by lia. cbn [bind].
  rewrite u32_small by lia.
  rewrite fwrite_from_ok by (rewrite length_zeros; lia). cbn [bind].
  set (f2 := fwrite _ (fwrite _ _)).
  assert (La : length (firstn (Z.to_nat (Z.of_nat hs)) (header img)) = hs)
    by (rewrite length_firstn; lia).
  assert (P2 : header_on_stream H img f2).
  { unfold header_on_stream. fold hs. unfold f2.
    cbn [fwrite fseek contents fpos st_isblk].
    split; [reflexivity|].
    unfold hoffset. cbn [Z.to_nat]. rewrite write_at_0, La.
    split.
    - rewrite length_write_at, length_app, La. lia.
    - rewrite write_at_prefix by (try rewrite length_app; lia).
      rewrite firstn_app, La, Nat.sub_diag, firstn_O, app_nil_r.
      rewrite Nat2Z.id, firstn_firstn, Nat.min_id. reflexivity. }
  assert (X2 : written_extent H img f2).
  { unfold written_extent, f2. cbn [fwrite fseek contents fpos].
    unfold hoffset. cbn [Z.to_nat Nat.add].
    rewrite length_write_at, La, length_firstn, length_zeros.
    split; lia. }
  assert (D2 : parts_on_stream H img [] f2) by (intros p buf []).
  clearbody f2.
  assert (Before : forall q ps,
             (forall p, In p ps -> (part_index p < part_index q)%nat) ->
             forall p, In p ps ->
                       0 <= original_offset H p img
                       /\ original_offset H p img + part_size H p img
                          <= original_offset H q img).
  { intros q ps Hps p Hin. destruct (Reg p) as (Op & _ & Oq).
    split; [exact Op|]. apply Oq. apply Hps. exact Hin. }
  destruct (write_part_step img Kernel [] f2 Hp Hpay)
    as (f3 & E3 & P3 & D3); try assumption;
    [apply (Reg Kernel) | cbn [original_offset]; lia
    | intros p [] |].
  pose proof (write_optional_part_extent img Kernel f2 f3 Hp Hsz Hfit Hpay
                E3 X2) as X3.
  rewrite E3. cbn [bind]. clear E3 P2 D2 X2.
  destruct (write_part_step img Ramdisk [Kernel] f3 Hp Hpay)
    as (f4 & E4 & P4 & D4); try assumption;
    [apply (Reg Ramdisk) | cbn [original_offset]; lia
    | apply Before; intros p Hin; cbn [In] in Hin;
      repeat (destruct Hin as [<-|Hin]; [cbn [part_index]; lia|]);
      contradiction |].
  pose proof (write_optional_part_extent img Ramdisk f3 f4 Hp Hsz Hfit Hpay
                E4 X3) as X4.
  rewrite E4. cbn [bind]. clear E4 P3 D3 X3.
  destruct (write_part_step img Second [Ramdisk; Kernel] f4 Hp Hpay)
    as (f5 & E5 & P5 & D5); try assumption;
    [apply (Reg Second) | cbn [original_offset]; lia
    | apply Before; intros p Hin; cbn [In] in Hin;
      repeat (destruct Hin as [<-|Hin]; [cbn [part_index]; lia|]);
      contradiction |].
  pose proof (write_optional_part_extent img Second f4 f5 Hp Hsz Hfit Hpay
                E5 X4) as X5.
  rewrite E5. cbn [bind]. clear E5 P4 D4 X4.
  destruct (write_part_step img Dtbo [Second; Ramdisk; Kernel] f5 Hp Hpay)
    as (f6 & E6 & P6 & D6); try assumption;
    [apply (Reg Dtbo) | cbn [original_offset]; lia
    | apply Before; intros p Hin; cbn [In] in Hin;
      repeat (destruct Hin as [<-|Hin]; [cbn [part_index]; lia|]);
      contradiction |].
  pose proof (write_optional_part_extent img Dtbo f5 f6 Hp Hsz Hfit Hpay
                E6 X5) as X6.
  rewrite E6. cbn [bind]. clear E6 P5 D5 X5.
  destruct (write_part_step img Dtb [Dtbo; Second; Ramdisk; Kernel] f6 Hp
              Hpay)
    as (f7 & E7 & P7 & D7); try assumption;
    [apply (Reg Dtb) | cbn [original_offset]; lia
    | apply Before; intros p Hin; cbn [In] in Hin;
      repeat (destruct Hin as [<-|Hin]; [cbn [part_index]; lia|]);
      contradiction |].
  pose proof (write_optional_part_extent img Dtb f6 f7 Hp Hsz Hfit Hpay
                E7 X6) as X7.
  rewrite E7. cbn [bind]. clear E7 P6 D6 X6.
  eexists. split; [reflexivity|].
  destruct P7 as (Fb & Fl & Fp). fold hs in Fl, Fp.
  destruct X7 as (Xl & Xt).
  cbn [stream set_stream size].
  assert (Fb' : st_isblk f7 = false) by congruence.
  destruct (ftruncate_regular f7 (Z.to_nat (size img)) buffered Fb' Xl)
    as (_ & Tl & Tb & Tp).
  pose proof (fun k => ftruncate_prefix f7 (Z.to_nat (size img)) buffered k
                         Fb' Xl) as Pre.
  set (f' := ftruncate f7 (Z.to_nat (size img)) buffered) in *.
  split; [exact Tb|]. split; [|split; [|split]].
  - unfold left_length. rewrite Tp. exact Tl.
  - rewrite Tp. exact Xt.
  - rewrite Pre by lia. exact Fp.
  - intros p buf Hin Eb Hpres.
    destruct (D7 p buf Hin Eb Hpres) as [Sb Sl].
    destruct (Reg p) as (Op & Ot & _).
    pose proof (get_u32_range (off_part_size H p) (header img)) as Rq.
    fold (part_size H p img) in Rq.
    assert (Hin' : (Z.to_nat (original_offset H p img)
                    + Z.to_nat (part_size H p img)
                    <= Z.to_nat (size img))%nat) by lia.
    split.
    + rewrite <- Sb.
      apply (stream_bytes_prefix _ f7 _ _
               (Z.to_nat (original_offset H p img)
                + Z.to_nat (part_size H p img))); [|lia].
      apply Pre; lia.
    + assert (Z.to_nat (size img) <= length (contents f'))%nat; [|lia].
      rewrite Tl.
      destruct (Nat.min buffered (fpos f7) =? 0)%nat; cbn [orb]; [lia|].
      destruct (Nat.leb_spec (fpos f7) (Z.to_nat (size img))); lia.
Qed.

End WrittenParts.

Section WrittenImage.

Variable H : bootimg_h.
Hypothesis Hok : bootimg_h_ok H = true.

(** X8: [write_bootimg], on a header the validator accepts whose page
    holds the header structure and whose layout does not wrap, leaves on a
    regular file an image that starts with the header and holds, at the
    offset the layout gives each part, the bytes of the part's buffer that
    its size field counts, for the kernel, the ramdisk and every other part
    whose size is not zero: no part written later, no padding and not the
    final truncation reach them.  The file has at least the container size
    and at most the larger of the container size and the total size plus a
    page.  It has the container size when the stream holds nothing back
    when the descriptor is truncated, or when the container holds a page
    more than the total size; otherwise the whole page of padding that
    follows a part whose size is a multiple of the page size, written by
    [exit] after the truncation, can end the file past the container
    size. *)
Theorem write_bootimg_holds_parts (buffered : nat) (img : t_abootimg) :
  length (header img) = sizeof_boot_img_hdr_v2 H ->
  check_boot_img_header H img = Ok Valid ->
  boot_img_header_size H img <= page_size H img ->
  sizes_fit H img -> layout_fits H img ->
  payloads_fit H img ->
  st_isblk (stream img) = false ->
  exists img1,
    write_bootimg H buffered img = Ok img1
    /\ header img1 = header img
    /\ length (contents (stream img1))
       = left_length (size img) buffered (stream img1)
    /\ (Z.to_nat (size img) <= length (contents (stream img1)))%nat
    /\ Z.of_nat (length (contents (stream img1)))
       <= Z.max (size img) (image_total_size H img + page_size H img)
    /\ (buffered = O \/ image_total_size H img + page_size H img <= size img ->
        length (contents (stream img1)) = Z.to_nat (size img))
    /\ firstn (sizeof_hdr H (header_version H img)) (contents (stream img1))
       = firstn (sizeof_hdr H (header_version H img)) (header img)
    /\ forall p buf,
         part_buffer p img = Some buf ->
         part_present H p img = true ->
         part_region H p img1 = firstn (Z.to_nat (part_size H p img)) buf.
Proof.
  intros Hlen Hvalid Hpage Hsz Hfit Hpay Hreg.
  destruct (write_bootimg_image H Hok buffered img Hlen Hvalid Hpage Hsz Hfit
              Hpay Hreg)
    as (f' & E & _ & L & Xt & Ph & Pp).
  destruct (check_valid_inv H img Hvalid) as (_ & _ & _ & Hp0 & Htot).
  pose proof (proj1 (offsets_past_header H img
                       ltac:(pose proof (get_u32_range (off_page_size H)
                                           (header img)) as Rp;
                             fold (page_size H img) in Rp; lia) Hfit)) as Ok1.
  assert (Hs0 : 0 <= size img).
  { pose proof (get_u32_range (off_page_size H) (header img)) as Rp.
    fold (page_size H img) in Rp.
    destruct (offsets_past_header H img ltac:(lia) Hfit)
      as (_ & _ & _ & _ & _ & Ok6). cbv zeta in Ok6. lia. }
  destruct (left_length_bounds H img buffered f' Hs0 Xt) as (B1 & B2 & B3).
  exists (set_stream f' img). split; [exact E|].
  cbn [stream set_stream header].
  split; [reflexivity|]. split; [exact L|]. rewrite L.
  split; [exact B1|]. split; [exact B2|]. split; [exact B3|].
  split; [exact Ph|].
  intros p buf Eb Hpres.
  assert (Hin : In p [Dtb; Dtbo; Second; Ramdisk; Kernel])
    by (destruct p; cbn [In]; auto 6).
  destruct (Pp p buf Hin Eb Hpres) as [Sb _]. exact Sb.
Qed.

End WrittenImage.

Lemma write_bootimg_holds_parts_witness :
  size example_exact_fit = 6144
  /\ image_total_size aosp_bootimg_h example_exact_fit = 6144
  /\ (exists img1,
         write_bootimg aosp_bootimg_h 0 example_exact_fit = Ok img1
         /\ length (contents (stream img1)) = Z.to_nat 6144)
  /\ exists img1,
       write_bootimg aosp_bootimg_h 4096 example_exact_fit = Ok img1
       /\ fpos (stream img1) = Z.to_nat 8192
       /\ length (contents (stream img1)) = Z.to_nat 8192
       /\ part_region aosp_bootimg_h Kernel img1 = repeat x4b 2048
       /\ part_region aosp_bootimg_h Ramdisk img1 = repeat x52 2048.
Proof.
  assert (Hyp : length (header example_exact_fit)
                = sizeof_boot_img_hdr_v2 aosp_bootimg_h
                /\ check_boot_img_header aosp_bootimg_h example_exact_fit
                   = Ok Valid
                /\ boot_img_header_size aosp_bootimg_h example_exact_fit
                   <= page_size aosp_bootimg_h example_exact_fit
                /\ sizes_fit aosp_bootimg_h example_exact_fit
                /\ layout_fits aosp_bootimg_h example_exact_fit
                /\ payloads_fit aosp_bootimg_h example_exact_fit).
  { split; [vm_compute; reflexivity|]. split; [vm_compute; reflexivity|].
    split; [apply Z.leb_le; vm_compute; reflexivity|].
    split; [intros p; destruct p; vm_compute; reflexivity|].
    split; [unfold layout_fits; vm_compute; reflexivity|].
    intros p buf E.
    destruct p; cbn in E; inversion E; subst buf; apply Z.leb_le;
      vm_compute; reflexivity. }
  destruct Hyp as (Hl & Hv & Hp & Hs & Hf & Hb).
  split; [reflexivity|]. split; [vm_compute; reflexivity|]. split.
  - destruct (write_bootimg_holds_parts aosp_bootimg_h eq_refl 0
                example_exact_fit Hl Hv Hp Hs Hf Hb eq_refl)
      as (img1 & E & _ & _ & _ & _ & L & _).
    exists img1. split; [exact E|]. apply L. left. reflexivity.
  - destruct (write_bootimg_holds_parts aosp_bootimg_h eq_refl 4096
                example_exact_fit Hl Hv Hp Hs Hf Hb eq_refl)
      as (img1 & E & _ & L & _ & _ & _ & _ & P).
    assert (Fp : holds_on
                   (write_bootimg aosp_bootimg_h 4096 example_exact_fit)
                   (fun i => fpos (stream i) = Z.to_nat 8192))
      by (vm_compute; reflexivity).
    rewrite E in Fp. cbn [holds_on] in Fp.
    exists img1. split; [exact E|]. split; [exact Fp|]. split; [|split].
    + rewrite L. unfold left_length. rewrite Fp. vm_compute. reflexivity.
    + rewrite (P Kernel (repeat x4b 2048)) by reflexivity.
      vm_compute. reflexivity.
    + rewrite (P Ramdisk (repeat x52 2048)) by reflexivity.
      vm_compute. reflexivity.
Defined.

Section WrittenAndDecoded.

Variable H : bootimg_h.
Hypothesis Hok : bootimg_h_ok H = true.

(** A file that starts with a header the validator accepts and holds the
    container size decodes to that header, the size being its length. *)
Lemma written_image_decodes (img img0 : t_abootimg) (f' : FILE) :
  length (header img) = sizeof_boot_img_hdr_v2 H ->
  length (header img0) = sizeof_boot_img_hdr_v2 H ->
  check_boot_img_header H img = Ok Valid ->
  boot_img_header_size H img <= page_size H img ->
  layout_fits H img ->
  tail_zero H img ->
  (Z.to_nat (size img) <= length (contents f'))%nat ->
  Z.of_nat (length (contents f')) < UINT32_MOD ->
  firstn (sizeof_hdr H (header_version H img)) (contents f')
  = firstn (sizeof_hdr H (header_version H img)) (header img) ->
  let x := set_stream (fopen (contents f') false) img0 in
  read_header H x = Ok (decoded_image H x)
  /\ header (decoded_image H x) = header img
  /\ size (decoded_image H x) = Z.of_nat (length (contents f')).
Proof.
  intros Hlen Hlen0 Hvalid Hpage Hfit Htail Lc Hsize Pc x.
  destruct (check_valid_inv H img Hvalid) as (Hv & Hk & Hr & Hp0 & Htot).
  pose proof (get_u32_range (off_page_size H) (header img)) as Rp.
  fold (page_size H img) in Rp.
  assert (Hp : 0 < page_size H img) by lia.
  destruct (offsets_past_header H img Hp Hfit) as (_ & _ & _ & _ & _ & Ok6).
  cbv zeta in Ok6.
  pose proof (layout_bounds H Hok) as B.
  set (hs := sizeof_hdr H (header_version H img)) in *.
  pose proof (sizeof_hdr_bounds H Hok (header_version H img)) as Bh.
  fold hs in Bh.
  unfold boot_img_header_size in Hpage. fold hs in Hpage.
  assert (Ev : get_u32 (off_header_version H) (contents f')
               = header_version H img).
  { unfold header_version, get_u32.
    rewrite <- (load_firstn (off_header_version H) 4 hs (contents f'))
      by lia.
    rewrite Pc. rewrite load_firstn by lia. reflexivity. }
  assert (Er : read_header H x = validated H (decoded_image H x)).
  { apply read_header_enough; [exact Hok|exact Hlen0|reflexivity|].
    cbn [x stream set_stream fopen fpos contents skipn].
    rewrite Ev. fold hs. lia. }
  assert (Eh : header (decoded_image H x) = header img).
  { unfold decoded_image.
    cbn [x stream set_stream fopen fpos contents skipn header set_header
         set_size].
    rewrite Ev. fold hs. rewrite Pc.
    unfold tail_zero in Htail. fold hs in Htail. rewrite <- Htail.
    apply firstn_skipn. }
  assert (Es : size (decoded_image H x) = Z.of_nat (length (contents f'))).
  { unfold decoded_image.
    cbn [x stream set_stream fopen fpos contents size set_size].
    apply u32_small. lia. }
  split; [|split; assumption].
  rewrite Er. unfold validated.
  rewrite (check_valid_larger H (decoded_image H x) img Eh ltac:(lia) Hvalid).
  reflexivity.
Qed.

(** C1, as amended: take a header that the validator accepts for its
    container, whose page holds the structure of its version, whose layout
    does not wrap, and whose fields past the structure of its version are
    zero, with payload buffers as long as their size fields say, on a regular
    file.  Then [write_bootimg] succeeds, and [read_header] on the file it
    left yields the same header, byte for byte.  The container size it
    yields is the length of that file: the container size of the image
    written, or, when the stream held back bytes that end past it, the end
    of the last write, at most a page past the total size. *)
Theorem write_then_read_header (buffered : nat) (img img0 : t_abootimg) :
  length (header img) = sizeof_boot_img_hdr_v2 H ->
  length (header img0) = sizeof_boot_img_hdr_v2 H ->
  check_boot_img_header H img = Ok Valid ->
  boot_img_header_size H img <= page_size H img ->
  sizes_fit H img ->
  layout_fits H img ->
  tail_zero H img ->
  payloads_fit H img ->
  st_isblk (stream img) = false ->
  size img < UINT32_MOD ->
  image_total_size H img + page_size H img < UINT32_MOD ->
  exists img1 img2,
    write_bootimg H buffered img = Ok img1
    /\ read_header H (set_stream (fopen (contents (stream img1)) false) img0)
       = Ok img2
    /\ header img2 = header img
    /\ size img2 = Z.of_nat (length (contents (stream img1)))
    /\ size img2 = Z.of_nat (left_length (size img) buffered (stream img1))
    /\ size img <= size img2
       <= Z.max (size img) (image_total_size H img + page_size H img)
    /\ (buffered = O \/ image_total_size H img + page_size H img <= size img ->
        size img2 = size img).
Proof.
  intros Hlen Hlen0 Hvalid Hpage Hsz Hfit Htail Hpay Hreg Hsize Htp.
  destruct (write_bootimg_image H Hok buffered img Hlen Hvalid Hpage Hsz Hfit
              Hpay Hreg)
    as (f' & Ew & _ & L & Xt & Ph & _).
  cbv zeta in Ph.
  destruct (check_valid_inv H img Hvalid) as (_ & _ & _ & Hp0 & Htot).
  pose proof (get_u32_range (off_page_size H) (header img)) as Rp.
  fold (page_size H img) in Rp.
  destruct (offsets_past_header H img ltac:(lia) Hfit)
    as (_ & _ & _ & _ & _ & Ok6).
  cbv zeta in Ok6.
  destruct (left_length_bounds H img buffered f' ltac:(lia) Xt)
    as (B1 & B2 & B3).
  rewrite <- L in B1, B2, B3.
  destruct (written_image_decodes img img0 f' Hlen Hlen0 Hvalid Hpage Hfit
              Htail B1 ltac:(lia) Ph) as (Er & Eh & Es).
  cbv zeta in Er, Eh, Es.
  exists (set_stream f' img),
    (decoded_image H (set_stream (fopen (contents f') false) img0)).
  cbn [stream set_stream].
  split; [exact Ew|]. split; [exact Er|]. split; [exact Eh|].
  split; [exact Es|]. split; [rewrite Es, L; reflexivity|].
  rewrite Es. split; [lia|].
  intros Hc. rewrite (B3 Hc). lia.
Qed.

End WrittenAndDecoded.

Lemma write_then_read_header_witness :
  check_boot_img_header aosp_bootimg_h example_exact_fit = Ok Valid
  /\ size example_exact_fit = 6144
  /\ (exists img1 img2,
         write_bootimg aosp_bootimg_h 0 example_exact_fit = Ok img1
         /\ read_header aosp_bootimg_h
              (set_stream (fopen (contents (stream img1)) false)
                 (new_bootimg aosp_bootimg_h)) = Ok img2
         /\ header img2 = header example_exact_fit
         /\ size img2 = 6144)
  /\ exists img1 img2,
       write_bootimg aosp_bootimg_h 4096 example_exact_fit = Ok img1
       /\ read_header aosp_bootimg_h
            (set_stream (fopen (contents (stream img1)) false)
               (new_bootimg aosp_bootimg_h)) = Ok img2
       /\ header img2 = header example_exact_fit
       /\ size img2 = 8192.
Proof.
  assert (Hyp : length (header example_exact_fit)
                = sizeof_boot_img_hdr_v2 aosp_bootimg_h
                /\ check_boot_img_header aosp_bootimg_h example_exact_fit
                   = Ok Valid
                /\ boot_img_header_size aosp_bootimg_h example_exact_fit
                   <= page_size aosp_bootimg_h example_exact_fit
                /\ sizes_fit aosp_bootimg_h example_exact_fit
                /\ layout_fits aosp_bootimg_h example_exact_fit
                /\ tail_zero aosp_bootimg_h example_exact_fit
                /\ payloads_fit aosp_bootimg_h example_exact_fit
                /\ image_total_size aosp_bootimg_h example_exact_fit
                   + page_size aosp_bootimg_h example_exact_fit
                   < UINT32_MOD).
  { split; [vm_compute; reflexivity|]. split; [vm_compute; reflexivity|].
    split; [apply Z.leb_le; vm_compute; reflexivity|].
    split; [intros p; destruct p; vm_compute; reflexivity|].
    split; [unfold layout_fits; vm_compute; reflexivity|].
    split; [unfold tail_zero; vm_compute; reflexivity|].
    split; [|vm_compute; reflexivity].
    intros p buf E.
    destruct p; cbn in E; inversion E; subst buf; apply Z.leb_le;
      vm_compute; reflexivity. }
  destruct Hyp as (Hl & Hv & Hp & Hs & Hf & Ht & Hb & Hw).
  split; [exact Hv|]. split; [reflexivity|]. split.
  - destruct (write_then_read_header aosp_bootimg_h eq_refl 0
                example_exact_fit (new_bootimg aosp_bootimg_h) Hl eq_refl Hv
                Hp Hs Hf Ht Hb eq_refl eq_refl Hw)
      as (img1 & img2 & E1 & E2 & Eh & _ & _ & _ & Es).
    exists img1, img2. split; [exact E1|]. split; [exact E2|].
    split; [exact Eh|]. apply Es. left. reflexivity.
  - destruct (write_then_read_header aosp_bootimg_h eq_refl 4096
                example_exact_fit (new_bootimg aosp_bootimg_h) Hl eq_refl Hv
                Hp Hs Hf Ht Hb eq_refl eq_refl Hw)
      as (img1 & img2 & E1 & E2 & Eh & _ & Es & _).
    assert (Fp : holds_on
                   (write_bootimg aosp_bootimg_h 4096 example_exact_fit)
                   (fun i => fpos (stream i) = Z.to_nat 8192))
      by (vm_compute; reflexivity).
    rewrite E1 in Fp. cbn [holds_on] in Fp.
    exists img1, img2. split; [exact E1|]. split; [exact E2|].
    split; [exact Eh|].
    rewrite Es. unfold left_length. rewrite Fp. vm_compute. reflexivity.
Defined.

(** C1 as stated fails on a header with a field past the structure of its
    version: the line ["dtbaddr = 4096"] leaves a version 0 header with a
    dtb address; the validator accepts it; [write_bootimg] writes the 1632
    bytes of version 0, and [read_header] gives back a header whose dtb
    address is zero.  It also fails on the header of [example_image 1024],
    which the validator accepts and [write_bootimg] cannot encode. *)
Lemma write_then_read_header_counterexample :
  (exists img,
      update_header_entry aosp_bootimg_h (example_image 2048)
        (str "dtbaddr = 4096") = Ok img
      /\ (check_boot_img_header aosp_bootimg_h img = Ok Valid
          /\ header_version aosp_bootimg_h img = 0
          /\ get_u64 (off_dtb_addr aosp_bootimg_h) (header img) = 4096
          /\ exists img1,
               (forall buffered,
                   write_bootimg aosp_bootimg_h buffered img = Ok img1)
               /\ exists img2,
                    read_header aosp_bootimg_h
                      (set_stream (fopen (contents (stream img1)) false)
                         (new_bootimg aosp_bootimg_h)) = Ok img2
                    /\ get_u64 (off_dtb_addr aosp_bootimg_h) (header img2)
                       = 0
                    /\ header img2 <> header img))
  /\ check_boot_img_header aosp_bootimg_h (example_image 1024) = Ok Valid
  /\ forall buffered,
       write_bootimg aosp_bootimg_h buffered (example_image 1024)
       = Undefined.
Proof.
  split; [|split; [vm_compute; reflexivity|intros b; vm_compute; reflexivity]].
  apply holds_on_exists.
  destruct (update_header_entry aosp_bootimg_h (example_image 2048)
              (str "dtbaddr = 4096")) as [img| |] eqn:E;
    [|vm_compute in E; discriminate E ..].
  cbn [holds_on].
  assert (Ed : get_u64 (off_dtb_addr aosp_bootimg_h) (header img) = 4096).
  { vm_compute in E. injection E as <-. vm_compute. reflexivity. }
  split; [vm_compute in E; injection E as <-; vm_compute; reflexivity|].
  split; [vm_compute in E; injection E as <-; vm_compute; reflexivity|].
  split; [exact Ed|].
  destruct (write_bootimg aosp_bootimg_h 0 img) as [img1| |] eqn:E1;
    [|vm_compute in E; injection E as <-; vm_compute in E1;
      discriminate E1 ..].
  exists img1. split.
  { intros buffered. apply write_bootimg_within; [exact E1|].
    vm_compute in E. injection E as <-. vm_compute in E1.
    injection E1 as <-. apply Nat.leb_le. vm_compute. reflexivity. }
  apply holds_on_exists.
  destruct (read_header aosp_bootimg_h
              (set_stream (fopen (contents (stream img1)) false)
                 (new_bootimg aosp_bootimg_h))) as [img2| |] eqn:E2;
    [|vm_compute in E; injection E as <-; vm_compute in E1;
      injection E1 as <-; vm_compute in E2; discriminate E2 ..].
  cbn [holds_on].
  assert (E0 : get_u64 (off_dtb_addr aosp_bootimg_h) (header img2) = 0).
  { vm_compute in E; injection E as <-. vm_compute in E1.
    injection E1 as <-. vm_compute in E2. injection E2 as <-.
    vm_compute. reflexivity. }
  split; [exact E0|]. intros F. rewrite F in E0. congruence.
Qed.

Section WrittenAndExtracted.

Variable H : bootimg_h.
Hypothesis Hok : bootimg_h_ok H = true.

(** What depends on the header alone. *)
Lemma header_determines (a b : t_abootimg) :
  header a = header b ->
  (forall p, part_size H p a = part_size H p b)
  /\ page_size H a = page_size H b
  /\ (forall p, original_offset H p a = original_offset H p b)
  /\ (forall p, part_present H p a = part_present H p b)
  /\ (sizes_fit H a <-> sizes_fit H b)
  /\ (layout_fits H a <-> layout_fits H b).
Proof.
  intros E.
  assert (Es : forall p, part_size H p a = part_size H p b)
    by (intros p; unfold part_size; rewrite E; reflexivity).
  assert (Ep : page_size H a = page_size H b)
    by (unfold page_size; rewrite E; reflexivity).
  split; [exact Es|]. split; [exact Ep|].
  split; [|split; [|split]].
  - intros p. unfold original_offset, kernel_size, ramdisk_size,
      second_size, recovery_dtbo_size. rewrite Ep, E. reflexivity.
  - intros p. unfold part_present. rewrite Es. reflexivity.
  - unfold sizes_fit. rewrite Ep.
    split; intros S p; [rewrite <- Es|rewrite Es]; apply S.
  - unfold layout_fits, kernel_size, ramdisk_size, second_size,
      recovery_dtbo_size, dtb_size. rewrite Ep, E. tauto.
Qed.

(** The configuration text depends on the header and on the size. *)
Lemma bootimg_config_ext (a b : t_abootimg) :
  header a = header b -> size a = size b ->
  bootimg_config H a = bootimg_config H b.
Proof.
  intros Eh Es.
  unfold bootimg_config, name, cmdline, page_size, kernel_addr,
    ramdisk_addr, second_addr, tags_addr, recovery_dtbo_offset, dtb_addr.
  rewrite Eh, Es. reflexivity.
Qed.

(** An image that has a configuration text has one for any size. *)
Lemma bootimg_config_resized (img : t_abootimg) (s : Z) (b : bool)
  (text : list byte) :
  bootimg_config H img = Ok text ->
  exists text',
    bootimg_config H (set_size s b img) = Ok text'
    /\ (s = size img -> text' = text).
Proof.
  intros E.
  destruct (Z.eq_dec s (size img)) as [->|Hne].
  - exists text. split; [|reflexivity].
    rewrite <- E. apply bootimg_config_ext; reflexivity.
  - revert E. unfold bootimg_config.
    change (name H (set_size s b img)) with (name H img).
    change (cmdline H (set_size s b img)) with (cmdline H img).
    destruct (printf_s (name H img)) as [n| |]; cbn [bind];
      try discriminate.
    destruct (printf_s (cmdline H img)) as [c| |]; cbn [bind];
      try discriminate.
    intros _. eexists. split; [reflexivity|]. intros F. contradiction.
Qed.

(** The file written, decoded and extracted. *)
Lemma written_image_extract_ok (buffered : nat) (img img0 : t_abootimg)
  (names : t_names) (fs : file_system) (c : string) (text : list byte) :
  length (header img) = sizeof_boot_img_hdr_v2 H ->
  length (header img0) = sizeof_boot_img_hdr_v2 H ->
  check_boot_img_header H img = Ok Valid ->
  boot_img_header_size H img <= page_size H img ->
  sizes_fit H img -> layout_fits H img ->
  tail_zero H img ->
  payloads_fit H img -> payloads_loaded H img ->
  st_isblk (stream img) = false ->
  size img < UINT32_MOD ->
  image_total_size H img + page_size H img < UINT32_MOD ->
  (forall p, part_fname p img0 <> None) ->
  config_fname names = Some c ->
  bootimg_config H img = Ok text ->
  exists img1 img2 text',
    write_bootimg H buffered img = Ok img1
    /\ header img1 = header img /\ size img1 = size img
    /\ length (contents (stream img1))
       = left_length (size img) buffered (stream img1)
    /\ (Z.to_nat (size img) <= length (contents (stream img1)))%nat
    /\ Z.of_nat (length (contents (stream img1)))
       <= Z.max (size img) (image_total_size H img + page_size H img)
    /\ (buffered = O \/ image_total_size H img + page_size H img <= size img ->
        length (contents (stream img1)) = Z.to_nat (size img))
    /\ bootimg_config H
         (set_size (Z.of_nat (length (contents (stream img1)))) false img)
       = Ok text'
    /\ (length (contents (stream img1)) = Z.to_nat (size img) ->
        text' = text)
    /\ main_extract H (set_stream (fopen (contents (stream img1)) false) img0)
         names fs
       = Ok (img2,
             write_files
               ((c, text')
                :: payload_file H img img0 Kernel
                ++ payload_file H img img0 Ramdisk
                ++ payload_file H img img0 Second
                ++ payload_file H img img0 Dtbo
                ++ payload_file H img img0 Dtb) fs).
Proof.
  intros Hlen Hlen0 Hvalid Hpage Hsz Hfit Htail Hpay Hload Hreg Hsize Htp Hn
    Hc Ht.
  destruct (write_bootimg_image H Hok buffered img Hlen Hvalid Hpage Hsz Hfit
              Hpay Hreg)
    as (f' & E & _ & L & Xt & Ph & Pp).
  cbv zeta in Ph.
  destruct (check_valid_inv H img Hvalid) as (_ & _ & _ & Hp0 & Htot).
  pose proof (get_u32_range (off_page_size H) (header img)) as Rp.
  fold (page_size H img) in Rp.
  destruct (offsets_past_header H img ltac:(lia) Hfit)
    as (_ & _ & _ & _ & _ & Ok6).
  cbv zeta in Ok6.
  destruct (left_length_bounds H img buffered f' ltac:(lia) Xt)
    as (B1 & B2 & B3).
  rewrite <- L in B1, B2, B3.
  destruct (written_image_decodes H Hok img img0 f' Hlen Hlen0 Hvalid Hpage
              Hfit Htail B1 ltac:(lia) Ph) as (Er & Eh & Es).
  cbv zeta in Er, Eh, Es.
  set (x := set_stream (fopen (contents f') false) img0) in *.
  set (d := decoded_image H x) in *.
  destruct (header_determines d img Eh) as (Dz & Dp & Do & Dpres & Ds & Df).
  assert (Hn' : forall p, part_fname p x <> None)
    by (intros p;
        replace (part_fname p x) with (part_fname p img0)
          by (destruct p; reflexivity);
        apply Hn).
  destruct (bootimg_config_resized img (Z.of_nat (length (contents f')))
              false text Ht) as (text' & Ht' & Et).
  assert (Htd : bootimg_config H d = Ok text').
  { rewrite <- Ht'. apply bootimg_config_ext; [exact Eh|exact Es]. }
  destruct (main_extract_ok H Hok x d names fs c text' Hlen0 eq_refl Er
              (proj2 Ds Hsz) (proj2 Df Hfit) Hn' Hc Htd)
    as (img2 & Ex & _ & _).
  exists (set_stream f' img), img2, text'. split; [exact E|].
  cbn [stream set_stream header size]. fold x.
  split; [reflexivity|]. split; [reflexivity|]. split; [exact L|].
  split; [exact B1|]. split; [exact B2|]. split; [exact B3|].
  split; [exact Ht'|]. split; [intros El; apply Et; lia|].
  rewrite Ex. unfold extracted_files.
  assert (Ef : forall p, part_file H d p = payload_file H img img0 p).
  { intros p. unfold part_file, payload_file. rewrite Dpres.
    destruct (part_present H p img) eqn:Hpres; [|reflexivity].
    replace (part_fname p d) with (part_fname p img0)
      by (destruct p; reflexivity).
    destruct (part_fname p img0) as [n|]; [|reflexivity].
    destruct (part_buffer p img) as [buf|] eqn:Eb;
      [|destruct (Hload p Hpres Eb)].
    assert (Hin : In p [Dtb; Dtbo; Second; Ramdisk; Kernel])
      by (destruct p; cbn [In]; auto 6).
    destruct (Pp p buf Hin Eb Hpres) as [Sb _].
    unfold part_region. rewrite Do, Dz. rewrite <- Sb.
    do 2 f_equal. }
  rewrite !Ef. reflexivity.
Qed.

(** X9: an image written by [write_bootimg] and extracted again gives back
    the payload.  For a header the validator accepts, with a page that holds
    the header structure, a layout that does not wrap, zeros past the
    structure of its version and a buffer for every part it counts, the
    [extract] command run on the file left produces, for the kernel, the
    ramdisk and every other part whose size is not zero, a file with the
    bytes of the buffer that the size field counts, and the configuration of
    the header with the length of the file for boot size: the container
    size, when the stream held nothing back or the container holds a page
    more than the total size, and otherwise what the bytes written after
    the truncation made of it. *)
Theorem written_image_extracts (buffered : nat) (img img0 : t_abootimg)
  (names : t_names) (fs : file_system) (c : string) (text : list byte) :
  length (header img) = sizeof_boot_img_hdr_v2 H ->
  length (header img0) = sizeof_boot_img_hdr_v2 H ->
  check_boot_img_header H img = Ok Valid ->
  boot_img_header_size H img <= page_size H img ->
  sizes_fit H img -> layout_fits H img ->
  tail_zero H img ->
  payloads_fit H img -> payloads_loaded H img ->
  st_isblk (stream img) = false ->
  size img < UINT32_MOD ->
  image_total_size H img + page_size H img < UINT32_MOD ->
  (forall p, part_fname p img0 <> None) ->
  config_fname names = Some c ->
  bootimg_config H img = Ok text ->
  exists img1 img2 text',
    write_bootimg H buffered img = Ok img1
    /\ bootimg_config H
         (set_size (Z.of_nat (length (contents (stream img1)))) false img)
       = Ok text'
    /\ (Z.to_nat (size img) <= length (contents (stream img1)))%nat
    /\ Z.of_nat (length (contents (stream img1)))
       <= Z.max (size img) (image_total_size H img + page_size H img)
    /\ (buffered = O \/ image_total_size H img + page_size H img <= size img ->
        text' = text)
    /\ main_extract H (set_stream (fopen (contents (stream img1)) false) img0)
         names fs
       = Ok (img2,
             write_files
               ((c, text')
                :: payload_file H img img0 Kernel
                ++ payload_file H img img0 Ramdisk
                ++ payload_file H img img0 Second
                ++ payload_file H img img0 Dtbo
                ++ payload_file H img img0 Dtb) fs).
Proof.
  intros Hlen Hlen0 Hvalid Hpage Hsz Hfit Htail Hpay Hload Hreg Hsize Htp Hn
    Hc Ht.
  destruct (written_image_extract_ok buffered img img0 names fs c text Hlen
              Hlen0 Hvalid Hpage Hsz Hfit Htail Hpay Hload Hreg Hsize Htp Hn
              Hc Ht)
    as (img1 & img2 & text' & E1 & _ & _ & _ & B1 & B2 & B3 & Ec & Et & E2).
  exists img1, img2, text'. split; [exact E1|]. split; [exact Ec|].
  split; [exact B1|]. split; [exact B2|].
  split; [intros Hc'; apply Et, B3, Hc'|exact E2].
Qed.

End WrittenAndExtracted.

Lemma written_image_extracts_witness :
  (exists img1 img2 fs',
      write_bootimg aosp_bootimg_h 0 (example_image 2048) = Ok img1
      /\ main_extract aosp_bootimg_h
           (set_stream (fopen (contents (stream img1)) false)
              (new_bootimg aosp_bootimg_h))
           new_bootimg_names (fun _ => None) = Ok (img2, fs')
      /\ fs' "zImage"%string = Some (repeat x4b (Z.to_nat 5000))
      /\ fs' "initrd.img"%string = Some (repeat x52 (Z.to_nat 3000))
      /\ fs' "bootimg.cfg"%string = Some example_config_text)
  /\ exists img1 img2 fs' text,
       write_bootimg aosp_bootimg_h 4096 example_exact_fit = Ok img1
       /\ size example_exact_fit = 6144
       /\ length (contents (stream img1)) = Z.to_nat 8192
       /\ main_extract aosp_bootimg_h
            (set_stream (fopen (contents (stream img1)) false)
               (new_bootimg aosp_bootimg_h))
            new_bootimg_names (fun _ => None) = Ok (img2, fs')
       /\ fs' "zImage"%string = Some (repeat x4b 2048)
       /\ fs' "initrd.img"%string = Some (repeat x52 2048)
       /\ fs' "bootimg.cfg"%string = Some text
       /\ firstn 17 text = str "bootsize = 0x2000".
Proof.
  split.
  - destruct (written_image_extracts aosp_bootimg_h eq_refl 0
                (example_image 2048) (new_bootimg aosp_bootimg_h)
                new_bootimg_names (fun _ => None) "bootimg.cfg"
                example_config_text)
      as (img1 & img2 & text' & E1 & _ & _ & _ & Et & E2).
    + vm_compute. reflexivity.
    + vm_compute. reflexivity.
    + vm_compute. reflexivity.
    + apply Z.leb_le. vm_compute. reflexivity.
    + intros p. destruct p; vm_compute; reflexivity.
    + unfold layout_fits. vm_compute. reflexivity.
    + unfold tail_zero. vm_compute. reflexivity.
    + intros p buf E.
      destruct p; cbn [part_buffer example_image kernel ramdisk second dtbo
                       dtb] in E; inversion E; subst buf; apply Z.leb_le;
        vm_compute; reflexivity.
    + intros p Hp. destruct p; vm_compute in Hp; try discriminate Hp;
        discriminate.
    + reflexivity.
    + reflexivity.
    + vm_compute. reflexivity.
    + intros p. destruct p; discriminate.
    + reflexivity.
    + vm_compute. reflexivity.
    + rewrite (Et (or_introl eq_refl)) in E2.
      exists img1, img2. eexists. split; [exact E1|]. split; [exact E2|].
      repeat split; vm_compute; reflexivity.
  - destruct (bootimg_config aosp_bootimg_h example_exact_fit)
      as [text| |] eqn:Ht; [|vm_compute in Ht; discriminate Ht ..].
    destruct (written_image_extracts aosp_bootimg_h eq_refl 4096
                example_exact_fit (new_bootimg aosp_bootimg_h)
                new_bootimg_names (fun _ => None) "bootimg.cfg" text)
      as (img1 & img2 & text' & E1 & Ec & _ & _ & _ & E2).
    + vm_compute. reflexivity.
    + vm_compute. reflexivity.
    + vm_compute. reflexivity.
    + apply Z.leb_le. vm_compute. reflexivity.
    + intros p. destruct p; vm_compute; reflexivity.
    + unfold layout_fits. vm_compute. reflexivity.
    + unfold tail_zero. vm_compute. reflexivity.
    + intros p buf E.
      destruct p; cbn in E; inversion E; subst buf; apply Z.leb_le;
        vm_compute; reflexivity.
    + intros p Hp. destruct p; vm_compute in Hp; try discriminate Hp;
        discriminate.
    + reflexivity.
    + reflexivity.
    + vm_compute. reflexivity.
    + intros p. destruct p; discriminate.
    + reflexivity.
    + exact Ht.
    + assert (L : holds_on
                    (write_bootimg aosp_bootimg_h 4096 example_exact_fit)
                    (fun i => length (contents (stream i)) = Z.to_nat 8192))
        by (vm_compute; reflexivity).
      rewrite E1 in L. cbn [holds_on] in L.
      rewrite L in Ec. vm_compute in Ec. injection Ec as <-.
      exists img1, img2. eexists. eexists.
      split; [exact E1|]. split; [reflexivity|]. split; [exact L|].
      split; [exact E2|].
      repeat split; vm_compute; reflexivity.
Defined.

(** ** An update that replaces no part *)

Section UpdateWithoutParts.

Variable H : bootimg_h.
Hypothesis Hok : bootimg_h_ok H = true.
Variable fs : string -> option (list byte).

Lemma update_images_no_parts (img : t_abootimg) :
  (forall p, part_fname p img = None) ->
  update_images H fs img
  = if page_size H img =? 0 then Abort ZeroPageSize
    else fit_container H img.
Proof.
  intros Hn. rewrite update_images_stages.
  destruct (page_size H img =? 0); [reflexivity|].
  unfold assemble_stage.
  rewrite (Hn Kernel). cbn [andb bind].
  rewrite (Hn Ramdisk). cbn [andb bind].
  rewrite (Hn Second). cbn [andb bind].
  rewrite (Hn Dtbo). cbn [andb bind].
  rewrite (Hn Dtb). cbn [andb bind fst].
  reflexivity.
Qed.

Lemma write_bootimg_no_parts (buffered : nat) (img : t_abootimg) :
  (forall p, part_buffer p img = None) ->
  write_bootimg H buffered img
  = if page_size H img =? 0 then Undefined
    else
      f <- fwrite_from (header img) (boot_img_header_size H img)
             (fseek (stream img) (Z.to_nat hoffset)) ;;
      f <- fwrite_from (zeros (Z.to_nat (page_size H img)))
             (u32 (page_size H img - boot_img_header_size H img)) f ;;
      Ok (set_stream (ftruncate f (Z.to_nat (size img)) buffered) img).
Proof.
  intros Hb. rewrite write_bootimg_steps. cbv zeta.
  destruct (page_size H img =? 0); [reflexivity|].
  apply bind_ext. intros f1. apply bind_ext. intros f2.
  unfold write_optional_part.
  pose proof (Hb Kernel) as Bk. pose proof (Hb Ramdisk) as Br.
  pose proof (Hb Second) as Bs. pose proof (Hb Dtbo) as Bo.
  pose proof (Hb Dtb) as Bd. cbn [part_buffer] in Bk, Br, Bs, Bo, Bd.
  cbn [kernel ramdisk second dtbo dtb set_stream].
  rewrite Bk. cbn [bind kernel ramdisk second dtbo dtb set_stream].
  rewrite Br. cbn [bind kernel ramdisk second dtbo dtb set_stream].
  rewrite Bs. cbn [bind kernel ramdisk second dtbo dtb set_stream].
  rewrite Bo. cbn [bind kernel ramdisk second dtbo dtb set_stream].
  rewrite Bd. cbn [bind stream set_stream size].
  reflexivity.
Qed.

(** The first page [write_bootimg] writes: the header structure, then
    zeros. *)
Lemma header_page_written (img : t_abootimg) (f : FILE) :
  length (header img) = sizeof_boot_img_hdr_v2 H ->
  page_size H img <> 0 ->
  (f1 <- fwrite_from (header img) (boot_img_header_size H img)
           (fseek (stream img) (Z.to_nat hoffset)) ;;
   fwrite_from (zeros (Z.to_nat (page_size H img)))
     (u32 (page_size H img - boot_img_header_size H img)) f1) = Ok f ->
  let hs := sizeof_hdr H (header_version H img) in
  let P := Z.to_nat (page_size H img) in
  (hs <= P)%nat
  /\ st_isblk f = st_isblk (stream img)
  /\ fpos f = P
  /\ contents f
     = (firstn hs (header img) ++ zeros (P - hs))
       ++ skipn P (contents (stream img)).
Proof.
  intros Hlen Hp0 Hw hs P.
  pose proof (get_u32_range (off_page_size H) (header img)) as Rp.
  fold (page_size H img) in Rp.
  pose proof (sizeof_hdr_bounds H Hok (header_version H img)) as Bh.
  fold hs in Bh.
  pose proof (layout_bounds H Hok) as B.
  unfold boot_img_header_size in Hw. fold hs in Hw.
  rewrite fwrite_from_ok in Hw by lia. cbn [bind] in Hw.
  unfold fwrite_from in Hw. rewrite length_zeros in Hw.
  destruct (Z.gtb_spec (u32 (page_size H img - Z.of_nat hs))
              (Z.of_nat (Z.to_nat (page_size H img)))) as [Hgt|Hle];
    [discriminate|].
  assert (Hhs : Z.of_nat hs <= page_size H img).
  { destruct (Z.le_gt_cases (Z.of_nat hs) (page_size H img)) as [|Hlt];
      [assumption|].
    rewrite u32_negative in Hle by (unfold UINT32_MOD in *; lia).
    unfold UINT32_MOD in *. lia. }
  rewrite u32_small in Hw by lia.
  injection Hw as <-.
  assert (La : length (firstn (Z.to_nat (Z.of_nat hs)) (header img)) = hs)
    by (rewrite length_firstn; lia).
  split; [unfold P; lia|]. split; [reflexivity|].
  unfold hoffset. cbn [fwrite fseek contents fpos Z.to_nat Nat.add].
  split.
  { rewrite La, length_firstn, length_zeros. unfold P. lia. }
  pose proof (write_at_app 0 (firstn (Z.to_nat (Z.of_nat hs)) (header img))
                (firstn (Z.to_nat (page_size H img - Z.of_nat hs))
                   (zeros (Z.to_nat (page_size H img))))
                (contents (stream img))) as Wa.
  cbn [Nat.add] in Wa. rewrite Wa.
  rewrite write_at_0, firstn_zeros, length_app, La, length_zeros, Nat2Z.id.
  replace (Nat.min (Z.to_nat (page_size H img - Z.of_nat hs))
             (Z.to_nat (page_size H img))) with (P - hs)%nat
    by (unfold P; lia).
  replace (hs + (P - hs))%nat with P by (unfold P; lia).
  reflexivity.
Qed.

(** X10: an update that names no new part rewrites the first page and
    nothing else.  When [abootimg -u] is given no part file, whatever the
    configuration it is given, the file it leaves starts with the header
    structure, holds zeros from there to the end of the first page, and from
    the second page on holds the bytes the file had before, the page being
    that of the page size the configuration leaves in the header, and all of
    this below the container size: a configuration that changes the page
    size moves the end of the zeros with it.  The file has the container
    size, unless the first page, still held by the stream when the
    descriptor is truncated, ends past it. *)
Theorem update_without_parts (buffered : nat) (img img' : t_abootimg)
  (config_file config_args : list (list byte)) :
  length (header img) = sizeof_boot_img_hdr_v2 H ->
  feof (stream img) = false ->
  st_isblk (stream img) = false ->
  (forall p, part_fname p img = None) ->
  (forall p, part_buffer p img = None) ->
  main_update H fs buffered img config_file config_args = Ok img' ->
  let old := contents (stream img) in
  let new := contents (stream img') in
  let hs := sizeof_hdr H (header_version H img') in
  let P := Z.to_nat (page_size H img') in
  (hs <= P)%nat
  /\ length new
     = (if (Nat.min buffered P =? 0)%nat || (P <=? Z.to_nat (size img'))%nat
        then Z.to_nat (size img') else P)
  /\ (forall i, (i < hs)%nat -> (i < Z.to_nat (size img'))%nat ->
                nth_error new i = nth_error (header img') i)
  /\ (forall i, (hs <= i < P)%nat -> (i < Z.to_nat (size img'))%nat ->
                nth_error new i = Some NUL)
  /\ (forall i, (P <= i < length old)%nat ->
                (i < Z.to_nat (size img'))%nat ->
                nth_error new i = nth_error old i).
Proof.
  intros Hlen Hfeof Hreg Hn Hb Hm old new hs P.
  unfold main_update in Hm.
  destruct (read_header H img) as [img1| |] eqn:E1; cbn [bind] in Hm;
    try discriminate Hm.
  destruct (update_header H img1 config_file config_args) as [img2| |] eqn:E2;
    cbn [bind] in Hm; try discriminate Hm.
  destruct (update_images H fs img2) as [img3| |] eqn:E3;
    cbn [bind] in Hm; try discriminate Hm.
  destruct (read_header_inv H Hok img img1 Hlen Hfeof E1) as (Hl & Ed & _).
  (* the decoded image *)
  assert (D1 : length (header img1) = sizeof_boot_img_hdr_v2 H
               /\ contents (stream img1) = old
               /\ st_isblk (stream img1) = false
               /\ (forall p, part_fname p img1 = None)
               /\ (forall p, part_buffer p img1 = None)).
  { rewrite Ed. split; [exact (proj1 (decoded_header H Hok img Hl))|].
    unfold decoded_image.
    cbn [header stream set_size set_stream set_header contents st_isblk].
    split; [reflexivity|]. split; [exact Hreg|]. split.
    - intros p. rewrite <- (Hn p). destruct p; reflexivity.
    - intros p. rewrite <- (Hb p). destruct p; reflexivity. }
  destruct D1 as (L1 & C1 & K1 & N1 & B1).
  (* the configuration *)
  assert (F2 : config_frame H img1 img2).
  { unfold update_header in E2.
    destruct (update_header_lines H img1 config_file) as [imga| |] eqn:Ea;
      cbn [bind] in E2; try discriminate E2.
    apply (config_frame_trans H img1 imga img2);
      eapply update_header_lines_frame; eassumption. }
  destruct F2 as (_ & _ & _ & _ & L2 & S2 & _ & N2 & B2).
  (* the parts *)
  rewrite update_images_no_parts in E3
    by (intros p; rewrite N2; apply N1).
  destruct (page_size H img2 =? 0); [discriminate E3|].
  assert (D3 : header img3 = header img2 /\ stream img3 = stream img2
               /\ (forall p, part_buffer p img3 = part_buffer p img2)).
  { unfold fit_container in E3.
    destruct (size img2 =? 0).
    - injection E3 as <-. split; [reflexivity|]. split; [reflexivity|].
      intros p; destruct p; reflexivity.
    - destruct (image_total_size H img2 >? size img2); [discriminate E3|].
      injection E3 as <-. split; [reflexivity|]. split; [reflexivity|].
      reflexivity. }
  destruct D3 as (H3 & S3 & B3).
  (* the version *)
  set (img4 := update_header_version H img3) in *.
  assert (D4 : length (header img4) = sizeof_boot_img_hdr_v2 H
               /\ stream img4 = stream img3
               /\ (forall p, part_buffer p img4 = part_buffer p img3)).
  { unfold img4, update_header_version.
    destruct ((if dtb_size H img3 >? 0 then 2
               else if recovery_dtbo_size H img3 >? 0 then 1 else 0)
              >? header_version H img3).
    - unfold set_field32. cbn [header stream set_header].
      rewrite !length_set_u32, H3, L2, L1.
      split; [reflexivity|]. split; [reflexivity|].
      intros p; destruct p; reflexivity.
    - rewrite H3, L2, L1. split; [reflexivity|]. split; reflexivity. }
  destruct D4 as (L4 & S4 & B4).
  (* the file *)
  rewrite write_bootimg_no_parts in Hm
    by (intros p; rewrite B4, B3, B2; apply B1).
  destruct (Z.eqb_spec (page_size H img4) 0) as [|Hp0]; [discriminate Hm|].
  destruct (f1 <- fwrite_from (header img4) (boot_img_header_size H img4)
                    (fseek (stream img4) (Z.to_nat hoffset)) ;;
            fwrite_from (zeros (Z.to_nat (page_size H img4)))
              (u32 (page_size H img4 - boot_img_header_size H img4)) f1)
    as [f| |] eqn:Ew.
  2, 3: (destruct (fwrite_from (header img4) (boot_img_header_size H img4)
                    (fseek (stream img4) (Z.to_nat hoffset))) as [f1| |];
         cbn [bind] in Ew, Hm;
         [rewrite Ew in Hm; discriminate Hm | discriminate Hm ..]).
  assert (Hm' : img'
                = set_stream (ftruncate f (Z.to_nat (size img4)) buffered)
                    img4).
  { destruct (fwrite_from (header img4) (boot_img_header_size H img4)
                (fseek (stream img4) (Z.to_nat hoffset))) as [f1| |];
      cbn [bind] in Ew, Hm; try discriminate Ew.
    rewrite Ew in Hm. cbn [bind] in Hm. injection Hm as <-. reflexivity. }
  destruct (header_page_written img4 f L4 Hp0 Ew) as (Hle & Kf & Pf & Cf).
  rewrite S4, S3, S2 in Kf, Cf. rewrite K1 in Kf. rewrite C1 in Cf.
  assert (Eh : header img' = header img4) by (rewrite Hm'; reflexivity).
  assert (Es : size img' = size img4) by (rewrite Hm'; reflexivity).
  unfold hs, P, header_version, page_size. rewrite Eh.
  fold (header_version H img4). fold (page_size H img4).
  set (hs4 := sizeof_hdr H (header_version H img4)) in *.
  set (P4 := Z.to_nat (page_size H img4)) in *.
  assert (La : length (firstn hs4 (header img4)) = hs4).
  { pose proof (sizeof_hdr_bounds H Hok (header_version H img4)) as Bh.
    fold hs4 in Bh. rewrite length_firstn. lia. }
  assert (Lp : length (firstn hs4 (header img4) ++ zeros (P4 - hs4)) = P4)
    by (rewrite length_app, La, length_zeros; lia).
  assert (Lc : length (contents f) = (P4 + (length old - P4))%nat)
    by (rewrite Cf, length_app, Lp, length_skipn; reflexivity).
  destruct (ftruncate_regular f (Z.to_nat (size img')) buffered Kf
              ltac:(lia)) as (Tf & Tl & _).
  assert (En : new = contents (ftruncate f (Z.to_nat (size img')) buffered)).
  { unfold new. rewrite Es, Hm'. reflexivity. }
  rewrite <- En in Tf, Tl. rewrite Pf in Tl.
  assert (Hnth : forall i, (i < Z.to_nat (size img'))%nat ->
                   (i < length (contents f))%nat ->
                   nth_error new i = nth_error (contents f) i).
  { intros i Hi Hc.
    assert (T : nth_error (firstn (Z.to_nat (size img')) new) i
                = nth_error new i).
    { rewrite nth_error_firstn.
      destruct (Nat.ltb_spec i (Z.to_nat (size img'))); [reflexivity|lia]. }
    rewrite <- T, Tf, nth_error_firstn.
    destruct (Nat.ltb_spec i (Z.to_nat (size img'))); [|lia].
    apply nth_error_app1. exact Hc. }
  clearbody new img4.
  split; [exact Hle|]. split; [exact Tl|].
  split; [|split].
  - intros i Hi Hsz. rewrite Hnth by lia. rewrite Cf.
    rewrite nth_error_app1 by lia. rewrite nth_error_app1 by lia.
    rewrite nth_error_firstn.
    destruct (Nat.ltb_spec i hs4); [reflexivity|lia].
  - intros i Hi Hsz. rewrite Hnth by lia. rewrite Cf.
    rewrite nth_error_app1 by lia. rewrite nth_error_app2 by lia.
    rewrite La. unfold zeros. apply nth_error_repeat. lia.
  - intros i Hi Hsz. rewrite Hnth by lia. rewrite Cf.
    rewrite nth_error_app2 by lia. rewrite Lp, nth_error_skipn.
    f_equal. lia.
Qed.

End UpdateWithoutParts.

Lemma update_without_parts_witness :
  (exists img',
      main_update aosp_bootimg_h (fun _ => None) 4096 example_update_opened
        [str "name = demo"] [str "cmdline = quiet"] = Ok img'
      /\ page_size aosp_bootimg_h img' = 2048
      /\ length (contents (stream img')) = Z.to_nat (size img')
      /\ forall i,
           (Z.to_nat 2048 <= i
            < length (contents (stream example_update_opened)))%nat ->
           (i < Z.to_nat (size img'))%nat ->
           nth_error (contents (stream img')) i
           = nth_error (contents (stream example_update_opened)) i)
  /\ exists img',
       main_update aosp_bootimg_h (fun _ => None) 4096 example_update_opened
         [str "pagesize = 4096"; str "bootsize = 16384"] [] = Ok img'
       /\ page_size aosp_bootimg_h img' = 4096
       /\ (forall i,
              (sizeof_hdr aosp_bootimg_h (header_version aosp_bootimg_h img')
               <= i < Z.to_nat 4096)%nat ->
              (i < Z.to_nat (size img'))%nat ->
              nth_error (contents (stream img')) i = Some NUL)
       /\ nth_error (contents (stream example_update_opened)) 2048
          = Some x4b.
Proof.
  split.
  - destruct (main_update aosp_bootimg_h (fun _ => None) 4096
                example_update_opened [str "name = demo"]
                [str "cmdline = quiet"])
      as [img'| |] eqn:E; [|vm_compute in E; discriminate E ..].
    exists img'. split; [reflexivity|].
    assert (Ep : holds_on
                   (main_update aosp_bootimg_h (fun _ => None) 4096
                      example_update_opened [str "name = demo"]
                      [str "cmdline = quiet"])
                   (fun i => page_size aosp_bootimg_h i = 2048
                             /\ size i = 12288))
      by (vm_compute; split; reflexivity).
    rewrite E in Ep. cbn [holds_on] in Ep. destruct Ep as [Ep Ez].
    pose proof (update_without_parts aosp_bootimg_h eq_refl (fun _ => None)
                  4096 example_update_opened img' [str "name = demo"]
                  [str "cmdline = quiet"]) as W.
    destruct W as (_ & W1 & _ & _ & W2).
    + reflexivity.
    + reflexivity.
    + reflexivity.
    + intros p. destruct p; reflexivity.
    + intros p. destruct p; reflexivity.
    + exact E.
    + rewrite Ep in W1, W2. rewrite Ez in W1.
      split; [exact Ep|]. split; [rewrite Ez; exact W1|exact W2].
  - destruct (main_update aosp_bootimg_h (fun _ => None) 4096
                example_update_opened
                [str "pagesize = 4096"; str "bootsize = 16384"] [])
      as [img'| |] eqn:E; [|vm_compute in E; discriminate E ..].
    exists img'. split; [reflexivity|].
    assert (Ep : holds_on
                   (main_update aosp_bootimg_h (fun _ => None) 4096
                      example_update_opened
                      [str "pagesize = 4096"; str "bootsize = 16384"] [])
                   (fun i => page_size aosp_bootimg_h i = 4096))
      by (vm_compute; reflexivity).
    rewrite E in Ep. cbn [holds_on] in Ep.
    pose proof (update_without_parts aosp_bootimg_h eq_refl (fun _ => None)
                  4096 example_update_opened img'
                  [str "pagesize = 4096"; str "bootsize = 16384"] []) as W.
    destruct W as (_ & _ & _ & W1 & _).
    + reflexivity.
    + reflexivity.
    + reflexivity.
    + intros p. destruct p; reflexivity.
    + intros p. destruct p; reflexivity.
    + exact E.
    + rewrite Ep in W1.
      split; [exact Ep|]. split; [exact W1|vm_compute; reflexivity].
Defined.

(** ** A new image: [create], then [extract] *)

Lemma load_zeros off len n :
  (off + len <= n)%nat -> load off len (zeros n) = zeros len.
Proof.
  intros Hn. unfold load. rewrite skipn_zeros, firstn_zeros.
  f_equal. lia.
Qed.

Lemma in_set_zeros n : (1 <= n)%nat -> in_set NUL (zeros n) = true.
Proof. destruct n as [|n]; [lia|]. intros _. reflexivity. Qed.

(** The magic read back by [strncmp] from where [memcpy] has put it. *)
Lemma strncmp_eq_magic n : forall (m : list byte) k (rest : list byte),
  (n <= k)%nat ->
  strncmp_eq (firstn n (m ++ zeros k) ++ rest) m n = true.
Proof.
  induction n as [|n IH]; intros m k rest Hk; [reflexivity|].
  destruct m as [|b m].
  - destruct k as [|k]; [lia|]. reflexivity.
  - cbn [app firstn strncmp_eq hd tl].
    destruct (byte_eqb_spec b b); [|congruence].
    destruct (Byte.eqb b NUL); [reflexivity|].
    apply IH. lia.
Qed.

Lemma written_only_refl (W : nat -> Prop) h : written_only W h h.
Proof. split; reflexivity. Qed.

Lemma written_only_trans (W : nat -> Prop) a b c :
  written_only W a b -> written_only W b c -> written_only W a c.
Proof.
  intros [L1 F1] [L2 F2]. split; [congruence|].
  intros off len Hd. rewrite F2, F1 by exact Hd. reflexivity.
Qed.

Lemma written_only_incl (W W' : nat -> Prop) a b :
  (forall w, W w -> W' w) -> written_only W a b -> written_only W' a b.
Proof.
  intros Hi [L F]. split; [exact L|].
  intros off len Hd. apply F. intros w Hw. apply Hd, Hi, Hw.
Qed.

Lemma written_only_set_u32 (W : nat -> Prop) w v h :
  W w -> written_only W h (set_u32 w v h).
Proof.
  intros Hw. split; [apply length_set_u32|].
  intros off len Hd. unfold set_u32.
  apply load_store_other. rewrite length_le_encode. apply Hd, Hw.
Qed.

Lemma written_only_get_u32 (W : nat -> Prop) h h' off :
  written_only W h h' ->
  (forall w, W w -> (off + 4 <= w)%nat \/ (w + 4 <= off)%nat) ->
  get_u32 off h' = get_u32 off h.
Proof. intros [_ F] Hd. unfold get_u32. rewrite F by exact Hd. reflexivity. Qed.

Section NewHeader.

Variable H : bootimg_h.
Hypothesis Hok : bootimg_h_ok H = true.

Lemma magic_field_bound :
  (off_magic H + BOOT_MAGIC_SIZE H <= sizeof_boot_img_hdr_v0 H)%nat.
Proof.
  pose proof Hok as F. unfold bootimg_h_ok in F.
  rewrite !andb_true_iff in F.
  destruct F as [[[[[F0 _] _] _] _] _].
  unfold v0_fields, within, field_end in F0.
  cbn [forallb fst snd] in F0.
  repeat rewrite andb_true_iff in F0.
  repeat rewrite Nat.leb_le in F0.
  lia.
Qed.

Lemma length_magic_copy :
  length (firstn (BOOT_MAGIC_SIZE H) (BOOT_MAGIC H ++ zeros (BOOT_MAGIC_SIZE H)))
  = BOOT_MAGIC_SIZE H.
Proof. rewrite length_firstn, length_app, length_zeros. lia. Qed.

(** The header [new_bootimg] makes: its length, its page size, its magic,
    and zeros everywhere else. *)
Lemma new_bootimg_header :
  let h := header (new_bootimg H) in
  length h = sizeof_boot_img_hdr_v2 H
  /\ get_u32 (off_page_size H) h = 2048
  /\ load (off_magic H) (BOOT_MAGIC_SIZE H) h
     = firstn (BOOT_MAGIC_SIZE H) (BOOT_MAGIC H ++ zeros (BOOT_MAGIC_SIZE H))
  /\ forall off len,
       (off + len <= sizeof_boot_img_hdr_v2 H)%nat ->
       (off + len <= off_magic H)%nat
       \/ (off_magic H + BOOT_MAGIC_SIZE H <= off)%nat ->
       (off + len <= off_page_size H)%nat \/ (off_page_size H + 4 <= off)%nat ->
       load off len h = zeros len.
Proof.
  intros h. unfold h, new_bootimg. cbn [header].
  pose proof (layout_bounds H Hok) as B.
  pose proof magic_field_bound as Bm.
  pose proof length_magic_copy as Lm.
  split; [rewrite length_set_u32, length_store, length_zeros; reflexivity|].
  split.
  { rewrite get_set_u32_same
      by (rewrite length_store, length_zeros; lia).
    reflexivity. }
  split.
  { unfold set_u32.
    rewrite load_store_other
      by (rewrite length_le_encode; fields_apart H Hok).
    apply load_store_at; [exact Lm|]. rewrite length_zeros. lia. }
  intros off len Hfit Hm Hp. unfold set_u32.
  rewrite load_store_other by (rewrite length_le_encode; exact Hp).
  rewrite load_store_other by (rewrite Lm; exact Hm).
  apply load_zeros. exact Hfit.
Qed.

End NewHeader.

Section Creation.

Variable H : bootimg_h.
Hypothesis Hok : bootimg_h_ok H = true.
Variable fs : string -> option (list byte).

(** A stage writes to the header, if at all, the size of a part that has a
    replacement. *)
Lemma assemble_stage_header p osize ooffset img oc st' :
  assemble_stage H fs p osize ooffset (img, oc) = Ok st' ->
  st_isblk (stream (fst st')) = st_isblk (stream img)
  /\ (header (fst st') = header img
      \/ (part_fname p img <> None
          /\ exists v,
               header (fst st') = set_u32 (off_part_size H p) v (header img))).
Proof.
  unfold assemble_stage.
  destruct (part_fname p img) as [fname|] eqn:Ef.
  - rewrite adopt_new_part_spec.
    destruct (fs fname) as [data|]; cbn [bind]; [|discriminate].
    cbv zeta.
    destruct (u32 (Z.of_nat (length data)) =? 0); cbn [bind];
      [discriminate|].
    intros E. inversion E; subst st'; clear E. cbn [fst].
    split; [destruct p; reflexivity|].
    right. split; [discriminate|].
    exists (u32 (Z.of_nat (length data))).
    destruct p; reflexivity.
  - destruct (oc && (mandatory p || negb (part_size H p img =? 0))).
    + rewrite keep_original_part_spec.
      destruct ((0 <? Z.to_nat osize)%nat
                && (Z.to_nat ooffset + Z.to_nat osize
                    <=? length (contents (stream img)))%nat);
        cbn [bind]; [|discriminate].
      intros E. inversion E; subst st'; clear E. cbn [fst].
      split; [destruct p; reflexivity|].
      left. destruct p; reflexivity.
    + intros E. inversion E; subst st'; clear E.
      split; [reflexivity|]. left. reflexivity.
Qed.

(** The five stages get through parts that are ready. *)
Lemma update_images_ready (img : t_abootimg) :
  length (header img) = sizeof_boot_img_hdr_v2 H ->
  page_size H img <> 0 ->
  (forall p, part_ready H fs p img) ->
  exists img1 oc1 img2 oc2 img3 oc3 img4 oc4 img5 oc5,
    assemble_stage H fs Kernel (part_size H Kernel img)
      (original_offset H Kernel img) (img, false) = Ok (img1, oc1)
    /\ assemble_stage H fs Ramdisk (part_size H Ramdisk img)
         (original_offset H Ramdisk img) (img1, oc1) = Ok (img2, oc2)
    /\ assemble_stage H fs Second (part_size H Second img)
         (original_offset H Second img) (img2, oc2) = Ok (img3, oc3)
    /\ assemble_stage H fs Dtbo (part_size H Dtbo img)
         (original_offset H Dtbo img) (img3, oc3) = Ok (img4, oc4)
    /\ assemble_stage H fs Dtb (part_size H Dtb img)
         (original_offset H Dtb img) (img4, oc4) = Ok (img5, oc5)
    /\ update_images H fs img = fit_container H img5.
Proof.
  intros L0 Hps R.
  destruct (stage_step H Hok fs Kernel img img false L0
              (globals_same_refl H img) eq_refl
              (part_unchanged_refl H Kernel img) (R Kernel))
    as (img1 & oc1 & S1 & G1 & O1 & U1).
  destruct (stage_step H Hok fs Ramdisk img img1 oc1 L0 G1)
    as (img2 & oc2 & S2 & G2 & O2 & U2);
    [ rewrite O1; unfold replaced_before; cbn [parts_before existsb];
      rewrite orb_false_r; reflexivity
    | apply U1; [discriminate|apply part_unchanged_refl]
    | apply R | ].
  destruct (stage_step H Hok fs Second img img2 oc2 L0 G2)
    as (img3 & oc3 & S3 & G3 & O3 & U3);
    [ rewrite O2, O1; unfold replaced_before;
      cbn [parts_before existsb orb]; rewrite orb_false_r; reflexivity
    | apply U2; [discriminate|];
      apply U1; [discriminate|apply part_unchanged_refl]
    | apply R | ].
  destruct (stage_step H Hok fs Dtbo img img3 oc3 L0 G3)
    as (img4 & oc4 & S4 & G4 & O4 & U4);
    [ rewrite O3, O2, O1; unfold replaced_before;
      cbn [parts_before existsb orb]; rewrite orb_false_r, orb_assoc;
      reflexivity
    | apply U3; [discriminate|]; apply U2; [discriminate|];
      apply U1; [discriminate|apply part_unchanged_refl]
    | apply R | ].
  destruct (stage_step H Hok fs Dtb img img4 oc4 L0 G4)
    as (img5 & oc5 & S5 & G5 & O5 & U5);
    [ rewrite O4, O3, O2, O1; unfold replaced_before;
      cbn [parts_before existsb orb]; rewrite orb_false_r, !orb_assoc;
      reflexivity
    | apply U4; [discriminate|]; apply U3; [discriminate|];
      apply U2; [discriminate|];
      apply U1; [discriminate|apply part_unchanged_refl]
    | apply R | ].
  exists img1, oc1, img2, oc2, img3, oc3, img4, oc4, img5, oc5.
  do 5 (split; [assumption|]).
  rewrite update_images_stages.
  destruct (Z.eqb_spec (page_size H img) 0); [contradiction|].
  rewrite S1. cbn [bind]. rewrite S2. cbn [bind]. rewrite S3.
  cbn [bind]. rewrite S4. cbn [bind]. rewrite S5. cbn [bind fst].
  reflexivity.
Qed.

(** The words [update_images] writes: the sizes of the parts that have a
    replacement. *)
Lemma update_images_header (img img1 img2 img3 img4 img5 : t_abootimg)
  (oc1 oc2 oc3 oc4 oc5 : bool) :
  length (header img) = sizeof_boot_img_hdr_v2 H ->
  assemble_stage H fs Kernel (part_size H Kernel img)
    (original_offset H Kernel img) (img, false) = Ok (img1, oc1) ->
  assemble_stage H fs Ramdisk (part_size H Ramdisk img)
    (original_offset H Ramdisk img) (img1, oc1) = Ok (img2, oc2) ->
  assemble_stage H fs Second (part_size H Second img)
    (original_offset H Second img) (img2, oc2) = Ok (img3, oc3) ->
  assemble_stage H fs Dtbo (part_size H Dtbo img)
    (original_offset H Dtbo img) (img3, oc3) = Ok (img4, oc4) ->
  assemble_stage H fs Dtb (part_size H Dtb img)
    (original_offset H Dtb img) (img4, oc4) = Ok (img5, oc5) ->
  st_isblk (stream img5) = st_isblk (stream img)
  /\ written_only (replaced_size_field H img) (header img) (header img5).
Proof.
  intros L0 S1 S2 S3 S4 S5.
  set (W := replaced_size_field H img).
  assert (Step : forall p osize ooffset i oc i' oc',
             (forall q, part_fname q i = part_fname q img) ->
             assemble_stage H fs p osize ooffset (i, oc) = Ok (i', oc') ->
             written_only W (header i) (header i')).
  { intros p osize ooffset i oc i' oc' Hn S.
    destruct (assemble_stage_header p osize ooffset i oc (i', oc') S)
      as [_ [E|(Hp & v & E)]]; cbn [fst] in E; rewrite E.
    - apply written_only_refl.
    - apply written_only_set_u32. exists p. rewrite <- Hn.
      split; [exact Hp|reflexivity]. }
  split.
  { pose proof (proj1 (assemble_stage_header _ _ _ _ _ _ S1)) as B1.
    pose proof (proj1 (assemble_stage_header _ _ _ _ _ _ S2)) as B2.
    pose proof (proj1 (assemble_stage_header _ _ _ _ _ _ S3)) as B3.
    pose proof (proj1 (assemble_stage_header _ _ _ _ _ _ S4)) as B4.
    pose proof (proj1 (assemble_stage_header _ _ _ _ _ _ S5)) as B5.
    cbn [fst] in B1, B2, B3, B4, B5. congruence. }
  pose proof (assemble_stage_ok H Hok fs _ _ _ _ _ _ L0 S1) as K1.
  cbn [fst snd] in K1. destruct K1 as ((F1 & _ & _ & _ & L1 & _) & _).
  assert (L1' : length (header img1) = sizeof_boot_img_hdr_v2 H)
    by congruence.
  pose proof (assemble_stage_ok H Hok fs _ _ _ _ _ _ L1' S2) as K2.
  cbn [fst snd] in K2. destruct K2 as ((F2 & _ & _ & _ & L2 & _) & _).
  assert (L2' : length (header img2) = sizeof_boot_img_hdr_v2 H)
    by congruence.
  pose proof (assemble_stage_ok H Hok fs _ _ _ _ _ _ L2' S3) as K3.
  cbn [fst snd] in K3. destruct K3 as ((F3 & _ & _ & _ & L3 & _) & _).
  assert (L3' : length (header img3) = sizeof_boot_img_hdr_v2 H)
    by congruence.
  pose proof (assemble_stage_ok H Hok fs _ _ _ _ _ _ L3' S4) as K4.
  cbn [fst snd] in K4. destruct K4 as ((F4 & _ & _ & _ & L4 & _) & _).
  apply (written_only_trans W _ (header img1));
    [apply (Step _ _ _ _ _ _ _ (fun q => eq_refl) S1)|].
  apply (written_only_trans W _ (header img2));
    [apply (Step _ _ _ _ _ _ _ F1 S2)|].
  apply (written_only_trans W _ (header img3)).
  { apply (Step _ _ _ _ _ _ _ (fun q => eq_trans (F2 q) (F1 q)) S3). }
  apply (written_only_trans W _ (header img4)).
  { apply (Step _ _ _ _ _ _ _
             (fun q => eq_trans (F3 q) (eq_trans (F2 q) (F1 q))) S4). }
  apply (Step _ _ _ _ _ _ _
           (fun q => eq_trans (F4 q)
                       (eq_trans (F3 q) (eq_trans (F2 q) (F1 q)))) S5).
Qed.

(** *** The image [create] makes of a new header and the files given *)

Variable img0 : t_abootimg.
Hypothesis Hnew : header img0 = header (new_bootimg H).
Hypothesis Hbuf : forall p, part_buffer p img0 = None.
Hypothesis Hkernel : part_fname Kernel img0 <> None.
Hypothesis Hramdisk : part_fname Ramdisk img0 <> None.
Hypothesis Hfiles :
  forall p fname,
    part_fname p img0 = Some fname -> exists data, fs fname = Some data /\ data <> [].
Hypothesis Hsizes : forall p, source_size fs img0 p + 2048 - 1 < UINT32_MOD.

Lemma part_size_field_bound p :
  (off_part_size H p + 4 <= sizeof_boot_img_hdr_v2 H)%nat.
Proof. pose proof (layout_bounds H Hok) as B. destruct p; cbn; lia. Qed.

Lemma new_image_fields :
  length (header img0) = sizeof_boot_img_hdr_v2 H
  /\ page_size H img0 = 2048
  /\ header_version H img0 = 0
  /\ forall p, part_size H p img0 = 0.
Proof.
  destruct (new_bootimg_header H Hok) as (L & P & _ & Z0). cbv zeta in *.
  pose proof (layout_bounds H Hok) as B.
  unfold page_size, header_version, part_size. rewrite Hnew.
  split; [exact L|]. split; [exact P|]. split.
  - unfold get_u32. rewrite Z0; [apply le_decode_zeros|lia| |];
      fields_apart H Hok.
  - intros p. pose proof (part_size_field_bound p) as Bp.
    unfold get_u32. rewrite Z0; [apply le_decode_zeros|lia| |];
      destruct p; cbn [off_part_size]; fields_apart H Hok.
Qed.

(** A part that is named has a file that is not empty; the others have
    none. *)
Lemma source_named p fname :
  part_fname p img0 = Some fname ->
  exists data,
    fs fname = Some data /\ source_file fs img0 p = Some data
    /\ source_size fs img0 p = Z.of_nat (length data)
    /\ 0 < Z.of_nat (length data) < UINT32_MOD.
Proof.
  intros Ef. destruct (Hfiles p fname Ef) as (data & Ed & Nd).
  exists data. pose proof (Hsizes p) as Sp.
  unfold source_size, source_file in *. rewrite Ef, Ed in *.
  split; [reflexivity|]. split; [reflexivity|]. split; [reflexivity|].
  destruct data; [congruence|]. cbn [length] in *. lia.
Qed.

Lemma source_unnamed p :
  part_fname p img0 = None ->
  source_file fs img0 p = None /\ source_size fs img0 p = 0
  /\ mandatory p = false.
Proof.
  intros Ef. unfold source_size, source_file. rewrite Ef.
  split; [reflexivity|]. split; [reflexivity|].
  destruct p; try reflexivity; congruence.
Qed.

Lemma new_image_ready p : part_ready H fs p img0.
Proof.
  destruct new_image_fields as (_ & _ & _ & Z0).
  unfold part_ready. destruct (part_fname p img0) as [fname|] eqn:Ef.
  - destruct (source_named p fname Ef) as (data & Ed & _ & _ & Rd).
    exists data. split; [exact Ed|]. rewrite u32_small by lia. lia.
  - destruct (source_unnamed p Ef) as (_ & _ & Em).
    unfold reread. rewrite Em, Z0. cbn [Z.eqb negb orb].
    rewrite andb_false_r. discriminate.
Qed.

(** [update_images] on the new image: every part named has its file for
    buffer and the length of the file for size, the others have neither, and
    the container takes the size of the whole. *)
Lemma create_update_images :
  size img0 = 0 ->
  created_pages fs img0 2048 * 2048 < UINT32_MOD ->
  exists img5,
    update_images H fs img0
    = Ok (set_size (created_pages fs img0 2048 * 2048) (is_blkdev img5) img5)
    /\ st_isblk (stream img5) = st_isblk (stream img0)
    /\ written_only (replaced_size_field H img0) (header img0) (header img5)
    /\ (forall p, part_size H p img5 = source_size fs img0 p)
    /\ (forall p, part_buffer p img5 = source_file fs img0 p).
Proof.
  intros Hs0 Hpages.
  destruct new_image_fields as (L0 & P0 & V0 & Z0).
  destruct (update_images_ready img0 L0 ltac:(lia) new_image_ready)
    as (img1 & oc1 & img2 & oc2 & img3 & oc3 & img4 & oc4 & img5 & oc5
        & S1 & S2 & S3 & S4 & S5 & E).
  destruct (stages_assemble H Hok fs _ _ _ _ _ _ _ _ _ _ _ L0 S1 S2 S3 S4 S5)
    as ((_ & _ & G5s & _ & G5l & G5p) & A).
  destruct (update_images_header _ _ _ _ _ _ _ _ _ _ _ L0 S1 S2 S3 S4 S5)
    as (Kb & Wh).
  assert (Sz : forall p, part_size H p img5 = source_size fs img0 p
                         /\ part_buffer p img5 = source_file fs img0 p).
  { intros p. pose proof (A p) as Ap. unfold part_assembled in Ap.
    destruct (part_fname p img0) as [fname|] eqn:Ef.
    - destruct Ap as (data & Ed & _ & _ & Ap).
      destruct (source_named p fname Ef) as (data' & Ed' & Ef' & Es' & Rd).
      assert (data' = data) by congruence. subst data'.
      destruct (Ap ltac:(lia)) as [Es Eb].
      rewrite Es, Eb, Es', Ef'. split; reflexivity.
    - destruct (source_unnamed p Ef) as (Ef' & Es' & Em).
      destruct Ap as [Es Eb]. rewrite Es, Eb, Z0, Es', Ef'.
      unfold reread. rewrite Em, Z0. cbn [Z.eqb negb orb].
      rewrite andb_false_r. split; [reflexivity|apply Hbuf]. }
  exists img5. split.
  { rewrite E. unfold fit_container. rewrite G5s, Hs0. cbn [Z.eqb].
    do 2 f_equal.
    unfold image_total_size, total_size.
    change (kernel_size H img5) with (part_size H Kernel img5).
    change (ramdisk_size H img5) with (part_size H Ramdisk img5).
    change (second_size H img5) with (part_size H Second img5).
    change (recovery_dtbo_size H img5) with (part_size H Dtbo img5).
    change (dtb_size H img5) with (part_size H Dtb img5).
    rewrite !(proj1 (Sz _)), G5p, P0.
    fold (created_pages fs img0 2048).
    apply u32_small.
    assert (0 <= created_pages fs img0 2048); [|lia].
    unfold created_pages.
    pose proof (npages_nonneg 2048 (source_size fs img0 Kernel) ltac:(lia)).
    pose proof (npages_nonneg 2048 (source_size fs img0 Ramdisk) ltac:(lia)).
    pose proof (npages_nonneg 2048 (source_size fs img0 Second) ltac:(lia)).
    pose proof (npages_nonneg 2048 (source_size fs img0 Dtbo) ltac:(lia)).
    pose proof (npages_nonneg 2048 (source_size fs img0 Dtb) ltac:(lia)).
    lia. }
  split; [exact Kb|]. split; [exact Wh|].
  split; intros p; apply Sz.
Qed.

(** The words of the new header that [create] writes: the sizes of the
    parts named and, when the version rises, the version and the header
    size. *)
Lemma create_header_version :
  size img0 = 0 ->
  created_pages fs img0 2048 * 2048 < UINT32_MOD ->
  exists img4,
    (img <- update_images H fs img0 ;; Ok (update_header_version H img))
    = Ok img4
    /\ written_only
         (fun w =>
            replaced_size_field H img0 w
            \/ (0 < created_version fs img0
                /\ (w = off_header_version H \/ w = off_header_size H)))
         (header img0) (header img4)
    /\ header_version H img4 = created_version fs img0
    /\ (1 <= created_version fs img0 ->
        header_size H img4
        = Z.of_nat (sizeof_hdr H (created_version fs img0)))
    /\ size img4 = created_pages fs img0 2048 * 2048
    /\ st_isblk (stream img4) = st_isblk (stream img0)
    /\ (forall p, part_size H p img4 = source_size fs img0 p)
    /\ (forall p, part_buffer p img4 = source_file fs img0 p).
Proof.
  intros Hs0 Hpages.
  destruct new_image_fields as (L0 & P0 & V0 & Z0).
  destruct (create_update_images Hs0 Hpages)
    as (img5 & E5 & Kb & Wh & Sz & Bf).
  rewrite E5. cbn [bind].
  set (img5' := set_size (created_pages fs img0 2048 * 2048)
                  (is_blkdev img5) img5).
  set (W := fun w =>
              replaced_size_field H img0 w
              \/ (0 < created_version fs img0
                  /\ (w = off_header_version H \/ w = off_header_size H))).
  assert (L5 : length (header img5') = sizeof_boot_img_hdr_v2 H)
    by (destruct Wh as [L _]; cbn [header img5' set_size]; congruence).
  assert (V5 : header_version H img5' = 0).
  { rewrite <- V0. unfold header_version. cbn [header img5' set_size].
    apply (written_only_get_u32 _ _ _ _ Wh).
    intros w (p & _ & ->). destruct p; cbn [off_part_size];
      fields_apart H Hok. }
  assert (Ej : justified_version H img5' = created_version fs img0).
  { unfold justified_version, created_version.
    change (dtb_size H img5') with (part_size H Dtb img5).
    change (recovery_dtbo_size H img5') with (part_size H Dtbo img5).
    rewrite !Sz. reflexivity. }
  assert (Wh' : written_only W (header img0) (header img5')).
  { apply (written_only_incl (replaced_size_field H img0)); [|exact Wh].
    intros w Hw. left. exact Hw. }
  eexists. split; [reflexivity|].
  rewrite update_header_version_unfold. cbv zeta. rewrite Ej, V5.
  pose proof (justified_version_range H img5') as Rj. rewrite Ej in Rj.
  destruct (Z.gtb_spec (created_version fs img0) 0) as [Hgt|Hle].
  - pose proof (promoted_fields H Hok img5' L5) as Pf. cbv zeta in Pf.
    rewrite Ej in Pf. destruct Pf as (Pv & Ps & _ & _).
    split.
    { rewrite !header_set_field32.
      apply (written_only_trans W _ (header img5')); [exact Wh'|].
      apply (written_only_trans W _
               (set_u32 (off_header_version H) (created_version fs img0)
                  (header img5'))).
      - apply written_only_set_u32. right. auto.
      - apply written_only_set_u32. right. auto. }
    split; [exact Pv|]. split; [intros _; exact Ps|].
    split; [reflexivity|]. split; [exact Kb|]. split.
    + intros p. rewrite <- Sz. unfold part_size.
      rewrite !header_set_field32.
      rewrite !get_set_u32_other
        by (destruct p; cbn [off_part_size]; fields_apart H Hok).
      reflexivity.
    + intros p. rewrite <- Bf. destruct p; reflexivity.
  - assert (E0 : created_version fs img0 = 0) by lia.
    split; [exact Wh'|]. split; [rewrite V5, E0; reflexivity|].
    split; [lia|]. split; [reflexivity|]. split; [exact Kb|].
    split; [exact Sz|].
    intros p. rewrite <- Bf. destruct p; reflexivity.
Qed.

Ltac created_field_apart :=
  let p := fresh "p" in
  intros ? [(p & _ & ->)|(_ & [->| ->])];
  [destruct p; cbn [off_part_size]|..]; fields_apart H Hok.

(** The image [create] writes: what its header holds. *)
Lemma create_image :
  Z.of_nat (sizeof_boot_img_hdr_v2 H) <= 2048 ->
  size img0 = 0 ->
  created_pages fs img0 2048 * 2048 < UINT32_MOD ->
  exists img4,
    (forall buffered,
        main_create H fs buffered img0 [] [] = write_bootimg H buffered img4)
    /\ check_boot_img_header H img4 = Ok Valid
    /\ length (header img4) = sizeof_boot_img_hdr_v2 H
    /\ page_size H img4 = 2048
    /\ size img4 = created_pages fs img0 2048 * 2048
    /\ st_isblk (stream img4) = st_isblk (stream img0)
    /\ (forall p, part_size H p img4 = source_size fs img0 p)
    /\ (forall p, part_buffer p img4 = source_file fs img0 p)
    /\ tail_zero H img4
    /\ name H img4 = zeros (BOOT_NAME_SIZE H)
    /\ cmdline H img4 = zeros (BOOT_ARGS_SIZE H).
Proof.
  intros Hv2 Hs0 Hpages.
  destruct new_image_fields as (L0 & P0 & V0 & Z0).
  destruct (new_bootimg_header H Hok) as (_ & _ & M0 & N0). cbv zeta in *.
  rewrite <- Hnew in M0, N0.
  destruct (create_header_version Hs0 Hpages)
    as (img4 & E4 & Wh & Ev & Eh & Es & Kb & Sz & Bf).
  pose proof (layout_bounds H Hok) as B.
  pose proof (config_field_bounds H Hok) as Bc.
  pose proof magic_field_bound H Hok as Bm.
  pose proof (justified_version_range H img4) as Rj.
  assert (L4 : length (header img4) = sizeof_boot_img_hdr_v2 H)
    by (destruct Wh as [L _]; congruence).
  assert (P4 : page_size H img4 = 2048).
  { rewrite <- P0. unfold page_size.
    apply (written_only_get_u32 _ _ _ _ Wh). created_field_apart. }
  assert (Ek : exists k, part_fname Kernel img0 = Some k)
    by (destruct (part_fname Kernel img0) as [k|]; [eauto|congruence]).
  assert (Er : exists r, part_fname Ramdisk img0 = Some r)
    by (destruct (part_fname Ramdisk img0) as [r|]; [eauto|congruence]).
  destruct Ek as [k Ek]. destruct Er as [r Er].
  destruct (source_named Kernel k Ek) as (kd & _ & _ & Ks & Kr).
  destruct (source_named Ramdisk r Er) as (rd & _ & _ & Rs & Rr).
  set (v := created_version fs img0) in *.
  assert (Rv : 0 <= v <= 2).
  { unfold v, created_version.
    destruct (source_size fs img0 Dtb =? 0),
      (source_size fs img0 Dtbo =? 0); cbn [negb]; lia. }
  (* the words written lie in the structure of the version *)
  assert (Hin : forall w,
             replaced_size_field H img0 w
             \/ (0 < v /\ (w = off_header_version H \/ w = off_header_size H)) ->
             (w + 4 <= sizeof_hdr H v)%nat).
  { pose proof (sizeof_hdr_bounds H Hok v) as Bh.
    assert (S1 : 1 <= v -> (sizeof_boot_img_hdr_v1 H <= sizeof_hdr H v)%nat).
    { unfold sizeof_hdr. destruct (Z.eqb_spec v 0); [lia|].
      destruct (v =? 1); lia. }
    assert (S2 : v = 2 -> sizeof_hdr H v = sizeof_boot_img_hdr_v2 H).
    { intros ->. reflexivity. }
    assert (Vo : source_size fs img0 Dtbo <> 0 -> 1 <= v).
    { unfold v, created_version. intros Nz.
      destruct (source_size fs img0 Dtb =? 0); cbn [negb]; [|lia].
      destruct (Z.eqb_spec (source_size fs img0 Dtbo) 0); cbn [negb]; lia. }
    assert (Vd : source_size fs img0 Dtb <> 0 -> v = 2).
    { unfold v, created_version. intros Nz.
      destruct (Z.eqb_spec (source_size fs img0 Dtb) 0); cbn [negb];
        [contradiction|reflexivity]. }
    intros w [(p & Hp & ->)|(Hv & [->| ->])].
    - destruct (part_fname p img0) as [fname|] eqn:Ef; [|congruence].
      destruct (source_named p fname Ef) as (d & _ & _ & Ds & Dr).
      destruct p; cbn [off_part_size]; lia.
    - lia.
    - specialize (S1 ltac:(lia)). lia. }
  exists img4.
  assert (Hvalid : check_boot_img_header H img4 = Ok Valid).
  { unfold check_boot_img_header.
    assert (Em : strncmp_eq (magic H img4) (BOOT_MAGIC H) (BOOT_MAGIC_SIZE H)
                 = true).
    { unfold magic.
      rewrite <- (firstn_skipn (BOOT_MAGIC_SIZE H)
                    (skipn (off_magic H) (header img4))).
      change (firstn (BOOT_MAGIC_SIZE H) (skipn (off_magic H) (header img4)))
        with (load (off_magic H) (BOOT_MAGIC_SIZE H) (header img4)).
      rewrite (proj2 Wh) by created_field_apart.
      rewrite M0. apply strncmp_eq_magic. lia. }
    rewrite Em. cbn [negb]. rewrite Ev.
    destruct (Z.gtb_spec v 2); [lia|].
    assert (Eb : (v >=? 1)
                 && negb (header_size H img4 =? boot_img_header_size H img4)
                 = false).
    { destruct (Z.geb_spec v 1); [|reflexivity]. cbn [andb].
      unfold boot_img_header_size. rewrite Ev, Eh by lia.
      rewrite Z.eqb_refl. reflexivity. }
    rewrite Eb.
    change (kernel_size H img4) with (part_size H Kernel img4).
    change (ramdisk_size H img4) with (part_size H Ramdisk img4).
    rewrite !Sz, P4.
    destruct (Z.eqb_spec (source_size fs img0 Kernel) 0); [lia|].
    destruct (Z.eqb_spec (source_size fs img0 Ramdisk) 0); [lia|].
    cbn [Z.eqb].
    assert (Et : image_total_size H img4 = size img4).
    { rewrite Es. unfold image_total_size, total_size.
      change (kernel_size H img4) with (part_size H Kernel img4).
      change (ramdisk_size H img4) with (part_size H Ramdisk img4).
      change (second_size H img4) with (part_size H Second img4).
      change (recovery_dtbo_size H img4) with (part_size H Dtbo img4).
      change (dtb_size H img4) with (part_size H Dtb img4).
      rewrite !Sz, P4. fold (created_pages fs img0 2048).
      apply u32_small.
      assert (0 <= created_pages fs img0 2048); [|lia].
      unfold created_pages.
      pose proof (npages_nonneg 2048 (source_size fs img0 Kernel)
                    ltac:(lia)).
      pose proof (npages_nonneg 2048 (source_size fs img0 Ramdisk)
                    ltac:(lia)).
      pose proof (npages_nonneg 2048 (source_size fs img0 Second)
                    ltac:(lia)).
      pose proof (npages_nonneg 2048 (source_size fs img0 Dtbo) ltac:(lia)).
      pose proof (npages_nonneg 2048 (source_size fs img0 Dtb) ltac:(lia)).
      lia. }
    rewrite Et. destruct (Z.gtb_spec (size img4) (size img4)); [lia|].
    reflexivity. }
  split.
  { intros buffered. unfold main_create.
    change (kernel_fname img0) with (part_fname Kernel img0).
    change (ramdisk_fname img0) with (part_fname Ramdisk img0).
    rewrite Ek, Er. cbn [update_header update_header_lines bind].
    destruct (update_images H fs img0) as [img5| |]; cbn [bind] in E4 |- *;
      try discriminate E4.
    injection E4 as E4. rewrite E4, Hvalid. reflexivity. }
  split; [exact Hvalid|]. split; [exact L4|]. split; [exact P4|].
  split; [exact Es|]. split; [exact Kb|]. split; [exact Sz|].
  split; [exact Bf|].
  pose proof (sizeof_hdr_bounds H Hok v) as Bh.
  split; [|split].
  - unfold tail_zero. rewrite Ev.
    assert (El : skipn (sizeof_hdr H v) (header img4)
                 = load (sizeof_hdr H v)
                     (sizeof_boot_img_hdr_v2 H - sizeof_hdr H v)
                     (header img4)).
    { unfold load. rewrite firstn_all2; [reflexivity|].
      rewrite length_skipn. lia. }
    rewrite El, (proj2 Wh).
    + apply N0; lia.
    + intros w Hw. right. apply Hin. exact Hw.
  - unfold name. rewrite (proj2 Wh) by created_field_apart.
    apply N0; [lia| |]; fields_apart H Hok.
  - unfold cmdline. rewrite (proj2 Wh) by created_field_apart.
    apply N0; [lia| |]; fields_apart H Hok.
Qed.

End Creation.

Section CreatedAndExtracted.

Variable H : bootimg_h.
Hypothesis Hok : bootimg_h_ok H = true.

(** X11: an image created and extracted again gives back the files it was
    made of.  On a new header, with no configuration, a regular file and a
    kernel and a ramdisk named, when every file named exists, is not empty
    and the pages of the whole and one more fit 32 bits, [create] leaves an
    image, and [extract] run on that image writes, for each part that was
    named, a file with exactly the bytes of the file given for it, no file
    for the other parts, and the configuration of the header with the length
    of the image for boot size: the total size of the layout, or up to a
    page more when the stream held back bytes that end past it. *)
Theorem created_image_extracts (buffered : nat)
  (fs : string -> option (list byte))
  (img0 imgx : t_abootimg) (names : t_names) (fsx : file_system)
  (c : string) :
  Z.of_nat (sizeof_boot_img_hdr_v2 H) <= 2048 ->
  (1 <= BOOT_ARGS_SIZE H)%nat ->
  header img0 = header (new_bootimg H) ->
  size img0 = 0 ->
  st_isblk (stream img0) = false ->
  (forall p, part_buffer p img0 = None) ->
  part_fname Kernel img0 <> None ->
  part_fname Ramdisk img0 <> None ->
  (forall p fname,
      part_fname p img0 = Some fname ->
      exists data, fs fname = Some data /\ data <> []) ->
  (forall p, source_size fs img0 p + 2048 - 1 < UINT32_MOD) ->
  (created_pages fs img0 2048 + 1) * 2048 < UINT32_MOD ->
  length (header imgx) = sizeof_boot_img_hdr_v2 H ->
  (forall p, part_fname p imgx <> None) ->
  config_fname names = Some c ->
  exists img1 img2 text,
    main_create H fs buffered img0 [] [] = Ok img1
    /\ size img1 = created_pages fs img0 2048 * 2048
    /\ size img1 <= Z.of_nat (length (contents (stream img1)))
       <= size img1 + 2048
    /\ (buffered = O ->
        Z.of_nat (length (contents (stream img1))) = size img1)
    /\ bootimg_config H
         (set_size (Z.of_nat (length (contents (stream img1)))) false img1)
       = Ok text
    /\ main_extract H (set_stream (fopen (contents (stream img1)) false) imgx)
         names fsx
       = Ok (img2,
             write_files
               ((c, text)
                :: created_file fs img0 imgx Kernel
                ++ created_file fs img0 imgx Ramdisk
                ++ created_file fs img0 imgx Second
                ++ created_file fs img0 imgx Dtbo
                ++ created_file fs img0 imgx Dtb) fsx).
Proof.
  intros Hv2 Hargs Hnew Hs0 Hreg Hbuf Hk Hr Hfiles Hsizes Hpages1 Hlenx Hnx
    Hc.
  assert (Hpages : created_pages fs img0 2048 * 2048 < UINT32_MOD) by lia.
  destruct (create_image H Hok fs img0 Hnew Hbuf Hk Hr Hfiles Hsizes Hv2 Hs0
              Hpages)
    as (img4 & Em & Hvalid & L4 & P4 & Es & Kb & Sz & Bf & Htail & En & Ecl).
  pose proof (layout_bounds H Hok) as B.
  pose proof (sizeof_hdr_bounds H Hok (header_version H img4)) as Bh.
  assert (Hnamed : forall p fname,
             part_fname p img0 = Some fname ->
             exists data,
               source_file fs img0 p = Some data
               /\ source_size fs img0 p = Z.of_nat (length data)
               /\ 0 < Z.of_nat (length data)).
  { intros p fname Ef.
    destruct (source_named fs img0 Hfiles Hsizes p fname Ef)
      as (d & _ & E1 & E2 & R). exists d. repeat split; auto. lia. }
  assert (Hunnamed : forall p,
             part_fname p img0 = None ->
             source_file fs img0 p = None /\ source_size fs img0 p = 0
             /\ mandatory p = false).
  { intros p Ef. exact (source_unnamed fs img0 Hk Hr p Ef). }
  assert (Hpage : boot_img_header_size H img4 <= page_size H img4)
    by (unfold boot_img_header_size; rewrite P4; lia).
  assert (Hsz : sizes_fit H img4)
    by (intros p; rewrite Sz, P4; apply Hsizes).
  assert (Hfit : layout_fits H img4).
  { unfold layout_fits.
    change (kernel_size H img4) with (part_size H Kernel img4).
    change (ramdisk_size H img4) with (part_size H Ramdisk img4).
    change (second_size H img4) with (part_size H Second img4).
    change (recovery_dtbo_size H img4) with (part_size H Dtbo img4).
    change (dtb_size H img4) with (part_size H Dtb img4).
    rewrite !Sz, P4. exact Hpages. }
  assert (Hpay : payloads_fit H img4).
  { intros p buf Eb. rewrite Bf in Eb. rewrite Sz. unfold source_size.
    rewrite Eb. lia. }
  assert (Hload : payloads_loaded H img4).
  { intros p Hp. rewrite Bf.
    destruct (part_fname p img0) as [fname|] eqn:Ef.
    - destruct (Hnamed p fname Ef) as (d & E1 & _). congruence.
    - destruct (Hunnamed p Ef) as (_ & E0 & M).
      unfold part_present in Hp. rewrite M, Sz, E0 in Hp. discriminate Hp. }
  assert (Ht : exists text, bootimg_config H img4 = Ok text).
  { unfold bootimg_config, printf_s. rewrite En, Ecl.
    rewrite !in_set_zeros by lia. cbn [bind]. eexists. reflexivity. }
  destruct Ht as [text Ht].
  assert (Hsize : size img4 < UINT32_MOD) by (rewrite Es; exact Hpages).
  destruct (check_valid_inv H img4 Hvalid) as (_ & _ & _ & _ & Htot).
  assert (Htp : image_total_size H img4 + page_size H img4 < UINT32_MOD)
    by (rewrite P4; lia).
  assert (Hs4 : 0 <= size img4).
  { unfold image_total_size, total_size in Htot.
    match type of Htot with
    | u32 ?t <= _ => pose proof (u32_range t)
    end.
    lia. }
  destruct (written_image_extract_ok H Hok buffered img4 imgx names fsx c
              text L4 Hlenx Hvalid Hpage Hsz Hfit Htail Hpay Hload
              (eq_trans Kb Hreg) Hsize Htp Hnx Hc Ht)
    as (img1 & img2 & text' & E1 & Eh1 & Es1 & _ & B1 & B2 & B3 & Ec & _
        & E2).
  exists img1, img2, text'.
  split; [rewrite Em; exact E1|].
  split; [rewrite Es1; exact Es|].
  rewrite Es1.
  split; [rewrite P4 in B2; lia|].
  split; [intros Hb0; rewrite (B3 (or_introl Hb0)); lia|].
  split.
  { rewrite <- Ec. apply bootimg_config_ext; [exact Eh1|reflexivity]. }
  rewrite E2.
  assert (Ef : forall p,
             payload_file H img4 imgx p = created_file fs img0 imgx p).
  { intros p. unfold payload_file, created_file, part_present.
    rewrite Bf, Sz.
    destruct (part_fname p img0) as [fname|] eqn:Ef.
    - destruct (Hnamed p fname Ef) as (d & E1' & E2' & R).
      rewrite E1', E2'.
      destruct (Z.eqb_spec (Z.of_nat (length d)) 0); [lia|].
      cbn [negb]. rewrite orb_true_r.
      destruct (part_fname p imgx); [|reflexivity].
      rewrite Nat2Z.id, firstn_all. reflexivity.
    - destruct (Hunnamed p Ef) as (E1' & E2' & M).
      rewrite E1', E2', M. reflexivity. }
  rewrite !Ef. reflexivity.
Qed.

End CreatedAndExtracted.

Lemma created_image_extracts_witness :
  (exists img1 img2 fs',
      main_create aosp_bootimg_h example_create_fs 4096 example_create_dtb
        [] [] = Ok img1
      /\ header_version aosp_bootimg_h img1 = 2
      /\ size img1 = 14336
      /\ length (contents (stream img1)) = Z.to_nat 14336
      /\ main_extract aosp_bootimg_h
           (set_stream (fopen (contents (stream img1)) false)
              (new_bootimg aosp_bootimg_h))
           new_bootimg_names (fun _ => None) = Ok (img2, fs')
      /\ fs' "zImage"%string = Some (repeat x4b 5000)
      /\ fs' "initrd.img"%string = Some (repeat x52 3000)
      /\ fs' "aboot.dtb"%string = Some (repeat x44 100)
      /\ fs' "stage2.img"%string = None)
  /\ exists img1 img2 fs' text,
       main_create aosp_bootimg_h example_page_fs 4096 example_create [] []
       = Ok img1
       /\ size img1 = 6144
       /\ length (contents (stream img1)) = Z.to_nat 8192
       /\ main_extract aosp_bootimg_h
            (set_stream (fopen (contents (stream img1)) false)
               (new_bootimg aosp_bootimg_h))
            new_bootimg_names (fun _ => None) = Ok (img2, fs')
       /\ fs' "zImage"%string = Some (repeat x4b 2048)
       /\ fs' "initrd.img"%string = Some (repeat x52 2048)
       /\ fs' "bootimg.cfg"%string = Some text
       /\ firstn 17 text = str "bootsize = 0x2000".
Proof.
  split.
  - destruct (created_image_extracts aosp_bootimg_h eq_refl 4096
                example_create_fs example_create_dtb
                (new_bootimg aosp_bootimg_h) new_bootimg_names
                (fun _ => None) "bootimg.cfg")
      as (img1 & img2 & text & E1 & _ & _ & _ & _ & E2).
    + vm_compute. discriminate.
    + vm_compute. lia.
    + reflexivity.
    + reflexivity.
    + reflexivity.
    + intros p. destruct p; reflexivity.
    + discriminate.
    + discriminate.
    + intros p fname Ef.
      destruct p; cbn in Ef; inversion Ef; subst fname;
        eexists; (split; [reflexivity|discriminate]).
    + intros p. destruct p; vm_compute; reflexivity.
    + vm_compute. reflexivity.
    + reflexivity.
    + intros p. destruct p; discriminate.
    + reflexivity.
    + assert (F : holds_on
                    (main_create aosp_bootimg_h example_create_fs 4096
                       example_create_dtb [] [])
                    (fun i => header_version aosp_bootimg_h i = 2
                              /\ size i = 14336
                              /\ length (contents (stream i))
                                 = Z.to_nat 14336))
        by (vm_compute; repeat split).
      rewrite E1 in F. cbn [holds_on] in F. destruct F as (F1 & F2 & F3).
      exists img1, img2. eexists. split; [exact E1|].
      split; [exact F1|]. split; [exact F2|]. split; [exact F3|].
      split; [exact E2|].
      repeat split; reflexivity.
  - destruct (created_image_extracts aosp_bootimg_h eq_refl 4096
                example_page_fs example_create
                (new_bootimg aosp_bootimg_h) new_bootimg_names
                (fun _ => None) "bootimg.cfg")
      as (img1 & img2 & text & E1 & _ & _ & _ & Ec & E2).
    + vm_compute. discriminate.
    + vm_compute. lia.
    + reflexivity.
    + reflexivity.
    + reflexivity.
    + intros p. destruct p; reflexivity.
    + discriminate.
    + discriminate.
    + intros p fname Ef.
      destruct p; cbn in Ef; inversion Ef; subst fname;
        eexists; (split; [reflexivity|discriminate]).
    + intros p. destruct p; vm_compute; reflexivity.
    + vm_compute. reflexivity.
    + reflexivity.
    + intros p. destruct p; discriminate.
    + reflexivity.
    + assert (F : holds_on
                    (main_create aosp_bootimg_h example_page_fs 4096
                       example_create [] [])
                    (fun i => size i = 6144
                              /\ length (contents (stream i))
                                 = Z.to_nat 8192))
        by (vm_compute; repeat split).
      rewrite E1 in F. cbn [holds_on] in F. destruct F as (F1 & F2).
      rewrite F2 in Ec.
      assert (G : holds_on
                    (main_create aosp_bootimg_h example_page_fs 4096
                       example_create [] [])
                    (fun i =>
                       holds_on
                         (bootimg_config aosp_bootimg_h
                            (set_size (Z.of_nat (Z.to_nat 8192)) false i))
                         (fun t => firstn 17 t = str "bootsize = 0x2000")))
        by (vm_compute; reflexivity).
      rewrite E1 in G. cbn [holds_on] in G. rewrite Ec in G.
      cbn [holds_on] in G.
      exists img1, img2. eexists. exists text.
      split; [exact E1|]. split; [exact F1|]. split; [exact F2|].
      split; [exact E2|].
      split; [reflexivity|]. split; [reflexivity|].
      split; [reflexivity|exact G].
Defined.

(** ** The parts an update keeps in place *)

Lemma stream_bytes_past (f g : FILE) (k : nat) (off size : Z) :
  skipn k (contents f) = skipn k (contents g) ->
  (k <= Z.to_nat off)%nat ->
  stream_bytes f off size = stream_bytes g off size.
Proof.
  intros E Hk. unfold stream_bytes.
  replace (Z.to_nat off) with ((Z.to_nat off - k) + k)%nat by lia.
  rewrite <- !skipn_skipn, E. reflexivity.
Qed.

Section KeptParts.

Variable H : bootimg_h.
Hypothesis Hok : bootimg_h_ok H = true.

(** A part written, or left, after the parts of [ps]. *)
Lemma write_part_step_kept (img : t_abootimg) (q : part) (ps : list part)
  (f0 f : FILE) :
  0 < page_size H img ->
  payloads_fit H img ->
  page_size H img <= original_offset H q img ->
  Z.of_nat (sizeof_hdr H (header_version H img)) <= page_size H img ->
  (forall p, In p ps -> (part_index p < part_index q)%nat) ->
  (forall p, In p ps ->
             0 <= original_offset H p img
             /\ original_offset H p img + part_size H p img
                <= original_offset H q img) ->
  kept_parts_first H img f0 ->
  header_on_stream H img f ->
  regions_on_stream H img f0 ps f ->
  ((forall p, In p ps -> part_written H p img = false) ->
   payload_untouched H img f0 f) ->
  exists f',
    write_optional_part H (part_buffer q (set_stream f img))
      (part_present H q (set_stream f img)) (set_stream f img)
      (original_offset H q img) (part_size H q (set_stream f img))
      (zeros (Z.to_nat (page_size H img)))
    = Ok (set_stream f' img)
    /\ header_on_stream H img f'
    /\ regions_on_stream H img f0 (q :: ps) f'
    /\ ((forall p, In p (q :: ps) -> part_written H p img = false) ->
        payload_untouched H img f0 f').
Proof.
  intros Hp Hpay Ho Hh Hidx Hbefore Hkept Hf Hdone Hun.
  pose proof (get_u32_range (off_part_size H q) (header img)) as Rq.
  fold (part_size H q img) in Rq.
  assert (Eq : part_buffer q (set_stream f img) = part_buffer q img
               /\ part_present H q (set_stream f img) = part_present H q img
               /\ part_size H q (set_stream f img) = part_size H q img)
    by (destruct q; repeat split; reflexivity).
  destruct Eq as (-> & -> & ->).
  destruct (part_written H q img) eqn:Wq.
  - (* the part is written *)
    unfold part_written in Wq. apply andb_true_iff in Wq.
    destruct Wq as [Wb Wp].
    destruct (part_buffer q img) as [buf|] eqn:Eb; [|discriminate Wb].
    destruct (write_optional_part_region H img (Some buf)
                (part_present H q img) f (original_offset H q img)
                (part_size H q img) Hp ltac:(lia) ltac:(lia))
      as (f' & E & B & L & K & W).
    { intros part Ep. injection Ep as <-. apply (Hpay q buf Eb). }
    exists f'. split; [exact E|].
    destruct Hf as (Fb & Fl & Fp).
    split; [|split].
    + unfold header_on_stream. cbv zeta.
      split; [congruence|]. split; [lia|].
      rewrite K by lia. exact Fp.
    + intros p Hin Hpres. destruct Hin as [<-|Hin].
      * unfold region_expected. rewrite Eb. apply (W buf eq_refl Wp).
      * destruct (Hdone p Hin Hpres) as [Sb Sl].
        destruct (Hbefore p Hin) as [Op Oe].
        pose proof (get_u32_range (off_part_size H p) (header img)) as Rp.
        fold (part_size H p img) in Rp.
        split; [|lia].
        rewrite <- Sb.
        apply (stream_bytes_prefix f' f _ _
                 (Z.to_nat (original_offset H p img)
                  + Z.to_nat (part_size H p img))); [|lia].
        apply K; lia.
    + intros Hall. specialize (Hall q (or_introl eq_refl)).
      unfold part_written in Hall. rewrite Eb, Wp in Hall.
      discriminate Hall.
  - (* the part is left as it is *)
    exists f. split.
    { unfold write_optional_part. unfold part_written in Wq.
      destruct (part_buffer q img); [|reflexivity].
      cbn [is_some andb] in Wq. rewrite Wq. reflexivity. }
    split; [exact Hf|]. split.
    + intros p Hin Hpres. destruct Hin as [<-|Hin]; [|apply Hdone; assumption].
      unfold part_written in Wq. rewrite Hpres, andb_true_r in Wq.
      destruct (part_buffer q img) as [buf|] eqn:Eb; [discriminate Wq|].
      destruct (Hkept q Hpres Eb) as [Hfirst Hin0].
      destruct (Hun (fun p' Hp' => Hfirst p' (Hidx p' Hp'))) as [Es El].
      unfold region_expected. rewrite Eb. split.
      * apply (stream_bytes_past f f0 (Z.to_nat (page_size H img)));
          [exact Es|lia].
      * assert (El' : length (skipn (Z.to_nat (page_size H img)) (contents f))
                      = length (skipn (Z.to_nat (page_size H img))
                                  (contents f0)))
          by (rewrite Es; reflexivity).
        rewrite !length_skipn in El'. lia.
    + intros Hall. apply Hun. intros p Hin. apply Hall. right. exact Hin.
Qed.

(** [write_bootimg] on a header the validator accepts, with a page that
    holds the header and a layout that does not wrap: the file left starts
    with the header and holds every part that is present, from its buffer
    or, for the parts without a buffer, as the file held it before; it has
    the container size, unless bytes the stream held back end past it. *)
Lemma write_bootimg_regions (buffered : nat) (img : t_abootimg) :
  length (header img) = sizeof_boot_img_hdr_v2 H ->
  check_boot_img_header H img = Ok Valid ->
  boot_img_header_size H img <= page_size H img ->
  sizes_fit H img -> layout_fits H img ->
  payloads_fit H img ->
  st_isblk (stream img) = false ->
  kept_parts_first H img (stream img) ->
  let hs := sizeof_hdr H (header_version H img) in
  exists f',
    write_bootimg H buffered img = Ok (set_stream f' img)
    /\ st_isblk f' = false
    /\ length (contents f') = left_length (size img) buffered f'
    /\ Z.of_nat (fpos f') <= image_total_size H img + page_size H img
    /\ firstn hs (contents f') = firstn hs (header img)
    /\ regions_on_stream H img (stream img)
         [Dtb; Dtbo; Second; Ramdisk; Kernel] f'.
Proof.
  intros Hlen Hvalid Hpage Hsz Hfit Hpay Hreg Hkept hs.
  destruct (check_valid_inv H img Hvalid) as (Hv & Hk & Hr & Hp0 & Htot).
  pose proof (get_u32_range (off_page_size H) (header img)) as Rp.
  fold (page_size H img) in Rp.
  assert (Hp : 0 < page_size H img) by lia.
  pose proof (sizeof_hdr_bounds H Hok (header_version H img)) as Bh.
  fold hs in Bh.
  pose proof (part_regions H img Hp Hsz Hfit) as Reg.
  destruct (offsets_past_header H img Hp Hfit)
    as (Ok1 & Ok2 & Ok3 & Ok4 & Ok5 & Ok6).
  cbv zeta in Ok1, Ok2, Ok3, Ok4, Ok5, Ok6.
  assert (Hpast : forall q, page_size H img <= original_offset H q img)
    by (intros q; destruct q; cbn [original_offset]; assumption).
  rewrite write_bootimg_stages. cbv zeta.
  destruct (Z.eqb_spec (page_size H img) 0); [lia|].
  destruct (f1 <- fwrite_from (header img) (boot_img_header_size H img)
                    (fseek (stream img) (Z.to_nat hoffset)) ;;
            fwrite_from (zeros (Z.to_nat (page_size H img)))
              (u32 (page_size H img - boot_img_header_size H img)) f1)
    as [f2| |] eqn:Ew.
  2, 3: (exfalso; revert Ew; unfold boot_img_header_size; fold hs;
         rewrite fwrite_from_ok by lia; cbn [bind];
         unfold boot_img_header_size in Hpage; fold hs in Hpage;
         rewrite u32_small by lia;
         rewrite fwrite_from_ok by (rewrite length_zeros; lia);
         discriminate).
  destruct (header_page_written H Hok img f2 Hlen Hp0 Ew)
    as (Hle & Kf & Pf & Cf).
  fold hs in Hle, Cf.
  assert (Ew' : (f <- fwrite_from (header img) (boot_img_header_size H img)
                        (fseek (stream img) (Z.to_nat hoffset)) ;;
                 f <- fwrite_from (zeros (Z.to_nat (page_size H img)))
                        (u32 (page_size H img - boot_img_header_size H img))
                        f ;;
                 Ok f) = Ok f2).
  { destruct (fwrite_from (header img) (boot_img_header_size H img)
                (fseek (stream img) (Z.to_nat hoffset))) as [f1| |];
      cbn [bind] in Ew |- *; try discriminate Ew.
    rewrite Ew. reflexivity. }
  assert (Split : forall (k : FILE -> outcome t_abootimg),
             (f <- fwrite_from (header img) (boot_img_header_size H img)
                     (fseek (stream img) (Z.to_nat hoffset)) ;;
              f <- fwrite_from (zeros (Z.to_nat (page_size H img)))
                     (u32 (page_size H img - boot_img_header_size H img)) f ;;
              k f) = k f2).
  { intros k.
    destruct (fwrite_from (header img) (boot_img_header_size H img)
                (fseek (stream img) (Z.to_nat hoffset))) as [f1| |];
      cbn [bind] in Ew |- *; try discriminate Ew.
    rewrite Ew. reflexivity. }
  rewrite Split. clear Split Ew'.
  assert (La : length (firstn hs (header img)) = hs)
    by (rewrite length_firstn; lia).
  assert (Lpg : length (firstn hs (header img)
                        ++ zeros (Z.to_nat (page_size H img) - hs))
                = Z.to_nat (page_size H img))
    by (rewrite length_app, La, length_zeros; lia).
  assert (P2 : header_on_stream H img f2).
  { unfold header_on_stream. fold hs.
    split; [exact Kf|]. rewrite Cf. split.
    - rewrite !length_app, La. lia.
    - rewrite <- app_assoc, firstn_app, La, Nat.sub_diag, firstn_O, app_nil_r.
      rewrite firstn_firstn, Nat.min_id. reflexivity. }
  assert (D2 : regions_on_stream H img (stream img) [] f2)
    by (intros p []).
  assert (U2 : (forall p, In p [] -> part_written H p img = false) ->
               payload_untouched H img (stream img) f2).
  { intros _. unfold payload_untouched. rewrite Cf. split.
    - rewrite skipn_app, Lpg, Nat.sub_diag.
      rewrite skipn_all2 by lia. reflexivity.
    - rewrite length_app, Lpg. lia. }
  assert (X2 : written_extent H img f2).
  { unfold written_extent. rewrite Pf, Cf, length_app, Lpg. split; lia. }
  clear Cf Ew Pf.
  unfold boot_img_header_size in Hpage. fold hs in Hpage.
  assert (Before : forall q ps,
             (forall p, In p ps -> (part_index p < part_index q)%nat) ->
             forall p, In p ps ->
                       0 <= original_offset H p img
                       /\ original_offset H p img + part_size H p img
                          <= original_offset H q img).
  { intros q ps Hps p Hin. destruct (Reg p) as (Op & _ & Oq).
    split; [exact Op|]. apply Oq. apply Hps. exact Hin. }
  assert (Idx : forall q ps,
             forallb (fun p => (part_index p <? part_index q)%nat) ps = true ->
             forall p, In p ps -> (part_index p < part_index q)%nat).
  { intros q ps Hb p Hin. rewrite forallb_forall in Hb.
    apply Nat.ltb_lt. apply Hb. exact Hin. }
  destruct (write_part_step_kept img Kernel [] (stream img) f2 Hp Hpay
              (Hpast Kernel) Hpage (Idx Kernel [] eq_refl)
              (Before Kernel [] (Idx Kernel [] eq_refl)) Hkept P2 D2 U2)
    as (f3 & E3 & P3 & D3 & U3).
  pose proof (write_optional_part_extent H img Kernel f2 f3 Hp Hsz Hfit Hpay
                E3 X2) as X3.
  rewrite E3. cbn [bind]. clear E3 P2 D2 U2 X2.
  destruct (write_part_step_kept img Ramdisk [Kernel] (stream img) f3 Hp Hpay
              (Hpast Ramdisk) Hpage (Idx Ramdisk [Kernel] eq_refl)
              (Before Ramdisk _ (Idx Ramdisk [Kernel] eq_refl)) Hkept P3 D3 U3)
    as (f4 & E4 & P4 & D4 & U4).
  pose proof (write_optional_part_extent H img Ramdisk f3 f4 Hp Hsz Hfit Hpay
                E4 X3) as X4.
  rewrite E4. cbn [bind]. clear E4 P3 D3 U3 X3.
  destruct (write_part_step_kept img Second [Ramdisk; Kernel] (stream img) f4
              Hp Hpay (Hpast Second) Hpage (Idx Second [Ramdisk; Kernel] eq_refl)
              (Before Second _ (Idx Second [Ramdisk; Kernel] eq_refl)) Hkept P4 D4 U4)
    as (f5 & E5 & P5 & D5 & U5).
  pose proof (write_optional_part_extent H img Second f4 f5 Hp Hsz Hfit Hpay
                E5 X4) as X5.
  rewrite E5. cbn [bind]. clear E5 P4 D4 U4 X4.
  destruct (write_part_step_kept img Dtbo [Second; Ramdisk; Kernel]
              (stream img) f5 Hp Hpay (Hpast Dtbo) Hpage
              (Idx Dtbo [Second; Ramdisk; Kernel] eq_refl) (Before Dtbo _ (Idx Dtbo [Second; Ramdisk; Kernel] eq_refl))
              Hkept P5 D5 U5)
    as (f6 & E6 & P6 & D6 & U6).
  pose proof (write_optional_part_extent H img Dtbo f5 f6 Hp Hsz Hfit Hpay
                E6 X5) as X6.
  rewrite E6. cbn [bind]. clear E6 P5 D5 U5 X5.
  destruct (write_part_step_kept img Dtb [Dtbo; Second; Ramdisk; Kernel]
              (stream img) f6 Hp Hpay (Hpast Dtb) Hpage
              (Idx Dtb [Dtbo; Second; Ramdisk; Kernel] eq_refl) (Before Dtb _ (Idx Dtb [Dtbo; Second; Ramdisk; Kernel] eq_refl))
              Hkept P6 D6 U6)
    as (f7 & E7 & P7 & D7 & U7).
  pose proof (write_optional_part_extent H img Dtb f6 f7 Hp Hsz Hfit Hpay
                E7 X6) as X7.
  rewrite E7. cbn [bind]. clear E7 P6 D6 U6 X6.
  eexists. split; [reflexivity|].
  destruct P7 as (Fb & Fl & Fp). fold hs in Fl, Fp.
  destruct X7 as (Xl & Xt).
  cbn [stream set_stream size].
  assert (Fb' : st_isblk f7 = false) by congruence.
  destruct (ftruncate_regular f7 (Z.to_nat (size img)) buffered Fb' Xl)
    as (_ & Tl & Tb & Tp).
  pose proof (fun k => ftruncate_prefix f7 (Z.to_nat (size img)) buffered k
                         Fb' Xl) as Pre.
  set (f' := ftruncate f7 (Z.to_nat (size img)) buffered) in *.
  split; [exact Tb|]. split; [|split; [|split]].
  - unfold left_length. rewrite Tp. exact Tl.
  - rewrite Tp. exact Xt.
  - rewrite Pre by lia. exact Fp.
  - intros p Hin Hpres.
    destruct (D7 p Hin Hpres) as [Sb Sl].
    destruct (Reg p) as (Op & Ot & _).
    pose proof (get_u32_range (off_part_size H p) (header img)) as Rq.
    fold (part_size H p img) in Rq.
    assert (Hin' : (Z.to_nat (original_offset H p img)
                    + Z.to_nat (part_size H p img)
                    <= Z.to_nat (size img))%nat) by lia.
    split.
    + rewrite <- Sb.
      apply (stream_bytes_prefix _ f7 _ _
               (Z.to_nat (original_offset H p img)
                + Z.to_nat (part_size H p img))); [|lia].
      apply Pre; lia.
    + assert (Z.to_nat (size img) <= length (contents f'))%nat; [|lia].
      rewrite Tl.
      destruct (Nat.min buffered (fpos f7) =? 0)%nat; cbn [orb]; [lia|].
      destruct (Nat.leb_spec (fpos f7) (Z.to_nat (size img))); lia.
Qed.

End KeptParts.

(** ** An update that replaces parts, then [extract] *)

Lemma strncmp_eq_firstn n : forall a b,
  strncmp_eq a b n = strncmp_eq (firstn n a) b n.
Proof.
  induction n as [|n IH]; intros a b; [reflexivity|].
  destruct a as [|x a]; [reflexivity|].
  cbn [strncmp_eq firstn hd tl]. rewrite (IH a). reflexivity.
Qed.

Lemma replaced_before_none (p q : part) (img : t_abootimg) :
  replaced_before q img = false ->
  (part_index p < part_index q)%nat ->
  part_fname p img = None /\ replaced_before p img = false.
Proof.
  unfold replaced_before. intros Hr Hi.
  destruct q; cbn [parts_before existsb] in Hr;
    repeat (apply orb_false_iff in Hr; destruct Hr as [? Hr]);
    destruct p; cbn [part_index] in Hi; try lia;
    cbn [parts_before existsb];
    repeat match goal with
           | E : is_some (part_fname ?x img) = false |- _ =>
               destruct (part_fname x img); [discriminate E|clear E]
           end;
    split; reflexivity.
Qed.

Section HeaderFacts.

Variable H : bootimg_h.
Hypothesis Hok : bootimg_h_ok H = true.

Lemma original_offset_ext (q : part) (a b : t_abootimg) :
  page_size H a = page_size H b ->
  (forall p, (part_index p < part_index q)%nat ->
             part_size H p a = part_size H p b) ->
  original_offset H q a = original_offset H q b.
Proof.
  intros Ep Es. unfold original_offset.
  change (kernel_size H a) with (part_size H Kernel a).
  change (ramdisk_size H a) with (part_size H Ramdisk a).
  change (second_size H a) with (part_size H Second a).
  change (recovery_dtbo_size H a) with (part_size H Dtbo a).
  change (kernel_size H b) with (part_size H Kernel b).
  change (ramdisk_size H b) with (part_size H Ramdisk b).
  change (second_size H b) with (part_size H Second b).
  change (recovery_dtbo_size H b) with (part_size H Dtbo b).
  rewrite Ep.
  destruct q; cbn [part_index] in Es;
    rewrite ?(Es Kernel), ?(Es Ramdisk), ?(Es Second), ?(Es Dtbo)
      by (cbn [part_index]; lia);
    reflexivity.
Qed.

(** What the validator has checked of a header it accepts. *)
Lemma check_valid_header (img : t_abootimg) :
  check_boot_img_header H img = Ok Valid ->
  strncmp_eq (load (off_magic H) (BOOT_MAGIC_SIZE H) (header img))
    (BOOT_MAGIC H) (BOOT_MAGIC_SIZE H) = true
  /\ (1 <= header_version H img ->
      header_size H img = boot_img_header_size H img).
Proof.
  unfold check_boot_img_header.
  destruct (strncmp_eq (magic H img) (BOOT_MAGIC H) (BOOT_MAGIC_SIZE H))
    eqn:Em; cbn [negb]; [|discriminate].
  destruct (header_version H img >? 2); [discriminate|].
  destruct (Z.geb_spec (header_version H img) 1) as [Hv|Hv]; cbn [andb].
  - destruct (Z.eqb_spec (header_size H img) (boot_img_header_size H img));
      cbn [negb]; [|discriminate].
    intros _. split; [|auto].
    rewrite <- Em. unfold magic, load. symmetry. apply strncmp_eq_firstn.
  - intros _. split; [|lia].
    rewrite <- Em. unfold magic, load. symmetry. apply strncmp_eq_firstn.
Qed.

Lemma check_valid_intro (img : t_abootimg) :
  strncmp_eq (load (off_magic H) (BOOT_MAGIC_SIZE H) (header img))
    (BOOT_MAGIC H) (BOOT_MAGIC_SIZE H) = true ->
  header_version H img <= 2 ->
  (1 <= header_version H img ->
   header_size H img = boot_img_header_size H img) ->
  part_size H Kernel img <> 0 -> part_size H Ramdisk img <> 0 ->
  page_size H img <> 0 ->
  image_total_size H img <= size img ->
  check_boot_img_header H img = Ok Valid.
Proof.
  intros Em Hv Hh Hk Hr Hp Ht. unfold check_boot_img_header.
  unfold magic. rewrite strncmp_eq_firstn.
  change (firstn (BOOT_MAGIC_SIZE H) (skipn (off_magic H) (header img)))
    with (load (off_magic H) (BOOT_MAGIC_SIZE H) (header img)).
  rewrite Em. cbn [negb].
  destruct (Z.gtb_spec (header_version H img) 2); [lia|].
  destruct (Z.geb_spec (header_version H img) 1) as [Hv1|Hv1]; cbn [andb].
  - rewrite (Hh Hv1), Z.eqb_refl. cbn [negb].
    change (kernel_size H img) with (part_size H Kernel img).
    change (ramdisk_size H img) with (part_size H Ramdisk img).
    destruct (Z.eqb_spec (part_size H Kernel img) 0); [contradiction|].
    destruct (Z.eqb_spec (part_size H Ramdisk img) 0); [contradiction|].
    destruct (Z.eqb_spec (page_size H img) 0); [contradiction|].
    destruct (Z.gtb_spec (image_total_size H img) (size img)); [lia|].
    reflexivity.
  - change (kernel_size H img) with (part_size H Kernel img).
    change (ramdisk_size H img) with (part_size H Ramdisk img).
    destruct (Z.eqb_spec (part_size H Kernel img) 0); [contradiction|].
    destruct (Z.eqb_spec (part_size H Ramdisk img) 0); [contradiction|].
    destruct (Z.eqb_spec (page_size H img) 0); [contradiction|].
    destruct (Z.gtb_spec (image_total_size H img) (size img)); [lia|].
    reflexivity.
Qed.

(** [update_header_version]: the words it writes and what it leaves. *)
Lemma update_header_version_frame (img : t_abootimg) :
  length (header img) = sizeof_boot_img_hdr_v2 H ->
  let img' := update_header_version H img in
  let v := Z.max (header_version H img) (justified_version H img) in
  written_only
    (fun w => header_version H img < v
              /\ (w = off_header_version H \/ w = off_header_size H))
    (header img) (header img')
  /\ header_version H img' = v
  /\ (header_version H img < v ->
      header_size H img' = Z.of_nat (sizeof_hdr H v))
  /\ (forall p, part_size H p img' = part_size H p img)
  /\ size img' = size img
  /\ stream img' = stream img
  /\ (forall p, part_buffer p img' = part_buffer p img).
Proof.
  intros Hlen img' v. unfold img'.
  rewrite update_header_version_unfold. cbv zeta.
  destruct (Z.gtb_spec (justified_version H img) (header_version H img))
    as [Hgt|Hle].
  - assert (Ev : v = justified_version H img) by (unfold v; lia).
    pose proof (promoted_fields H Hok img Hlen) as Pf. cbv zeta in Pf.
    destruct Pf as (Pv & Ps & _ & _).
    rewrite Ev. split; [|split; [exact Pv|split; [intros _; exact Ps|]]].
    + rewrite !header_set_field32.
      apply (written_only_trans _ _
               (set_u32 (off_header_version H) (justified_version H img)
                  (header img)));
        apply written_only_set_u32; split; auto; lia.
    + split; [|split; [reflexivity|split; [reflexivity|]]].
      * intros p. unfold part_size. rewrite !header_set_field32.
        rewrite !get_set_u32_other
          by (destruct p; cbn [off_part_size]; fields_apart H Hok).
        reflexivity.
      * intros p. destruct p; reflexivity.
  - assert (Ev : v = header_version H img) by (unfold v; lia).
    split; [apply written_only_refl|]. split; [auto|].
    split; [lia|]. repeat split; reflexivity.
Qed.

End HeaderFacts.

Lemma pages_size_small a b s :
  0 < b -> a * b <= s -> s < UINT32_MOD -> 0 <= a ->
  0 <= a * b < UINT32_MOD.
Proof.
  intros Hb Hs Hm Ha. split; [apply Z.mul_nonneg_nonneg; lia|lia].
Qed.

Section UpdatedImage.

Variable H : bootimg_h.
Hypothesis Hok : bootimg_h_ok H = true.
Variable fs : string -> option (list byte).
Variables img img1 : t_abootimg.

Hypothesis Hlen : length (header img) = sizeof_boot_img_hdr_v2 H.
Hypothesis Hfeof : feof (stream img) = false.
Hypothesis Hbuf : forall p, part_buffer p img = None.
Hypothesis Hread : read_header H img = Ok img1.
Hypothesis Hsmall : Z.of_nat (length (contents (stream img))) < UINT32_MOD.
Hypothesis Hsizes1 : sizes_fit H img1.
Hypothesis Hfits1 : layout_fits H img1.
Hypothesis Hfiles :
  forall p fname,
    part_fname p img = Some fname ->
    exists data, fs fname = Some data /\ data <> [].
Hypothesis Hsizes :
  forall p, updated_size H fs img img1 p + page_size H img1 - 1 < UINT32_MOD.
Hypothesis Hpages :
  updated_pages H fs img img1 * page_size H img1 <= size img1.

(** The image decoded. *)
Lemma update_decoded :
  length (header img1) = sizeof_boot_img_hdr_v2 H
  /\ check_boot_img_header H img1 = Ok Valid
  /\ tail_zero H img1
  /\ contents (stream img1) = contents (stream img)
  /\ st_isblk (stream img1) = st_isblk (stream img)
  /\ size img1 = Z.of_nat (length (contents (stream img)))
  /\ (forall p, part_fname p img1 = part_fname p img)
  /\ (forall p, part_buffer p img1 = None)
  /\ 0 < page_size H img1 < UINT32_MOD
  /\ forall p,
       part_present H p img1 = true ->
       0 < part_size H p img1
       /\ 0 <= original_offset H p img1
       /\ (Z.to_nat (original_offset H p img1)
           + Z.to_nat (part_size H p img1)
           <= length (contents (stream img)))%nat.
Proof.
  destruct (read_header_inv H Hok img img1 Hlen Hfeof Hread)
    as (Hl & Ed & Hv).
  destruct (decoded_header H Hok img Hl) as (L1 & _ & T1 & _).
  rewrite <- Ed in L1, T1.
  assert (Ec : contents (stream img1) = contents (stream img))
    by (rewrite Ed; reflexivity).
  assert (Es : size img1 = Z.of_nat (length (contents (stream img)))).
  { rewrite Ed. cbn [decoded_image size set_size]. apply u32_small. lia. }
  split; [exact L1|]. split; [exact Hv|]. split; [exact T1|].
  split; [exact Ec|]. split; [rewrite Ed; reflexivity|].
  split; [exact Es|].
  split; [intros p; rewrite Ed; destruct p; reflexivity|].
  split; [intros p; rewrite <- (Hbuf p), Ed; destruct p; reflexivity|].
  rewrite <- Ec.
  apply (valid_regions_in_file H img1 Hv Hsizes1 Hfits1).
  rewrite Es, Ec. lia.
Qed.

Lemma update_named p fname :
  part_fname p img = Some fname ->
  exists data,
    fs fname = Some data /\ source_file fs img p = Some data
    /\ updated_size H fs img img1 p = Z.of_nat (length data)
    /\ updated_buffer H fs img img1 p = Some data
    /\ 0 < Z.of_nat (length data) < UINT32_MOD.
Proof.
  intros Ef. destruct (Hfiles p fname Ef) as (data & Ed & Nd).
  exists data. pose proof (Hsizes p) as Sp.
  destruct update_decoded as (_ & _ & _ & _ & _ & _ & _ & _ & Rp & _).
  unfold updated_size, updated_buffer, source_size, source_file in *.
  rewrite Ef, Ed in *.
  repeat (split; [reflexivity|]).
  destruct data; [congruence|]. cbn [length] in *. lia.
Qed.

Lemma update_part_ready p : part_ready H fs p img1.
Proof.
  destruct update_decoded as (_ & _ & _ & Ec & _ & _ & Fn & _ & _ & Reg).
  unfold part_ready. rewrite Fn.
  destruct (part_fname p img) as [fname|] eqn:Ef.
  - destruct (update_named p fname Ef) as (data & Ed & _ & _ & _ & Rd).
    exists data. split; [exact Ed|]. rewrite u32_small by lia. lia.
  - intros Hre. unfold reread in Hre. apply andb_true_iff in Hre.
    destruct Hre as [_ Hpres]. rewrite Ec.
    destruct (Reg p Hpres) as (Sp & _ & Rin). split; assumption.
Qed.

(** [update_images] on the image decoded. *)
Lemma update_assembled :
  exists img5,
    update_images H fs img1 = Ok img5
    /\ st_isblk (stream img5) = st_isblk (stream img)
    /\ contents (stream img5) = contents (stream img)
    /\ size img5 = size img1
    /\ page_size H img5 = page_size H img1
    /\ written_only (replaced_size_field H img) (header img1) (header img5)
    /\ (forall p, part_size H p img5 = updated_size H fs img img1 p)
    /\ (forall p, part_buffer p img5 = updated_buffer H fs img img1 p).
Proof.
  destruct update_decoded
    as (L1 & Hv & _ & Ec & Eb & Es & Fn & Bn & Rp & Reg).
  destruct (update_images_ready H Hok fs img1 L1 ltac:(lia) update_part_ready)
    as (i1 & oc1 & i2 & oc2 & i3 & oc3 & i4 & oc4 & img5 & oc5
        & S1 & S2 & S3 & S4 & S5 & E).
  destruct (stages_assemble H Hok fs _ _ _ _ _ _ _ _ _ _ _ L1 S1 S2 S3 S4 S5)
    as ((_ & G5c & G5s & _ & G5l & G5p) & A).
  destruct (update_images_header H Hok fs _ _ _ _ _ _ _ _ _ _ _ L1
              S1 S2 S3 S4 S5) as (Kb & Wh).
  assert (Sz : forall p, part_size H p img5 = updated_size H fs img img1 p
                         /\ part_buffer p img5
                            = updated_buffer H fs img img1 p).
  { intros p. pose proof (A p) as Ap.
    unfold part_assembled in Ap. rewrite Fn in Ap.
    unfold updated_size, updated_buffer.
    destruct (part_fname p img) as [fname|] eqn:Ef.
    - destruct Ap as (data & Ed & _ & _ & Ap).
      destruct (update_named p fname Ef) as (data' & Ed' & Ef' & Es' & _ & Rd).
      assert (data' = data) by congruence. subst data'.
      destruct (Ap ltac:(lia)) as [Esz Ebf].
      unfold updated_size in Es'. rewrite Ef in Es'.
      rewrite Esz, Ebf, Es', Ef'. split; reflexivity.
    - destruct Ap as [Esz Ebf]. rewrite Esz, Ebf, Bn.
      split; reflexivity. }
  assert (Et : image_total_size H img5
               = updated_pages H fs img img1 * page_size H img1).
  { unfold image_total_size, total_size.
    change (kernel_size H img5) with (part_size H Kernel img5).
    change (ramdisk_size H img5) with (part_size H Ramdisk img5).
    change (second_size H img5) with (part_size H Second img5).
    change (recovery_dtbo_size H img5) with (part_size H Dtbo img5).
    change (dtb_size H img5) with (part_size H Dtb img5).
    rewrite !(proj1 (Sz _)), G5p.
    fold (updated_pages H fs img img1).
    apply u32_small.
    apply (pages_size_small _ _ (size img1)); try lia.
    unfold updated_pages. cbv zeta.
    pose proof (npages_nonneg (page_size H img1)
                  (updated_size H fs img img1 Kernel) ltac:(lia)).
    pose proof (npages_nonneg (page_size H img1)
                  (updated_size H fs img img1 Ramdisk) ltac:(lia)).
    pose proof (npages_nonneg (page_size H img1)
                  (updated_size H fs img img1 Second) ltac:(lia)).
    pose proof (npages_nonneg (page_size H img1)
                  (updated_size H fs img img1 Dtbo) ltac:(lia)).
    pose proof (npages_nonneg (page_size H img1)
                  (updated_size H fs img img1 Dtb) ltac:(lia)).
    lia. }
  exists img5. split.
  { rewrite E. unfold fit_container. rewrite Et, G5s.
    assert (Hpos : 0 < size img1).
    { destruct (offsets_past_header H img1 ltac:(lia) Hfits1)
        as (_ & _ & _ & _ & _ & Ok6). cbv zeta in Ok6.
      destruct (check_valid_inv H img1 Hv) as (_ & _ & _ & _ & Ht). lia. }
    destruct (Z.eqb_spec (size img1) 0); [lia|].
    destruct (Z.gtb_spec (updated_pages H fs img img1 * page_size H img1)
                (size img1)); [lia|reflexivity]. }
  split; [congruence|]. split; [congruence|]. split; [exact G5s|].
  split; [exact G5p|]. split.
  { apply (written_only_incl (replaced_size_field H img1)); [|exact Wh].
    intros w (p & Hp & ->). exists p. rewrite <- Fn. split; auto. }
  split; intros p; apply Sz.
Qed.

Lemma sizeof_hdr_mono a b :
  0 <= a <= b -> (sizeof_hdr H a <= sizeof_hdr H b)%nat.
Proof.
  intros Hab. pose proof (layout_bounds H Hok) as B. unfold sizeof_hdr.
  destruct (Z.eqb_spec a 0), (Z.eqb_spec b 0); try lia;
    destruct (Z.eqb_spec a 1), (Z.eqb_spec b 1); lia.
Qed.

(** The image [update] writes: what its header holds. *)
Lemma update_image :
  Z.of_nat (sizeof_boot_img_hdr_v2 H) <= page_size H img1 ->
  st_isblk (stream img) = false ->
  exists img4,
    (forall buffered,
        main_update H fs buffered img [] [] = write_bootimg H buffered img4)
    /\ length (header img4) = sizeof_boot_img_hdr_v2 H
    /\ check_boot_img_header H img4 = Ok Valid
    /\ page_size H img4 = page_size H img1
    /\ size img4 = size img1
    /\ contents (stream img4) = contents (stream img)
    /\ st_isblk (stream img4) = false
    /\ (forall p, part_size H p img4 = updated_size H fs img img1 p)
    /\ (forall p, part_buffer p img4 = updated_buffer H fs img img1 p)
    /\ tail_zero H img4
    /\ written_only
         (fun w => replaced_size_field H img w
                   \/ w = off_header_version H \/ w = off_header_size H)
         (header img1) (header img4).
Proof.
  intros Hpage Hreg.
  destruct update_decoded
    as (L1 & Hv & T1 & Ec & Eb & Es & Fn & Bn & Rp & Reg).
  destruct update_assembled
    as (img5 & E5 & K5 & C5 & S5 & P5 & W5 & Sz5 & Bf5).
  assert (L5 : length (header img5) = sizeof_boot_img_hdr_v2 H)
    by (destruct W5 as [L _]; congruence).
  destruct (update_header_version_frame H Hok img5 L5)
    as (Wv & Ev & Ehs & Szv & Esz & Est & Ebf).
  cbv zeta in *.
  set (img4 := update_header_version H img5) in *.
  pose proof (layout_bounds H Hok) as B.
  destruct (check_valid_inv H img1 Hv) as (Hv2 & Hk1 & Hr1 & _ & Ht1).
  destruct (check_valid_header H img1 Hv) as (Hm1 & Hh1).
  pose proof (get_u32_range (off_header_version H) (header img1)) as Rv1.
  fold (header_version H img1) in Rv1.
  pose proof (justified_version_range H img5) as Rj.
  assert (V5 : header_version H img5 = header_version H img1).
  { unfold header_version. apply (written_only_get_u32 _ _ _ _ W5).
    intros w (p & _ & ->). destruct p; cbn [off_part_size];
      fields_apart H Hok. }
  assert (Hs5 : header_size H img5 = header_size H img1).
  { unfold header_size. apply (written_only_get_u32 _ _ _ _ W5).
    intros w (p & _ & ->). destruct p; cbn [off_part_size];
      fields_apart H Hok. }
  set (v := Z.max (header_version H img5) (justified_version H img5)) in *.
  assert (Rv : header_version H img1 <= v <= 2) by (unfold v; lia).
  pose proof (sizeof_hdr_bounds H Hok v) as Bh.
  pose proof (sizeof_hdr_bounds H Hok (header_version H img1)) as Bh1.
  pose proof (sizeof_hdr_mono (header_version H img1) v ltac:(lia)) as Mh.
  assert (S1 : 1 <= v -> (sizeof_boot_img_hdr_v1 H <= sizeof_hdr H v)%nat).
  { unfold sizeof_hdr. destruct (Z.eqb_spec v 0); [lia|].
    destruct (v =? 1); lia. }
  assert (S2 : 2 <= v -> sizeof_hdr H v = sizeof_boot_img_hdr_v2 H).
  { intros Hv'. assert (v = 2) as -> by lia. reflexivity. }
  assert (Jo : part_size H Dtbo img5 <> 0 -> 1 <= v).
  { intros Nz. assert (1 <= justified_version H img5); [|lia].
    unfold justified_version.
    destruct (dtb_size H img5 =? 0); cbn [negb]; [|lia].
    change (recovery_dtbo_size H img5) with (part_size H Dtbo img5).
    destruct (Z.eqb_spec (part_size H Dtbo img5) 0); cbn [negb]; lia. }
  assert (Jd : part_size H Dtb img5 <> 0 -> 2 <= v).
  { intros Nz. assert (2 <= justified_version H img5); [|lia].
    unfold justified_version.
    change (dtb_size H img5) with (part_size H Dtb img5).
    destruct (Z.eqb_spec (part_size H Dtb img5) 0); cbn [negb]; lia. }
  assert (Hnz : forall p fname,
             part_fname p img = Some fname -> part_size H p img5 <> 0).
  { intros p fname Ef.
    destruct (update_named p fname Ef) as (d & _ & _ & Es' & _ & Rd).
    rewrite Sz5, Es'. lia. }
  (* the words written lie in the structure of the version *)
  assert (Hin5 : forall w, replaced_size_field H img w ->
                           (w + 4 <= sizeof_hdr H v)%nat).
  { intros w (p & Hp & ->).
    destruct (part_fname p img) as [fname|] eqn:Ef; [|congruence].
    pose proof (Hnz p fname Ef) as Nz.
    destruct p; cbn [off_part_size]; lia. }
  assert (Hinv : forall w,
             header_version H img5 < v
             /\ (w = off_header_version H \/ w = off_header_size H) ->
             (w + 4 <= sizeof_hdr H v)%nat).
  { intros w (Hlt & [->| ->]); [lia|].
    specialize (S1 ltac:(lia)). lia. }
  assert (W4 : written_only
                 (fun w => replaced_size_field H img w
                           \/ w = off_header_version H
                           \/ w = off_header_size H)
                 (header img1) (header img4)).
  { apply (written_only_trans _ _ (header img5)).
    - apply (written_only_incl (replaced_size_field H img)); [|exact W5].
      intros w Hw. left. exact Hw.
    - apply (written_only_incl
               (fun w => header_version H img5 < v
                         /\ (w = off_header_version H
                             \/ w = off_header_size H))); [|exact Wv].
      intros w (_ & Hw). right. exact Hw. }
  assert (L4 : length (header img4) = sizeof_boot_img_hdr_v2 H)
    by (destruct Wv as [L _]; congruence).
  assert (P4 : page_size H img4 = page_size H img1).
  { rewrite <- P5. unfold page_size.
    apply (written_only_get_u32 _ _ _ _ Wv).
    intros w (_ & [->| ->]); fields_apart H Hok. }
  assert (Sz4 : forall p, part_size H p img4 = updated_size H fs img img1 p)
    by (intros p; rewrite Szv; apply Sz5).
  assert (Et : image_total_size H img4
               = updated_pages H fs img img1 * page_size H img1).
  { unfold image_total_size, total_size.
    change (kernel_size H img4) with (part_size H Kernel img4).
    change (ramdisk_size H img4) with (part_size H Ramdisk img4).
    change (second_size H img4) with (part_size H Second img4).
    change (recovery_dtbo_size H img4) with (part_size H Dtbo img4).
    change (dtb_size H img4) with (part_size H Dtb img4).
    rewrite !Sz4, P4. fold (updated_pages H fs img img1).
    apply u32_small.
    apply (pages_size_small _ _ (size img1)); try lia.
    unfold updated_pages. cbv zeta.
    pose proof (npages_nonneg (page_size H img1)
                  (updated_size H fs img img1 Kernel) ltac:(lia)).
    pose proof (npages_nonneg (page_size H img1)
                  (updated_size H fs img img1 Ramdisk) ltac:(lia)).
    pose proof (npages_nonneg (page_size H img1)
                  (updated_size H fs img img1 Second) ltac:(lia)).
    pose proof (npages_nonneg (page_size H img1)
                  (updated_size H fs img img1 Dtbo) ltac:(lia)).
    pose proof (npages_nonneg (page_size H img1)
                  (updated_size H fs img img1 Dtb) ltac:(lia)).
    lia. }
  assert (Hmand : forall p, mandatory p = true -> part_size H p img4 <> 0).
  { intros p Hm. destruct (part_fname p img) as [fname|] eqn:Ef.
    - rewrite Szv. apply (Hnz p fname Ef).
    - rewrite Sz4. unfold updated_size. rewrite Ef.
      destruct p; try discriminate Hm; assumption. }
  exists img4.
  split.
  { intros buffered. unfold main_update. rewrite Hread.
    cbn [bind update_header update_header_lines]. rewrite E5. reflexivity. }
  split; [exact L4|]. split.
  { apply check_valid_intro.
    - rewrite (proj2 W4); [exact Hm1|].
      intros w [(p & _ & ->)|[->| ->]];
        [destruct p; cbn [off_part_size]|..]; fields_apart H Hok.
    - rewrite Ev. lia.
    - rewrite Ev. intros Hv1. unfold boot_img_header_size. rewrite Ev.
      destruct (Z.lt_ge_cases (header_version H img5) v) as [Hlt|Hge].
      + apply Ehs. exact Hlt.
      + assert (Evv : v = header_version H img1) by lia.
        rewrite Evv.
        assert (Eh4 : header_size H img4 = header_size H img5).
        { unfold header_size. apply (written_only_get_u32 _ _ _ _ Wv).
          intros w (Hlt & _). lia. }
        rewrite Eh4, Hs5. apply Hh1. lia.
    - apply Hmand. reflexivity.
    - apply Hmand. reflexivity.
    - rewrite P4. lia.
    - rewrite Et, Esz, S5. exact Hpages. }
  split; [exact P4|]. split; [congruence|].
  split; [rewrite Est; exact C5|].
  split; [rewrite Est; congruence|].
  split; [exact Sz4|].
  split; [intros p; rewrite Ebf; apply Bf5|].
  split; [|exact W4].
  clearbody v img4.
  unfold tail_zero. rewrite Ev.
  assert (El : forall h, length h = sizeof_boot_img_hdr_v2 H ->
                 skipn (sizeof_hdr H v) h
                 = load (sizeof_hdr H v)
                     (sizeof_boot_img_hdr_v2 H - sizeof_hdr H v) h).
  { intros h Lh. unfold load. rewrite firstn_all2; [reflexivity|].
    rewrite length_skipn. lia. }
  rewrite (El _ L4).
  rewrite (proj2 Wv) by (intros w Hw; right; apply Hinv; exact Hw).
  rewrite (proj2 W5) by (intros w Hw; right; apply Hin5; exact Hw).
  rewrite <- (El _ L1).
  unfold tail_zero in T1.
  replace (sizeof_hdr H v)
    with ((sizeof_hdr H v - sizeof_hdr H (header_version H img1))
          + sizeof_hdr H (header_version H img1))%nat by lia.
  rewrite <- skipn_skipn, T1, skipn_zeros. f_equal.
  clear - Mh Bh Bh1. lia.
Qed.

End UpdatedImage.

Section UpdatedAndExtracted.

Variable H : bootimg_h.
Hypothesis Hok : bootimg_h_ok H = true.

(** X12: an update replaces the parts named and keeps the others.  On a
    regular image that [read_header] accepts, with no configuration, when
    every replacement file exists and is not empty, the page holds the
    largest header structure, and the new layout does not wrap and fits the
    size of the file, [update] leaves an image, and [extract] run on that
    image writes, for each part, the replacement file if one was given and
    otherwise the bytes the part had in the image before, whether [update]
    had to move the part or left it in place, and the configuration the
    image had with the length of the image left for boot size: the size the
    file had, or up to a page more when the stream held back bytes that end
    past it. *)
Theorem updated_image_extracts (buffered : nat)
  (fs : string -> option (list byte))
  (img img1 imgx : t_abootimg) (names : t_names) (fsx : file_system)
  (c : string) (text : list byte) :
  length (header img) = sizeof_boot_img_hdr_v2 H ->
  feof (stream img) = false ->
  st_isblk (stream img) = false ->
  (forall p, part_buffer p img = None) ->
  read_header H img = Ok img1 ->
  Z.of_nat (length (contents (stream img))) + page_size H img1
  < UINT32_MOD ->
  sizes_fit H img1 -> layout_fits H img1 ->
  Z.of_nat (sizeof_boot_img_hdr_v2 H) <= page_size H img1 ->
  (forall p fname,
      part_fname p img = Some fname ->
      exists data, fs fname = Some data /\ data <> []) ->
  (forall p,
      updated_size H fs img img1 p + page_size H img1 - 1 < UINT32_MOD) ->
  updated_pages H fs img img1 * page_size H img1 <= size img1 ->
  length (header imgx) = sizeof_boot_img_hdr_v2 H ->
  (forall p, part_fname p imgx <> None) ->
  config_fname names = Some c ->
  bootimg_config H img1 = Ok text ->
  exists img' img2 text',
    main_update H fs buffered img [] [] = Ok img'
    /\ size img1 <= Z.of_nat (length (contents (stream img')))
       <= size img1 + page_size H img1
    /\ bootimg_config H
         (set_size (Z.of_nat (length (contents (stream img')))) false img1)
       = Ok text'
    /\ (buffered = O
        \/ (updated_pages H fs img img1 + 1) * page_size H img1 <= size img1 ->
        Z.of_nat (length (contents (stream img'))) = size img1
        /\ text' = text)
    /\ main_extract H (set_stream (fopen (contents (stream img')) false) imgx)
         names fsx
       = Ok (img2,
             write_files
               ((c, text')
                :: updated_file H fs img img1 imgx Kernel
                ++ updated_file H fs img img1 imgx Ramdisk
                ++ updated_file H fs img img1 imgx Second
                ++ updated_file H fs img img1 imgx Dtbo
                ++ updated_file H fs img img1 imgx Dtb) fsx).
Proof.
  intros Hlen Hfeof Hreg Hbuf Hread Hsmallp Hsizes1 Hfits1 Hpage Hfiles
    Hsizes Hpages Hlenx Hnx Hc Ht.
  assert (Hsmall : Z.of_nat (length (contents (stream img))) < UINT32_MOD).
  { pose proof (get_u32_range (off_page_size H) (header img1)) as Rp1.
    fold (page_size H img1) in Rp1. lia. }
  destruct (update_decoded H Hok img img1 Hlen Hfeof Hbuf Hread Hsmall
              Hsizes1 Hfits1)
    as (L1 & Hv1 & T1 & Ec1 & Eb1 & Es1 & Fn & Bn & Rp & Reg).
  destruct (update_image H Hok fs img img1 Hlen Hfeof Hbuf Hread Hsmall
              Hsizes1 Hfits1 Hfiles Hsizes Hpages Hpage Hreg)
    as (img4 & Em & L4 & Hv4 & P4 & Es4 & Ec4 & Kb4 & Sz4 & Bf4 & T4 & W4).
  pose proof (sizeof_hdr_bounds H Hok (header_version H img4)) as Bh.
  (* the parts that have no replacement *)
  assert (Hun : forall p,
             part_fname p img = None ->
             part_size H p img4 = part_size H p img1
             /\ part_present H p img4 = part_present H p img1).
  { intros p Ef.
    assert (E : part_size H p img4 = part_size H p img1)
      by (rewrite Sz4; unfold updated_size; rewrite Ef; reflexivity).
    split; [exact E|]. unfold part_present. rewrite E. reflexivity. }
  assert (Hkeep : forall q,
             part_fname q img = None ->
             part_present H q img1 = true ->
             reread H q img1 = false ->
             (forall p, (part_index p < part_index q)%nat ->
                        part_fname p img = None
                        /\ part_buffer p img4 = None)
             /\ original_offset H q img4 = original_offset H q img1).
  { intros q Ef Hpres Hre.
    unfold reread in Hre. unfold part_present in Hpres.
    rewrite Hpres, andb_true_r in Hre.
    assert (Hb : forall p, (part_index p < part_index q)%nat ->
                           part_fname p img = None
                           /\ part_buffer p img4 = None).
    { intros p Hi.
      destruct (replaced_before_none p q img1 Hre Hi) as [Efp Hrp].
      rewrite Fn in Efp. split; [exact Efp|].
      rewrite Bf4. unfold updated_buffer, reread. rewrite Efp, Hrp.
      reflexivity. }
    split; [exact Hb|].
    apply (original_offset_ext H q img4 img1 P4).
    intros p Hi. apply Hun. apply Hb. exact Hi. }
  (* what the image written is to hold for each part *)
  assert (Hexp : forall p,
             part_present H p img4 = true ->
             [(c, region_expected H img4 (stream img4) p)]
             = match part_fname p img with
               | Some _ =>
                   match source_file fs img p with
                   | Some data => [(c, data)]
                   | None => []
                   end
               | None => [(c, part_region H p img1)]
               end).
  { intros p Hpres. unfold region_expected. rewrite Bf4, Sz4.
    unfold updated_buffer, updated_size.
    destruct (part_fname p img) as [fname|] eqn:Ef.
    - destruct (update_named H Hok fs img img1 Hlen Hfeof Hbuf Hread Hsmall
                  Hsizes1 Hfits1 Hfiles Hsizes p fname Ef)
        as (d & _ & Esf & Esz & _ & Rd).
      unfold updated_size in Esz. rewrite Ef in Esz.
      rewrite Esf, Esz, Nat2Z.id, firstn_all. reflexivity.
    - destruct (Hun p Ef) as [Esz Epr]. rewrite Epr in Hpres.
      destruct (Reg p Hpres) as (Sp & Op & Rin).
      destruct (reread H p img1) eqn:Hre.
      + unfold part_region, stream_bytes.
        rewrite firstn_firstn, Nat.min_id. reflexivity.
      + destruct (Hkeep p Ef Hpres Hre) as [_ Eo].
        unfold part_region. rewrite Eo.
        rewrite (stream_bytes_contents (stream img4) (stream img1))
          by congruence.
        reflexivity. }
  assert (Hpage4 : boot_img_header_size H img4 <= page_size H img4)
    by (unfold boot_img_header_size; rewrite P4; lia).
  assert (Hsz4 : sizes_fit H img4)
    by (intros p; rewrite Sz4, P4; apply Hsizes).
  assert (Hfit4 : layout_fits H img4).
  { unfold layout_fits.
    change (kernel_size H img4) with (part_size H Kernel img4).
    change (ramdisk_size H img4) with (part_size H Ramdisk img4).
    change (second_size H img4) with (part_size H Second img4).
    change (recovery_dtbo_size H img4) with (part_size H Dtbo img4).
    change (dtb_size H img4) with (part_size H Dtb img4).
    rewrite !Sz4, P4. fold (updated_pages H fs img img1). lia. }
  assert (Hpay4 : payloads_fit H img4).
  { intros p buf Eb. rewrite Bf4 in Eb. rewrite Sz4.
    unfold updated_buffer, updated_size in *.
    destruct (part_fname p img) as [fname|] eqn:Ef.
    - unfold source_size. rewrite Eb. lia.
    - destruct (reread H p img1) eqn:Hre; [|discriminate Eb].
      injection Eb as <-.
      unfold reread in Hre. apply andb_true_iff in Hre.
      destruct Hre as [_ Hpres].
      destruct (Reg p Hpres) as (Sp & Op & Rin).
      unfold part_region, stream_bytes.
      rewrite length_firstn, length_skipn, Ec1. lia. }
  assert (Hkept4 : kept_parts_first H img4 (stream img4)).
  { intros q Hpres Eb.
    assert (Ef : part_fname q img = None).
    { destruct (part_fname q img) as [fname|] eqn:Ef; [|reflexivity].
      destruct (update_named H Hok fs img img1 Hlen Hfeof Hbuf Hread Hsmall
                  Hsizes1 Hfits1 Hfiles Hsizes q fname Ef)
        as (d & _ & _ & _ & Ebf & _).
      rewrite Bf4, Ebf in Eb. discriminate Eb. }
    destruct (Hun q Ef) as [Esz Epr]. rewrite Epr in Hpres.
    assert (Hre : reread H q img1 = false).
    { rewrite Bf4 in Eb. unfold updated_buffer in Eb. rewrite Ef in Eb.
      destruct (reread H q img1); [discriminate Eb|reflexivity]. }
    destruct (Hkeep q Ef Hpres Hre) as [Hb Eo].
    destruct (Reg q Hpres) as (Sp & Op & Rin).
    split.
    - intros p Hi. unfold part_written.
      rewrite (proj2 (Hb p Hi)). reflexivity.
    - rewrite Eo, Esz, Ec4. exact Rin. }
  assert (Hsize4 : size img4 < UINT32_MOD) by lia.
  destruct (write_bootimg_regions H Hok buffered img4 L4 Hv4 Hpage4 Hsz4
              Hfit4 Hpay4 Kb4 Hkept4) as (f' & E & _ & L & Xt & Ph & Rg).
  cbv zeta in Ph.
  destruct (check_valid_inv H img4 Hv4) as (_ & _ & _ & Hp04 & Htot4).
  assert (Hs4 : 0 <= size img4).
  { unfold image_total_size, total_size in Htot4.
    match type of Htot4 with
    | u32 ?t <= _ => pose proof (u32_range t)
    end.
    lia. }
  destruct (left_length_bounds H img4 buffered f' Hs4 Xt) as (B1 & B2 & B3).
  rewrite <- L in B1, B2, B3.
  assert (Et4 : image_total_size H img4
                = updated_pages H fs img img1 * page_size H img1).
  { unfold layout_fits in Hfit4. cbv zeta in Hfit4.
    unfold image_total_size, total_size.
    rewrite u32_small.
    - change (kernel_size H img4) with (part_size H Kernel img4).
      change (ramdisk_size H img4) with (part_size H Ramdisk img4).
      change (second_size H img4) with (part_size H Second img4).
      change (recovery_dtbo_size H img4) with (part_size H Dtbo img4).
      change (dtb_size H img4) with (part_size H Dtb img4).
      rewrite !Sz4, P4. reflexivity.
    - split; [|exact Hfit4].
      destruct (offsets_past_header H img4 ltac:(lia) Hfit4)
        as (_ & _ & _ & _ & _ & Ok6).
      cbv zeta in Ok6. unfold image_total_size, total_size in Ok6.
      rewrite u32_small in Ok6; [lia|].
      split; [|exact Hfit4].
      pose proof (npages_nonneg (page_size H img4) (kernel_size H img4)
                    ltac:(lia)).
      pose proof (npages_nonneg (page_size H img4) (ramdisk_size H img4)
                    ltac:(lia)).
      pose proof (npages_nonneg (page_size H img4) (second_size H img4)
                    ltac:(lia)).
      pose proof (npages_nonneg (page_size H img4)
                    (recovery_dtbo_size H img4) ltac:(lia)).
      pose proof (npages_nonneg (page_size H img4) (dtb_size H img4)
                    ltac:(lia)).
      apply Z.mul_nonneg_nonneg; lia. }
  assert (Hlen' : Z.of_nat (length (contents f')) < UINT32_MOD).
  { rewrite Et4, P4, Es4 in B2. rewrite Es1 in *. lia. }
  destruct (written_image_decodes H Hok img4 imgx f' L4 Hlenx Hv4 Hpage4
              Hfit4 T4 B1 Hlen' Ph) as (Er & Eh & Es).
  cbv zeta in Er, Eh, Es.
  set (x := set_stream (fopen (contents f') false) imgx) in *.
  set (d := decoded_image H x) in *.
  destruct (header_determines H d img4 Eh) as (Dz & Dp & Do & Dpres & Ds & Df).
  assert (Hn' : forall p, part_fname p x <> None)
    by (intros p;
        replace (part_fname p x) with (part_fname p imgx)
          by (destruct p; reflexivity);
        apply Hnx).
  destruct (bootimg_config_resized H img1 (Z.of_nat (length (contents f')))
              false text Ht) as (text' & Ht1 & Et).
  assert (Ht' : bootimg_config H d = Ok text').
  { rewrite <- Ht1. unfold bootimg_config, name, cmdline, page_size,
      kernel_addr, ramdisk_addr, second_addr, tags_addr,
      recovery_dtbo_offset, dtb_addr, get_u32, get_u64.
    cbn [header size set_size].
    rewrite Eh, Es.
    rewrite !(proj2 W4)
      by (intros w [(p & _ & ->)|[->| ->]];
          [destruct p; cbn [off_part_size]|..]; fields_apart H Hok).
    reflexivity. }
  destruct (main_extract_ok H Hok x d names fsx c text' Hlenx eq_refl Er
              (proj2 Ds Hsz4) (proj2 Df Hfit4) Hn' Hc Ht')
    as (img2 & Ex & _ & _).
  exists (set_stream f' img4), img2, text'. split; [rewrite Em; exact E|].
  cbn [stream set_stream]. fold x.
  split; [rewrite Et4, P4, Es4 in B2; lia|].
  split; [exact Ht1|].
  split.
  { intros Hc'.
    assert (El : length (contents f') = Z.to_nat (size img4)).
    { apply B3. destruct Hc' as [Hb0|Hroom]; [left; exact Hb0|right].
      rewrite Et4, P4, Es4. lia. }
    split; [rewrite El; lia|]. apply Et. rewrite El. lia. }
  rewrite Ex. unfold extracted_files.
  assert (Ef : forall p, part_file H d p = updated_file H fs img img1 imgx p).
  { intros p. unfold part_file, updated_file. rewrite Dpres.
    replace (part_fname p d) with (part_fname p imgx)
      by (destruct p; reflexivity).
    destruct (part_fname p imgx) as [m|] eqn:Em'; [|destruct (Hnx p Em')].
    destruct (part_present H p img4) eqn:Hpres.
    - assert (In p [Dtb; Dtbo; Second; Ramdisk; Kernel]) as Hin
        by (destruct p; cbn [In]; auto 6).
      destruct (Rg p Hin Hpres) as [Sb _].
      pose proof (Hexp p Hpres) as Hx.
      unfold part_region. rewrite Do, Dz.
      replace (stream_bytes (stream d) (original_offset H p img4)
                 (part_size H p img4))
        with (region_expected H img4 (stream img4) p)
        by (rewrite <- Sb; reflexivity).
      destruct (part_fname p img) as [fname|] eqn:Efp.
      + destruct (source_file fs img p) as [data|];
          [|discriminate Hx].
        injection Hx as ->. reflexivity.
      + destruct (Hun p Efp) as [_ Epr]. rewrite <- Epr, Hpres.
        injection Hx as ->. reflexivity.
    - destruct (part_fname p img) as [fname|] eqn:Efp.
      + destruct (update_named H Hok fs img img1 Hlen Hfeof Hbuf Hread Hsmall
                    Hsizes1 Hfits1 Hfiles Hsizes p fname Efp)
          as (dd & _ & _ & Esz & _ & Rd).
        unfold part_present in Hpres. rewrite Sz4, Esz in Hpres.
        destruct (Z.eqb_spec (Z.of_nat (length dd)) 0); [lia|].
        cbn [negb] in Hpres. rewrite orb_true_r in Hpres.
        discriminate Hpres.
      + destruct (Hun p Efp) as [_ Epr]. rewrite <- Epr, Hpres.
        reflexivity. }
  rewrite !Ef. reflexivity.
Qed.

End UpdatedAndExtracted.

Lemma updated_image_extracts_witness :
  (exists img' img2 fs',
      main_update aosp_bootimg_h example_fs 4096 example_update_kernel [] []
      = Ok img'
      /\ main_extract aosp_bootimg_h
           (set_stream (fopen (contents (stream img')) false)
              (new_bootimg aosp_bootimg_h))
           new_bootimg_names (fun _ => None) = Ok (img2, fs')
      /\ fs' "zImage"%string = Some (str "NEWKERNEL")
      /\ fs' "initrd.img"%string = Some (repeat x52 (Z.to_nat 3000))
      /\ fs' "stage2.img"%string = None)
  /\ exists img' img2 fs' text,
       main_update aosp_bootimg_h example_page_fs 4096 example_update_exact
         [] [] = Ok img'
       /\ length (contents (stream example_update_exact)) = Z.to_nat 6144
       /\ length (contents (stream img')) = Z.to_nat 8192
       /\ main_extract aosp_bootimg_h
            (set_stream (fopen (contents (stream img')) false)
               (new_bootimg aosp_bootimg_h))
            new_bootimg_names (fun _ => None) = Ok (img2, fs')
       /\ fs' "zImage"%string = Some (repeat x4b 2048)
       /\ fs' "initrd.img"%string = Some (repeat x52 2048)
       /\ fs' "bootimg.cfg"%string = Some text
       /\ firstn 17 text = str "bootsize = 0x2000".
Proof.
  split.
  - destruct (updated_image_extracts aosp_bootimg_h eq_refl 4096 example_fs
                example_update_kernel
                (decoded_image aosp_bootimg_h example_update_kernel)
                (new_bootimg aosp_bootimg_h) new_bootimg_names
                (fun _ => None) "bootimg.cfg" example_config_text)
      as (img' & img2 & text' & E1 & _ & _ & _ & E2).
    + reflexivity.
    + reflexivity.
    + reflexivity.
    + intros p. destruct p; reflexivity.
    + vm_compute. reflexivity.
    + vm_compute. reflexivity.
    + intros p. destruct p; vm_compute; reflexivity.
    + unfold layout_fits. vm_compute. reflexivity.
    + vm_compute. discriminate.
    + intros p fname Ef.
      destruct p; cbn in Ef; inversion Ef; subst fname.
      eexists. split; [reflexivity|discriminate].
    + intros p. destruct p; vm_compute; reflexivity.
    + vm_compute. discriminate.
    + reflexivity.
    + intros p. destruct p; discriminate.
    + reflexivity.
    + vm_compute. reflexivity.
    + exists img', img2. eexists. split; [exact E1|]. split; [exact E2|].
      repeat split; vm_compute; reflexivity.
  - destruct (bootimg_config aosp_bootimg_h
                (decoded_image aosp_bootimg_h example_update_exact))
      as [text| |] eqn:Ht; [|vm_compute in Ht; discriminate Ht ..].
    destruct (updated_image_extracts aosp_bootimg_h eq_refl 4096
                example_page_fs example_update_exact
                (decoded_image aosp_bootimg_h example_update_exact)
                (new_bootimg aosp_bootimg_h) new_bootimg_names
                (fun _ => None) "bootimg.cfg" text)
      as (img' & img2 & text' & E1 & _ & Ec & _ & E2).
    + reflexivity.
    + reflexivity.
    + reflexivity.
    + intros p. destruct p; reflexivity.
    + vm_compute. reflexivity.
    + vm_compute. reflexivity.
    + intros p. destruct p; vm_compute; reflexivity.
    + unfold layout_fits. vm_compute. reflexivity.
    + vm_compute. discriminate.
    + intros p fname Ef.
      destruct p; vm_compute in Ef; inversion Ef; subst fname.
      eexists. split; [reflexivity|discriminate].
    + intros p. destruct p; vm_compute; reflexivity.
    + vm_compute. discriminate.
    + reflexivity.
    + intros p. destruct p; discriminate.
    + reflexivity.
    + exact Ht.
    + assert (F : holds_on
                    (main_update aosp_bootimg_h example_page_fs 4096
                       example_update_exact [] [])
                    (fun i =>
                       length (contents (stream i)) = Z.to_nat 8192
                       /\ holds_on
                            (bootimg_config aosp_bootimg_h
                               (set_size (Z.of_nat (Z.to_nat 8192)) false
                                  (decoded_image aosp_bootimg_h
                                     example_update_exact)))
                            (fun t => firstn 17 t = str "bootsize = 0x2000")))
        by (vm_compute; split; reflexivity).
      rewrite E1 in F. cbn [holds_on] in F. destruct F as (F1 & F2).
      rewrite F1 in Ec. rewrite Ec in F2. cbn [holds_on] in F2.
      exists img', img2. eexists. exists text'.
      split; [exact E1|]. split; [vm_compute; reflexivity|].
      split; [exact F1|]. split; [exact E2|].
      split; [reflexivity|]. split; [vm_compute; reflexivity|].
      split; [reflexivity|exact F2].
Defined.

(** ** When [update_images] succeeds *)

Section AssemblyConditions.

Variable H : bootimg_h.
Hypothesis Hok : bootimg_h_ok H = true.
Variable fs : string -> option (list byte).

(** A stage that succeeds had its part ready. *)
Lemma assemble_stage_ready_inv p osize ooffset img oc st' :
  assemble_stage H fs p osize ooffset (img, oc) = Ok st' ->
  match part_fname p img with
  | Some fname =>
      exists data, fs fname = Some data /\ u32 (Z.of_nat (length data)) <> 0
  | None =>
      oc && (mandatory p || negb (part_size H p img =? 0)) = true ->
      0 < osize
      /\ (Z.to_nat ooffset + Z.to_nat osize
          <= length (contents (stream img)))%nat
  end.
Proof.
  unfold assemble_stage.
  destruct (part_fname p img) as [fname|].
  - rewrite adopt_new_part_spec.
    destruct (fs fname) as [data|]; cbn [bind]; [|discriminate].
    cbv zeta.
    destruct (Z.eqb_spec (u32 (Z.of_nat (length data))) 0); cbn [bind];
      [discriminate|].
    intros _. exists data. split; [reflexivity|assumption].
  - destruct (oc && (mandatory p || negb (part_size H p img =? 0)));
      [|discriminate].
    rewrite keep_original_part_spec.
    destruct (Nat.ltb_spec 0 (Z.to_nat osize)); cbn [andb bind];
      [|discriminate].
    destruct (Nat.leb_spec (Z.to_nat ooffset + Z.to_nat osize)
                (length (contents (stream img)))); cbn [bind];
      [|discriminate].
    intros _ _. split; [lia|assumption].
Qed.

(** Five stages that succeed had every part ready. *)
Lemma stages_ready img img1 oc1 img2 oc2 img3 oc3 img4 oc4 img5 oc5 :
  length (header img) = sizeof_boot_img_hdr_v2 H ->
  assemble_stage H fs Kernel (part_size H Kernel img)
    (original_offset H Kernel img) (img, false) = Ok (img1, oc1) ->
  assemble_stage H fs Ramdisk (part_size H Ramdisk img)
    (original_offset H Ramdisk img) (img1, oc1) = Ok (img2, oc2) ->
  assemble_stage H fs Second (part_size H Second img)
    (original_offset H Second img) (img2, oc2) = Ok (img3, oc3) ->
  assemble_stage H fs Dtbo (part_size H Dtbo img)
    (original_offset H Dtbo img) (img3, oc3) = Ok (img4, oc4) ->
  assemble_stage H fs Dtb (part_size H Dtb img)
    (original_offset H Dtb img) (img4, oc4) = Ok (img5, oc5) ->
  forall p, part_ready H fs p img.
Proof.
  intros L0 S1 S2 S3 S4 S5.
  pose proof (assemble_stage_ready_inv _ _ _ _ _ _ S1) as R1.
  pose proof (assemble_stage_ready_inv _ _ _ _ _ _ S2) as R2.
  pose proof (assemble_stage_ready_inv _ _ _ _ _ _ S3) as R3.
  pose proof (assemble_stage_ready_inv _ _ _ _ _ _ S4) as R4.
  pose proof (assemble_stage_ready_inv _ _ _ _ _ _ S5) as R5.
  apply assemble_stage_ok in S1; [|exact Hok|exact L0]. cbn [fst snd] in S1.
  destruct S1 as ((F1 & C1 & Z1 & B1 & L1 & G1) & U1 & O1 & _).
  apply assemble_stage_ok in S2; [|exact Hok|congruence].
  cbn [fst snd] in S2.
  destruct S2 as ((F2 & C2 & Z2 & B2 & L2 & G2) & U2 & O2 & _).
  apply assemble_stage_ok in S3; [|exact Hok|congruence].
  cbn [fst snd] in S3.
  destruct S3 as ((F3 & C3 & Z3 & B3 & L3 & G3) & U3 & O3 & _).
  apply assemble_stage_ok in S4; [|exact Hok|congruence].
  cbn [fst snd] in S4.
  destruct S4 as ((F4 & C4 & Z4 & B4 & L4 & G4) & U4 & O4 & _).
  rewrite F1 in R2, O2. rewrite F2, F1 in R3, O3.
  rewrite F3, F2, F1 in R4, O4. rewrite F4, F3, F2, F1 in R5.
  intros p. unfold part_ready, reread, replaced_before.
  destruct p; cbn [parts_before existsb].
  - (* kernel *)
    destruct (part_fname Kernel img); [exact R1|].
    cbn [andb]. discriminate.
  - (* ramdisk *)
    destruct (U1 Ramdisk ltac:(discriminate)) as [_ s1].
    destruct (part_fname Ramdisk img); [exact R2|].
    rewrite s1, C1, O1 in R2. cbn [orb] in R2.
    rewrite orb_false_r. exact R2.
  - (* second stage *)
    destruct (U1 Second ltac:(discriminate)) as [_ s1].
    destruct (U2 Second ltac:(discriminate)) as [_ s2].
    destruct (part_fname Second img); [exact R3|].
    rewrite s2, s1, C2, C1, O2, O1 in R3. cbn [orb] in R3.
    rewrite orb_false_r. exact R3.
  - (* recovery dtbo *)
    destruct (U1 Dtbo ltac:(discriminate)) as [_ s1].
    destruct (U2 Dtbo ltac:(discriminate)) as [_ s2].
    destruct (U3 Dtbo ltac:(discriminate)) as [_ s3].
    destruct (part_fname Dtbo img); [exact R4|].
    rewrite s3, s2, s1, C3, C2, C1, O3, O2, O1 in R4. cbn [orb] in R4.
    rewrite orb_false_r, orb_assoc. exact R4.
  - (* dtb *)
    destruct (U1 Dtb ltac:(discriminate)) as [_ s1].
    destruct (U2 Dtb ltac:(discriminate)) as [_ s2].
    destruct (U3 Dtb ltac:(discriminate)) as [_ s3].
    destruct (U4 Dtb ltac:(discriminate)) as [_ s4].
    destruct (part_fname Dtb img); [exact R5|].
    rewrite s4, s3, s2, s1, C4, C3, C2, C1, O4, O3, O2, O1 in R5.
    cbn [orb] in R5.
    rewrite orb_false_r, !orb_assoc. exact R5.
Qed.

(** The total size after the five stages. *)
Lemma stages_total img img1 oc1 img2 oc2 img3 oc3 img4 oc4 img5 oc5 :
  length (header img) = sizeof_boot_img_hdr_v2 H ->
  assemble_stage H fs Kernel (part_size H Kernel img)
    (original_offset H Kernel img) (img, false) = Ok (img1, oc1) ->
  assemble_stage H fs Ramdisk (part_size H Ramdisk img)
    (original_offset H Ramdisk img) (img1, oc1) = Ok (img2, oc2) ->
  assemble_stage H fs Second (part_size H Second img)
    (original_offset H Second img) (img2, oc2) = Ok (img3, oc3) ->
  assemble_stage H fs Dtbo (part_size H Dtbo img)
    (original_offset H Dtbo img) (img3, oc3) = Ok (img4, oc4) ->
  assemble_stage H fs Dtb (part_size H Dtb img)
    (original_offset H Dtb img) (img4, oc4) = Ok (img5, oc5) ->
  image_total_size H img5 = assembled_total H fs img
  /\ size img5 = size img.
Proof.
  intros L0 S1 S2 S3 S4 S5.
  destruct (stages_assemble H Hok fs _ _ _ _ _ _ _ _ _ _ _ L0 S1 S2 S3 S4 S5)
    as ((_ & _ & Gs & _ & _ & Gp) & A).
  split; [|exact Gs].
  assert (Sz : forall p, part_size H p img5 = assembled_size H fs img p).
  { intros p. pose proof (A p) as Ap.
    unfold part_assembled in Ap. unfold assembled_size.
    destruct (part_fname p img) as [fname|].
    - destruct Ap as (data & Ed & Es & _). rewrite Ed. exact Es.
    - apply Ap. }
  unfold image_total_size, assembled_total.
  change (kernel_size H img5) with (part_size H Kernel img5).
  change (ramdisk_size H img5) with (part_size H Ramdisk img5).
  change (second_size H img5) with (part_size H Second img5).
  change (recovery_dtbo_size H img5) with (part_size H Dtbo img5).
  change (dtb_size H img5) with (part_size H Dtb img5).
  rewrite !Sz, Gp. reflexivity.
Qed.

(** X13: [update_images] succeeds exactly when the page size is not zero,
    every replacement file exists and is not empty, every part to read back
    has a size that is not zero and lies inside the image, and the container
    has no size yet or holds the total size of the new layout; the size of
    the container is then that total or the size it had. *)
Theorem update_images_succeeds_iff (img : t_abootimg) :
  length (header img) = sizeof_boot_img_hdr_v2 H ->
  ((exists img', update_images H fs img = Ok img')
   <-> page_size H img <> 0
       /\ (forall p, part_ready H fs p img)
       /\ (size img = 0 \/ assembled_total H fs img <= size img))
  /\ forall img',
       update_images H fs img = Ok img' ->
       size img'
       = if size img =? 0 then assembled_total H fs img else size img.
Proof.
  intros L0.
  assert (Fwd : forall img',
             update_images H fs img = Ok img' ->
             page_size H img <> 0
             /\ (forall p, part_ready H fs p img)
             /\ (size img = 0 \/ assembled_total H fs img <= size img)
             /\ size img'
                = if size img =? 0 then assembled_total H fs img
                  else size img).
  { intros img'. rewrite update_images_stages.
    destruct (Z.eqb_spec (page_size H img) 0) as [|Hp]; [discriminate|].
    destruct (assemble_stage H fs Kernel _ _ _) as [[img1 oc1]| |] eqn:S1;
      cbn [bind]; try discriminate.
    destruct (assemble_stage H fs Ramdisk _ _ _) as [[img2 oc2]| |] eqn:S2;
      cbn [bind]; try discriminate.
    destruct (assemble_stage H fs Second _ _ _) as [[img3 oc3]| |] eqn:S3;
      cbn [bind]; try discriminate.
    destruct (assemble_stage H fs Dtbo _ _ _) as [[img4 oc4]| |] eqn:S4;
      cbn [bind]; try discriminate.
    destruct (assemble_stage H fs Dtb _ _ _) as [[img5 oc5]| |] eqn:S5;
      cbn [bind]; try discriminate.
    cbn [fst]. intros Hfit.
    destruct (stages_total _ _ _ _ _ _ _ _ _ _ _ L0 S1 S2 S3 S4 S5)
      as [Et Es].
    split; [exact Hp|].
    split; [exact (stages_ready _ _ _ _ _ _ _ _ _ _ _ L0 S1 S2 S3 S4 S5)|].
    unfold fit_container in Hfit. rewrite Et, Es in Hfit.
    destruct (Z.eqb_spec (size img) 0) as [E0|N0].
    - injection Hfit as <-. split; [left; exact E0|reflexivity].
    - destruct (Z.gtb_spec (assembled_total H fs img) (size img));
        [discriminate Hfit|].
      injection Hfit as <-. split; [right; lia|exact Es]. }
  split; [split|].
  - intros [img' E]. destruct (Fwd img' E) as (Hp & Hr & Hs & _).
    auto.
  - intros (Hp & Hr & Hs).
    destruct (update_images_ready H Hok fs img L0 Hp Hr)
      as (img1 & oc1 & img2 & oc2 & img3 & oc3 & img4 & oc4 & img5 & oc5
          & S1 & S2 & S3 & S4 & S5 & E).
    destruct (stages_total _ _ _ _ _ _ _ _ _ _ _ L0 S1 S2 S3 S4 S5)
      as [Et Es].
    rewrite E. unfold fit_container. rewrite Et, Es.
    destruct (Z.eqb_spec (size img) 0) as [E0|N0]; [eexists; reflexivity|].
    destruct (Z.gtb_spec (assembled_total H fs img) (size img));
      [lia|eexists; reflexivity].
  - intros img' E. apply (Fwd img' E).
Qed.

End AssemblyConditions.

Lemma update_images_succeeds_iff_witness :
  (exists img',
      update_images aosp_bootimg_h example_fs (example_update 3) = Ok img')
  /\ assembled_total aosp_bootimg_h example_fs (example_update 3) = 24
  /\ ~ (forall p, part_ready aosp_bootimg_h example_fs p (example_update 0))
  /\ ~ (exists img',
           update_images aosp_bootimg_h example_fs (example_update 0)
           = Ok img').
Proof.
  pose proof (update_images_succeeds_iff aosp_bootimg_h eq_refl example_fs
                (example_update 3) eq_refl) as [W3 _].
  pose proof (update_images_succeeds_iff aosp_bootimg_h eq_refl example_fs
                (example_update 0) eq_refl) as [W0 _].
  assert (N0 : ~ (forall p,
                     part_ready aosp_bootimg_h example_fs p
                       (example_update 0))).
  { intros R. specialize (R Ramdisk).
    unfold part_ready in R. cbn [part_fname example_update ramdisk_fname] in R.
    destruct (R eq_refl) as [Hpos _]. vm_compute in Hpos. discriminate Hpos. }
  split; [|split; [|split]].
  - apply W3. split; [vm_compute; discriminate|]. split; [|left; reflexivity].
    intros p. unfold part_ready.
    destruct p; cbn [part_fname example_update kernel_fname ramdisk_fname
                     second_fname dtbo_fname dtb_fname].
    + exists (str "NEWKERNEL"). split; [reflexivity|vm_compute; discriminate].
    + intros _. split; [vm_compute; reflexivity|vm_compute; lia].
    + intros _. split; [vm_compute; reflexivity|vm_compute; lia].
    + intros Hr. vm_compute in Hr. discriminate Hr.
    + intros Hr. vm_compute in Hr. discriminate Hr.
  - vm_compute. reflexivity.
  - exact N0.
  - intros Ex. apply W0 in Ex. destruct Ex as (_ & R & _). exact (N0 R).
Defined.
(** ** The assembly of the specification (C5) *)

Section AssemblySpecified.

Variable H : bootimg_h.
Hypothesis Hok : bootimg_h_ok H = true.
Variable fs : string -> option (list byte).







End AssemblySpecified.


